(** * The TCP connection lifecycle and timer engine of lwip/src/core/tcp.c

    A shallow embedding of the PCB store, the safe iterator, the ephemeral
    port allocator, the lifecycle operations and the timers of tcp.c, over
    an explicit memory of protocol control blocks.

    - A PCB pointer is an address ([ptr]); the memory pools are a finite map
      from addresses to PCB records ([heap]); [NULL] is [None].
    - The four PCB lists are intrusive: a list is its head pointer, the
      links are the [next] fields in the heap.
    - C integers are [Z] with their wrap-around written out.
    - A function of tcp.c becomes a function on [tcp_globals] in the option
      monad.  [None] stands for an execution C gives no meaning to or that
      stops: a failed [LWIP_ASSERT], a dereference of a pointer that is not
      allocated, or a list walk that runs out of fuel (a cyclic list).
    - Calls that leave tcp.c (segment layer, pools, user callbacks) are
      recorded in [trace], newest first. *)

From stdpp Require Import base option list gmap.
From Stdlib Require Import ZArith Lia.

Local Open Scope Z_scope.

(** ** Machine integers *)

Definition u8 (x : Z) : Z := x mod 2 ^ 8.
Definition u16 (x : Z) : Z := x mod 2 ^ 16.
Definition u32 (x : Z) : Z := x mod 2 ^ 32.
(** Conversion to [s8_t] / [s16_t] (two's complement). *)
Definition s8 (x : Z) : Z := (x + 2 ^ 7) mod 2 ^ 8 - 2 ^ 7.
Definition s16 (x : Z) : Z := (x + 2 ^ 15) mod 2 ^ 16 - 2 ^ 15.

(** [x & m] as a C condition, [x |= m], [x &= ~m]. *)
Definition has_flag (x m : Z) : bool := negb (Z.land x m =? 0).
Definition set_flag (x m : Z) : Z := Z.lor x m.
Definition clear_flag (x m : Z) : Z := Z.land x (Z.lnot m).

(** ** Addresses, error codes, states *)

Definition ptr := positive.
Definition seg_ptr := positive.
Definition callback := positive.

(** [err_t] is [s8_t]; the codes are those of lwip/err.h, which is not part
    of the sources at hand: [ERR_OK] is zero, the errors are negative. *)
Definition err_t := Z.
Definition ERR_OK : err_t := 0.
Definition ERR_BUF : err_t := -2.
Definition ERR_RTE : err_t := -4.
Definition ERR_VAL : err_t := -6.
Definition ERR_USE : err_t := -8.
Definition ERR_CONN : err_t := -11.
Definition ERR_ABRT : err_t := -13.

(** [enum tcp_state], in the order of [tcp_state_str]. *)
Inductive tcp_state : Set :=
  | CLOSED | LISTEN | SYN_SENT | SYN_RCVD | ESTABLISHED | FIN_WAIT_1
  | FIN_WAIT_2 | CLOSE_WAIT | CLOSING | LAST_ACK | TIME_WAIT | LISTEN_CLOS.

#[global] Instance tcp_state_eq_dec : EqDecision tcp_state.
Proof. solve_decision. Defined.

Definition tcp_state_is_active (st : tcp_state) : bool :=
  match st with
  | SYN_SENT | SYN_RCVD | ESTABLISHED | FIN_WAIT_1 | FIN_WAIT_2
  | CLOSE_WAIT | CLOSING | LAST_ACK => true
  | _ => false
  end.

Definition tcp_pcb_is_listen_state (st : tcp_state) : bool :=
  match st with LISTEN | LISTEN_CLOS => true | _ => false end.

(** ** IP addresses

    lwip/ip_addr.h is not part of the sources at hand.  An address carries
    its version and its value; a [const ip_addr_t *] argument is an
    [option], the any-address has value zero, and a null pointer counts as
    the IPv4 any-address, as in lwIP. *)
Inductive ip_version : Set := IPv4 | IPv6.

#[global] Instance ip_version_eq_dec : EqDecision ip_version.
Proof. solve_decision. Defined.

Record ip_addr_t : Set := IpAddr { ip_type : ip_version; ip_val : Z }.

#[global] Instance ip_addr_eq_dec : EqDecision ip_addr_t.
Proof. solve_decision. Defined.

Definition IP_IS_V6_VAL (a : ip_addr_t) : bool := bool_decide (ip_type a = IPv6).
Definition IP_IS_V6 (a : option ip_addr_t) : bool :=
  match a with Some x => IP_IS_V6_VAL x | None => false end.
Definition ip_addr_isany_val (a : ip_addr_t) : bool := ip_val a =? 0.
Definition ip_addr_isany (a : option ip_addr_t) : bool :=
  match a with Some x => ip_addr_isany_val x | None => true end.
Definition ip_addr_cmp (a b : ip_addr_t) : bool := bool_decide (a = b).

(** ** Flag bits and tunables

    lwip/tcp.h, lwip/ip.h and lwip/opt.h are not part of the sources at
    hand.  The flag bits are distinct single bits; the values below are
    lwIP's where lwIP has the flag. *)
Definition TF_ACK_DELAY : Z := 0x01.
Definition TF_ACK_NOW : Z := 0x02.
Definition TF_NAGLEMEMERR : Z := 0x80.
Definition TF_NOUSER : Z := 0x100.
Definition TF_BACKLOGPEND : Z := 0x200.
Definition SOF_REUSEADDR : Z := 0x04.
Definition SOF_KEEPALIVE : Z := 0x08.

Definition TCP_LOCAL_PORT_RANGE_START : Z := 0xc000.
Definition TCP_LOCAL_PORT_RANGE_END : Z := 0xffff.
Definition TCP_ENSURE_LOCAL_PORT_RANGE (port : Z) : Z :=
  u16 (Z.land port (Z.lnot TCP_LOCAL_PORT_RANGE_START) + TCP_LOCAL_PORT_RANGE_START).

Definition tcp_backoff : list Z := [1; 2; 3; 4; 5; 6; 7; 7; 7; 7; 7; 7; 7].
Definition tcp_persist_backoff : list Z := [3; 6; 12; 24; 48; 96; 120].

Definition NUM_TCP_PCB_LISTS : nat := 4.
Definition NUM_TCP_PCB_LISTS_NO_TIME_WAIT : nat := 3.
Definition START_TCP_PCB_LISTS_CONNECTION : nat := 2.

(** ** The PCB

    One record for [struct tcp_pcb_base], [struct tcp_pcb] and
    [struct tcp_pcb_listen]: the common fields first, then the fields of a
    connection, then those of a listener; last the fields that only the
    allocation, the setters and [tcp_sndq_pop] write. *)
Record tcp_pcb : Type := Build_tcp_pcb {
  next : option ptr;
  state : tcp_state;
  prio : Z;
  so_options : Z;
  local_ip : ip_addr_t;
  remote_ip : ip_addr_t;
  local_port : Z;
  remote_port : Z;
  flags : Z;
  tmr : Z;
  last_timer : Z;
  rcv_nxt : Z;
  rcv_wnd : Z;
  rcv_ann_wnd : Z;
  rcv_ann_right_edge : Z;
  rtime : Z;
  mss : Z;
  rto : Z;
  sa : Z;
  sv : Z;
  nrtx : Z;
  cwnd : Z;
  ssthresh : Z;
  snd_nxt : Z;
  snd_wnd : Z;
  lastack : Z;
  snd_lbb : Z;
  sndq : option seg_ptr;
  sndq_last : option seg_ptr;
  sndq_next : option seg_ptr;
  persist_cnt : Z;
  persist_backoff : Z;
  keep_idle : Z;
  keep_intvl : Z;
  keep_cnt : Z;
  keep_cnt_sent : Z;
  listener : option ptr;
  errf : option callback;
  connected : option callback;
  backlog : Z;
  accepts_pending : Z;
  accept_any_ip_version : Z;
  initial_rcv_wnd : Z;
  ttl : Z;
  callback_arg : option ptr;
  snd_wl2 : Z;
  snd_buf : Z;
  snd_queuelen : Z;
  recv : option callback;
  sent : option callback;
  accept : option callback
}.

Definition eta_pcb (p : tcp_pcb) : tcp_pcb :=
  Build_tcp_pcb (next p) (state p) (prio p) (so_options p) (local_ip p) (remote_ip p)
    (local_port p) (remote_port p) (flags p) (tmr p) (last_timer p) (rcv_nxt p) (rcv_wnd p)
    (rcv_ann_wnd p) (rcv_ann_right_edge p) (rtime p) (mss p) (rto p) (sa p) (sv p) (nrtx p)
    (cwnd p) (ssthresh p) (snd_nxt p) (snd_wnd p) (lastack p) (snd_lbb p) (sndq p)
    (sndq_last p) (sndq_next p) (persist_cnt p) (persist_backoff p) (keep_idle p)
    (keep_intvl p) (keep_cnt p) (keep_cnt_sent p) (listener p) (errf p) (connected p)
    (backlog p) (accepts_pending p) (accept_any_ip_version p) (initial_rcv_wnd p)
    (ttl p) (callback_arg p) (snd_wl2 p) (snd_buf p) (snd_queuelen p) (recv p) (sent p)
    (accept p).

(** [field_setter eta f] builds the assignment [p->f = v]: the record [p]
    rebuilt field by field with [v] in the place of [f p]. *)
Ltac field_setter eta proj :=
  let v := fresh "v" in
  let p := fresh "p" in
  intros v p;
  let e := eval cbv beta delta [eta] in (eta p) in
  let e' := eval pattern (proj p) in e in
  match e' with ?g _ => let t := eval cbv beta in (g v) in exact t end.

Definition set_next : option ptr → tcp_pcb → tcp_pcb := ltac:(field_setter eta_pcb next).
Definition set_state : tcp_state → tcp_pcb → tcp_pcb := ltac:(field_setter eta_pcb state).
Definition set_local_ip : ip_addr_t → tcp_pcb → tcp_pcb := ltac:(field_setter eta_pcb local_ip).
Definition set_remote_ip : ip_addr_t → tcp_pcb → tcp_pcb := ltac:(field_setter eta_pcb remote_ip).
Definition set_local_port : Z → tcp_pcb → tcp_pcb := ltac:(field_setter eta_pcb local_port).
Definition set_remote_port : Z → tcp_pcb → tcp_pcb := ltac:(field_setter eta_pcb remote_port).
Definition set_flags : Z → tcp_pcb → tcp_pcb := ltac:(field_setter eta_pcb flags).
Definition set_last_timer : Z → tcp_pcb → tcp_pcb := ltac:(field_setter eta_pcb last_timer).
Definition set_rcv_nxt : Z → tcp_pcb → tcp_pcb := ltac:(field_setter eta_pcb rcv_nxt).
Definition set_rcv_wnd : Z → tcp_pcb → tcp_pcb := ltac:(field_setter eta_pcb rcv_wnd).
Definition set_rcv_ann_wnd : Z → tcp_pcb → tcp_pcb := ltac:(field_setter eta_pcb rcv_ann_wnd).
Definition set_rcv_ann_right_edge : Z → tcp_pcb → tcp_pcb :=
  ltac:(field_setter eta_pcb rcv_ann_right_edge).
Definition set_rtime : Z → tcp_pcb → tcp_pcb := ltac:(field_setter eta_pcb rtime).
Definition set_mss : Z → tcp_pcb → tcp_pcb := ltac:(field_setter eta_pcb mss).
Definition set_rto : Z → tcp_pcb → tcp_pcb := ltac:(field_setter eta_pcb rto).
Definition set_cwnd : Z → tcp_pcb → tcp_pcb := ltac:(field_setter eta_pcb cwnd).
Definition set_ssthresh : Z → tcp_pcb → tcp_pcb := ltac:(field_setter eta_pcb ssthresh).
Definition set_snd_nxt : Z → tcp_pcb → tcp_pcb := ltac:(field_setter eta_pcb snd_nxt).
Definition set_snd_wnd : Z → tcp_pcb → tcp_pcb := ltac:(field_setter eta_pcb snd_wnd).
Definition set_lastack : Z → tcp_pcb → tcp_pcb := ltac:(field_setter eta_pcb lastack).
Definition set_snd_lbb : Z → tcp_pcb → tcp_pcb := ltac:(field_setter eta_pcb snd_lbb).
Definition set_sndq : option seg_ptr → tcp_pcb → tcp_pcb := ltac:(field_setter eta_pcb sndq).
Definition set_sndq_last : option seg_ptr → tcp_pcb → tcp_pcb :=
  ltac:(field_setter eta_pcb sndq_last).
Definition set_sndq_next : option seg_ptr → tcp_pcb → tcp_pcb :=
  ltac:(field_setter eta_pcb sndq_next).
Definition set_persist_cnt : Z → tcp_pcb → tcp_pcb := ltac:(field_setter eta_pcb persist_cnt).
Definition set_persist_backoff : Z → tcp_pcb → tcp_pcb :=
  ltac:(field_setter eta_pcb persist_backoff).
Definition set_keep_cnt_sent : Z → tcp_pcb → tcp_pcb :=
  ltac:(field_setter eta_pcb keep_cnt_sent).
Definition set_listener : option ptr → tcp_pcb → tcp_pcb := ltac:(field_setter eta_pcb listener).
Definition set_connected : option callback → tcp_pcb → tcp_pcb :=
  ltac:(field_setter eta_pcb connected).
Definition set_backlog : Z → tcp_pcb → tcp_pcb := ltac:(field_setter eta_pcb backlog).
Definition set_accepts_pending : Z → tcp_pcb → tcp_pcb :=
  ltac:(field_setter eta_pcb accepts_pending).
Definition set_accept_any_ip_version : Z → tcp_pcb → tcp_pcb :=
  ltac:(field_setter eta_pcb accept_any_ip_version).
Definition set_initial_rcv_wnd : Z → tcp_pcb → tcp_pcb :=
  ltac:(field_setter eta_pcb initial_rcv_wnd).

(** [ip_get_option], [PCB_ISIPV6], [IP_PCB_IPVER_EQ] and
    [IP_ADDR_PCB_VERSION_MATCH] of lwip/ip.h: a PCB has the version of its
    local address. *)
Definition ip_get_option (pcb : tcp_pcb) (opt : Z) : bool := has_flag (so_options pcb) opt.
Definition PCB_ISIPV6 (pcb : tcp_pcb) : bool := IP_IS_V6_VAL (local_ip pcb).
Definition IP_PCB_IPVER_EQ (p1 p2 : tcp_pcb) : bool :=
  bool_decide (ip_type (local_ip p1) = ip_type (local_ip p2)).
Definition IP_ADDR_PCB_VERSION_MATCH (pcb : tcp_pcb) (ipaddr : option ip_addr_t) : bool :=
  Bool.eqb (PCB_ISIPV6 pcb) (IP_IS_V6 ipaddr).
Definition tcp_pcb_is_listen (pcb : tcp_pcb) : bool := tcp_pcb_is_listen_state (state pcb).

(** ** Calls that leave tcp.c *)
Inductive event : Type :=
  | EvOutput (pcb : ptr)
  | EvRst (seqno ackno : Z) (lip rip : ip_addr_t) (lport rport : Z)
  | EvEnqueueFlags (pcb : ptr) (fl : Z)
  | EvZeroWindowProbe (pcb : ptr)
  | EvRexmitRto (pcb : ptr)
  | EvKeepalive (pcb : ptr)
  | EvSegsFree (seg : option seg_ptr)
  | EvErrf (pcb : ptr) (cb : callback) (err : err_t)
  | EvTimerNeeded
  | EvMempFree (pcb : ptr).

#[global] Instance event_eq_dec : EqDecision event.
Proof. solve_decision. Defined.

(** ** The iterator and the globals of tcp.c *)
Record tcp_iter : Type := Build_tcp_iter {
  current : option ptr;
  prev : option ptr;
  next_is_current : bool
}.

Record tcp_globals : Type := Build_tcp_globals {
  heap : gmap ptr tcp_pcb;
  tcp_bound_pcbs : option ptr;
  tcp_listen_pcbs : option ptr;
  tcp_active_pcbs : option ptr;
  tcp_tw_pcbs : option ptr;
  tcp_conn_iter : tcp_iter;
  tcp_port : Z;
  tcp_ticks : Z;
  tcp_timer : Z;
  tcp_timer_ctr : Z;
  tcp_input_pcb : option ptr;
  iss : Z;
  trace : list event
}.

Definition eta_globals (s : tcp_globals) : tcp_globals :=
  Build_tcp_globals (heap s) (tcp_bound_pcbs s) (tcp_listen_pcbs s) (tcp_active_pcbs s)
    (tcp_tw_pcbs s) (tcp_conn_iter s) (tcp_port s) (tcp_ticks s) (tcp_timer s)
    (tcp_timer_ctr s) (tcp_input_pcb s) (iss s) (trace s).

Definition set_heap : gmap ptr tcp_pcb → tcp_globals → tcp_globals :=
  ltac:(field_setter eta_globals heap).
Definition set_tcp_bound_pcbs : option ptr → tcp_globals → tcp_globals :=
  ltac:(field_setter eta_globals tcp_bound_pcbs).
Definition set_tcp_listen_pcbs : option ptr → tcp_globals → tcp_globals :=
  ltac:(field_setter eta_globals tcp_listen_pcbs).
Definition set_tcp_active_pcbs : option ptr → tcp_globals → tcp_globals :=
  ltac:(field_setter eta_globals tcp_active_pcbs).
Definition set_tcp_tw_pcbs : option ptr → tcp_globals → tcp_globals :=
  ltac:(field_setter eta_globals tcp_tw_pcbs).
Definition set_tcp_conn_iter : tcp_iter → tcp_globals → tcp_globals :=
  ltac:(field_setter eta_globals tcp_conn_iter).
Definition set_tcp_port : Z → tcp_globals → tcp_globals :=
  ltac:(field_setter eta_globals tcp_port).
Definition set_tcp_ticks : Z → tcp_globals → tcp_globals :=
  ltac:(field_setter eta_globals tcp_ticks).
Definition set_tcp_timer : Z → tcp_globals → tcp_globals :=
  ltac:(field_setter eta_globals tcp_timer).
Definition set_tcp_timer_ctr : Z → tcp_globals → tcp_globals :=
  ltac:(field_setter eta_globals tcp_timer_ctr).
Definition set_tcp_input_pcb : option ptr → tcp_globals → tcp_globals :=
  ltac:(field_setter eta_globals tcp_input_pcb).
Definition set_iss : Z → tcp_globals → tcp_globals := ltac:(field_setter eta_globals iss).
Definition set_trace : list event → tcp_globals → tcp_globals :=
  ltac:(field_setter eta_globals trace).

(** The four lists, as [tcp_pcb_lists] indexes them. *)
Inductive pcb_list : Set := ListenList | BoundList | ActiveList | TwList.

#[global] Instance pcb_list_eq_dec : EqDecision pcb_list.
Proof. solve_decision. Defined.

Definition tcp_pcb_lists : list pcb_list := [ListenList; BoundList; ActiveList; TwList].

Definition list_head (l : pcb_list) (s : tcp_globals) : option ptr :=
  match l with
  | ListenList => tcp_listen_pcbs s
  | BoundList => tcp_bound_pcbs s
  | ActiveList => tcp_active_pcbs s
  | TwList => tcp_tw_pcbs s
  end.

Definition set_list_head (l : pcb_list) (v : option ptr) (s : tcp_globals) : tcp_globals :=
  match l with
  | ListenList => set_tcp_listen_pcbs v s
  | BoundList => set_tcp_bound_pcbs v s
  | ActiveList => set_tcp_active_pcbs v s
  | TwList => set_tcp_tw_pcbs v s
  end.

(** ** Memory access *)

(** [*pcb] *)
Definition deref (s : tcp_globals) (p : ptr) : option tcp_pcb := heap s !! p.

(** [*pcb = f( *pcb )]: an assignment to fields of an allocated PCB. *)
Definition update (p : ptr) (f : tcp_pcb → tcp_pcb) (s : tcp_globals) : option tcp_globals :=
  pcb ← deref s p; Some (set_heap (<[p := f pcb]> (heap s)) s).

Definition emit (e : event) (s : tcp_globals) : tcp_globals := set_trace (e :: trace s) s.

(** [LWIP_ASSERT(msg, b)] *)
Definition LWIP_ASSERT (b : bool) : option unit := if b then Some tt else None.

(** ** The collaborators and the configuration

    What tcp.c takes from the rest of the stack.  The tunables come from
    lwip/opt.h and lwip/tcp_impl.h.  A function of the segment layer works
    on the PCB it is handed: it is a transformer of that PCB's record,
    together with the error code it returns; the call itself is recorded in
    the trace by the caller's model.  The route lookup
    [ip_route_get_local_ip] yields the [netif] and the local address. *)
Record tcp_env : Type := Build_tcp_env {
  TCP_WND : Z;
  TCP_MSS : Z;
  TCP_SYNMAXRTX : Z;
  TCP_MAXRTX : Z;
  TCP_MSL : Z;
  TCP_FIN_WAIT_TIMEOUT : Z;
  TCP_SYN_RCVD_TIMEOUT : Z;
  TCP_SLOW_INTERVAL : Z;
  TCP_PRIO_MAX : Z;
  LWIP_WND_SCALE : bool;
  tcp_output : tcp_pcb → tcp_pcb;
  tcp_enqueue_flags : tcp_pcb → Z → err_t * tcp_pcb;
  tcp_zero_window_probe : tcp_pcb → err_t * tcp_pcb;
  tcp_rexmit_rto : tcp_pcb → tcp_pcb;
  tcp_keepalive : tcp_pcb → err_t * tcp_pcb;
  tcp_eff_send_mss : Z → ip_addr_t → ip_addr_t → bool → Z;
  ip_route_get_local_ip : bool → ip_addr_t → ip_addr_t → option positive * option ip_addr_t
}.

Definition TCP_SYN : Z := 0x02.
Definition INITIAL_MSS (E : tcp_env) : Z := if 536 <? TCP_MSS E then 536 else TCP_MSS E.
Definition LWIP_MIN (x y : Z) : Z := if x <? y then x else y.
Definition TCPWND_MIN16 (x : Z) : Z := u16 (LWIP_MIN x 0xFFFF).
Definition tcpwnd_size_t (E : tcp_env) (x : Z) : Z := if LWIP_WND_SCALE E then u32 x else u16 x.

(** ** Registering and removing: [tcp_reg], [tcp_rmv] *)

Definition tcp_reg (pcbs : pcb_list) (npcb : ptr) (s : tcp_globals) : option tcp_globals :=
  s ← update npcb (set_next (list_head pcbs s)) s;
  let s := set_list_head pcbs (Some npcb) s in
  Some (emit EvTimerNeeded s).

(** The [for] loop of [tcp_rmv]: find the PCB whose [next] is [npcb]. *)
Fixpoint tcp_rmv_loop (fuel : nat) (tcp_tmp_pcb : option ptr) (npcb : ptr)
    (s : tcp_globals) : option tcp_globals :=
  match tcp_tmp_pcb with
  | None => Some s
  | Some t =>
    match fuel with
    | O => None
    | S fuel =>
      tp ← deref s t;
      if bool_decide (next tp = Some npcb) then
        np ← deref s npcb;
        update t (set_next (next np)) s
      else tcp_rmv_loop fuel (next tp) npcb s
    end
  end.

Definition tcp_rmv (fuel : nat) (pcbs : pcb_list) (npcb : ptr)
    (s : tcp_globals) : option tcp_globals :=
  s ← (if bool_decide (list_head pcbs s = Some npcb) then
         hp ← deref s npcb;
         Some (set_list_head pcbs (next hp) s)
       else tcp_rmv_loop fuel (list_head pcbs s) npcb s);
  update npcb (set_next None) s.

(** ** The safe iterator *)

Definition tcp_iter_start (pcblist : option ptr) : tcp_iter :=
  {| current := pcblist; prev := None; next_is_current := true |}.

Definition tcp_iter_next (h : gmap ptr tcp_pcb) (it : tcp_iter)
    : option (option ptr * tcp_iter) :=
  if next_is_current it then
    Some (current it, {| current := current it; prev := prev it; next_is_current := false |})
  else
    c ← current it;                      (* LWIP_ASSERT: current != NULL *)
    cp ← h !! c;
    Some (next cp, {| current := next cp; prev := Some c; next_is_current := false |}).

(** The search of [tcp_iter_will_remove] for the predecessor of [pcb];
    running off the list fails the assertion "prev not found". *)
Fixpoint will_remove_loop (fuel : nat) (h : gmap ptr tcp_pcb) (ipcb : option ptr) (pcb : ptr)
    (prev_prev : option ptr) : option (option ptr) :=
  match ipcb with
  | None => None
  | Some i =>
    if bool_decide (i = pcb) then Some prev_prev
    else
      match fuel with
      | O => None
      | S fuel => ip ← h !! i; will_remove_loop fuel h (next ip) pcb (Some i)
      end
  end.

Definition tcp_iter_will_remove (fuel : nat) (h : gmap ptr tcp_pcb) (it : tcp_iter)
    (pcb : ptr) (pcblist : option ptr) : option tcp_iter :=
  _ ← LWIP_ASSERT (bool_decide (pcblist ≠ None));
  match current it with
  | Some c =>
    if bool_decide (pcb = c) then
      cp ← h !! c;
      Some {| current := next cp; prev := prev it; next_is_current := true |}
    else if bool_decide (Some pcb = prev it) then
      pp ← h !! pcb;
      _ ← LWIP_ASSERT (bool_decide (next pp = current it));
      prev_prev ← will_remove_loop fuel h pcblist pcb None;
      Some {| current := current it; prev := prev_prev;
              next_is_current := next_is_current it |}
    else Some it
  | None => Some it
  end.

Definition tcp_iter_will_prepend (it : tcp_iter) (pcb : ptr) (pcblist : option ptr)
    : option tcp_iter :=
  if bool_decide (pcblist ≠ None) && bool_decide (pcblist = current it) then
    _ ← LWIP_ASSERT (bool_decide (prev it = None));
    Some {| current := current it; prev := Some pcb; next_is_current := next_is_current it |}
  else Some it.

(** The two hooks on the one iterator of the module, [tcp_conn_iter]. *)
Definition iter_will_remove (fuel : nat) (pcb : ptr) (pcbs : pcb_list)
    (s : tcp_globals) : option tcp_globals :=
  it ← tcp_iter_will_remove fuel (heap s) (tcp_conn_iter s) pcb (list_head pcbs s);
  Some (set_tcp_conn_iter it s).

Definition iter_will_prepend (pcb : ptr) (pcbs : pcb_list)
    (s : tcp_globals) : option tcp_globals :=
  it ← tcp_iter_will_prepend (tcp_conn_iter s) pcb (list_head pcbs s);
  Some (set_tcp_conn_iter it s).

(** ** Backlog accounting *)

Definition tcp_backlog_delayed_internal (pcb : ptr) (s : tcp_globals) : option tcp_globals :=
  p ← deref s pcb;
  match listener p with
  | Some l =>
    if negb (has_flag (flags p) TF_BACKLOGPEND) then
      s ← update l (λ lp, set_accepts_pending (u8 (accepts_pending lp + 1)) lp) s;
      lp ← deref s l;
      _ ← LWIP_ASSERT (negb (accepts_pending lp =? 0));
      update pcb (λ p, set_flags (set_flag (flags p) TF_BACKLOGPEND) p) s
    else Some s
  | None => Some s
  end.

Definition tcp_backlog_accepted_internal (pcb : ptr) (s : tcp_globals) : option tcp_globals :=
  p ← deref s pcb;
  match listener p with
  | Some l =>
    if has_flag (flags p) TF_BACKLOGPEND then
      lp ← deref s l;
      _ ← LWIP_ASSERT (negb (accepts_pending lp =? 0));
      s ← update l (λ lp, set_accepts_pending (u8 (accepts_pending lp - 1)) lp) s;
      update pcb (λ p, set_flags (clear_flag (flags p) TF_BACKLOGPEND) p) s
    else Some s
  | None => Some s
  end.

Definition tcp_backlog_delayed (pcb : ptr) (s : tcp_globals) : option tcp_globals :=
  p ← deref s pcb;
  _ ← LWIP_ASSERT (negb (has_flag (flags p) TF_NOUSER));
  tcp_backlog_delayed_internal pcb s.

Definition tcp_backlog_accepted (pcb : ptr) (s : tcp_globals) : option tcp_globals :=
  p ← deref s pcb;
  _ ← LWIP_ASSERT (negb (has_flag (flags p) TF_NOUSER));
  tcp_backlog_accepted_internal pcb s.

(** ** Purge, error report, free, TIME_WAIT *)

Definition tcp_pcb_purge (pcb : ptr) (s : tcp_globals) : option tcp_globals :=
  p ← deref s pcb;
  _ ← LWIP_ASSERT (tcp_state_is_active (state p));
  s ← tcp_backlog_accepted_internal pcb s;
  (* Stop the retransmission timer. *)
  s ← update pcb (set_rtime (-1)) s;
  p ← deref s pcb;
  let s := emit (EvSegsFree (sndq p)) s in
  s ← update pcb (set_sndq None) s;
  s ← update pcb (set_sndq_last None) s;
  update pcb (set_sndq_next None) s.

Definition tcp_report_err (pcb : ptr) (err : err_t) (s : tcp_globals) : option tcp_globals :=
  p ← deref s pcb;
  if negb (has_flag (flags p) TF_NOUSER) then
    s ← update pcb (λ p, set_flags (set_flag (flags p) TF_NOUSER) p) s;
    p ← deref s pcb;
    match errf p with
    | Some cb => Some (emit (EvErrf pcb cb err) s)
    | None => Some s
    end
  else Some s.

(** [tcp_output(pcb)]: the call and what the segment layer does to the PCB. *)
Definition call_tcp_output (E : tcp_env) (pcb : ptr) (s : tcp_globals) : option tcp_globals :=
  s ← update pcb (tcp_output E) s;
  Some (emit (EvOutput pcb) s).

Definition memp_free (pcb : ptr) (s : tcp_globals) : tcp_globals :=
  emit (EvMempFree pcb) (set_heap (delete pcb (heap s)) s).

Section Lifecycle.
Variable E : tcp_env.

Definition tcp_pcb_free (fuel : nat) (pcb : ptr) (send_rst : bool) (prev : option ptr)
    (s : tcp_globals) : option tcp_globals :=
  p ← deref s pcb;
  _ ← LWIP_ASSERT (negb (tcp_pcb_is_listen p));
  let s := if bool_decide (tcp_input_pcb s = Some pcb) then set_tcp_input_pcb None s else s in
  s ← (if bool_decide (state p = CLOSED) then
         if negb (local_port p =? 0) then tcp_rmv fuel BoundList pcb s else Some s
       else if tcp_state_is_active (state p) then
         s ← (if has_flag (flags p) TF_ACK_DELAY then
                s ← update pcb (λ p, set_flags (set_flag (flags p) TF_ACK_NOW) p) s;
                call_tcp_output E pcb s
              else Some s);
         p ← deref s pcb;
         let s := if send_rst
                  then emit (EvRst (snd_nxt p) (rcv_nxt p) (local_ip p) (remote_ip p)
                                   (local_port p) (remote_port p)) s
                  else s in
         s ← iter_will_remove fuel pcb ActiveList s;
         s ← match prev with
             | Some pr =>
               (* optimization if the caller knows the previous PCB *)
               prp ← deref s pr;
               _ ← LWIP_ASSERT (bool_decide (next prp = Some pcb));
               p ← deref s pcb;
               update pr (set_next (next p)) s
             | None => tcp_rmv fuel ActiveList pcb s
             end;
         tcp_pcb_purge pcb s
       else if bool_decide (state p = TIME_WAIT) then
         s ← iter_will_remove fuel pcb TwList s;
         tcp_rmv fuel TwList pcb s
       else Some s);
  p ← deref s pcb;
  _ ← LWIP_ASSERT (bool_decide (sndq p = None));
  Some (memp_free pcb s).

Definition tcp_move_to_time_wait (fuel : nat) (pcb : ptr) (s : tcp_globals)
    : option tcp_globals :=
  p ← deref s pcb;
  _ ← LWIP_ASSERT (tcp_state_is_active (state p));
  s ← iter_will_remove fuel pcb ActiveList s;
  s ← tcp_rmv fuel ActiveList pcb s;
  s ← tcp_pcb_purge pcb s;
  s ← update pcb (set_state TIME_WAIT) s;
  s ← iter_will_prepend pcb TwList s;
  tcp_reg TwList pcb s.

End Lifecycle.

(** ** The ephemeral port allocator: [tcp_init], [tcp_new_port] *)

(** [tcp_init]; [rand] is [LWIP_RAND()] when the initial port is randomized. *)
Definition tcp_init (rand : option Z) (s : tcp_globals) : tcp_globals :=
  match rand with
  | Some r => set_tcp_port (TCP_ENSURE_LOCAL_PORT_RANGE r) s
  | None => s
  end.

(** One list of the scan "Check all PCB lists": is [port] the local port of
    a PCB from [pcb] on? *)
Fixpoint port_on_list (fuel : nat) (h : gmap ptr tcp_pcb) (pcb : option ptr) (port : Z)
    : option bool :=
  match pcb with
  | None => Some false
  | Some p =>
    match fuel with
    | O => None
    | S fuel =>
      pp ← h !! p;
      if local_port pp =? port then Some true else port_on_list fuel h (next pp) port
    end
  end.

Fixpoint port_on_lists (fuel : nat) (s : tcp_globals) (lists : list pcb_list) (port : Z)
    : option bool :=
  match lists with
  | [] => Some false
  | l :: lists =>
    b ← port_on_list fuel (heap s) (list_head l s) port;
    if b : bool then Some true else port_on_lists fuel s lists port
  end.

(** The label [again]: [retries] bounds the number of passes, [n] is the
    counter of the source. *)
Fixpoint tcp_new_port_again (retries fuel : nat) (n : Z) (s : tcp_globals)
    : option (Z * tcp_globals) :=
  match retries with
  | O => None
  | S retries =>
    let s := if tcp_port s =? TCP_LOCAL_PORT_RANGE_END
             then set_tcp_port TCP_LOCAL_PORT_RANGE_START s
             else set_tcp_port (u16 (tcp_port s + 1)) s in
    used ← port_on_lists fuel s tcp_pcb_lists (tcp_port s);
    if used : bool then
      let n := u16 (n + 1) in
      if n >? TCP_LOCAL_PORT_RANGE_END - TCP_LOCAL_PORT_RANGE_START then Some (0, s)
      else tcp_new_port_again retries fuel n s
    else Some (tcp_port s, s)
  end.

(** [n] stops the loop after [END - START + 1] = 16384 collisions: that
    many passes are enough fuel. *)
Definition tcp_new_port (fuel : nat) (s : tcp_globals) : option (Z * tcp_globals) :=
  tcp_new_port_again fuel fuel 0 s.

(** ** [tcp_bind] *)

(** The inner loop of "Check if the address already is in use". *)
Fixpoint bind_in_use (fuel : nat) (h : gmap ptr tcp_pcb) (cpcb : option ptr) (pcb : tcp_pcb)
    (ipaddr : option ip_addr_t) (port : Z) : option bool :=
  match cpcb with
  | None => Some false
  | Some c =>
    match fuel with
    | O => None
    | S fuel =>
      cp ← h !! c;
      if (local_port cp =? port)
         && (negb (ip_get_option pcb SOF_REUSEADDR) || negb (ip_get_option cp SOF_REUSEADDR))
         && IP_PCB_IPVER_EQ pcb cp
         && (ip_addr_isany_val (local_ip cp) || ip_addr_isany ipaddr
             || match ipaddr with Some a => ip_addr_cmp (local_ip cp) a | None => false end)
      then Some true
      else bind_in_use fuel h (next cp) pcb ipaddr port
    end
  end.

Fixpoint bind_in_use_lists (fuel : nat) (s : tcp_globals) (lists : list pcb_list)
    (pcb : tcp_pcb) (ipaddr : option ip_addr_t) (port : Z) : option bool :=
  match lists with
  | [] => Some false
  | l :: lists =>
    b ← bind_in_use fuel (heap s) (list_head l s) pcb ipaddr port;
    if b : bool then Some true else bind_in_use_lists fuel s lists pcb ipaddr port
  end.

Definition tcp_bind (fuel : nat) (pcb : ptr) (ipaddr : option ip_addr_t) (port : Z)
    (s : tcp_globals) : option (err_t * tcp_globals) :=
  p ← deref s pcb;
  _ ← LWIP_ASSERT (bool_decide (state p = CLOSED) || bool_decide (state p = LISTEN_CLOS));
  if negb (IP_ADDR_PCB_VERSION_MATCH p ipaddr) then Some (ERR_VAL, s)
  else
    let max_pcb_list :=
      if ip_get_option p SOF_REUSEADDR then NUM_TCP_PCB_LISTS_NO_TIME_WAIT
      else NUM_TCP_PCB_LISTS in
    r ← (if port =? 0 then
           '(port, s) ← tcp_new_port fuel s;
           if port =? 0 then Some (inl ERR_BUF, s) else Some (inr port, s)
         else
           used ← bind_in_use_lists fuel s (take max_pcb_list tcp_pcb_lists) p ipaddr port;
           if used : bool then Some (inl ERR_USE, s) else Some (inr port, s));
    match r with
    | (inl err, s) => Some (err, s)
    | (inr port, s) =>
      s ← (match ipaddr with
           | Some a => if negb (ip_addr_isany_val a) then update pcb (set_local_ip a) s
                       else Some s
           | None => Some s
           end);
      s ← update pcb (set_local_port port) s;
      s ← tcp_reg BoundList pcb s;
      Some (ERR_OK, s)
    end.

(** ** Listening *)

Definition tcp_backlog_set (lpcb : ptr) (new_backlog : Z) (s : tcp_globals)
    : option tcp_globals :=
  lp ← deref s lpcb;
  _ ← LWIP_ASSERT (bool_decide (state lp = LISTEN));
  update lpcb (set_backlog (if new_backlog =? 0 then 1 else new_backlog)) s.

(** The loop over [tcp_listen_pcbs] under [SOF_REUSEADDR]. *)
Fixpoint listen_in_use (fuel : nat) (h : gmap ptr tcp_pcb) (other_lpcb : option ptr)
    (lpcb : tcp_pcb) : option bool :=
  match other_lpcb with
  | None => Some false
  | Some o =>
    match fuel with
    | O => None
    | S fuel =>
      op ← h !! o;
      if IP_PCB_IPVER_EQ op lpcb && (local_port op =? local_port lpcb)
         && ip_addr_cmp (local_ip op) (local_ip lpcb)
      then Some true
      else listen_in_use fuel h (next op) lpcb
    end
  end.

Section Listen.
Variable E : tcp_env.

Definition tcp_listen_with_backlog (fuel : nat) (lpcb : ptr) (backlog : Z)
    (s : tcp_globals) : option (err_t * tcp_globals) :=
  lp ← deref s lpcb;
  _ ← LWIP_ASSERT (bool_decide (state lp = LISTEN_CLOS));
  used ← (if ip_get_option lp SOF_REUSEADDR
          then listen_in_use fuel (heap s) (tcp_listen_pcbs s) lp
          else Some false);
  if used : bool then Some (ERR_USE, s)
  else
    s ← update lpcb (set_state LISTEN) s;
    s ← update lpcb (set_accept_any_ip_version 0) s;
    s ← (if negb (local_port lp =? 0) then tcp_rmv fuel BoundList lpcb s else Some s);
    s ← update lpcb (set_accepts_pending 0) s;
    s ← tcp_backlog_set lpcb backlog s;
    s ← update lpcb (set_initial_rcv_wnd (TCPWND_MIN16 (TCP_WND E))) s;
    s ← tcp_reg ListenList lpcb s;
    Some (ERR_OK, s).

(** "Check that there's noone listening on this port already". *)
Fixpoint listen_dual_port_used (fuel : nat) (h : gmap ptr tcp_pcb) (l : option ptr)
    (port : Z) : option bool :=
  match l with
  | None => Some false
  | Some a =>
    match fuel with
    | O => None
    | S fuel =>
      lp ← h !! a;
      if local_port lp =? port then Some true
      else listen_dual_port_used fuel h (next lp) port
    end
  end.

(** [tcp_listen_dual_with_backlog] returns [err_t]; its two [return]
    statements return the pointers [NULL] and [lpcb], converted. *)
Definition ptr_to_err_t (p : option ptr) : err_t :=
  match p with None => 0 | Some a => s8 (Z.pos a) end.

Definition tcp_listen_dual_with_backlog (fuel : nat) (lpcb : ptr) (backlog : Z)
    (s : tcp_globals) : option (err_t * tcp_globals) :=
  lp ← deref s lpcb;
  used ← (if negb (local_port lp =? 0)
          then listen_dual_port_used fuel (heap s) (tcp_listen_pcbs s) (local_port lp)
          else Some false);
  if used : bool then
    (* this port is already used *)
    Some (ptr_to_err_t None, s)
  else
    '(err, s) ← tcp_listen_with_backlog fuel lpcb backlog s;
    lp ← deref s lpcb;
    s ← (if (err =? ERR_OK) && ip_addr_isany_val (local_ip lp)
         then update lpcb (set_accept_any_ip_version 1) s
         else Some s);
    Some (ptr_to_err_t (Some lpcb), s).

End Listen.

(** "Remove reference to listener from any connection PCBs": one list. *)
Fixpoint clear_listener (fuel : nat) (pcb : option ptr) (lpcb : ptr) (s : tcp_globals)
    : option tcp_globals :=
  match pcb with
  | None => Some s
  | Some a =>
    match fuel with
    | O => None
    | S fuel =>
      p ← deref s a;
      s ← (if bool_decide (listener p = Some lpcb) then update a (set_listener None) s
           else Some s);
      clear_listener fuel (next p) lpcb s
    end
  end.

Definition tcp_close_listen (fuel : nat) (lpcb : ptr) (s : tcp_globals)
    : option tcp_globals :=
  lp ← deref s lpcb;
  _ ← LWIP_ASSERT (tcp_pcb_is_listen lp);
  s ← (if bool_decide (state lp = LISTEN) then
         s ← clear_listener fuel (tcp_active_pcbs s) lpcb s;
         s ← clear_listener fuel (tcp_tw_pcbs s) lpcb s;
         tcp_rmv fuel ListenList lpcb s
       else if negb (local_port lp =? 0) then tcp_rmv fuel BoundList lpcb s
       else Some s);
  Some (memp_free lpcb s).

(** ** [tcp_next_iss], [tcp_connect] *)

Definition tcp_next_iss (s : tcp_globals) : Z * tcp_globals :=
  let s := set_iss (u32 (iss s + tcp_ticks s)) s in
  (iss s, s).

(** The 5-tuple check of [tcp_connect] under [SOF_REUSEADDR]: one list. *)
Fixpoint connect_in_use (fuel : nat) (h : gmap ptr tcp_pcb) (cpcb : option ptr)
    (pcb : tcp_pcb) (ipaddr : ip_addr_t) (port : Z) : option bool :=
  match cpcb with
  | None => Some false
  | Some c =>
    match fuel with
    | O => None
    | S fuel =>
      cp ← h !! c;
      if (local_port cp =? local_port pcb) && (remote_port cp =? port)
         && IP_PCB_IPVER_EQ cp pcb
         && ip_addr_cmp (local_ip cp) (local_ip pcb)
         && ip_addr_cmp (remote_ip cp) ipaddr
      then Some true
      else connect_in_use fuel h (next cp) pcb ipaddr port
    end
  end.

Section Connect.
Variable E : tcp_env.

(** The sequence, window and MSS initialisation between the port and the
    SYN. *)
Definition connect_init (iss : Z) (connected : option callback) (p : tcp_pcb) : tcp_pcb :=
  let p := set_rcv_nxt 0 p in
  let p := set_snd_nxt iss p in
  let p := set_lastack (u32 (iss - 1)) p in
  let p := set_snd_lbb (u32 (iss - 1)) p in
  let p := set_rcv_ann_wnd (TCPWND_MIN16 (TCP_WND E)) p in
  let p := set_rcv_wnd (rcv_ann_wnd p) p in
  let p := set_rcv_ann_right_edge (rcv_nxt p) p in
  let p := set_snd_wnd (TCP_WND E) p in
  let p := set_mss (INITIAL_MSS E) p in
  let p := set_mss (tcp_eff_send_mss E (mss p) (local_ip p) (remote_ip p) (PCB_ISIPV6 p)) p in
  let p := set_cwnd 1 p in
  let p := set_ssthresh (TCP_WND E) p in
  set_connected connected p.

Definition tcp_connect (fuel : nat) (pcb : ptr) (ipaddr : option ip_addr_t) (port : Z)
    (connected : option callback) (s : tcp_globals) : option (err_t * tcp_globals) :=
  p ← deref s pcb;
  _ ← LWIP_ASSERT (bool_decide (state p = CLOSED));
  if negb (IP_ADDR_PCB_VERSION_MATCH p ipaddr) then Some (ERR_VAL, s)
  else
    match ipaddr with
    | None => Some (ERR_VAL, s)
    | Some a =>
      s ← update pcb (set_remote_ip a) s;
      s ← update pcb (set_remote_port port) s;
      p ← deref s pcb;
      (* check if we have a route to the remote host *)
      r ← (if ip_addr_isany_val (local_ip p) then
             match ip_route_get_local_ip E (PCB_ISIPV6 p) (local_ip p) (remote_ip p) with
             | (Some _, Some lip) => s ← update pcb (set_local_ip lip) s; Some (inr s)
             | _ => Some (inl (ERR_RTE, s))
             end
           else Some (inr s));
      match r with
      | inl res => Some res
      | inr s =>
        p ← deref s pcb;
        let old_local_port := local_port p in
        r ← (if local_port p =? 0 then
               '(np, s) ← tcp_new_port fuel s;
               s ← update pcb (set_local_port np) s;
               if np =? 0 then Some (inl (ERR_BUF, s)) else Some (inr s)
             else if ip_get_option p SOF_REUSEADDR then
               u1 ← connect_in_use fuel (heap s) (tcp_active_pcbs s) p a port;
               u2 ← (if u1 : bool then Some true
                     else connect_in_use fuel (heap s) (tcp_tw_pcbs s) p a port);
               if u2 : bool then Some (inl (ERR_USE, s)) else Some (inr s)
             else Some (inr s));
        match r with
        | inl res => Some res
        | inr s =>
          let '(iss, s) := tcp_next_iss s in
          s ← update pcb (connect_init iss connected) s;
          (* Send a SYN together with the MSS option. *)
          p ← deref s pcb;
          let '(ret, p) := tcp_enqueue_flags E p TCP_SYN in
          s ← update pcb (λ _, p) s;
          let s := emit (EvEnqueueFlags pcb TCP_SYN) s in
          if ret =? ERR_OK then
            s ← update pcb (set_state SYN_SENT) s;
            s ← (if negb (old_local_port =? 0) then tcp_rmv fuel BoundList pcb s
                 else Some s);
            s ← iter_will_prepend pcb ActiveList s;
            s ← tcp_reg ActiveList pcb s;
            s ← call_tcp_output E pcb s;
            Some (ret, s)
          else Some (ret, s)
        end
      end
    end.

End Connect.

(** ** The timers *)

Section Timers.
Variable E : tcp_env.

(** [tcp_backoff[i]], [tcp_persist_backoff[i]].  The core keeps the index
    inside the table ([nrtx] stops at [TCP_MAXRTX], [persist_backoff]
    saturates at the table size); outside it C gives no value and the model
    reads 0. *)
Definition table_get (t : list Z) (i : Z) : Z := nth (Z.to_nat i) t 0.

(** [TCP_KEEP_DUR], [TCP_KEEP_INTVL] with [LWIP_TCP_KEEPALIVE]. *)
Definition TCP_KEEP_DUR (p : tcp_pcb) : Z := u32 (keep_cnt p * keep_intvl p).
Definition TCP_KEEP_INTVL (p : tcp_pcb) : Z := keep_intvl p.

(** The persist and retransmission part of the loop body of [tcp_slowtmr],
    on the record of the PCB at address [pcb]; the calls are returned,
    newest first. *)
Definition slowtmr_rexmit (pcb : ptr) (p : tcp_pcb) : tcp_pcb * list event :=
  if persist_backoff p >? 0 then
    (* If snd_wnd is zero, use persist timer to send 1 byte probes *)
    let backoff_cnt := table_get tcp_persist_backoff (persist_backoff p - 1) in
    let p := if persist_cnt p <? backoff_cnt
             then set_persist_cnt (u8 (persist_cnt p + 1)) p else p in
    if persist_cnt p >=? backoff_cnt then
      let '(err, p) := tcp_zero_window_probe E p in
      let p := if err =? ERR_OK then
                 let p := set_persist_cnt 0 p in
                 if persist_backoff p <? Z.of_nat (length tcp_persist_backoff)
                 then set_persist_backoff (u8 (persist_backoff p + 1)) p else p
               else p in
      (p, [EvZeroWindowProbe pcb])
    else (p, [])
  else
    (* Increase the retransmission timer if it is running *)
    let p := if rtime p >=? 0 then set_rtime (s16 (rtime p + 1)) p else p in
    if bool_decide (sndq p ≠ None) && (rtime p >=? rto p) then
      (* Time for a retransmission. *)
      let p := if bool_decide (state p ≠ SYN_SENT)
               then set_rto (s16 (Z.shiftl (Z.shiftr (sa p) 3 + sv p)
                                           (table_get tcp_backoff (nrtx p)))) p
               else p in
      let p := set_rtime 0 p in
      (* Reduce congestion window and ssthresh. *)
      let eff_wnd := LWIP_MIN (cwnd p) (snd_wnd p) in
      let p := set_ssthresh (Z.shiftr eff_wnd 1) p in
      let p := if ssthresh p <? tcpwnd_size_t E (Z.shiftl (mss p) 1)
               then set_ssthresh (tcpwnd_size_t E (Z.shiftl (mss p) 1)) p else p in
      let p := set_cwnd (mss p) p in
      (tcp_rexmit_rto E p, [EvRexmitRto pcb])
    else (p, []).

(** The loop body of the active scan up to "If the PCB should be removed":
    the new record, [pcb_remove], [pcb_reset] and the calls made. *)
Definition slowtmr_active_pcb (ticks : Z) (pcb : ptr) (p : tcp_pcb)
    : tcp_pcb * Z * Z * list event :=
  let pcb_remove := 0 in
  let pcb_reset := 0 in
  let '(p, pcb_remove, ev1) :=
    if bool_decide (state p = SYN_SENT) && (nrtx p =? TCP_SYNMAXRTX E) then
      (p, pcb_remove + 1, [])
    else if nrtx p =? TCP_MAXRTX E then (p, pcb_remove + 1, [])
    else let '(p, ev) := slowtmr_rexmit pcb p in (p, pcb_remove, ev) in
  (* Check if this PCB has stayed too long in FIN-WAIT-2 *)
  let pcb_remove :=
    if bool_decide (state p = FIN_WAIT_2) && has_flag (flags p) TF_NOUSER
       && (u32 (ticks - tmr p) >? TCP_FIN_WAIT_TIMEOUT E / TCP_SLOW_INTERVAL E)
    then pcb_remove + 1 else pcb_remove in
  (* Check if KEEPALIVE should be sent *)
  let '(p, pcb_remove, pcb_reset, ev2) :=
    if ip_get_option p SOF_KEEPALIVE
       && (bool_decide (state p = ESTABLISHED) || bool_decide (state p = CLOSE_WAIT)) then
      if u32 (ticks - tmr p) >? u32 (keep_idle p + TCP_KEEP_DUR p) / TCP_SLOW_INTERVAL E
      then (p, pcb_remove + 1, pcb_reset + 1, [])
      else if u32 (ticks - tmr p)
              >? u32 (keep_idle p + keep_cnt_sent p * TCP_KEEP_INTVL p) / TCP_SLOW_INTERVAL E
      then
        let '(err, p) := tcp_keepalive E p in
        let p := if err =? ERR_OK then set_keep_cnt_sent (u8 (keep_cnt_sent p + 1)) p
                 else p in
        (p, pcb_remove, pcb_reset, [EvKeepalive pcb])
      else (p, pcb_remove, pcb_reset, [])
    else (p, pcb_remove, pcb_reset, []) in
  (* Check if this PCB has stayed too long in SYN-RCVD *)
  let pcb_remove :=
    if bool_decide (state p = SYN_RCVD)
       && (u32 (ticks - tmr p) >? TCP_SYN_RCVD_TIMEOUT E / TCP_SLOW_INTERVAL E)
    then pcb_remove + 1 else pcb_remove in
  (* Check if this PCB has stayed too long in LAST-ACK *)
  let pcb_remove :=
    if bool_decide (state p = LAST_ACK)
       && (u32 (ticks - tmr p) >? 2 * TCP_MSL E / TCP_SLOW_INTERVAL E)
    then pcb_remove + 1 else pcb_remove in
  (p, pcb_remove, pcb_reset, ev2 ++ ev1).

(** "Steps through all of the active PCBs": the [while] loop on the
    iterator; [n] bounds its passes. *)
Fixpoint slowtmr_active_loop (n fuel : nat) (s : tcp_globals) : option tcp_globals :=
  match n with
  | O => None
  | S n =>
    '(pcb, it) ← tcp_iter_next (heap s) (tcp_conn_iter s);
    let s := set_tcp_conn_iter it s in
    match pcb with
    | None => Some s
    | Some pcb =>
      p ← deref s pcb;
      _ ← LWIP_ASSERT (tcp_state_is_active (state p));
      if last_timer p =? tcp_timer_ctr s then
        (* skip this pcb, we have already processed it *)
        slowtmr_active_loop n fuel s
      else
        s ← update pcb (set_last_timer (tcp_timer_ctr s)) s;
        p ← deref s pcb;
        let '(p, pcb_remove, pcb_reset, ev) := slowtmr_active_pcb (tcp_ticks s) pcb p in
        s ← update pcb (λ _, p) s;
        let s := set_trace (ev ++ trace s) s in
        s ← (if negb (pcb_remove =? 0) then
               (* If the PCB should be removed, do it. *)
               s ← update pcb (λ p, set_flags (clear_flag (flags p) TF_ACK_DELAY) p) s;
               s ← tcp_report_err pcb ERR_ABRT s;
               tcp_pcb_free E fuel pcb (negb (pcb_reset =? 0)) (prev (tcp_conn_iter s)) s
             else
               (* Try to output. *)
               call_tcp_output E pcb s);
        slowtmr_active_loop n fuel s
    end
  end.

(** "Steps through all of the TIME-WAIT PCBs". *)
Fixpoint slowtmr_tw_loop (n fuel : nat) (s : tcp_globals) : option tcp_globals :=
  match n with
  | O => None
  | S n =>
    '(pcb, it) ← tcp_iter_next (heap s) (tcp_conn_iter s);
    let s := set_tcp_conn_iter it s in
    match pcb with
    | None => Some s
    | Some pcb =>
      p ← deref s pcb;
      _ ← LWIP_ASSERT (bool_decide (state p = TIME_WAIT));
      let pcb_remove :=
        (* Check if this PCB has stayed long enough in TIME-WAIT *)
        if u32 (tcp_ticks s - tmr p) >? 2 * TCP_MSL E / TCP_SLOW_INTERVAL E
        then 0 + 1 else 0 in
      s ← (if negb (pcb_remove =? 0)
           then tcp_pcb_free E fuel pcb false (prev (tcp_conn_iter s)) s
           else Some s);
      slowtmr_tw_loop n fuel s
    end
  end.

Definition tcp_slowtmr (fuel : nat) (s : tcp_globals) : option tcp_globals :=
  let s := set_tcp_ticks (u32 (tcp_ticks s + 1)) s in
  let s := set_tcp_timer_ctr (u8 (tcp_timer_ctr s + 1)) s in
  let s := set_tcp_conn_iter (tcp_iter_start (tcp_active_pcbs s)) s in
  s ← slowtmr_active_loop fuel fuel s;
  let s := set_tcp_conn_iter (tcp_iter_start (tcp_tw_pcbs s)) s in
  slowtmr_tw_loop fuel fuel s.

(** The [for] loop of [tcp_fasttmr]. *)
Fixpoint fasttmr_loop (fuel : nat) (pcb : option ptr) (s : tcp_globals)
    : option tcp_globals :=
  match pcb with
  | None => Some s
  | Some a =>
    match fuel with
    | O => None
    | S fuel =>
      p ← deref s a;
      _ ← LWIP_ASSERT (tcp_state_is_active (state p));
      s ← (if negb (last_timer p =? tcp_timer_ctr s) then
             s ← update a (set_last_timer (tcp_timer_ctr s)) s;
             (* send delayed ACKs *)
             if has_flag (flags p) TF_ACK_DELAY then
               s ← update a (λ p, set_flags (set_flag (flags p) TF_ACK_NOW) p) s;
               s ← call_tcp_output E a s;
               update a (λ p, set_flags
                                (clear_flag (flags p) (Z.lor TF_ACK_DELAY TF_ACK_NOW)) p) s
             else Some s
           else Some s);
      p ← deref s a;
      fasttmr_loop fuel (next p) s
    end
  end.

Definition tcp_fasttmr (fuel : nat) (s : tcp_globals) : option tcp_globals :=
  let s := set_tcp_timer_ctr (u8 (tcp_timer_ctr s + 1)) s in
  fasttmr_loop fuel (tcp_active_pcbs s) s.

Definition tcp_tmr (fuel : nat) (s : tcp_globals) : option tcp_globals :=
  (* Call tcp_fasttmr() every 250 ms *)
  s ← tcp_fasttmr fuel s;
  let s := set_tcp_timer (u8 (tcp_timer s + 1)) s in
  if has_flag (tcp_timer s) 1 then tcp_slowtmr fuel s else Some s.

(** ** [tcp_kill_prio] *)

(** The scan of [tcp_kill_prio] with its three loop variables. *)
Fixpoint kill_prio_scan (fuel : nat) (s : tcp_globals) (pcb : option ptr)
    (inactivity : Z) (inactive : option ptr) (mprio : Z) : option (option ptr) :=
  match pcb with
  | None => Some inactive
  | Some a =>
    match fuel with
    | O => None
    | S fuel =>
      p ← deref s a;
      _ ← LWIP_ASSERT (tcp_state_is_active (state p));
      if (prio p <=? mprio) && (u32 (tcp_ticks s - tmr p) >=? inactivity) then
        kill_prio_scan fuel s (next p) (u32 (tcp_ticks s - tmr p)) (Some a) (prio p)
      else kill_prio_scan fuel s (next p) inactivity inactive mprio
    end
  end.

Definition tcp_kill_prio (fuel : nat) (prio : Z) (s : tcp_globals) : option tcp_globals :=
  let mprio := LWIP_MIN (TCP_PRIO_MAX E) prio in
  (* We kill the oldest active connection that has lower priority than prio. *)
  inactive ← kill_prio_scan fuel s (tcp_active_pcbs s) 0 None mprio;
  match inactive with
  | Some a =>
    s ← tcp_report_err a ERR_ABRT s;
    tcp_pcb_free E fuel a true None s
  | None => Some s
  end.

End Timers.

(** ** Concrete configurations and states

    A configuration with lwIP's default tunables and a simple segment
    layer, an empty module state and a zeroed PCB, for the scenarios. *)
Definition set_prio : Z → tcp_pcb → tcp_pcb := ltac:(field_setter eta_pcb prio).
Definition set_tmr : Z → tcp_pcb → tcp_pcb := ltac:(field_setter eta_pcb tmr).
Definition set_so_options : Z → tcp_pcb → tcp_pcb := ltac:(field_setter eta_pcb so_options).

Definition IP_ADDR_ANY : ip_addr_t := IpAddr IPv4 0.

(** A segment layer: [tcp_output] sends the pending ACK and clears the ACK
    flags; the SYN is enqueued on segment 1; probes and keepalives go out. *)
Definition tcp_output0 (p : tcp_pcb) : tcp_pcb :=
  set_flags (clear_flag (flags p) (Z.lor TF_ACK_DELAY TF_ACK_NOW)) p.
Definition tcp_enqueue_flags0 (p : tcp_pcb) (fl : Z) : err_t * tcp_pcb :=
  (ERR_OK, set_sndq_next (Some 1%positive)
             (set_sndq_last (Some 1%positive) (set_sndq (Some 1%positive) p))).

Definition E0 : tcp_env :=
  {| TCP_WND := 2144; TCP_MSS := 536; TCP_SYNMAXRTX := 6; TCP_MAXRTX := 12;
     TCP_MSL := 60000; TCP_FIN_WAIT_TIMEOUT := 20000; TCP_SYN_RCVD_TIMEOUT := 20000;
     TCP_SLOW_INTERVAL := 500; TCP_PRIO_MAX := 127; LWIP_WND_SCALE := false;
     tcp_output := tcp_output0;
     tcp_enqueue_flags := tcp_enqueue_flags0;
     tcp_zero_window_probe := λ p, (ERR_OK, p);
     tcp_rexmit_rto := λ p, p;
     tcp_keepalive := λ p, (ERR_OK, p);
     tcp_eff_send_mss := λ m _ _ _, m;
     ip_route_get_local_ip := λ _ _ _, (None, None) |}.

(** The same with a route: interface 1, local address 10.0.0.2. *)
Definition E1 : tcp_env :=
  {| TCP_WND := 2144; TCP_MSS := 536; TCP_SYNMAXRTX := 6; TCP_MAXRTX := 12;
     TCP_MSL := 60000; TCP_FIN_WAIT_TIMEOUT := 20000; TCP_SYN_RCVD_TIMEOUT := 20000;
     TCP_SLOW_INTERVAL := 500; TCP_PRIO_MAX := 127; LWIP_WND_SCALE := false;
     tcp_output := tcp_output0;
     tcp_enqueue_flags := tcp_enqueue_flags0;
     tcp_zero_window_probe := λ p, (ERR_OK, p);
     tcp_rexmit_rto := λ p, p;
     tcp_keepalive := λ p, (ERR_OK, p);
     tcp_eff_send_mss := λ m _ _ _, m;
     ip_route_get_local_ip := λ _ _ _, (Some 1%positive, Some (IpAddr IPv4 0x0a000002)) |}.

Definition TCP_PRIO_NORMAL : Z := 64.

(** A PCB as [memset] leaves it, with the retransmission timer off. *)
Definition pcb0 : tcp_pcb :=
  {| next := None; state := CLOSED; prio := TCP_PRIO_NORMAL; so_options := 0;
     local_ip := IP_ADDR_ANY; remote_ip := IP_ADDR_ANY; local_port := 0; remote_port := 0;
     flags := 0; tmr := 0; last_timer := 0; rcv_nxt := 0; rcv_wnd := 0; rcv_ann_wnd := 0;
     rcv_ann_right_edge := 0; rtime := -1; mss := 536; rto := 6; sa := 0; sv := 6; nrtx := 0;
     cwnd := 1; ssthresh := 0; snd_nxt := 0; snd_wnd := 0; lastack := 0; snd_lbb := 0;
     sndq := None; sndq_last := None; sndq_next := None; persist_cnt := 0;
     persist_backoff := 0; keep_idle := 7200000; keep_intvl := 75000; keep_cnt := 9;
     keep_cnt_sent := 0; listener := None; errf := None; connected := None; backlog := 0;
     accepts_pending := 0; accept_any_ip_version := 0; initial_rcv_wnd := 0;
     ttl := 0; callback_arg := None; snd_wl2 := 0; snd_buf := 0; snd_queuelen := 0;
     recv := None; sent := None; accept := None |}.

(** The module before any call. *)
Definition globals0 : tcp_globals :=
  {| heap := ∅; tcp_bound_pcbs := None; tcp_listen_pcbs := None; tcp_active_pcbs := None;
     tcp_tw_pcbs := None; tcp_conn_iter := Build_tcp_iter None None false;
     tcp_port := TCP_LOCAL_PORT_RANGE_START; tcp_ticks := 0; tcp_timer := 0;
     tcp_timer_ctr := 0; tcp_input_pcb := None; iss := 6510; trace := [] |}.

(** An established connection with priority [pr], last active at tick [t],
    linked to [nx]. *)
Definition conn (pr t : Z) (nx : option ptr) : tcp_pcb :=
  set_next nx (set_state ESTABLISHED (set_prio pr (set_tmr t pcb0))).

(** Two connections on the active list at tick 100: PCB 1 with priority 5,
    idle for 100 ticks, then PCB 2 with priority 3, idle for 10 ticks. *)
Definition kill_prio_state : tcp_globals :=
  set_tcp_ticks 100
    (set_tcp_active_pcbs (Some 1%positive)
      (set_heap (<[1%positive := conn 5 0 (Some 2%positive)]>
                 (<[2%positive := conn 3 90 None]> ∅)) globals0)).

(** A listener on 10.0.0.1:80 and a listen PCB bound to 10.0.0.2:80. *)
Definition listen_dual_state : tcp_globals :=
  set_tcp_listen_pcbs (Some 1%positive)
    (set_tcp_bound_pcbs (Some 2%positive)
      (set_heap
         (<[1%positive := set_local_port 80 (set_local_ip (IpAddr IPv4 0x0a000001)
                            (set_state LISTEN pcb0))]>
          (<[2%positive := set_local_port 80 (set_local_ip (IpAddr IPv4 0x0a000002)
                            (set_state LISTEN_CLOS pcb0))]> ∅)) globals0)).

(** A listener (PCB 1) with one pending connection (PCB 2, established,
    [TF_BACKLOGPEND] set, still referring to its listener). *)
Definition backlog_state : tcp_globals :=
  set_tcp_listen_pcbs (Some 1%positive)
    (set_tcp_active_pcbs (Some 2%positive)
      (set_heap
         (<[1%positive := set_accepts_pending 1 (set_backlog 4 (set_local_port 80
                            (set_state LISTEN pcb0)))]>
          (<[2%positive := set_listener (Some 1%positive) (set_flags TF_BACKLOGPEND
                            (conn TCP_PRIO_NORMAL 0 None))]> ∅)) globals0)).

(** The same listener with nothing pending and a connection that is not
    counted. *)
Definition backlog_fresh_state : tcp_globals :=
  set_tcp_listen_pcbs (Some 1%positive)
    (set_tcp_active_pcbs (Some 2%positive)
      (set_heap
         (<[1%positive := set_backlog 4 (set_local_port 80 (set_state LISTEN pcb0))]>
          (<[2%positive := set_listener (Some 1%positive)
                             (conn TCP_PRIO_NORMAL 0 None)]> ∅)) globals0)).

(** The allocator's cursor at the start of the range, port 49153 taken by
    the bound PCB 1, and a fresh PCB 2 on no list. *)
Definition bind_state : tcp_globals :=
  set_tcp_bound_pcbs (Some 1%positive)
    (set_heap (<[1%positive := set_local_port 49153 pcb0]> (<[2%positive := pcb0]> ∅))
       globals0).

Definition bind_state_lists (l : pcb_list) : list ptr :=
  match l with BoundList => [1%positive] | _ => [] end.

(** Three connections on the active list, 1 -> 2 -> 3, and a scan that
    stands at PCB 2. *)
Definition iter_state : tcp_globals :=
  set_tcp_conn_iter {| current := Some 2%positive; prev := Some 1%positive;
                       next_is_current := false |}
    (set_tcp_active_pcbs (Some 1%positive)
      (set_heap (<[1%positive := conn TCP_PRIO_NORMAL 0 (Some 2%positive)]>
                 (<[2%positive := conn TCP_PRIO_NORMAL 0 (Some 3%positive)]>
                  (<[3%positive := conn TCP_PRIO_NORMAL 0 None]> ∅))) globals0)).

(** A scan of the active list 1 -> 2: start, two calls of [next] (the scan
    stands at PCB 2, the last one), then PCB 2 is announced and unlinked. *)
Definition scan_start_state : tcp_globals :=
  set_tcp_conn_iter (tcp_iter_start (Some 1%positive))
    (set_tcp_active_pcbs (Some 1%positive)
      (set_heap (<[1%positive := conn TCP_PRIO_NORMAL 0 (Some 2%positive)]>
                 (<[2%positive := conn TCP_PRIO_NORMAL 0 None]> ∅)) globals0)).

Definition scan_run : option tcp_globals :=
  let s := scan_start_state in
  '(_, it) ← tcp_iter_next (heap s) (tcp_conn_iter s);
  let s := set_tcp_conn_iter it s in
  '(_, it) ← tcp_iter_next (heap s) (tcp_conn_iter s);
  let s := set_tcp_conn_iter it s in
  s ← iter_will_remove 2 2%positive ActiveList s;
  tcp_rmv 2 ActiveList 2%positive s.

(** The state [scan_run] ends in: the scan is not over ([next] has not yet
    returned [NULL]), [current] is [NULL], [prev] is PCB 1, the head. *)
Definition scan_end_state : tcp_globals :=
  set_tcp_conn_iter {| current := None; prev := Some 1%positive; next_is_current := true |}
    (set_tcp_active_pcbs (Some 1%positive)
      (set_heap (<[1%positive := conn TCP_PRIO_NORMAL 0 None]>
                 (<[2%positive := conn TCP_PRIO_NORMAL 0 None]> ∅)) globals0)).

(** One connection on the active list with a delayed ACK pending. *)
Definition ack_state : tcp_globals :=
  set_tcp_active_pcbs (Some 1%positive)
    (set_heap (<[1%positive := set_flags TF_ACK_DELAY (conn TCP_PRIO_NORMAL 0 None)]> ∅)
       globals0).

(** [links_kept s s']: from [s] to [s'] the list heads, the iterator and
    every [next] field are unchanged; the lists are what they were. *)
Definition links_kept (s s' : tcp_globals) : Prop :=
  (∀ l, list_head l s' = list_head l s)
  ∧ tcp_conn_iter s' = tcp_conn_iter s
  ∧ ∀ q, next <$> deref s' q = next <$> deref s q.

(** The route lookup of a configuration fails for a PCB. *)
Definition no_route (E : tcp_env) (p : tcp_pcb) (remote : ip_addr_t) : Prop :=
  let r := ip_route_get_local_ip E (PCB_ISIPV6 p) (local_ip p) remote in
  r.1 = None ∨ r.2 = None.

(** PCB 1, bound to the wildcard address and port 8080, on the bound
    list. *)
Definition connect_bound_state : tcp_globals :=
  set_tcp_bound_pcbs (Some 1%positive)
    (set_heap (<[1%positive := set_local_port 8080 pcb0]> ∅) globals0).

(** ** What a pass of [tcp_fasttmr] does to one PCB

    The record of a PCB after the body of the loop of [tcp_fasttmr] at
    timer count [ctr], and whether the body calls [tcp_output]. *)
Definition fasttmr_pcb (E : tcp_env) (ctr : Z) (p : tcp_pcb) : tcp_pcb :=
  if negb (last_timer p =? ctr) then
    let p := set_last_timer ctr p in
    if has_flag (flags p) TF_ACK_DELAY then
      let p := set_flags (set_flag (flags p) TF_ACK_NOW) p in
      let p := tcp_output E p in
      set_flags (clear_flag (flags p) (Z.lor TF_ACK_DELAY TF_ACK_NOW)) p
    else p
  else p.

Definition fasttmr_sends (ctr : Z) (p : tcp_pcb) : bool :=
  negb (last_timer p =? ctr) && has_flag (flags p) TF_ACK_DELAY.

(** ** Well-formed lists

    [lseg h p l q]: following [next] from [p] visits exactly the addresses
    [l], all allocated, and arrives at [q].  [chain h p l]: the list that
    starts at [p] is [l] and ends in [NULL]. *)
Fixpoint lseg (h : gmap ptr tcp_pcb) (p : option ptr) (l : list ptr) (q : option ptr)
    : Prop :=
  match l with
  | [] => p = q
  | a :: l =>
    p = Some a ∧ match h !! a with Some pcb => lseg h (next pcb) l q | None => False end
  end.

Definition chain (h : gmap ptr tcp_pcb) (p : option ptr) (l : list ptr) : Prop :=
  lseg h p l None.

(** The lists of the module are [ls ListenList], ..., [ls TwList]. *)
Definition lists_are (s : tcp_globals) (ls : pcb_list → list ptr) : Prop :=
  ∀ l, chain (heap s) (list_head l s) (ls l).

(** Some PCB on the lists [ls] has local port [port]. *)
Definition port_on (h : gmap ptr tcp_pcb) (l : list ptr) (port : Z) : Prop :=
  ∃ a pcb, a ∈ l ∧ h !! a = Some pcb ∧ local_port pcb = port.

Definition port_held (s : tcp_globals) (ls : pcb_list → list ptr) (port : Z) : Prop :=
  ∃ l, port_on (heap s) (ls l) port.

(** The port [k] steps after the cursor [c] of the allocator. *)
Definition port_after (c k : Z) : Z :=
  TCP_LOCAL_PORT_RANGE_START + (c - TCP_LOCAL_PORT_RANGE_START + k) mod 16384.

(** The PCB at [a] is on the list that starts at [p]. *)
Definition pcb_on_list (h : gmap ptr tcp_pcb) (p : option ptr) (a : ptr) : Prop :=
  ∃ l, chain h p l ∧ a ∈ l.

(** [links_kept], the state of the PCB at [pcb] is unchanged and no other
    PCB has changed. *)
Definition kept (pcb : ptr) (s s' : tcp_globals) : Prop :=
  links_kept s s'
  ∧ state <$> deref s' pcb = state <$> deref s pcb
  ∧ ∀ q, q ≠ pcb → deref s' q = deref s q.

(** The statements of [tcp_connect] before the SYN on the path that
    reaches it: the state in which [tcp_enqueue_flags] is called. *)
Definition connect_syn_state (E : tcp_env) (fuel : nat) (pcb : ptr) (a : ip_addr_t)
    (port : Z) (connected : option callback) (s : tcp_globals) : option tcp_globals :=
  s ← update pcb (set_remote_ip a) s;
  s ← update pcb (set_remote_port port) s;
  p ← deref s pcb;
  s ← (if ip_addr_isany_val (local_ip p) then
         match ip_route_get_local_ip E (PCB_ISIPV6 p) (local_ip p) (remote_ip p) with
         | (Some _, Some lip) => update pcb (set_local_ip lip) s
         | _ => None
         end
       else Some s);
  p ← deref s pcb;
  s ← (if local_port p =? 0 then
         '(np, s) ← tcp_new_port fuel s;
         update pcb (set_local_port np) s
       else Some s);
  let '(iss, s) := tcp_next_iss s in
  update pcb (connect_init E iss connected) s.

(** [tcp_connect] enqueues the SYN of the PCB at [pcb] with [ERR_OK]: [q]
    is the record of that PCB in [connect_syn_state], the state in which
    [tcp_enqueue_flags] is called, which has the lists, the iterator and
    the other PCBs of [s]; it carries the remote address, the port and the
    callback of the call, and [tcp_enqueue_flags] returns [ERR_OK] on
    it. *)
Definition syn_enqueued (E : tcp_env) (fuel : nat) (pcb : ptr) (a : ip_addr_t) (port : Z)
    (cb : option callback) (s : tcp_globals) (q : tcp_pcb) : Prop :=
  (∃ sq, connect_syn_state E fuel pcb a port cb s = Some sq
         ∧ kept pcb s sq ∧ deref sq pcb = Some q)
  ∧ remote_ip q = a ∧ remote_port q = port ∧ connected q = cb
  ∧ (tcp_enqueue_flags E q TCP_SYN).1 = ERR_OK.

(** ** TIME_WAIT PCBs and their queues

    The send queue and the retransmission timer of a PCB. *)
Definition tw_queue (p : tcp_pcb) : option seg_ptr * option seg_ptr * option seg_ptr * Z :=
  (sndq p, sndq_last p, sndq_next p, rtime p).

(** No segments, timer stopped. *)
Definition queue_empty (p : tcp_pcb) : Prop := tw_queue p = (None, None, None, -1).

(** Every PCB in TIME_WAIT has an empty queue. *)
Definition tw_clean (s : tcp_globals) : Prop :=
  ∀ a p, deref s a = Some p → state p = TIME_WAIT → queue_empty p.

(** From [s] to [s'] no queue of a TIME_WAIT PCB has changed, and a PCB
    that is in TIME_WAIT only after the step has an empty queue. *)
Definition tw_quiet (s s' : tcp_globals) : Prop :=
  ∀ a p', deref s' a = Some p' → state p' = TIME_WAIT →
    queue_empty p'
    ∨ ∃ p, deref s a = Some p ∧ state p = TIME_WAIT ∧ tw_queue p' = tw_queue p.

(** The functions of the segment layer leave the field [f] of the PCB they
    work on as it is. *)
Definition seg_layer_keeps {A} (f : tcp_pcb → A) (E : tcp_env) : Prop :=
  (∀ p, f (tcp_output E p) = f p)
  ∧ (∀ p fl, f (tcp_enqueue_flags E p fl).2 = f p)
  ∧ (∀ p, f (tcp_zero_window_probe E p).2 = f p)
  ∧ (∀ p, f (tcp_rexmit_rto E p) = f p)
  ∧ (∀ p, f (tcp_keepalive E p).2 = f p).

(** [f] is none of the fields that the loop body of [tcp_slowtmr] assigns. *)
Definition timer_field {A} (f : tcp_pcb → A) : Prop :=
  (∀ v p, f (set_persist_cnt v p) = f p)
  ∧ (∀ v p, f (set_persist_backoff v p) = f p)
  ∧ (∀ v p, f (set_rtime v p) = f p)
  ∧ (∀ v p, f (set_rto v p) = f p)
  ∧ (∀ v p, f (set_ssthresh v p) = f p)
  ∧ (∀ v p, f (set_cwnd v p) = f p)
  ∧ (∀ v p, f (set_keep_cnt_sent v p) = f p).

(** The listener whose backlog counts the PCB. *)
Definition backlog_held (p : tcp_pcb) : option ptr :=
  if has_flag (flags p) TF_BACKLOGPEND then listener p else None.

(** The record of a PCB after [tcp_pcb_purge]. *)
Definition purged (p : tcp_pcb) : tcp_pcb :=
  let p := match backlog_held p with
           | Some _ => set_flags (clear_flag (flags p) TF_BACKLOGPEND) p
           | None => p
           end in
  set_sndq_next None (set_sndq_last None (set_sndq None (set_rtime (-1) p))).

(** The heap after the listener of [p], if [p] holds a slot of its backlog,
    has taken the slot back. *)
Definition released (p : tcp_pcb) (h : gmap ptr tcp_pcb) : gmap ptr tcp_pcb :=
  match backlog_held p with
  | Some l =>
    match h !! l with
    | Some lp => <[l := set_accepts_pending (accepts_pending lp - 1) lp]> h
    | None => h
    end
  | None => h
  end.

(** The listener of [backlog_fresh_state] is closed while its connection
    is counted in the backlog. *)
Definition orphan_run : option tcp_globals :=
  s ← tcp_backlog_delayed 2%positive backlog_fresh_state;
  tcp_close_listen 2 1%positive s.

(** ** The connection lists under the timers

    [pending_count h l la]: the number of PCBs on [la] that the backlog of
    the listener at [l] counts. *)
Definition pending_on (h : gmap ptr tcp_pcb) (l a : ptr) : bool :=
  match h !! a with
  | Some p => bool_decide (backlog_held p = Some l)
  | None => false
  end.

Fixpoint pending_count (h : gmap ptr tcp_pcb) (l : ptr) (la : list ptr) : Z :=
  match la with
  | [] => 0
  | a :: la => (if pending_on h l a then 1 else 0) + pending_count h l la
  end.

(** The active list is [la], all in active states; the tw list is [lt], all
    in TIME_WAIT with no segments; a connection that is counted in a
    backlog refers to a listener in LISTEN whose [accepts_pending] covers
    the connections counted. *)
Definition lists_ok (h : gmap ptr tcp_pcb) (active tw : option ptr) (la lt : list ptr)
    : Prop :=
  chain h active la
  ∧ chain h tw lt
  ∧ (∀ a p, a ∈ la → h !! a = Some p → tcp_state_is_active (state p) = true)
  ∧ (∀ a p, a ∈ lt → h !! a = Some p → state p = TIME_WAIT ∧ sndq p = None)
  ∧ (∀ a p l, a ∈ la → h !! a = Some p → backlog_held p = Some l →
       ∃ lp, h !! l = Some lp ∧ state lp = LISTEN
             ∧ pending_count h l la ≤ accepts_pending lp ≤ 255).

Definition conn_lists_ok (s : tcp_globals) (la lt : list ptr) : Prop :=
  lists_ok (heap s) (tcp_active_pcbs s) (tcp_tw_pcbs s) la lt.

(** "Check if this PCB has stayed long enough in TIME-WAIT" at tick
    [ticks]. *)
Definition tw_expired (E : tcp_env) (ticks : Z) (p : tcp_pcb) : bool :=
  u32 (ticks - tmr p) >? 2 * TCP_MSL E / TCP_SLOW_INTERVAL E.

(** [k] calls of [tcp_slowtmr]. *)
Fixpoint slow_ticks (E : tcp_env) (fuel k : nat) (s : tcp_globals) : option tcp_globals :=
  match k with
  | O => Some s
  | S k => s ← tcp_slowtmr E fuel s; slow_ticks E fuel k s
  end.

(** The iterator stands between [l1], the PCBs visited and still on the
    list, and [l2], the rest of the list. *)
Definition iter_at (it : tcp_iter) (l1 l2 : list ptr) : Prop :=
  if next_is_current it then current it = head l2 ∧ prev it = last l1
  else ∃ l c, l1 = l ++ [c] ∧ current it = Some c ∧ prev it = last l.

(** PCB 1 alone on the tw list, moved there at tick 0 with [tmr] at 0. *)
Definition tw_state : tcp_globals :=
  set_tcp_tw_pcbs (Some 1%positive)
    (set_heap (<[1%positive := set_state TIME_WAIT pcb0]> ∅) globals0).

(** ** A scan with the iterator

    The loop [tcp_iter_start(&it, list); while ((pcb = tcp_iter_next(&it)))]
    of [tcp_slowtmr] with a body that leaves the list alone: the PCBs that
    [tcp_iter_next] returns, in order; [n] bounds the passes. *)
Fixpoint iter_scan (n : nat) (h : gmap ptr tcp_pcb) (it : tcp_iter) : option (list ptr) :=
  match n with
  | O => None
  | S n =>
    '(pcb, it) ← tcp_iter_next h it;
    match pcb with
    | None => Some []
    | Some a => l ← iter_scan n h it; Some (a :: l)
    end
  end.

(** A listener (PCB 1, one connection pending) and the connection (PCB 2,
    counted in the backlog, with segments queued and the retransmission
    timer running). *)
Definition purge_state : tcp_globals :=
  set_tcp_listen_pcbs (Some 1%positive)
    (set_tcp_active_pcbs (Some 2%positive)
      (set_heap
         (<[1%positive := set_accepts_pending 1 (set_backlog 4 (set_local_port 80
                            (set_state LISTEN pcb0)))]>
          (<[2%positive := set_sndq (Some 7%positive) (set_sndq_last (Some 9%positive)
                             (set_sndq_next (Some 8%positive) (set_rtime 3
                               (set_listener (Some 1%positive) (set_flags TF_BACKLOGPEND
                                 (conn TCP_PRIO_NORMAL 0 None))))))]> ∅)) globals0)).

(** ** [tcp_abort] and the reclaiming of PCBs: [tcp_kill_state],
    [tcp_kill_timewait] *)

Section Reclaim.
Variable E : tcp_env.

Definition tcp_abort (fuel : nat) (pcb : ptr) (s : tcp_globals) : option tcp_globals :=
  p ← deref s pcb;
  _ ← LWIP_ASSERT (negb (tcp_pcb_is_listen p));
  _ ← LWIP_ASSERT (negb (has_flag (flags p) TF_NOUSER));
  tcp_pcb_free E fuel pcb true None s.

(** The scan of [tcp_kill_state] with its two loop variables. *)
Fixpoint kill_state_scan (fuel : nat) (s : tcp_globals) (pcb : option ptr) (st : tcp_state)
    (inactivity : Z) (inactive : option ptr) : option (option ptr) :=
  match pcb with
  | None => Some inactive
  | Some a =>
    match fuel with
    | O => None
    | S fuel =>
      p ← deref s a;
      _ ← LWIP_ASSERT (tcp_state_is_active (state p));
      if bool_decide (state p = st) then
        if u32 (tcp_ticks s - tmr p) >=? inactivity then
          kill_state_scan fuel s (next p) st (u32 (tcp_ticks s - tmr p)) (Some a)
        else kill_state_scan fuel s (next p) st inactivity inactive
      else kill_state_scan fuel s (next p) st inactivity inactive
    end
  end.

Definition tcp_kill_state (fuel : nat) (st : tcp_state) (s : tcp_globals)
    : option tcp_globals :=
  _ ← LWIP_ASSERT (bool_decide (st = CLOSING) || bool_decide (st = LAST_ACK));
  (* Go through the list of active pcbs and get the oldest pcb that is in state
     CLOSING/LAST_ACK. *)
  inactive ← kill_state_scan fuel s (tcp_active_pcbs s) st 0 None;
  match inactive with
  | Some a =>
    (* Don't send a RST, since no data is lost. *)
    s ← tcp_report_err a ERR_ABRT s;
    tcp_pcb_free E fuel a false None s
  | None => Some s
  end.

(** The scan of [tcp_kill_timewait]. *)
Fixpoint kill_timewait_scan (fuel : nat) (s : tcp_globals) (pcb : option ptr)
    (inactivity : Z) (inactive : option ptr) : option (option ptr) :=
  match pcb with
  | None => Some inactive
  | Some a =>
    match fuel with
    | O => None
    | S fuel =>
      p ← deref s a;
      _ ← LWIP_ASSERT (bool_decide (state p = TIME_WAIT));
      if u32 (tcp_ticks s - tmr p) >=? inactivity then
        kill_timewait_scan fuel s (next p) (u32 (tcp_ticks s - tmr p)) (Some a)
      else kill_timewait_scan fuel s (next p) inactivity inactive
    end
  end.

Definition tcp_kill_timewait (fuel : nat) (s : tcp_globals) : option tcp_globals :=
  (* Go through the list of TIME_WAIT pcbs and get the oldest pcb. *)
  inactive ← kill_timewait_scan fuel s (tcp_tw_pcbs s) 0 None;
  match inactive with
  | Some a => tcp_pcb_free E fuel a false None s
  | None => Some s
  end.

End Reclaim.

(** How long the PCB has been idle at tick [ticks]: [(u32_t)(tcp_ticks -
    pcb->tmr)]. *)
Definition idle_ticks (ticks : Z) (p : tcp_pcb) : Z := u32 (ticks - tmr p).

(** [a] is the PCB that the scans for the oldest PCB select among the PCBs
    of [l] that satisfy [sel]: none is idle for longer, and those after it
    in the list are idle for a shorter time. *)
Definition oldest_of (h : gmap ptr tcp_pcb) (ticks : Z) (sel : tcp_pcb → bool)
    (l : list ptr) (a : ptr) : Prop :=
  ∃ l1 l2 pa,
    l = l1 ++ a :: l2 ∧ h !! a = Some pa ∧ sel pa = true
    ∧ (∀ q pq, q ∈ l1 → h !! q = Some pq → sel pq = true →
         idle_ticks ticks pq ≤ idle_ticks ticks pa)
    ∧ (∀ q pq, q ∈ l2 → h !! q = Some pq → sel pq = true →
         idle_ticks ticks pq < idle_ticks ticks pa).

(** What [tcp_report_err] does to the PCB, and the call of the error
    callback that it makes. *)
Definition reported (p : tcp_pcb) : tcp_pcb :=
  if has_flag (flags p) TF_NOUSER then p
  else set_flags (set_flag (flags p) TF_NOUSER) p.

Definition report_events (a : ptr) (p : tcp_pcb) (err : err_t) : list event :=
  if has_flag (flags p) TF_NOUSER then []
  else match errf p with Some cb => [EvErrf a cb err] | None => [] end.

(** The PCB before [tcp_pcb_free] sends its delayed ACK. *)
Definition ack_flushed (E : tcp_env) (p : tcp_pcb) : tcp_pcb :=
  if has_flag (flags p) TF_ACK_DELAY
  then tcp_output E (set_flags (set_flag (flags p) TF_ACK_NOW) p)
  else p.

(** The calls that [tcp_pcb_free] makes for a PCB in an active state,
    newest first. *)
Definition free_active_events (E : tcp_env) (a : ptr) (p : tcp_pcb) (rst : bool)
    : list event :=
  let p1 := ack_flushed E p in
  EvMempFree a :: EvSegsFree (sndq p1)
  :: (if rst then [EvRst (snd_nxt p1) (rcv_nxt p1) (local_ip p1) (remote_ip p1)
                         (local_port p1) (remote_port p1)] else [])
  ++ (if has_flag (flags p) TF_ACK_DELAY then [EvOutput a] else []).

Definition set_errf : option callback → tcp_pcb → tcp_pcb := ltac:(field_setter eta_pcb errf).

(** At tick 100: PCB 1, in TIME_WAIT since tick 40, and PCB 2, in
    TIME_WAIT since tick 10, on the tw list; PCB 3, established, with a
    user and the error callback 5, PCB 4, in LAST_ACK since tick 50 with
    the error callback 6, and PCB 5, in LAST_ACK since tick 70, on the
    active list. *)
Definition reclaim_state : tcp_globals :=
  set_tcp_ticks 100
    (set_tcp_tw_pcbs (Some 1%positive)
      (set_tcp_active_pcbs (Some 3%positive)
        (set_heap
           (<[1%positive := set_next (Some 2%positive)
                              (set_state TIME_WAIT (set_tmr 40 pcb0))]>
            (<[2%positive := set_state TIME_WAIT (set_tmr 10 pcb0)]>
             (<[3%positive := set_errf (Some 5%positive)
                                (conn TCP_PRIO_NORMAL 90 (Some 4%positive))]>
              (<[4%positive := set_next (Some 5%positive)
                                 (set_errf (Some 6%positive)
                                    (set_state LAST_ACK (set_tmr 50 pcb0)))]>
               (<[5%positive := set_state LAST_ACK (set_tmr 70 pcb0)]> ∅))))) globals0))).

(** ** [tcp_txnow], [tcp_pcbs_sane] *)

Section Txnow.
Variable E : tcp_env.

(** The [for] loop of [tcp_txnow]. *)
Fixpoint txnow_loop (fuel : nat) (pcb : option ptr) (s : tcp_globals)
    : option tcp_globals :=
  match pcb with
  | None => Some s
  | Some a =>
    match fuel with
    | O => None
    | S fuel =>
      p ← deref s a;
      _ ← LWIP_ASSERT (tcp_state_is_active (state p));
      s ← (if has_flag (flags p) TF_NAGLEMEMERR then call_tcp_output E a s else Some s);
      p ← deref s a;
      txnow_loop fuel (next p) s
    end
  end.

Definition tcp_txnow (fuel : nat) (s : tcp_globals) : option tcp_globals :=
  txnow_loop fuel (tcp_active_pcbs s) s.

End Txnow.

(** One [for] loop of [tcp_pcbs_sane]: the assertion [ok] on the state of
    every PCB from [pcb] on. *)
Fixpoint pcbs_sane_loop (fuel : nat) (h : gmap ptr tcp_pcb) (pcb : option ptr)
    (ok : tcp_state → bool) : option unit :=
  match pcb with
  | None => Some tt
  | Some a =>
    match fuel with
    | O => None
    | S fuel =>
      p ← h !! a;
      _ ← LWIP_ASSERT (ok (state p));
      pcbs_sane_loop fuel h (next p) ok
    end
  end.

Definition tcp_pcbs_sane (fuel : nat) (s : tcp_globals) : option Z :=
  _ ← pcbs_sane_loop fuel (heap s) (tcp_active_pcbs s) tcp_state_is_active;
  _ ← pcbs_sane_loop fuel (heap s) (tcp_tw_pcbs s) (λ st, bool_decide (st = TIME_WAIT));
  Some 1.

(** What the body of the loop of [tcp_txnow] does to the PCB. *)
Definition txnow_pcb (E : tcp_env) (p : tcp_pcb) : tcp_pcb :=
  if has_flag (flags p) TF_NAGLEMEMERR then tcp_output E p else p.

(** The PCB at [b] has [TF_NAGLEMEMERR] set. *)
Definition nagle_pending (h : gmap ptr tcp_pcb) (b : ptr) : bool :=
  match h !! b with
  | Some p => has_flag (flags p) TF_NAGLEMEMERR
  | None => false
  end.

(** Three connections on the active list, 1 -> 2 -> 3; PCB 1 and PCB 3
    have [TF_NAGLEMEMERR] set, PCB 2 has a delayed ACK. *)
Definition txnow_state : tcp_globals :=
  set_tcp_active_pcbs (Some 1%positive)
    (set_heap (<[1%positive := set_flags TF_NAGLEMEMERR
                                 (conn TCP_PRIO_NORMAL 0 (Some 2%positive))]>
               (<[2%positive := set_flags TF_ACK_DELAY
                                  (conn TCP_PRIO_NORMAL 0 (Some 3%positive))]>
                (<[3%positive := set_flags TF_NAGLEMEMERR
                                   (conn TCP_PRIO_NORMAL 0 None)]> ∅))) globals0).

(** A PCB in [LAST_ACK] that was left on the tw list. *)
Definition insane_state : tcp_globals :=
  set_tcp_tw_pcbs (Some 1%positive)
    (set_heap (<[1%positive := set_state LAST_ACK pcb0]> ∅) globals0).

(** From [s] to [s'] the counters of the timers, the port allocator, the
    sequence number generator and the listen list are untouched. *)
Definition counters_kept (s s' : tcp_globals) : Prop :=
  tcp_timer s' = tcp_timer s ∧ tcp_timer_ctr s' = tcp_timer_ctr s
  ∧ tcp_ticks s' = tcp_ticks s ∧ tcp_port s' = tcp_port s ∧ iss s' = iss s
  ∧ tcp_listen_pcbs s' = tcp_listen_pcbs s.

(** ** Conflicts of [tcp_bind]

    The condition under which [tcp_bind] of [pcb] to [ipaddr]:[port] finds
    the address in use by the PCB [cp]. *)
Definition bind_conflict (pcb : tcp_pcb) (ipaddr : option ip_addr_t) (port : Z)
    (cp : tcp_pcb) : bool :=
  (local_port cp =? port)
  && (negb (ip_get_option pcb SOF_REUSEADDR) || negb (ip_get_option cp SOF_REUSEADDR))
  && IP_PCB_IPVER_EQ pcb cp
  && (ip_addr_isany_val (local_ip cp) || ip_addr_isany ipaddr
      || match ipaddr with Some a => ip_addr_cmp (local_ip cp) a | None => false end).

(** The lists that [tcp_bind] checks for [pcb]: all but the tw list when
    the PCB has [SOF_REUSEADDR]. *)
Definition bind_lists (pcb : tcp_pcb) : list pcb_list :=
  take (if ip_get_option pcb SOF_REUSEADDR then NUM_TCP_PCB_LISTS_NO_TIME_WAIT
        else NUM_TCP_PCB_LISTS) tcp_pcb_lists.

(** The PCB after a successful [tcp_bind]. *)
Definition bound_to (ipaddr : option ip_addr_t) (port : Z) (hd : option ptr) (p : tcp_pcb)
    : tcp_pcb :=
  set_next hd
    (set_local_port port
       (match ipaddr with
        | Some a => if negb (ip_addr_isany_val a) then set_local_ip a p else p
        | None => p
        end)).

(** PCB 1 in TIME_WAIT on port 8080 of 10.0.0.2, and two fresh PCBs: PCB 2
    without and PCB 3 with [SOF_REUSEADDR]. *)
Definition bind_tw_state : tcp_globals :=
  set_tcp_tw_pcbs (Some 1%positive)
    (set_heap (<[1%positive := set_local_port 8080 (set_local_ip (IpAddr IPv4 0x0a000002)
                                 (set_state TIME_WAIT pcb0))]>
               (<[2%positive := pcb0]>
                (<[3%positive := set_so_options SOF_REUSEADDR pcb0]> ∅))) globals0).

Definition bind_tw_lists (l : pcb_list) : list ptr :=
  match l with TwList => [1%positive] | _ => [] end.

(** ** Listening and closing a listener *)

(** No PCB is on two lists. *)
Definition lists_disjoint (ls : pcb_list → list ptr) : Prop :=
  ∀ l1 l2 q, l1 ≠ l2 → q ∈ ls l1 → q ∉ ls l2.

(** The test of [tcp_listen_with_backlog] under [SOF_REUSEADDR]: the
    listener [op] has the address and port of [lp]. *)
Definition listen_conflict (lp op : tcp_pcb) : bool :=
  IP_PCB_IPVER_EQ op lp && (local_port op =? local_port lp)
  && ip_addr_cmp (local_ip op) (local_ip lp).

(** The PCB after a successful [tcp_listen_with_backlog], linked to [hd]. *)
Definition listening (E : tcp_env) (backlog : Z) (hd : option ptr) (lp : tcp_pcb) : tcp_pcb :=
  set_next hd
    (set_initial_rcv_wnd (TCPWND_MIN16 (TCP_WND E))
       (set_backlog (if backlog =? 0 then 1 else backlog)
          (set_accepts_pending 0 (set_accept_any_ip_version 0 (set_state LISTEN lp))))).

(** The lists after [a] has gone from the bound list to the head of the
    listen list. *)
Definition listen_lists (a : ptr) (ls : pcb_list → list ptr) (l : pcb_list) : list ptr :=
  match l with
  | ListenList => a :: ls ListenList
  | BoundList => filter (λ q, q ≠ a) (ls BoundList)
  | _ => ls l
  end.

Definition listen_dual_lists (l : pcb_list) : list ptr :=
  match l with ListenList => [1%positive] | BoundList => [2%positive] | _ => [] end.

(** "Remove reference to listener from any connection PCBs": one PCB. *)
Definition unref_listener (lpcb : ptr) (p : tcp_pcb) : tcp_pcb :=
  if bool_decide (listener p = Some lpcb) then set_listener None p else p.

(** The lists after the listener [a] is closed. *)
Definition close_listen_lists (a : ptr) (ls : pcb_list → list ptr) (l : pcb_list)
    : list ptr :=
  match l with
  | ListenList => filter (λ q, q ≠ a) (ls ListenList)
  | _ => ls l
  end.

Definition backlog_lists (l : pcb_list) : list ptr :=
  match l with ListenList => [1%positive] | ActiveList => [2%positive] | _ => [] end.

(** ** Entering TIME-WAIT *)

(** The PCB after [tcp_move_to_time_wait], linked to the old head [hd] of
    the tw list. *)
Definition time_waiting (hd : option ptr) (p : tcp_pcb) : tcp_pcb :=
  set_next hd (set_state TIME_WAIT (purged p)).

(** One established connection at tick 100, with a segment in its queue, the
    retransmission timer running and nothing left of its receive window. *)
Definition closing_state : tcp_globals :=
  set_tcp_ticks 100
    (set_tcp_active_pcbs (Some 1%positive)
       (set_heap (<[1%positive := set_sndq (Some 7%positive)
                                    (set_rtime 3 (conn TCP_PRIO_NORMAL 0 None))]> ∅)
          globals0)).

(** ** Closing a connection: [tcp_close_shutdown], [tcp_close], [tcp_shut_tx]

    [TCP_WND_MAX(pcb)] is a macro of lwip/tcp.h and [tcp_send_fin] a
    function of the segment layer; neither is part of the sources at hand.
    The first is a function of the PCB's record, the second a transformer
    of the record together with the error code it returns.  The counters
    of [MIB2_STATS_INC] are not modelled. *)
Section Close.
Variable E : tcp_env.
Variable TCP_WND_MAX : tcp_pcb → Z.
Variable tcp_send_fin : tcp_pcb → err_t * tcp_pcb.

(** [err = tcp_send_fin(pcb)] and, on [ERR_OK], the statements [ok] of the
    case. *)
Definition close_send_fin (pcb : ptr) (ok : tcp_globals → option tcp_globals)
    (s : tcp_globals) : option (err_t * option ptr * tcp_globals) :=
  p ← deref s pcb;
  let '(err, p) := tcp_send_fin p in
  s ← update pcb (λ _, p) s;
  s ← (if err =? ERR_OK then ok s else Some s);
  Some (err, Some pcb, s).

(** The [switch] of [tcp_close_shutdown] and the [tcp_output] after it.
    The middle component is the variable [pcb], which the cases that free
    the PCB or find it closed set to [NULL]. *)
Definition close_shutdown_switch (fuel : nat) (pcb : ptr) (s : tcp_globals)
    : option (err_t * tcp_globals) :=
  p ← deref s pcb;
  '(err, pcb', s) ←
    match state p with
    | CLOSED =>
      s ← tcp_pcb_free E fuel pcb false None s;
      Some (ERR_OK, None, s)
    | SYN_SENT =>
      s ← tcp_pcb_free E fuel pcb false None s;
      Some (ERR_OK, None, s)
    | SYN_RCVD =>
      close_send_fin pcb
        (λ s, s ← tcp_backlog_accepted_internal pcb s;
              update pcb (set_state FIN_WAIT_1) s) s
    | ESTABLISHED =>
      close_send_fin pcb (update pcb (set_state FIN_WAIT_1)) s
    | CLOSE_WAIT =>
      close_send_fin pcb (update pcb (set_state LAST_ACK)) s
    | _ =>
      (* Has already been closed, do nothing. *)
      Some (ERR_OK, None, s)
    end;
  s ← match pcb' with
      | Some a => if err =? ERR_OK then call_tcp_output E a s else Some s
      | None => Some s
      end;
  Some (err, s).

Definition tcp_close_shutdown (fuel : nat) (pcb : ptr) (rst_on_unacked_data : bool)
    (s : tcp_globals) : option (err_t * tcp_globals) :=
  p ← deref s pcb;
  _ ← LWIP_ASSERT (negb (tcp_pcb_is_listen p));
  if rst_on_unacked_data
     && (bool_decide (state p = ESTABLISHED) || bool_decide (state p = CLOSE_WAIT)) then
    if negb (rcv_wnd p =? TCP_WND_MAX p) then
      (* Not all data received by application, send RST to tell the remote
         side about this. *)
      _ ← LWIP_ASSERT (has_flag (flags p) TF_NOUSER);
      let s := emit (EvRst (snd_nxt p) (rcv_nxt p) (local_ip p) (remote_ip p)
                           (local_port p) (remote_port p)) s in
      s ← (if bool_decide (state p = ESTABLISHED) then
             (* move to TIME_WAIT since we close actively *)
             tcp_move_to_time_wait fuel pcb s
           else
             s ← update pcb (λ p, set_flags (clear_flag (flags p) TF_ACK_DELAY) p) s;
             tcp_pcb_free E fuel pcb false None s);
      Some (ERR_OK, s)
    else close_shutdown_switch fuel pcb s
  else close_shutdown_switch fuel pcb s.

Definition tcp_close (fuel : nat) (pcb : ptr) (s : tcp_globals) : option tcp_globals :=
  p ← deref s pcb;
  _ ← LWIP_ASSERT (negb (tcp_pcb_is_listen p));
  _ ← LWIP_ASSERT (negb (has_flag (flags p) TF_NOUSER));
  (* Remember that we no longer have a user reference. *)
  s ← update pcb (λ p, set_flags (set_flag (flags p) TF_NOUSER) p) s;
  (* Try to do an orderly close. *)
  '(err, s) ← tcp_close_shutdown fuel pcb true s;
  if negb (err =? ERR_OK) then
    (* Just RST and free the PCB. *)
    tcp_pcb_free E fuel pcb true None s
  else Some s.

Definition tcp_shut_tx (fuel : nat) (pcb : ptr) (s : tcp_globals)
    : option (err_t * tcp_globals) :=
  p ← deref s pcb;
  _ ← LWIP_ASSERT (negb (tcp_pcb_is_listen p));
  _ ← LWIP_ASSERT (negb (has_flag (flags p) TF_NOUSER));
  match state p with
  | SYN_RCVD | ESTABLISHED | CLOSE_WAIT => tcp_close_shutdown fuel pcb false s
  | _ =>
    (* Not yet connected or already shut. Will not proceed because
       tcp_close_shutdown might then free the PCB. *)
    Some (ERR_CONN, s)
  end.

End Close.

(** The segment layer, [tcp_send_fin] included, leaves the link, the
    state, the backlog mark and the user-reference flag of the PCB it
    works on as they are. *)
Definition close_layer_keeps (E : tcp_env) (tcp_send_fin : tcp_pcb → err_t * tcp_pcb)
    : Prop :=
  seg_layer_keeps next E ∧ seg_layer_keeps state E ∧ seg_layer_keeps backlog_held E
  ∧ seg_layer_keeps (λ p, has_flag (flags p) TF_NOUSER) E
  ∧ ∀ p, next (tcp_send_fin p).2 = next p ∧ state (tcp_send_fin p).2 = state p
         ∧ backlog_held (tcp_send_fin p).2 = backlog_held p
         ∧ has_flag (flags (tcp_send_fin p).2) TF_NOUSER = has_flag (flags p) TF_NOUSER.

(** The PCB once the user reference is given up. *)
Definition unreferenced (p : tcp_pcb) : tcp_pcb :=
  set_flags (set_flag (flags p) TF_NOUSER) p.

(** Where the [switch] of [tcp_close_shutdown] takes a state when the FIN
    is enqueued. *)
Definition fin_state (st : tcp_state) : tcp_state :=
  match st with
  | SYN_RCVD | ESTABLISHED => FIN_WAIT_1
  | CLOSE_WAIT => LAST_ACK
  | _ => st
  end.

(** The state in which [tcp_close] leaves a connection of the active list
    whose record is [p]; [None]: the PCB is freed. *)
Definition close_result (TCP_WND_MAX : tcp_pcb → Z) (tcp_send_fin : tcp_pcb → err_t * tcp_pcb)
    (p : tcp_pcb) : option tcp_state :=
  let pu := unreferenced p in
  let unread := negb (rcv_wnd pu =? TCP_WND_MAX pu) in
  let fin := if (tcp_send_fin pu).1 =? ERR_OK then Some (fin_state (state p)) else None in
  match state p with
  | SYN_SENT => None
  | SYN_RCVD => fin
  | ESTABLISHED => if unread then Some TIME_WAIT else fin
  | CLOSE_WAIT => if unread then None else fin
  | st => Some st
  end.

(** The active and the tw list after [tcp_close] of the PCB [a] between
    [l1] and [l2] on the active list. *)
Definition close_lists (r : option tcp_state) (l1 : list ptr) (a : ptr) (l2 lt : list ptr)
    : list ptr * list ptr :=
  match r with
  | None => (l1 ++ l2, lt)
  | Some TIME_WAIT => (l1 ++ l2, a :: lt)
  | Some _ => (l1 ++ a :: l2, lt)
  end.

(** The calls that [tcp_close] makes for a connection of the active list
    whose record is [p], newest first: nothing in the states that the
    [switch] leaves alone; the calls of [tcp_pcb_free] without a RST in
    SYN_SENT; with unread data the RST of [tcp_close_shutdown], followed by
    the calls of [tcp_move_to_time_wait] (ESTABLISHED) or of [tcp_pcb_free]
    without a second RST (CLOSE_WAIT); otherwise [tcp_output] when the FIN
    is enqueued, and the calls of [tcp_pcb_free] with its RST when it is
    not. *)
Definition close_events (E : tcp_env) (TCP_WND_MAX : tcp_pcb → Z)
    (tcp_send_fin : tcp_pcb → err_t * tcp_pcb) (a : ptr) (p : tcp_pcb) : list event :=
  let pu := unreferenced p in
  let rst := EvRst (snd_nxt pu) (rcv_nxt pu) (local_ip pu) (remote_ip pu)
                   (local_port pu) (remote_port pu) in
  let unread := negb (rcv_wnd pu =? TCP_WND_MAX pu) in
  let fin := if (tcp_send_fin pu).1 =? ERR_OK then [EvOutput a]
             else free_active_events E a (tcp_send_fin pu).2 true in
  match state p with
  | SYN_SENT => free_active_events E a pu false
  | SYN_RCVD => fin
  | ESTABLISHED =>
    if unread then [EvTimerNeeded; EvSegsFree (sndq pu); rst] else fin
  | CLOSE_WAIT =>
    if unread
    then free_active_events E a (set_flags (clear_flag (flags pu) TF_ACK_DELAY) pu) false
         ++ [rst]
    else fin
  | _ => []
  end.

(** [tcp_close] sends a RST: there is unread data in ESTABLISHED or
    CLOSE_WAIT, or the FIN cannot be enqueued. *)
Definition close_sends_rst (TCP_WND_MAX : tcp_pcb → Z)
    (tcp_send_fin : tcp_pcb → err_t * tcp_pcb) (p : tcp_pcb) : bool :=
  let pu := unreferenced p in
  let unread := negb (rcv_wnd pu =? TCP_WND_MAX pu) in
  let fin_fails := negb ((tcp_send_fin pu).1 =? ERR_OK) in
  match state p with
  | SYN_RCVD => fin_fails
  | ESTABLISHED | CLOSE_WAIT => unread || fin_fails
  | _ => false
  end.

Definition is_rst (e : event) : bool :=
  match e with EvRst _ _ _ _ _ _ => true | _ => false end.

(** What [tcp_shut_tx] returns for a PCB with record [p], and the state in
    which it leaves the PCB. *)
Definition shut_tx_err (tcp_send_fin : tcp_pcb → err_t * tcp_pcb) (p : tcp_pcb) : err_t :=
  match state p with
  | SYN_RCVD | ESTABLISHED | CLOSE_WAIT => (tcp_send_fin p).1
  | _ => ERR_CONN
  end.

Definition shut_tx_state (tcp_send_fin : tcp_pcb → err_t * tcp_pcb) (p : tcp_pcb)
    : tcp_state :=
  if shut_tx_err tcp_send_fin p =? ERR_OK then fin_state (state p) else state p.

(** A window of [TCP_WND] for every PCB, and a [tcp_send_fin] that
    succeeds. *)
Definition TCP_WND_MAX0 (p : tcp_pcb) : Z := 2144.
Definition tcp_send_fin0 (p : tcp_pcb) : err_t * tcp_pcb := (ERR_OK, p).

(** The PCB after [tcp_backlog_accepted_internal]. *)
Definition accepted (p : tcp_pcb) : tcp_pcb :=
  match backlog_held p with
  | Some _ => set_flags (clear_flag (flags p) TF_BACKLOGPEND) p
  | None => p
  end.

(** The PCB after the [switch] of [tcp_close_shutdown] when the FIN is
    enqueued, from the record [p] that [tcp_send_fin] left. *)
Definition fin_sent (E : tcp_env) (p : tcp_pcb) : tcp_pcb :=
  tcp_output E
    (set_state (fin_state (state p))
       (if bool_decide (state p = SYN_RCVD) then accepted p else p)).

(** ** A change of the interface address: [tcp_netif_ipv4_addr_changed]

    [ip4_addr_cmp] and [ip4_addr_isany] of lwip/ip4_addr.h work on the
    value of an IPv4 address; a [const ip4_addr_t *] that may be [NULL] is
    an [option]. *)
Definition ip4_addr_cmp (a b : Z) : bool := a =? b.
Definition ip4_addr_isany_val (a : Z) : bool := a =? 0.
Definition ip4_addr_isany (a : option Z) : bool :=
  match a with Some x => ip4_addr_isany_val x | None => true end.

Section Netif.
Variable E : tcp_env.

(** The [while] loop over one list; [n] bounds the loop, [fuel] the loops
    of [tcp_pcb_free]. *)
Fixpoint tcp_netif_ipv4_addr_changed_pcblist (n fuel : nat) (old_addr : Z)
    (pcb : option ptr) (s : tcp_globals) : option tcp_globals :=
  match pcb with
  | None => Some s
  | Some a =>
    match n with
    | O => None
    | S n =>
      p ← deref s a;
      (* PCB bound to current local interface address? *)
      if negb (tcp_pcb_is_listen p) && negb (IP_IS_V6_VAL (local_ip p))
         && ip4_addr_cmp (ip_val (local_ip p)) old_addr then
        (* this connection must be aborted *)
        let next := next p in
        s ← tcp_report_err a ERR_ABRT s;
        s ← tcp_pcb_free E fuel a true None s;
        tcp_netif_ipv4_addr_changed_pcblist n fuel old_addr next s
      else tcp_netif_ipv4_addr_changed_pcblist n fuel old_addr (next p) s
    end
  end.

(** The [for] loop over the listeners. *)
Fixpoint netif_listen_loop (n : nat) (old_addr new_addr : Z) (lpcb : option ptr)
    (s : tcp_globals) : option tcp_globals :=
  match lpcb with
  | None => Some s
  | Some a =>
    match n with
    | O => None
    | S n =>
      lp ← deref s a;
      let next := next lp in
      s ← (if negb (IP_IS_V6_VAL (local_ip lp)) then
             (* PCB bound to current local interface address? *)
             if negb (ip4_addr_isany_val (ip_val (local_ip lp)))
                && ip4_addr_cmp (ip_val (local_ip lp)) old_addr then
               (* The PCB is listening to the old ipaddr and
                  is set to listen to the new one instead *)
               update a (set_local_ip (IpAddr IPv4 new_addr)) s
             else Some s
           else Some s);
      netif_listen_loop n old_addr new_addr next s
    end
  end.

Definition tcp_netif_ipv4_addr_changed (fuel : nat) (old_addr : Z) (new_addr : option Z)
    (s : tcp_globals) : option tcp_globals :=
  s ← tcp_netif_ipv4_addr_changed_pcblist fuel fuel old_addr (tcp_active_pcbs s) s;
  s ← tcp_netif_ipv4_addr_changed_pcblist fuel fuel old_addr (tcp_bound_pcbs s) s;
  if negb (ip4_addr_isany new_addr) then
    match new_addr with
    | Some new => netif_listen_loop fuel old_addr new (tcp_listen_pcbs s) s
    | None => Some s
    end
  else Some s.

End Netif.

(** The PCB is no listener and is bound to the IPv4 address [old_addr]. *)
Definition bound_to_ip4 (old_addr : Z) (p : tcp_pcb) : bool :=
  negb (tcp_pcb_is_listen p) && negb (IP_IS_V6_VAL (local_ip p))
  && ip4_addr_cmp (ip_val (local_ip p)) old_addr.

(** The PCB at [a] is one that the change of [old_addr] aborts. *)
Definition aborted_at (h : gmap ptr tcp_pcb) (old_addr : Z) (a : ptr) : bool :=
  match h !! a with Some p => bound_to_ip4 old_addr p | None => false end.

(** Three connections 1 -> 2 -> 3 at tick 100; PCB 1 and PCB 3 are bound to
    10.0.0.2, PCB 2 to 10.0.0.3; PCB 1 has an error callback. *)
Definition netif_state : tcp_globals :=
  set_tcp_ticks 100
    (set_tcp_active_pcbs (Some 1%positive)
       (set_heap
          (<[1%positive := set_errf (Some 5%positive)
                             (set_local_ip (IpAddr IPv4 0x0a000002)
                                (conn TCP_PRIO_NORMAL 0 (Some 2%positive)))]>
           (<[2%positive := set_local_ip (IpAddr IPv4 0x0a000003)
                              (conn TCP_PRIO_NORMAL 0 (Some 3%positive))]>
            (<[3%positive := set_local_ip (IpAddr IPv4 0x0a000002)
                               (conn TCP_PRIO_NORMAL 0 None)]> ∅))) globals0)).

(** What the loop body of the active scan of [tcp_slowtmr] computes for the
    PCB [a] with record [p] when it comes to it in the state [s]. *)
Definition slowtmr_visit (E : tcp_env) (s : tcp_globals) (a : ptr) (p : tcp_pcb)
    : tcp_pcb * Z * Z * list event :=
  slowtmr_active_pcb E (tcp_ticks s) a (set_last_timer (tcp_timer_ctr s) p).

(** ** The timeouts of [tcp_slowtmr]

    The conditions under which the loop body of the active scan counts
    [pcb_remove] up, for a PCB with record [p] at the tick [ticks]: the
    retransmission limits, the FIN-WAIT-2 timeout of a PCB without user, the
    keepalive limit, and the SYN-RCVD and LAST-ACK timeouts. *)
Definition timed_out (E : tcp_env) (ticks : Z) (p : tcp_pcb) : bool :=
  bool_decide (state p = SYN_SENT) && (nrtx p =? TCP_SYNMAXRTX E)
  || (nrtx p =? TCP_MAXRTX E)
  || bool_decide (state p = FIN_WAIT_2) && has_flag (flags p) TF_NOUSER
     && (u32 (ticks - tmr p) >? TCP_FIN_WAIT_TIMEOUT E / TCP_SLOW_INTERVAL E)
  || ip_get_option p SOF_KEEPALIVE
     && (bool_decide (state p = ESTABLISHED) || bool_decide (state p = CLOSE_WAIT))
     && (u32 (ticks - tmr p) >? u32 (keep_idle p + TCP_KEEP_DUR p) / TCP_SLOW_INTERVAL E)
  || bool_decide (state p = SYN_RCVD)
     && (u32 (ticks - tmr p) >? TCP_SYN_RCVD_TIMEOUT E / TCP_SLOW_INTERVAL E)
  || bool_decide (state p = LAST_ACK)
     && (u32 (ticks - tmr p) >? 2 * TCP_MSL E / TCP_SLOW_INTERVAL E).

(** The fields that the timeouts and the error report read. *)
Definition timeout_fields (p : tcp_pcb) :=
  (state p, tmr p, has_flag (flags p) TF_NOUSER, errf p,
   (so_options p, keep_idle p, keep_cnt p, keep_intvl p)).

(** At tick 300: PCB 1, in LAST_ACK since tick 50, with the error callback
    6, alone on the active list. *)
Definition timeout_state : tcp_globals :=
  set_tcp_ticks 300
    (set_tcp_active_pcbs (Some 1%positive)
      (set_heap (<[1%positive := set_errf (Some 6%positive)
                                   (set_state LAST_ACK (set_tmr 50 pcb0))]> ∅) globals0)).

(** ** Freeing a PCB that is not connected *)

(** The lists after the PCB [a] has left the bound list. *)
Definition unbound_lists (a : ptr) (ls : pcb_list → list ptr) (l : pcb_list) : list ptr :=
  match l with
  | BoundList => filter (λ q, q ≠ a) (ls BoundList)
  | _ => ls l
  end.

(** What [tcp_pcb_free] leaves of the state [s] with the lists [ls] when it
    frees the closed PCB [a]: the state [s']. *)
Definition closed_pcb_freed (s : tcp_globals) (ls : pcb_list → list ptr) (a : ptr)
    (s' : tcp_globals) : Prop :=
  lists_are s' (unbound_lists a ls)
  ∧ deref s' a = None
  ∧ tcp_input_pcb s' ≠ Some a
  ∧ trace s' = EvMempFree a :: trace s
  ∧ (∀ q, q ≠ a → set_next None <$> deref s' q = set_next None <$> deref s q)
  ∧ (∀ q, q ≠ a → q ∉ ls BoundList → deref s' q = deref s q).

(** Two closed PCBs on the bound list: PCB 1 has port 80, PCB 2 port 81. *)
Definition bound_state : tcp_globals :=
  set_tcp_bound_pcbs (Some 1%positive)
    (set_heap (<[1%positive := set_next (Some 2%positive) (set_local_port 80 pcb0)]>
               (<[2%positive := set_local_port 81 pcb0]> ∅)) globals0).

Definition bound_lists (l : pcb_list) : list ptr :=
  match l with BoundList => [1%positive; 2%positive] | _ => [] end.

(** ** The change of an interface address: [tcp_netif_ipv4_addr_changed] *)

(** The lists [ls] with [lb] for the bound list. *)
Definition with_bound (ls : pcb_list → list ptr) (lb : list ptr) (l : pcb_list) : list ptr :=
  match l with BoundList => lb | _ => ls l end.

(** The lists after the change of [old_addr]: the active and the bound list
    without the PCBs that are aborted. *)
Definition netif_lists (h : gmap ptr tcp_pcb) (old_addr : Z) (ls : pcb_list → list ptr)
    (l : pcb_list) : list ptr :=
  match l with
  | ActiveList | BoundList => filter (λ q, aborted_at h old_addr q = false) (ls l)
  | _ => ls l
  end.

(** The listener after the [for] loop of [tcp_netif_ipv4_addr_changed]. *)
Definition netif_rebound (old_addr : Z) (new_addr : option Z) (lp : tcp_pcb) : tcp_pcb :=
  match new_addr with
  | Some new =>
    if negb (ip4_addr_isany_val new) && negb (IP_IS_V6_VAL (local_ip lp))
       && negb (ip4_addr_isany_val (ip_val (local_ip lp)))
       && ip4_addr_cmp (ip_val (local_ip lp)) old_addr
    then set_local_ip (IpAddr IPv4 new) lp else lp
  | None => lp
  end.

(** The PCBs of the bound list have a port; those that are no listeners are
    in CLOSED with an empty send queue. *)
Definition bound_list_ok (s : tcp_globals) (lb : list ptr) : Prop :=
  ∀ q p, q ∈ lb → deref s q = Some p →
    local_port p ≠ 0
    ∧ (tcp_pcb_is_listen p = false → state p = CLOSED ∧ sndq p = None).

(** At tick 100, all on 10.0.0.2: the connection 1 with the error callback 5
    on the active list, the closed PCB 2 with port 81 on the bound list and
    the listener 3 on port 80 on the listen list. *)
Definition netif_changed_state : tcp_globals :=
  set_tcp_ticks 100
    (set_tcp_active_pcbs (Some 1%positive)
      (set_tcp_bound_pcbs (Some 2%positive)
        (set_tcp_listen_pcbs (Some 3%positive)
          (set_heap
             (<[1%positive := set_errf (Some 5%positive)
                                (set_local_ip (IpAddr IPv4 0x0a000002)
                                   (conn TCP_PRIO_NORMAL 0 None))]>
              (<[2%positive := set_local_port 81
                                 (set_local_ip (IpAddr IPv4 0x0a000002) pcb0)]>
               (<[3%positive := set_local_port 80
                                  (set_local_ip (IpAddr IPv4 0x0a000002)
                                     (set_state LISTEN pcb0))]> ∅))) globals0)))).

Definition netif_changed_lists (l : pcb_list) : list ptr :=
  match l with
  | ActiveList => [1%positive]
  | BoundList => [2%positive]
  | ListenList => [3%positive]
  | TwList => []
  end.

(** * Every function of tcp.c as a call

    ** What the remaining functions take from outside

    The macros [TCP_WND_MAX], [TCP_WND_UPDATE_THRESHOLD], [TCP_SEQ_GT],
    [TCP_SEQ_GEQ], [tcp_pcb_has_user_ref] and [ip_set_v6] and the constants
    [TCP_SND_BUF], [TCP_TTL] and the keepalive defaults come from headers
    that are not part of the sources at hand; [tcp_send_fin] is a function
    of the segment layer and [memp_malloc] one of the pool allocator, which
    picks the block it hands out; [seg_next] is the field [next] of a
    segment and [seg_clen] the [pbuf_clen] of its field [p]: the segments
    belong to the segment layer, and tcp.c only reads them. *)
Inductive memp_t : Set := MEMP_TCP_PCB | MEMP_TCP_PCB_LISTEN.

Module Ext.
Record t : Type := Build {
  TCP_WND_MAX : tcp_pcb → Z;
  TCP_WND_UPDATE_THRESHOLD : Z;
  TCP_SEQ_GT : Z → Z → bool;
  TCP_SEQ_GEQ : Z → Z → bool;
  TCP_KEEPIDLE_DEFAULT : Z;
  TCP_KEEPINTVL_DEFAULT : Z;
  TCP_KEEPCNT_DEFAULT : Z;
  TCP_SND_BUF : Z;
  TCP_TTL : Z;
  tcp_pcb_has_user_ref : tcp_pcb → bool;
  ip_set_v6 : tcp_pcb → tcp_pcb;
  tcp_send_fin : tcp_pcb → err_t * tcp_pcb;
  memp_pick : memp_t → gmap ptr tcp_pcb → option ptr;
  seg_next : seg_ptr → option seg_ptr;
  seg_clen : seg_ptr → Z
}.
End Ext.

(** Conversion to [int] (two's complement, 32 bits). *)
Definition s32 (x : Z) : Z := (x + 2 ^ 31) mod 2 ^ 32 - 2 ^ 31.

(** ** The receive window: [tcp_update_rcv_ann_wnd], [tcp_recved],
    [tcp_recved_internal] *)
Section Recved.
Variable X : Ext.t.
Variable E : tcp_env.

Definition tcp_update_rcv_ann_wnd (pcb : ptr) (s : tcp_globals)
    : option (Z * tcp_globals) :=
  p ← deref s pcb;
  let new_right_edge := u32 (rcv_nxt p + rcv_wnd p) in
  if Ext.TCP_SEQ_GEQ X new_right_edge
       (u32 (rcv_ann_right_edge p + LWIP_MIN (TCP_WND E ÷ 2) (mss p))) then
    (* we can advertise more window *)
    s ← update pcb (λ p, set_rcv_ann_wnd (rcv_wnd p) p) s;
    Some (u32 (new_right_edge - rcv_ann_right_edge p), s)
  else if Ext.TCP_SEQ_GT X (rcv_nxt p) (rcv_ann_right_edge p) then
    (* Can happen due to other end sending out of advertised window,
       but within actual available (but not yet advertised) window *)
    s ← update pcb (set_rcv_ann_wnd 0) s;
    Some (0, s)
  else
    (* keep the right edge of window constant *)
    let new_rcv_ann_wnd := u32 (rcv_ann_right_edge p - rcv_nxt p) in
    _ ← LWIP_ASSERT (new_rcv_ann_wnd <=? 0xffff);
    s ← update pcb (set_rcv_ann_wnd (tcpwnd_size_t E new_rcv_ann_wnd)) s;
    Some (0, s).

Definition tcp_recved_internal (pcb : ptr) (len : Z) (s : tcp_globals)
    : option tcp_globals :=
  s ← update pcb (λ p, set_rcv_wnd (tcpwnd_size_t E (rcv_wnd p + len)) p) s;
  p ← deref s pcb;
  s ← (if rcv_wnd p >? Ext.TCP_WND_MAX X p then
         update pcb (λ p, set_rcv_wnd (tcpwnd_size_t E (Ext.TCP_WND_MAX X p)) p) s
       else if rcv_wnd p =? 0 then
         (* rcv_wnd overflowed *)
         if bool_decide (state p = CLOSE_WAIT) || bool_decide (state p = LAST_ACK) then
           update pcb (λ p, set_rcv_wnd (tcpwnd_size_t E (Ext.TCP_WND_MAX X p)) p) s
         else None                     (* LWIP_ASSERT: len wrapped rcv_wnd *)
       else Some s);
  '(wnd_inflation, s) ← tcp_update_rcv_ann_wnd pcb s;
  (* If the change in the right edge of window is significant, then send an
     explicit update now. *)
  if s32 wnd_inflation >=? Ext.TCP_WND_UPDATE_THRESHOLD X then
    s ← update pcb (λ p, set_flags (set_flag (flags p) TF_ACK_NOW) p) s;
    call_tcp_output E pcb s
  else Some s.

Definition tcp_recved (pcb : ptr) (len : Z) (s : tcp_globals) : option tcp_globals :=
  p ← deref s pcb;
  _ ← LWIP_ASSERT (negb (tcp_pcb_is_listen p));
  _ ← LWIP_ASSERT (negb (has_flag (flags p) TF_NOUSER));
  tcp_recved_internal pcb len s.

End Recved.

(** ** Allocation: [tcp_alloc], [tcp_new], [tcp_new_listen], [tcp_new_ip6],
    [tcp_new_listen_ip6]

    [memp_malloc] hands out a block that is not in use, or [NULL]. *)
Definition memp_malloc (X : Ext.t) (pool : memp_t) (s : tcp_globals) : option ptr :=
  match Ext.memp_pick X pool (heap s) with
  | Some a => if bool_decide (heap s !! a = None) then Some a else None
  | None => None
  end.

(** [memset(pcb, 0, sizeof( *pcb ))] *)
Definition zero_pcb : tcp_pcb :=
  {| next := None; state := CLOSED; prio := 0; so_options := 0;
     local_ip := IpAddr IPv4 0; remote_ip := IpAddr IPv4 0; local_port := 0;
     remote_port := 0; flags := 0; tmr := 0; last_timer := 0; rcv_nxt := 0; rcv_wnd := 0;
     rcv_ann_wnd := 0; rcv_ann_right_edge := 0; rtime := 0; mss := 0; rto := 0; sa := 0;
     sv := 0; nrtx := 0; cwnd := 0; ssthresh := 0; snd_nxt := 0; snd_wnd := 0; lastack := 0;
     snd_lbb := 0; sndq := None; sndq_last := None; sndq_next := None; persist_cnt := 0;
     persist_backoff := 0; keep_idle := 0; keep_intvl := 0; keep_cnt := 0;
     keep_cnt_sent := 0; listener := None; errf := None; connected := None; backlog := 0;
     accepts_pending := 0; accept_any_ip_version := 0; initial_rcv_wnd := 0;
     ttl := 0; callback_arg := None; snd_wl2 := 0; snd_buf := 0; snd_queuelen := 0;
     recv := None; sent := None; accept := None |}.

(** A block that [memp_malloc] has handed out, with its first contents. *)
Definition memp_store (a : ptr) (p : tcp_pcb) (s : tcp_globals) : tcp_globals :=
  set_heap (<[a := p]> (heap s)) s.

Definition set_sv : Z → tcp_pcb → tcp_pcb := ltac:(field_setter eta_pcb sv).
Definition set_keep_idle : Z → tcp_pcb → tcp_pcb := ltac:(field_setter eta_pcb keep_idle).
Definition set_keep_intvl : Z → tcp_pcb → tcp_pcb := ltac:(field_setter eta_pcb keep_intvl).
Definition set_keep_cnt : Z → tcp_pcb → tcp_pcb := ltac:(field_setter eta_pcb keep_cnt).
Definition set_ttl : Z → tcp_pcb → tcp_pcb := ltac:(field_setter eta_pcb ttl).
Definition set_callback_arg : option ptr → tcp_pcb → tcp_pcb :=
  ltac:(field_setter eta_pcb callback_arg).
Definition set_snd_wl2 : Z → tcp_pcb → tcp_pcb := ltac:(field_setter eta_pcb snd_wl2).
Definition set_snd_buf : Z → tcp_pcb → tcp_pcb := ltac:(field_setter eta_pcb snd_buf).
Definition set_snd_queuelen : Z → tcp_pcb → tcp_pcb :=
  ltac:(field_setter eta_pcb snd_queuelen).
Definition set_recv : option callback → tcp_pcb → tcp_pcb := ltac:(field_setter eta_pcb recv).
Definition set_sent : option callback → tcp_pcb → tcp_pcb := ltac:(field_setter eta_pcb sent).
Definition set_accept : option callback → tcp_pcb → tcp_pcb :=
  ltac:(field_setter eta_pcb accept).

Section Alloc.
Variable X : Ext.t.
Variable E : tcp_env.

(** The fields that [tcp_alloc] sets after the [memset]. *)
Definition tcp_alloc_fields (prio iss ticks ctr : Z) : tcp_pcb :=
  let p := set_prio prio zero_pcb in
  let p := set_snd_buf (Ext.TCP_SND_BUF X) p in
  (* Start with a window that does not need scaling. *)
  let p := set_rcv_ann_wnd (TCPWND_MIN16 (TCP_WND E)) p in
  let p := set_rcv_wnd (rcv_ann_wnd p) p in
  let p := set_ttl (Ext.TCP_TTL X) p in
  let p := set_mss (INITIAL_MSS E) p in
  let p := set_rto (s16 (3000 ÷ TCP_SLOW_INTERVAL E)) p in
  let p := set_sv (s16 (3000 ÷ TCP_SLOW_INTERVAL E)) p in
  let p := set_rtime (-1) p in
  let p := set_cwnd 1 p in
  let p := set_snd_wl2 iss p in
  let p := set_snd_nxt iss p in
  let p := set_lastack iss p in
  let p := set_snd_lbb iss p in
  let p := set_tmr ticks p in
  let p := set_last_timer ctr p in
  (* Init KEEPALIVE timer *)
  let p := set_keep_idle (Ext.TCP_KEEPIDLE_DEFAULT X) p in
  let p := set_keep_intvl (Ext.TCP_KEEPINTVL_DEFAULT X) p in
  set_keep_cnt (Ext.TCP_KEEPCNT_DEFAULT X) p.

(** The cascade of [memp_malloc] calls of [tcp_alloc]; the counters of
    [MEMP_STATS_DEC] are not modelled. *)
Definition tcp_alloc_block (fuel : nat) (prio : Z) (s : tcp_globals)
    : option (option ptr * tcp_globals) :=
  match memp_malloc X MEMP_TCP_PCB s with
  | Some a => Some (Some a, s)
  | None =>
    (* Try killing oldest connection in TIME-WAIT. *)
    s ← tcp_kill_timewait E fuel s;
    match memp_malloc X MEMP_TCP_PCB s with
    | Some a => Some (Some a, s)
    | None =>
      (* Try killing oldest connection in LAST-ACK (these wouldn't go to
         TIME-WAIT). *)
      s ← tcp_kill_state E fuel LAST_ACK s;
      match memp_malloc X MEMP_TCP_PCB s with
      | Some a => Some (Some a, s)
      | None =>
        (* Try killing oldest connection in CLOSING. *)
        s ← tcp_kill_state E fuel CLOSING s;
        match memp_malloc X MEMP_TCP_PCB s with
        | Some a => Some (Some a, s)
        | None =>
          (* Try killing active connections with lower priority than the
             new one. *)
          s ← tcp_kill_prio E fuel prio s;
          Some (memp_malloc X MEMP_TCP_PCB s, s)
        end
      end
    end
  end.

Definition tcp_alloc (fuel : nat) (prio : Z) (s : tcp_globals)
    : option (option ptr * tcp_globals) :=
  '(pcb, s) ← tcp_alloc_block fuel prio s;
  match pcb with
  | Some a =>
    let '(iss, s) := tcp_next_iss s in
    Some (Some a,
          memp_store a (tcp_alloc_fields prio iss (tcp_ticks s) (tcp_timer_ctr s)) s)
  | None => Some (None, s)
  end.

Definition tcp_new (fuel : nat) (s : tcp_globals) : option (option ptr * tcp_globals) :=
  tcp_alloc fuel TCP_PRIO_NORMAL s.

Definition tcp_new_listen (s : tcp_globals) : option ptr * tcp_globals :=
  match memp_malloc X MEMP_TCP_PCB_LISTEN s with
  | Some a =>
    (Some a,
     memp_store a
       (set_state LISTEN_CLOS (set_ttl (Ext.TCP_TTL X) (set_prio TCP_PRIO_NORMAL zero_pcb)))
       s)
  | None => (None, s)
  end.

(** [ip_set_v6(pcb, 1)] on what the allocation has returned, unchecked;
    the macro is taken to leave a null PCB alone. *)
Definition call_ip_set_v6 (pcb : option ptr) (s : tcp_globals) : option tcp_globals :=
  match pcb with
  | Some a => update a (Ext.ip_set_v6 X) s
  | None => Some s
  end.

Definition tcp_new_ip6 (fuel : nat) (s : tcp_globals) : option (option ptr * tcp_globals) :=
  '(pcb, s) ← tcp_alloc fuel TCP_PRIO_NORMAL s;
  s ← call_ip_set_v6 pcb s;
  Some (pcb, s).

Definition tcp_new_listen_ip6 (s : tcp_globals) : option (option ptr * tcp_globals) :=
  let '(pcb, s) := tcp_new_listen s in
  s ← call_ip_set_v6 pcb s;
  Some (pcb, s).

End Alloc.

(** ** The setters: [tcp_setprio], [tcp_arg], [tcp_recv], [tcp_sent],
    [tcp_err], [tcp_accept] *)
Definition tcp_setprio (X : Ext.t) (pcb : ptr) (prio : Z) (s : tcp_globals)
    : option tcp_globals :=
  p ← deref s pcb;
  _ ← LWIP_ASSERT (Ext.tcp_pcb_has_user_ref X p);
  update pcb (set_prio prio) s.

Definition tcp_arg (X : Ext.t) (pcb : ptr) (arg : option ptr) (s : tcp_globals)
    : option tcp_globals :=
  p ← deref s pcb;
  _ ← LWIP_ASSERT (Ext.tcp_pcb_has_user_ref X p);
  update pcb (set_callback_arg arg) s.

Definition tcp_recv (pcb : ptr) (recv : option callback) (s : tcp_globals)
    : option tcp_globals :=
  p ← deref s pcb;
  _ ← LWIP_ASSERT (negb (tcp_pcb_is_listen p));
  _ ← LWIP_ASSERT (negb (has_flag (flags p) TF_NOUSER));
  update pcb (set_recv recv) s.

Definition tcp_sent (pcb : ptr) (sent : option callback) (s : tcp_globals)
    : option tcp_globals :=
  p ← deref s pcb;
  _ ← LWIP_ASSERT (negb (tcp_pcb_is_listen p));
  _ ← LWIP_ASSERT (negb (has_flag (flags p) TF_NOUSER));
  update pcb (set_sent sent) s.

Definition tcp_err (pcb : ptr) (err : option callback) (s : tcp_globals)
    : option tcp_globals :=
  p ← deref s pcb;
  _ ← LWIP_ASSERT (negb (tcp_pcb_is_listen p));
  _ ← LWIP_ASSERT (negb (has_flag (flags p) TF_NOUSER));
  update pcb (set_errf err) s.

Definition tcp_accept (lpcb : ptr) (accept : option callback) (s : tcp_globals)
    : option tcp_globals :=
  lp ← deref s lpcb;
  _ ← LWIP_ASSERT (tcp_pcb_is_listen lp);
  update lpcb (set_accept accept) s.

(** ** The send queue: [tcp_sndq_pop], [tcp_segs_free], [tcp_seg_free]

    The segments are no part of the state: a call of [tcp_segs_free] is
    recorded, and [tcp_seg_free], which writes to the segment alone, leaves
    the state as it is. *)
Definition tcp_sndq_pop (X : Ext.t) (pcb : ptr) (s : tcp_globals)
    : option (seg_ptr * tcp_globals) :=
  p ← deref s pcb;
  _ ← LWIP_ASSERT (bool_decide (sndq p ≠ None));
  seg ← sndq p;
  s ← update pcb (set_sndq (Ext.seg_next X seg)) s;
  p ← deref s pcb;
  s ← (if bool_decide (sndq p = None) then update pcb (set_sndq_last None) s else Some s);
  p ← deref s pcb;
  s ← (if bool_decide (sndq_next p = Some seg)
       then update pcb (λ p, set_sndq_next (sndq p) p) s else Some s);
  let clen := u8 (Ext.seg_clen X seg) in
  (* the assertion keeps the difference in the range of the field *)
  p ← deref s pcb;
  _ ← LWIP_ASSERT (snd_queuelen p >=? clen);
  s ← update pcb (λ p, set_snd_queuelen (snd_queuelen p - clen) p) s;
  Some (seg, s).

Definition tcp_segs_free (seg : option seg_ptr) (s : tcp_globals) : tcp_globals :=
  emit (EvSegsFree seg) s.

Definition tcp_seg_free (seg : option seg_ptr) (s : tcp_globals) : tcp_globals := s.

(** ** The calls

    Every function of tcp.c that writes to memory, and [tcp_pcbs_sane];
    [tcp_state_is_active], [tcp_eff_send_mss_impl], [tcp_debug_state_str]
    and the debug printers only read.  The iterator functions are the calls
    on [tcp_conn_iter], [tcp_reg] and [tcp_rmv] the calls on one of the four
    lists. *)
Inductive tcp_call : Type :=
  | Call_tcp_init (rand : option Z)
  | Call_tcp_tmr
  | Call_tcp_close_shutdown (pcb : ptr) (rst_on_unacked_data : bool)
  | Call_tcp_close (pcb : ptr)
  | Call_tcp_shut_tx (pcb : ptr)
  | Call_tcp_close_listen (lpcb : ptr)
  | Call_tcp_abort (pcb : ptr)
  | Call_tcp_bind (pcb : ptr) (ipaddr : option ip_addr_t) (port : Z)
  | Call_tcp_listen_with_backlog (lpcb : ptr) (backlog : Z)
  | Call_tcp_backlog_set (lpcb : ptr) (new_backlog : Z)
  | Call_tcp_backlog_delayed (pcb : ptr)
  | Call_tcp_backlog_delayed_internal (pcb : ptr)
  | Call_tcp_backlog_accepted (pcb : ptr)
  | Call_tcp_backlog_accepted_internal (pcb : ptr)
  | Call_tcp_listen_dual_with_backlog (lpcb : ptr) (backlog : Z)
  | Call_tcp_update_rcv_ann_wnd (pcb : ptr)
  | Call_tcp_recved (pcb : ptr) (len : Z)
  | Call_tcp_recved_internal (pcb : ptr) (len : Z)
  | Call_tcp_new_port
  | Call_tcp_connect (pcb : ptr) (ipaddr : option ip_addr_t) (port : Z)
      (connected : option callback)
  | Call_tcp_slowtmr
  | Call_tcp_fasttmr
  | Call_tcp_txnow
  | Call_tcp_segs_free (seg : option seg_ptr)
  | Call_tcp_seg_free (seg : option seg_ptr)
  | Call_tcp_setprio (pcb : ptr) (prio : Z)
  | Call_tcp_kill_prio (prio : Z)
  | Call_tcp_kill_state (st : tcp_state)
  | Call_tcp_kill_timewait
  | Call_tcp_alloc (prio : Z)
  | Call_tcp_new
  | Call_tcp_new_listen
  | Call_tcp_new_ip6
  | Call_tcp_new_listen_ip6
  | Call_tcp_arg (pcb : ptr) (arg : option ptr)
  | Call_tcp_recv (pcb : ptr) (recv : option callback)
  | Call_tcp_sent (pcb : ptr) (sent : option callback)
  | Call_tcp_err (pcb : ptr) (err : option callback)
  | Call_tcp_accept (lpcb : ptr) (accept : option callback)
  | Call_tcp_reg (pcbs : pcb_list) (npcb : ptr)
  | Call_tcp_rmv (pcbs : pcb_list) (npcb : ptr)
  | Call_tcp_iter_start (pcblist : option ptr)
  | Call_tcp_iter_next
  | Call_tcp_iter_will_remove (pcb : ptr) (pcbs : pcb_list)
  | Call_tcp_iter_will_prepend (pcb : ptr) (pcbs : pcb_list)
  | Call_tcp_pcb_purge (pcb : ptr)
  | Call_tcp_pcb_free (pcb : ptr) (send_rst : bool) (prev : option ptr)
  | Call_tcp_move_to_time_wait (pcb : ptr)
  | Call_tcp_report_err (pcb : ptr) (err : err_t)
  | Call_tcp_sndq_pop (pcb : ptr)
  | Call_tcp_next_iss
  | Call_tcp_netif_ipv4_addr_changed_pcblist (old_addr : Z) (pcb_list : option ptr)
  | Call_tcp_netif_ipv4_addr_changed (old_addr : Z) (new_addr : option Z)
  | Call_tcp_pcbs_sane.

(** The state after a call; the value returned is dropped. *)
Definition tcp_run (X : Ext.t) (E : tcp_env) (fuel : nat) (c : tcp_call) (s : tcp_globals)
    : option tcp_globals :=
  match c with
  | Call_tcp_init rand => Some (tcp_init rand s)
  | Call_tcp_tmr => tcp_tmr E fuel s
  | Call_tcp_close_shutdown pcb rst =>
    snd <$> tcp_close_shutdown E (Ext.TCP_WND_MAX X) (Ext.tcp_send_fin X) fuel pcb rst s
  | Call_tcp_close pcb => tcp_close E (Ext.TCP_WND_MAX X) (Ext.tcp_send_fin X) fuel pcb s
  | Call_tcp_shut_tx pcb =>
    snd <$> tcp_shut_tx E (Ext.TCP_WND_MAX X) (Ext.tcp_send_fin X) fuel pcb s
  | Call_tcp_close_listen lpcb => tcp_close_listen fuel lpcb s
  | Call_tcp_abort pcb => tcp_abort E fuel pcb s
  | Call_tcp_bind pcb ipaddr port => snd <$> tcp_bind fuel pcb ipaddr port s
  | Call_tcp_listen_with_backlog lpcb n => snd <$> tcp_listen_with_backlog E fuel lpcb n s
  | Call_tcp_backlog_set lpcb n => tcp_backlog_set lpcb n s
  | Call_tcp_backlog_delayed pcb => tcp_backlog_delayed pcb s
  | Call_tcp_backlog_delayed_internal pcb => tcp_backlog_delayed_internal pcb s
  | Call_tcp_backlog_accepted pcb => tcp_backlog_accepted pcb s
  | Call_tcp_backlog_accepted_internal pcb => tcp_backlog_accepted_internal pcb s
  | Call_tcp_listen_dual_with_backlog lpcb n =>
    snd <$> tcp_listen_dual_with_backlog E fuel lpcb n s
  | Call_tcp_update_rcv_ann_wnd pcb => snd <$> tcp_update_rcv_ann_wnd X E pcb s
  | Call_tcp_recved pcb len => tcp_recved X E pcb len s
  | Call_tcp_recved_internal pcb len => tcp_recved_internal X E pcb len s
  | Call_tcp_new_port => snd <$> tcp_new_port fuel s
  | Call_tcp_connect pcb ipaddr port cb => snd <$> tcp_connect E fuel pcb ipaddr port cb s
  | Call_tcp_slowtmr => tcp_slowtmr E fuel s
  | Call_tcp_fasttmr => tcp_fasttmr E fuel s
  | Call_tcp_txnow => tcp_txnow E fuel s
  | Call_tcp_segs_free seg => Some (tcp_segs_free seg s)
  | Call_tcp_seg_free seg => Some (tcp_seg_free seg s)
  | Call_tcp_setprio pcb prio => tcp_setprio X pcb prio s
  | Call_tcp_kill_prio prio => tcp_kill_prio E fuel prio s
  | Call_tcp_kill_state st => tcp_kill_state E fuel st s
  | Call_tcp_kill_timewait => tcp_kill_timewait E fuel s
  | Call_tcp_alloc prio => snd <$> tcp_alloc X E fuel prio s
  | Call_tcp_new => snd <$> tcp_new X E fuel s
  | Call_tcp_new_listen => Some (tcp_new_listen X s).2
  | Call_tcp_new_ip6 => snd <$> tcp_new_ip6 X E fuel s
  | Call_tcp_new_listen_ip6 => snd <$> tcp_new_listen_ip6 X s
  | Call_tcp_arg pcb arg => tcp_arg X pcb arg s
  | Call_tcp_recv pcb recv => tcp_recv pcb recv s
  | Call_tcp_sent pcb sent => tcp_sent pcb sent s
  | Call_tcp_err pcb err => tcp_err pcb err s
  | Call_tcp_accept lpcb accept => tcp_accept lpcb accept s
  | Call_tcp_reg pcbs npcb => tcp_reg pcbs npcb s
  | Call_tcp_rmv pcbs npcb => tcp_rmv fuel pcbs npcb s
  | Call_tcp_iter_start pcblist => Some (set_tcp_conn_iter (tcp_iter_start pcblist) s)
  | Call_tcp_iter_next =>
    r ← tcp_iter_next (heap s) (tcp_conn_iter s); Some (set_tcp_conn_iter r.2 s)
  | Call_tcp_iter_will_remove pcb pcbs => iter_will_remove fuel pcb pcbs s
  | Call_tcp_iter_will_prepend pcb pcbs => iter_will_prepend pcb pcbs s
  | Call_tcp_pcb_purge pcb => tcp_pcb_purge pcb s
  | Call_tcp_pcb_free pcb send_rst prev => tcp_pcb_free E fuel pcb send_rst prev s
  | Call_tcp_move_to_time_wait pcb => tcp_move_to_time_wait fuel pcb s
  | Call_tcp_report_err pcb err => tcp_report_err pcb err s
  | Call_tcp_sndq_pop pcb => snd <$> tcp_sndq_pop X pcb s
  | Call_tcp_next_iss => Some (tcp_next_iss s).2
  | Call_tcp_netif_ipv4_addr_changed_pcblist old_addr pcb_list =>
    tcp_netif_ipv4_addr_changed_pcblist E fuel fuel old_addr pcb_list s
  | Call_tcp_netif_ipv4_addr_changed old_addr new_addr =>
    tcp_netif_ipv4_addr_changed E fuel old_addr new_addr s
  | Call_tcp_pcbs_sane => _ ← tcp_pcbs_sane fuel s; Some s
  end.

(** The calls that read or write the send queue of the PCB they are handed
    outside a purge: [tcp_recved] and [tcp_recved_internal] call
    [tcp_output] on a PCB in any state, [tcp_sndq_pop] takes the first
    segment off the queue. *)
Definition queue_call (c : tcp_call) : bool :=
  match c with
  | Call_tcp_recved _ _ | Call_tcp_recved_internal _ _ | Call_tcp_sndq_pop _ => true
  | _ => false
  end.

(** What the calls need of the functions they take from outside:
    [tcp_send_fin] and [ip_set_v6] leave [state] alone. *)
Definition ext_keeps_state (X : Ext.t) : Prop :=
  (∀ p, state (Ext.tcp_send_fin X p).2 = state p)
  ∧ (∀ p, state (Ext.ip_set_v6 X p) = state p).

(** [tcp_output] on a TIME_WAIT PCB with an empty queue leaves the queue
    empty. *)
Definition tcp_output_spares_tw (E : tcp_env) : Prop :=
  ∀ p, state p = TIME_WAIT → queue_empty p → queue_empty (tcp_output E p).

(** Headers and collaborators to go with [E0]: lwIP's sequence number
    comparisons, a window of [TCP_WND], a pool of four blocks of which the
    first free one is handed out, a [tcp_send_fin] that succeeds. *)
Definition X0 : Ext.t :=
  {| Ext.TCP_WND_MAX := λ _, 2144;
     Ext.TCP_WND_UPDATE_THRESHOLD := 536;
     Ext.TCP_SEQ_GT := λ a b, 0 <? s32 (u32 (a - b));
     Ext.TCP_SEQ_GEQ := λ a b, 0 <=? s32 (u32 (a - b));
     Ext.TCP_KEEPIDLE_DEFAULT := 7200000;
     Ext.TCP_KEEPINTVL_DEFAULT := 75000;
     Ext.TCP_KEEPCNT_DEFAULT := 9;
     Ext.TCP_SND_BUF := 1072;
     Ext.TCP_TTL := 255;
     Ext.tcp_pcb_has_user_ref :=
       λ p, tcp_pcb_is_listen p || negb (has_flag (flags p) TF_NOUSER);
     Ext.ip_set_v6 :=
       λ p, set_remote_ip (IpAddr IPv6 (ip_val (remote_ip p)))
              (set_local_ip (IpAddr IPv6 (ip_val (local_ip p))) p);
     Ext.tcp_send_fin := λ p, (ERR_OK, p);
     Ext.memp_pick :=
       λ _ h, find (λ a, bool_decide (h !! a = None))
                [1%positive; 2%positive; 3%positive; 4%positive];
     Ext.seg_next := λ _, None;
     Ext.seg_clen := λ _, 1 |}.

(** The application reads 1000 bytes from the TIME_WAIT PCB of [tw_state]:
    the window update goes out. *)
Definition recved_tw_run : option tcp_globals :=
  tcp_run X0 E0 1 (Call_tcp_recved 1%positive 1000) tw_state.

(** The application closes the connection of [backlog_state], which has
    not read all the data: the PCB goes to the tw list after a RST. *)
Definition close_unread_run : option tcp_globals :=
  tcp_run X0 E0 2 (Call_tcp_close 2%positive) backlog_state.

(** * Properties *)

(** ** Flag arithmetic *)

Lemma land_zero_bits (x m : Z) (n : Z) :
  Z.land x m = 0 → 0 ≤ n → Z.testbit x n && Z.testbit m n = false.
Proof.
  intros H Hn. rewrite <- Z.land_spec, H. apply Z.bits_0.
Qed.

Lemma has_flag_false (x m : Z) : has_flag x m = false ↔ Z.land x m = 0.
Proof.
  unfold has_flag. rewrite negb_false_iff. apply Z.eqb_eq.
Qed.

Lemma has_flag_true (x m : Z) : has_flag x m = true ↔ Z.land x m ≠ 0.
Proof.
  unfold has_flag. rewrite negb_true_iff. apply Z.eqb_neq.
Qed.

Lemma has_flag_clear_same (x m : Z) : has_flag (clear_flag x m) m = false.
Proof.
  apply has_flag_false. unfold clear_flag. apply Z.bits_inj'. intros n Hn.
  rewrite !Z.land_spec, Z.lnot_spec, Z.bits_0 by done.
  destruct (Z.testbit x n), (Z.testbit m n); done.
Qed.

Lemma has_flag_set_same (x m : Z) : m ≠ 0 → has_flag (set_flag x m) m = true.
Proof.
  intros Hm. apply has_flag_true. unfold set_flag.
  replace (Z.land (Z.lor x m) m) with m; [done|].
  apply Z.bits_inj'. intros n Hn. rewrite Z.land_spec, Z.lor_spec.
  destruct (Z.testbit x n), (Z.testbit m n); done.
Qed.

Lemma has_flag_clear_other (x m m' : Z) :
  Z.land m m' = 0 → has_flag (clear_flag x m) m' = has_flag x m'.
Proof.
  intros Hd. unfold has_flag, clear_flag. f_equal. f_equal.
  apply Z.bits_inj'. intros n Hn. rewrite !Z.land_spec, Z.lnot_spec by done.
  pose proof (land_zero_bits _ _ n Hd Hn).
  destruct (Z.testbit x n), (Z.testbit m n), (Z.testbit m' n); done.
Qed.

Lemma has_flag_set_other (x m m' : Z) :
  Z.land m m' = 0 → has_flag (set_flag x m) m' = has_flag x m'.
Proof.
  intros Hd. unfold has_flag, set_flag. f_equal. f_equal.
  apply Z.bits_inj'. intros n Hn. rewrite !Z.land_spec, Z.lor_spec.
  pose proof (land_zero_bits _ _ n Hd Hn).
  destruct (Z.testbit x n), (Z.testbit m n), (Z.testbit m' n); done.
Qed.

Lemma clear_set_flag (x m : Z) : has_flag x m = false → clear_flag (set_flag x m) m = x.
Proof.
  intros H%has_flag_false. unfold clear_flag, set_flag.
  apply Z.bits_inj'. intros n Hn. rewrite Z.land_spec, Z.lor_spec, Z.lnot_spec by done.
  pose proof (land_zero_bits _ _ n H Hn).
  destruct (Z.testbit x n), (Z.testbit m n); done.
Qed.

Lemma has_flag_clear_or_l (x m m' : Z) : has_flag (clear_flag x (Z.lor m m')) m = false.
Proof.
  apply has_flag_false. unfold clear_flag. apply Z.bits_inj'. intros n Hn.
  rewrite !Z.land_spec, Z.lnot_spec, Z.lor_spec, Z.bits_0 by done.
  destruct (Z.testbit x n), (Z.testbit m n), (Z.testbit m' n); done.
Qed.

Lemma has_flag_clear_or_r (x m m' : Z) : has_flag (clear_flag x (Z.lor m m')) m' = false.
Proof.
  apply has_flag_false. unfold clear_flag. apply Z.bits_inj'. intros n Hn.
  rewrite !Z.land_spec, Z.lnot_spec, Z.lor_spec, Z.bits_0 by done.
  destruct (Z.testbit x n), (Z.testbit m n), (Z.testbit m' n); done.
Qed.

(** ** Memory *)

Lemma deref_update_same (p : ptr) (f : tcp_pcb → tcp_pcb) (s s' : tcp_globals) :
  update p f s = Some s' → deref s' p = f <$> deref s p.
Proof.
  unfold update, deref. destruct (heap s !! p) as [pcb|] eqn:Hp; simpl; [|done].
  intros [= <-]. simpl. by rewrite lookup_insert_eq.
Qed.

Lemma deref_update_other (p q : ptr) (f : tcp_pcb → tcp_pcb) (s s' : tcp_globals) :
  update p f s = Some s' → p ≠ q → deref s' q = deref s q.
Proof.
  unfold update, deref. destruct (heap s !! p) as [pcb|] eqn:Hp; simpl; [|done].
  intros [= <-] Hne. simpl. by rewrite lookup_insert_ne.
Qed.

Lemma update_Some (p : ptr) (f : tcp_pcb → tcp_pcb) (s : tcp_globals) (pcb : tcp_pcb) :
  deref s p = Some pcb → update p f s = Some (set_heap (<[p := f pcb]> (heap s)) s).
Proof. unfold update. by intros ->. Qed.

Lemma update_inv (p : ptr) (f : tcp_pcb → tcp_pcb) (s s' : tcp_globals) :
  update p f s = Some s' →
  ∃ pcb, deref s p = Some pcb ∧ s' = set_heap (<[p := f pcb]> (heap s)) s.
Proof.
  unfold update. destruct (deref s p) as [pcb|]; simpl; [|done].
  intros [= <-]. eauto.
Qed.

Lemma u8_small (x : Z) : 0 ≤ x < 256 → u8 x = x.
Proof. intros H. unfold u8. apply Z.mod_small. lia. Qed.

Lemma u16_small (x : Z) : 0 ≤ x < 65536 → u16 x = x.
Proof. intros H. unfold u16. apply Z.mod_small. lia. Qed.

Ltac heap_simpl :=
  simpl;
  repeat (progress (repeat first
    [ rewrite lookup_insert_eq
    | rewrite lookup_insert_ne by congruence
    | rewrite lookup_delete_eq
    | rewrite lookup_delete_ne by congruence ]);
    simpl).

(** ** Evaluations at the states above *)

(** C1 (the code departs from the claim).  With PCB 1 (priority 5, idle
    for 100 ticks) ahead of PCB 2 (priority 3, idle for 10 ticks) on the
    active list, both eligible for [tcp_kill_prio(TCP_PRIO_NORMAL)], the
    call frees PCB 1 and keeps PCB 2: the victim is not the eligible PCB
    of minimum priority. *)
Theorem C1_kill_prio_frees_pcb_of_higher_prio :
  ∃ s', tcp_kill_prio E0 2 TCP_PRIO_NORMAL kill_prio_state = Some s'
        ∧ prio <$> deref kill_prio_state 1%positive = Some 5
        ∧ prio <$> deref kill_prio_state 2%positive = Some 3
        ∧ deref s' 1%positive = None
        ∧ tcp_active_pcbs s' = Some 2%positive
        ∧ prio <$> deref s' 2%positive = Some 3.
Proof. eexists. split; [vm_compute; reflexivity|]. vm_compute. done. Qed.

(** C2 (the code departs from the claim).  With a listener on port 80
    already on the listen list, [tcp_listen_dual_with_backlog] on a second
    listen PCB with local port 80 returns [(err_t)NULL], which is [ERR_OK]
    and not [ERR_USE], and leaves the module as it was. *)
Theorem C2_listen_dual_port_in_use_returns_ERR_OK :
  tcp_listen_dual_with_backlog E0 2 2%positive 4 listen_dual_state
    = Some (ERR_OK, listen_dual_state)
  ∧ local_port <$> deref listen_dual_state 1%positive = Some 80
  ∧ local_port <$> deref listen_dual_state 2%positive = Some 80
  ∧ tcp_listen_pcbs listen_dual_state = Some 1%positive
  ∧ ERR_OK ≠ ERR_USE.
Proof. vm_compute. repeat split; done. Qed.

(** ** Backlog accounting *)

Lemma backlog_delayed_fresh (s : tcp_globals) (pcb l : ptr) (p lp : tcp_pcb) :
  deref s pcb = Some p → listener p = Some l → deref s l = Some lp → pcb ≠ l →
  0 ≤ accepts_pending lp < 255 → has_flag (flags p) TF_BACKLOGPEND = false →
  tcp_backlog_delayed_internal pcb s =
    Some (set_heap (<[pcb := set_flags (set_flag (flags p) TF_BACKLOGPEND) p]>
                     (<[l := set_accepts_pending (accepts_pending lp + 1) lp]> (heap s))) s).
Proof.
  intros Hp Hl Hlp Hne Hap Hf.
  unfold tcp_backlog_delayed_internal. rewrite Hp. simpl. rewrite Hl, Hf. simpl.
  rewrite (update_Some _ _ _ _ Hlp). simpl.
  unfold deref at 1. simpl. heap_simpl.
  rewrite u8_small by lia.
  destruct (accepts_pending lp + 1 =? 0) eqn:HZ; [lia|]. simpl.
  unfold update, deref. simpl. heap_simpl. unfold deref in Hp. by rewrite Hp.
Qed.

Lemma backlog_delayed_noop (s : tcp_globals) (pcb : ptr) (p : tcp_pcb) :
  deref s pcb = Some p →
  listener p = None ∨ has_flag (flags p) TF_BACKLOGPEND = true →
  tcp_backlog_delayed_internal pcb s = Some s.
Proof.
  intros Hp H. unfold tcp_backlog_delayed_internal. rewrite Hp. simpl.
  destruct (listener p); [|done]. destruct H as [H | H]; [done | by rewrite H].
Qed.

Lemma backlog_accepted_pending (s : tcp_globals) (pcb l : ptr) (p lp : tcp_pcb) :
  deref s pcb = Some p → listener p = Some l → deref s l = Some lp → pcb ≠ l →
  0 < accepts_pending lp ≤ 255 → has_flag (flags p) TF_BACKLOGPEND = true →
  tcp_backlog_accepted_internal pcb s =
    Some (set_heap (<[pcb := set_flags (clear_flag (flags p) TF_BACKLOGPEND) p]>
                     (<[l := set_accepts_pending (accepts_pending lp - 1) lp]> (heap s))) s).
Proof.
  intros Hp Hl Hlp Hne Hap Hf.
  unfold tcp_backlog_accepted_internal. rewrite Hp. simpl. rewrite Hl, Hf, Hlp. simpl.
  destruct (accepts_pending lp =? 0) eqn:HZ; [lia|]. simpl.
  rewrite (update_Some _ _ _ _ Hlp). simpl.
  rewrite u8_small by lia.
  unfold update, deref. simpl. heap_simpl. unfold deref in Hp. by rewrite Hp.
Qed.

Lemma backlog_accepted_noop (s : tcp_globals) (pcb : ptr) (p : tcp_pcb) :
  deref s pcb = Some p →
  listener p = None ∨ has_flag (flags p) TF_BACKLOGPEND = false →
  tcp_backlog_accepted_internal pcb s = Some s.
Proof.
  intros Hp H. unfold tcp_backlog_accepted_internal. rewrite Hp. simpl.
  destruct (listener p); [|done]. destruct H as [H | H]; [done | by rewrite H].
Qed.

(** The two functions fail only on the assertion "accepts_pending != 0". *)
Lemma backlog_delayed_inv (s s1 : tcp_globals) (pcb l : ptr) (p lp : tcp_pcb) :
  deref s pcb = Some p → listener p = Some l → deref s l = Some lp →
  0 ≤ accepts_pending lp ≤ 255 → has_flag (flags p) TF_BACKLOGPEND = false →
  tcp_backlog_delayed_internal pcb s = Some s1 → accepts_pending lp < 255.
Proof.
  intros Hp Hl Hlp Hap Hf.
  unfold tcp_backlog_delayed_internal. rewrite Hp. simpl. rewrite Hl, Hf. simpl.
  rewrite (update_Some _ _ _ _ Hlp). simpl.
  unfold deref at 1. simpl. heap_simpl.
  destruct (decide (accepts_pending lp = 255)) as [->|]; [done|lia].
Qed.

Lemma backlog_accepted_inv (s s1 : tcp_globals) (pcb l : ptr) (p lp : tcp_pcb) :
  deref s pcb = Some p → listener p = Some l → deref s l = Some lp →
  0 ≤ accepts_pending lp ≤ 255 → has_flag (flags p) TF_BACKLOGPEND = true →
  tcp_backlog_accepted_internal pcb s = Some s1 → 0 < accepts_pending lp.
Proof.
  intros Hp Hl Hlp Hap Hf.
  unfold tcp_backlog_accepted_internal. rewrite Hp. simpl. rewrite Hl, Hf, Hlp. simpl.
  destruct (accepts_pending lp =? 0) eqn:HZ; [done|lia].
Qed.

(** C7 as stated fails: for a connection that is already pending,
    [backlog_delayed] does nothing and [backlog_accepted] then releases the
    slot, so [accepts_pending] ends one below its original value. *)
Lemma C7_counterexample :
  ¬ (∀ (s s1 s2 : tcp_globals) (pcb l : ptr) (p : tcp_pcb),
       deref s pcb = Some p → listener p = Some l →
       tcp_backlog_delayed_internal pcb s = Some s1 →
       tcp_backlog_accepted_internal pcb s1 = Some s2 →
       accepts_pending <$> deref s2 l = accepts_pending <$> deref s l).
Proof.
  intros H.
  assert (Hd : tcp_backlog_delayed_internal 2%positive backlog_state = Some backlog_state)
    by reflexivity.
  destruct (tcp_backlog_accepted_internal 2%positive backlog_state) as [s2|] eqn:Ha;
    [|vm_compute in Ha; discriminate].
  specialize (H backlog_state backlog_state s2 2%positive 1%positive _ eq_refl eq_refl Hd Ha).
  vm_compute in Ha. injection Ha as <-. vm_compute in H. discriminate.
Qed.

(** C7 (amended).  For a connection PCB at [pcb]:
    - without a listener both functions leave the module unchanged;
    - with a listener at [l] (another object, its [accepts_pending] an
      8-bit count [n]):
      [backlog_delayed] then [backlog_accepted] leaves [accepts_pending] at
      its original value when the PCB is not pending at the start (and
      [n < 255], the assertion of the source), and one below it when the
      PCB is pending at the start;
      [backlog_delayed] counts and sets [TF_BACKLOGPEND] exactly when the
      PCB is not pending, and a second call changes nothing;
      [backlog_accepted] uncounts and clears the flag exactly when the PCB
      is pending, a second call changes nothing, and the count stays at or
      above zero. *)
Theorem C7_backlog_delayed_accepted (s : tcp_globals) (pcb : ptr) (p : tcp_pcb) :
  deref s pcb = Some p →
  (listener p = None →
     tcp_backlog_delayed_internal pcb s = Some s
     ∧ tcp_backlog_accepted_internal pcb s = Some s)
  ∧ (∀ (l : ptr) (lp : tcp_pcb),
       listener p = Some l → deref s l = Some lp → pcb ≠ l →
       0 ≤ accepts_pending lp ≤ 255 →
       let n := accepts_pending lp in
       let pend := has_flag (flags p) TF_BACKLOGPEND in
       let count (s' : tcp_globals) := accepts_pending <$> deref s' l in
       let flag (s' : tcp_globals) :=
         (λ q, has_flag (flags q) TF_BACKLOGPEND) <$> deref s' pcb in
       (pend = false → n < 255 →
          ∃ s1 s2, tcp_backlog_delayed_internal pcb s = Some s1
                   ∧ tcp_backlog_accepted_internal pcb s1 = Some s2
                   ∧ count s2 = Some n ∧ flag s2 = Some false)
       ∧ (pend = true → 0 < n →
          ∃ s2, tcp_backlog_delayed_internal pcb s = Some s
                ∧ tcp_backlog_accepted_internal pcb s = Some s2
                ∧ count s2 = Some (n - 1) ∧ flag s2 = Some false)
       ∧ (pend = true ∨ n < 255 → is_Some (tcp_backlog_delayed_internal pcb s))
       ∧ (∀ s1, tcp_backlog_delayed_internal pcb s = Some s1 →
            tcp_backlog_delayed_internal pcb s1 = Some s1
            ∧ flag s1 = Some true
            ∧ count s1 = Some (if pend then n else n + 1))
       ∧ (pend = false ∨ 0 < n → is_Some (tcp_backlog_accepted_internal pcb s))
       ∧ (∀ s1, tcp_backlog_accepted_internal pcb s = Some s1 →
            tcp_backlog_accepted_internal pcb s1 = Some s1
            ∧ flag s1 = Some false
            ∧ count s1 = Some (if pend then n - 1 else n)
            ∧ 0 ≤ (if pend then n - 1 else n))).
Proof.
  intros Hp. split.
  { intros Hl. split; [apply (backlog_delayed_noop _ _ p) | apply (backlog_accepted_noop _ _ p)];
      auto. }
  intros l lp Hl Hlp Hne Hn n pend count flag.
  assert (Hbit : TF_BACKLOGPEND ≠ 0) by done.
  (* the state after a counted [delayed] and after a counted [accepted] *)
  set (sd := set_heap (<[pcb := set_flags (set_flag (flags p) TF_BACKLOGPEND) p]>
                         (<[l := set_accepts_pending (n + 1) lp]> (heap s))) s).
  set (sa := set_heap (<[pcb := set_flags (clear_flag (flags p) TF_BACKLOGPEND) p]>
                         (<[l := set_accepts_pending (n - 1) lp]> (heap s))) s).
  assert (Hsd_pcb : deref sd pcb = Some (set_flags (set_flag (flags p) TF_BACKLOGPEND) p)).
  { unfold deref, sd. simpl. by heap_simpl. }
  assert (Hsd_l : deref sd l = Some (set_accepts_pending (n + 1) lp)).
  { unfold deref, sd. simpl. by heap_simpl. }
  assert (Hsa_pcb : deref sa pcb = Some (set_flags (clear_flag (flags p) TF_BACKLOGPEND) p)).
  { unfold deref, sa. simpl. by heap_simpl. }
  assert (Hsa_l : deref sa l = Some (set_accepts_pending (n - 1) lp)).
  { unfold deref, sa. simpl. by heap_simpl. }
  assert (Hdel : pend = false → n < 255 → tcp_backlog_delayed_internal pcb s = Some sd).
  { intros Hf Hlt. apply backlog_delayed_fresh; auto. fold n. lia. }
  assert (Hacc : pend = true → 0 < n → tcp_backlog_accepted_internal pcb s = Some sa).
  { intros Hf Hlt. apply backlog_accepted_pending; auto. fold n. lia. }
  assert (Hdel' : pend = true → tcp_backlog_delayed_internal pcb s = Some s).
  { intros Hf. apply (backlog_delayed_noop _ _ p); auto. }
  assert (Hacc' : pend = false → tcp_backlog_accepted_internal pcb s = Some s).
  { intros Hf. apply (backlog_accepted_noop _ _ p); auto. }
  repeat split.
  - intros Hf Hlt. exists sd. eexists. split; [by apply Hdel|]. split.
    + eapply backlog_accepted_pending;
        [exact Hsd_pcb | exact Hl | exact Hsd_l | done | simpl; lia
        | simpl; by apply has_flag_set_same].
    + unfold count, flag, deref. simpl. heap_simpl. split.
      * f_equal. lia.
      * by rewrite has_flag_clear_same.
  - intros Hf Hlt. exists sa. split; [by apply Hdel'|]. split; [by apply Hacc|].
    unfold count, flag. rewrite Hsa_l, Hsa_pcb. simpl. by rewrite has_flag_clear_same.
  - intros [Hf|Hlt].
    + rewrite Hdel'; eauto.
    + destruct pend eqn:Hf; [rewrite Hdel' | rewrite Hdel]; eauto.
  - destruct pend eqn:Hf.
    + rewrite Hdel' in H by done. injection H as <-. by apply Hdel'.
    + pose proof (backlog_delayed_inv _ _ _ _ _ _ Hp Hl Hlp Hn Hf H) as Hlt.
      rewrite Hdel in H by done. injection H as <-.
      apply (backlog_delayed_noop _ _ _ Hsd_pcb). right. simpl. by apply has_flag_set_same.
  - destruct pend eqn:Hf.
    + rewrite Hdel' in H by done. injection H as <-. unfold flag. rewrite Hp. simpl.
      by f_equal.
    + pose proof (backlog_delayed_inv _ _ _ _ _ _ Hp Hl Hlp Hn Hf H) as Hlt.
      rewrite Hdel in H by done. injection H as <-. unfold flag. rewrite Hsd_pcb. simpl.
      f_equal. by apply has_flag_set_same.
  - destruct pend eqn:Hf.
    + rewrite Hdel' in H by done. injection H as <-. unfold count. by rewrite Hlp.
    + pose proof (backlog_delayed_inv _ _ _ _ _ _ Hp Hl Hlp Hn Hf H) as Hlt.
      rewrite Hdel in H by done. injection H as <-. unfold count. by rewrite Hsd_l.
  - intros [Hf|Hlt].
    + rewrite Hacc'; eauto.
    + destruct pend eqn:Hf; [rewrite Hacc | rewrite Hacc']; eauto.
  - destruct pend eqn:Hf.
    + pose proof (backlog_accepted_inv _ _ _ _ _ _ Hp Hl Hlp Hn Hf H) as Hlt.
      rewrite Hacc in H by done. injection H as <-.
      apply (backlog_accepted_noop _ _ _ Hsa_pcb). right. simpl. apply has_flag_clear_same.
    + rewrite Hacc' in H by done. injection H as <-. by apply Hacc'.
  - destruct pend eqn:Hf.
    + pose proof (backlog_accepted_inv _ _ _ _ _ _ Hp Hl Hlp Hn Hf H) as Hlt.
      rewrite Hacc in H by done. injection H as <-. unfold flag. rewrite Hsa_pcb. simpl.
      f_equal. apply has_flag_clear_same.
    + rewrite Hacc' in H by done. injection H as <-. unfold flag. rewrite Hp. simpl.
      by f_equal.
  - destruct pend eqn:Hf.
    + pose proof (backlog_accepted_inv _ _ _ _ _ _ Hp Hl Hlp Hn Hf H) as Hlt.
      rewrite Hacc in H by done. injection H as <-. unfold count. by rewrite Hsa_l.
    + rewrite Hacc' in H by done. injection H as <-. unfold count. by rewrite Hlp.
  - destruct pend eqn:Hf; [|lia].
    pose proof (backlog_accepted_inv _ _ _ _ _ _ Hp Hl Hlp Hn Hf H) as Hlt. lia.
Qed.

Lemma C7_backlog_witness :
  ∃ s1 s2, tcp_backlog_delayed_internal 2%positive backlog_fresh_state = Some s1
           ∧ tcp_backlog_accepted_internal 2%positive s1 = Some s2
           ∧ accepts_pending <$> deref s2 1%positive = Some 0.
Proof.
  destruct (C7_backlog_delayed_accepted backlog_fresh_state 2%positive _ eq_refl) as [_ H].
  destruct (H 1%positive _ eq_refl eq_refl ltac:(done) ltac:(simpl; lia)) as (Hrt & _).
  destruct (Hrt eq_refl ltac:(simpl; lia)) as (s1 & s2 & ? & ? & ? & ?). eauto.
Defined.

(** ** Lists in memory *)

Lemma lseg_cons (h : gmap ptr tcp_pcb) (p q : option ptr) (a : ptr) (l : list ptr) :
  lseg h p (a :: l) q ↔ p = Some a ∧ ∃ pcb, h !! a = Some pcb ∧ lseg h (next pcb) l q.
Proof.
  simpl. split.
  - intros [-> H]. split; [done|]. destruct (h !! a) as [pcb|]; [eauto|done].
  - intros [-> (pcb & -> & H)]. done.
Qed.

Lemma chain_nil (h : gmap ptr tcp_pcb) (p : option ptr) : chain h p [] ↔ p = None.
Proof. done. Qed.

Lemma chain_cons (h : gmap ptr tcp_pcb) (p : option ptr) (a : ptr) (l : list ptr) :
  chain h p (a :: l) ↔ p = Some a ∧ ∃ pcb, h !! a = Some pcb ∧ chain h (next pcb) l.
Proof. apply lseg_cons. Qed.

Lemma lseg_app (h : gmap ptr tcp_pcb) (p q : option ptr) (l1 l2 : list ptr) :
  lseg h p (l1 ++ l2) q ↔ ∃ r, lseg h p l1 r ∧ lseg h r l2 q.
Proof.
  revert p. induction l1 as [|a l1 IH]; intros p; simpl.
  - split; [eauto|]. by intros (r & -> & H).
  - split.
    + intros [-> H]. destruct (h !! a) as [pcb|]; [|done].
      apply IH in H as (r & H1 & H2). eauto.
    + intros (r & [-> H1] & H2). split; [done|].
      destruct (h !! a) as [pcb|]; [|done]. apply IH. eauto.
Qed.

Lemma lseg_det (h : gmap ptr tcp_pcb) (p q : option ptr) (l1 l2 : list ptr) :
  lseg h p l1 None → lseg h p l2 None → l1 = l2.
Proof.
  revert p l2. induction l1 as [|a l1 IH]; intros p [|b l2]; simpl.
  - done.
  - intros -> [? _]. done.
  - intros [-> _] ?. done.
  - intros [-> H1] [[= <-] H2]. destruct (h !! a) as [pcb|]; [|done].
    f_equal. eauto.
Qed.

Lemma chain_det (h : gmap ptr tcp_pcb) (p : option ptr) (l1 l2 : list ptr) :
  chain h p l1 → chain h p l2 → l1 = l2.
Proof. apply lseg_det. exact None. Qed.

Lemma lseg_lookup (h : gmap ptr tcp_pcb) (p q : option ptr) (l : list ptr) (a : ptr) :
  lseg h p l q → a ∈ l → is_Some (h !! a).
Proof.
  revert p. induction l as [|b l IH]; intros p; simpl.
  - intros _ H. by apply elem_of_nil in H.
  - intros [-> H] [->|Hin]%elem_of_cons.
    + destruct (h !! b); [eauto|done].
    + destruct (h !! b) as [pcb|]; [eauto|done].
Qed.

(** A list that ends in [NULL] visits no address twice. *)
Lemma chain_NoDup (h : gmap ptr tcp_pcb) (p : option ptr) (l : list ptr) :
  chain h p l → NoDup l.
Proof.
  revert p. induction l as [|a l IH]; intros p.
  - constructor.
  - intros H. pose proof H as (-> & pcb & Ha & Hl)%chain_cons.
    constructor; [|eauto].
    intros (l1 & l2 & ->)%list_elem_of_split.
    apply lseg_app in Hl as (r & _ & Hr).
    pose proof Hr as (-> & pcb' & Ha' & Hl2)%lseg_cons.
    rewrite Ha in Ha'. injection Ha' as <-.
    assert (Hsub : chain h (next pcb) l2) by done.
    assert (Hfull : chain h (next pcb) (l1 ++ a :: l2)).
    { apply lseg_app. exists (Some a). split; [|done].
      apply chain_cons in H as (_ & pcb2 & Ha2 & Hl').
      rewrite Ha in Ha2. injection Ha2 as <-.
      by apply lseg_app in Hl' as (r & Hl1 & (-> & _)%lseg_cons). }
    pose proof (chain_det _ _ _ _ Hsub Hfull) as Heq.
    apply (f_equal length) in Heq. rewrite length_app in Heq. simpl in Heq. lia.
Qed.

(** A list depends on the [next] fields of its members only. *)
Lemma lseg_ext (h h' : gmap ptr tcp_pcb) (p q : option ptr) (l : list ptr) :
  (∀ a, a ∈ l → next <$> h' !! a = next <$> h !! a) →
  lseg h p l q → lseg h' p l q.
Proof.
  revert p. induction l as [|a l IH]; intros p Hext; simpl; [done|].
  intros [-> H]. split; [done|].
  pose proof (Hext a ltac:(left)) as Ha.
  destruct (h !! a) as [pcb|]; [|done].
  destruct (h' !! a) as [pcb'|]; [|done].
  simpl in Ha. injection Ha as ->. apply IH; [|done].
  intros b Hb. apply Hext. by right.
Qed.

Lemma lseg_insert_other (h : gmap ptr tcp_pcb) (p q : option ptr) (l : list ptr)
    (a : ptr) (pcb : tcp_pcb) :
  a ∉ l → lseg h p l q → lseg (<[a := pcb]> h) p l q.
Proof.
  intros Hni. apply lseg_ext. intros b Hb. rewrite lookup_insert_ne; [done|].
  intros ->. done.
Qed.

Lemma lseg_delete_other (h : gmap ptr tcp_pcb) (p q : option ptr) (l : list ptr) (a : ptr) :
  a ∉ l → lseg h p l q → lseg (delete a h) p l q.
Proof.
  intros Hni. apply lseg_ext. intros b Hb. rewrite lookup_delete_ne; [done|].
  intros ->. done.
Qed.

(** Rewriting a member without touching its link. *)
Lemma lseg_insert_same_next (h : gmap ptr tcp_pcb) (p q : option ptr) (l : list ptr)
    (a : ptr) (pcb pcb' : tcp_pcb) :
  h !! a = Some pcb → next pcb' = next pcb → lseg h p l q → lseg (<[a := pcb']> h) p l q.
Proof.
  intros Ha Hn. apply lseg_ext. intros b Hb.
  destruct (decide (a = b)) as [<-|Hne].
  - rewrite lookup_insert_eq, Ha. simpl. by f_equal.
  - by rewrite lookup_insert_ne.
Qed.

(** ** The ephemeral port allocator *)

Lemma port_on_nil h port : ¬ port_on h [] port.
Proof. intros (a & pcb & Ha & _). by apply elem_of_nil in Ha. Qed.

Lemma port_on_cons h a l pcb port :
  h !! a = Some pcb →
  port_on h (a :: l) port ↔ local_port pcb = port ∨ port_on h l port.
Proof.
  intros Ha. split.
  - intros (b & pcb' & [->|Hb]%elem_of_cons & Hpcb & Hport).
    + rewrite Ha in Hpcb. injection Hpcb as <-. by left.
    + right. by exists b, pcb'.
  - intros [Hport | (b & pcb' & Hb & Hpcb & Hport)].
    + exists a, pcb. split; [by left|done].
    + exists b, pcb'. split; [by right|done].
Qed.

Lemma port_on_list_spec (fuel : nat) h p l port :
  chain h p l → (length l ≤ fuel)%nat →
  ∃ b, port_on_list fuel h p port = Some b ∧ (b = true ↔ port_on h l port).
Proof.
  revert p fuel. induction l as [|a l IH]; intros p fuel Hc Hlen.
  - apply chain_nil in Hc as ->. exists false. destruct fuel; simpl; (split; [done|]);
      (split; [done|]); by intros ?%port_on_nil.
  - apply chain_cons in Hc as (-> & pcb & Ha & Hc).
    destruct fuel as [|fuel]; simpl in Hlen; [lia|]. simpl. rewrite Ha. simpl.
    destruct (local_port pcb =? port) eqn:Hp.
    + exists true. split; [done|]. split; [|done]. intros _.
      apply (port_on_cons _ _ _ _ _ Ha). left. lia.
    + destruct (IH (next pcb) fuel Hc ltac:(lia)) as (b & -> & Hb).
      exists b. split; [done|]. rewrite Hb, (port_on_cons _ _ _ _ _ Ha). 
      split; [by right|]. intros [?|?]; [lia|done].
Qed.

Lemma port_on_lists_spec (fuel : nat) s ls lists port :
  lists_are s ls → (∀ l, length (ls l) ≤ fuel)%nat →
  ∃ b, port_on_lists fuel s lists port = Some b
       ∧ (b = true ↔ ∃ l, l ∈ lists ∧ port_on (heap s) (ls l) port).
Proof.
  intros Hls Hlen. induction lists as [|l lists IH]; simpl.
  - exists false. split; [done|]. split; [done|]. intros (l & Hl & _). by apply elem_of_nil in Hl.
  - destruct (port_on_list_spec fuel _ _ _ port (Hls l) (Hlen l)) as (b & -> & Hb). simpl.
    destruct b.
    + exists true. split; [done|]. split; [|done]. intros _. exists l. split; [by left|].
      by apply Hb.
    + destruct IH as (b' & -> & Hb'). exists b'. split; [done|]. rewrite Hb'. split.
      * intros (l' & Hl' & H). exists l'. split; [by right|done].
      * intros (l' & [->|Hl']%elem_of_cons & H); [|by exists l'].
        apply Hb in H. done.
Qed.

Lemma all_pcb_lists (l : pcb_list) : l ∈ tcp_pcb_lists.
Proof. destruct l; unfold tcp_pcb_lists; set_solver. Qed.

Lemma port_scan_spec (fuel : nat) s ls port :
  lists_are s ls → (∀ l, length (ls l) ≤ fuel)%nat →
  ∃ b, port_on_lists fuel s tcp_pcb_lists port = Some b
       ∧ (b = true ↔ port_held s ls port).
Proof.
  intros Hls Hlen.
  destruct (port_on_lists_spec fuel s ls tcp_pcb_lists port Hls Hlen) as (b & Hb & Hiff).
  exists b. split; [done|]. rewrite Hiff. unfold port_held. split.
  - intros (l & _ & H). eauto.
  - intros (l & H). exists l. split; [apply all_pcb_lists|done].
Qed.

(** The cursor arithmetic. *)
Lemma port_after_range c k :
  TCP_LOCAL_PORT_RANGE_START ≤ port_after c k ≤ TCP_LOCAL_PORT_RANGE_END.
Proof.
  unfold port_after, TCP_LOCAL_PORT_RANGE_START, TCP_LOCAL_PORT_RANGE_END.
  pose proof (Z.mod_pos_bound (c - 49152 + k) 16384 ltac:(lia)). lia.
Qed.

Lemma port_after_0 c :
  TCP_LOCAL_PORT_RANGE_START ≤ c ≤ TCP_LOCAL_PORT_RANGE_END → port_after c 0 = c.
Proof.
  unfold port_after, TCP_LOCAL_PORT_RANGE_START, TCP_LOCAL_PORT_RANGE_END. intros H.
  rewrite Z.add_0_r, Z.mod_small by lia. lia.
Qed.

Lemma mod_succ (x n : Z) :
  0 < n → (x + 1) mod n = if x mod n =? n - 1 then 0 else x mod n + 1.
Proof.
  intros Hn. pose proof (Z.mod_pos_bound x n Hn) as Hb.
  pose proof (Z.div_mod x n ltac:(lia)) as Hx.
  destruct (x mod n =? n - 1) eqn:He.
  - apply Z.eqb_eq in He. symmetry. apply (Z.mod_unique _ _ (x / n + 1)); lia.
  - apply Z.eqb_neq in He. symmetry. apply (Z.mod_unique _ _ (x / n)); lia.
Qed.

Lemma port_after_succ c k :
  (if port_after c k =? TCP_LOCAL_PORT_RANGE_END then TCP_LOCAL_PORT_RANGE_START
   else u16 (port_after c k + 1)) = port_after c (k + 1).
Proof.
  pose proof (port_after_range c k) as Hr. revert Hr.
  unfold port_after, TCP_LOCAL_PORT_RANGE_START, TCP_LOCAL_PORT_RANGE_END.
  replace (c - 49152 + (k + 1)) with (c - 49152 + k + 1) by lia.
  rewrite (mod_succ (c - 49152 + k) 16384) by lia.
  set (m := (c - 49152 + k) mod 16384). intros Hr.
  destruct (49152 + m =? 65535) eqn:H1; destruct (m =? 16384 - 1) eqn:H2; try lia.
  rewrite u16_small by lia. lia.
Qed.

Lemma port_after_surj c q :
  TCP_LOCAL_PORT_RANGE_START ≤ q ≤ TCP_LOCAL_PORT_RANGE_END →
  ∃ j, 1 ≤ j ≤ 16384 ∧ port_after c j = q.
Proof.
  unfold port_after, TCP_LOCAL_PORT_RANGE_START, TCP_LOCAL_PORT_RANGE_END. intros Hq.
  pose proof (Z.mod_pos_bound (q - c) 16384 ltac:(lia)) as Hb.
  assert (Hgen : ∀ j, j mod 16384 = (q - c) mod 16384 → 49152 + (c - 49152 + j) mod 16384 = q).
  { intros j Hj. rewrite <- Zplus_mod_idemp_r, Hj, Zplus_mod_idemp_r.
    replace (c - 49152 + (q - c)) with (q - 49152) by lia.
    rewrite Z.mod_small by lia. lia. }
  destruct (decide ((q - c) mod 16384 = 0)) as [H0|H0].
  - exists 16384. split; [lia|]. apply Hgen. rewrite H0. done.
  - exists ((q - c) mod 16384). split; [lia|]. apply Hgen. apply Z.mod_mod. lia.
Qed.

Lemma lists_are_set_tcp_port s ls x : lists_are s ls → lists_are (set_tcp_port x s) ls.
Proof. intros H l. specialize (H l). by destruct l. Qed.

Lemma port_after_full c :
  TCP_LOCAL_PORT_RANGE_START ≤ c ≤ TCP_LOCAL_PORT_RANGE_END → port_after c 16384 = c.
Proof.
  unfold port_after, TCP_LOCAL_PORT_RANGE_START, TCP_LOCAL_PORT_RANGE_END. intros Hc.
  replace (c - 49152 + 16384) with (c - 49152 + 1 * 16384) by lia.
  rewrite Z.mod_add, Z.mod_small by lia. lia.
Qed.

Lemma tcp_new_port_again_S (r fuel : nat) (n : Z) (s : tcp_globals) :
  tcp_new_port_again (S r) fuel n s =
    let s := if tcp_port s =? TCP_LOCAL_PORT_RANGE_END
             then set_tcp_port TCP_LOCAL_PORT_RANGE_START s
             else set_tcp_port (u16 (tcp_port s + 1)) s in
    used ← port_on_lists fuel s tcp_pcb_lists (tcp_port s);
    if used : bool then
      let n := u16 (n + 1) in
      if n >? TCP_LOCAL_PORT_RANGE_END - TCP_LOCAL_PORT_RANGE_START then Some (0, s)
      else tcp_new_port_again r fuel n s
    else Some (tcp_port s, s).
Proof. reflexivity. Qed.

Lemma tcp_new_port_again_spec (r fuel : nat) (n : Z) (s : tcp_globals) ls (c : Z) :
  lists_are s ls → (∀ l, length (ls l) ≤ fuel)%nat →
  TCP_LOCAL_PORT_RANGE_START ≤ c ≤ TCP_LOCAL_PORT_RANGE_END →
  tcp_port s = port_after c n → 0 ≤ n ≤ 16383 → 16384 ≤ n + Z.of_nat r →
  (∀ j, 1 ≤ j ≤ n → port_held s ls (port_after c j)) →
  ∃ port c',
    tcp_new_port_again r fuel n s = Some (port, set_tcp_port c' s)
    ∧ TCP_LOCAL_PORT_RANGE_START ≤ c' ≤ TCP_LOCAL_PORT_RANGE_END
    ∧ ((port = 0 ∧ ∀ j, 1 ≤ j ≤ 16384 → port_held s ls (port_after c j))
       ∨ (∃ j, 1 ≤ j ≤ 16384 ∧ port = port_after c j ∧ c' = port
               ∧ ¬ port_held s ls port)).
Proof.
  revert n s. induction r as [|r IH]; intros n s Hls Hlen Hc Hport Hn Hr Hused; [lia|].
  rewrite tcp_new_port_again_S. cbv zeta.
  set (s1 := if tcp_port s =? TCP_LOCAL_PORT_RANGE_END
             then set_tcp_port TCP_LOCAL_PORT_RANGE_START s
             else set_tcp_port (u16 (tcp_port s + 1)) s).
  assert (Hs1 : s1 = set_tcp_port (port_after c (n + 1)) s).
  { unfold s1. rewrite <- port_after_succ, <- Hport.
    by destruct (tcp_port s =? TCP_LOCAL_PORT_RANGE_END). }
  clearbody s1. subst s1.
  pose proof (lists_are_set_tcp_port s ls (port_after c (n + 1)) Hls) as Hls1.
  destruct (port_scan_spec fuel _ ls (port_after c (n + 1)) Hls1 Hlen) as (b & Hb & Hiff).
  change (tcp_port (set_tcp_port (port_after c (n + 1)) s)) with (port_after c (n + 1)).
  rewrite Hb. cbn [mbind option_bind]. destruct b.
  - assert (Hheld : port_held s ls (port_after c (n + 1))) by by apply Hiff.
    rewrite u16_small by lia.
    destruct (n + 1 >? TCP_LOCAL_PORT_RANGE_END - TCP_LOCAL_PORT_RANGE_START) eqn:Hgt.
    + unfold TCP_LOCAL_PORT_RANGE_END, TCP_LOCAL_PORT_RANGE_START in Hgt.
      assert (n = 16383) as -> by lia.
      exists 0, (port_after c (16383 + 1)). split; [done|]. split; [apply port_after_range|].
      left. split; [done|]. intros j Hj.
      destruct (decide (j = 16383 + 1)) as [->|]; [done|]. apply Hused. lia.
    + unfold TCP_LOCAL_PORT_RANGE_END, TCP_LOCAL_PORT_RANGE_START in Hgt.
      destruct (IH (n + 1) (set_tcp_port (port_after c (n + 1)) s)) as (port & c' & Hres & Hc' & Hcases);
        try done; try lia.
      { intros j Hj. destruct (decide (j = n + 1)) as [->|]; [done|]. apply Hused. lia. }
      exists port, c'. split; [exact Hres|]. split; [done|]. exact Hcases.
  - exists (port_after c (n + 1)), (port_after c (n + 1)). split; [done|].
    split; [apply port_after_range|]. right. exists (n + 1). split; [lia|].
    split; [done|]. split; [done|]. intros H. apply Hiff in H. done.
Qed.

Lemma tcp_new_port_again_frame (r fuel : nat) (n : Z) (s s' : tcp_globals) (port : Z) :
  tcp_new_port_again r fuel n s = Some (port, s') → ∃ c', s' = set_tcp_port c' s.
Proof.
  revert n s. induction r as [|r IH]; intros n s; [done|].
  rewrite tcp_new_port_again_S. cbv zeta.
  set (s1 := if tcp_port s =? TCP_LOCAL_PORT_RANGE_END
             then set_tcp_port TCP_LOCAL_PORT_RANGE_START s
             else set_tcp_port (u16 (tcp_port s + 1)) s).
  assert (Hs1 : ∃ c1, s1 = set_tcp_port c1 s).
  { unfold s1. destruct (tcp_port s =? TCP_LOCAL_PORT_RANGE_END); eauto. }
  destruct Hs1 as (c1 & Hs1). clearbody s1. subst s1.
  destruct (port_on_lists _ _ _ _) as [[]|]; cbn [mbind option_bind]; [|by intros [= <- <-]; eauto|done].
  destruct (_ >? _).
  - intros [= <- <-]. eauto.
  - intros (c' & ->)%IH. by exists c'.
Qed.

Lemma tcp_new_port_frame (fuel : nat) (s s' : tcp_globals) (port : Z) :
  tcp_new_port fuel s = Some (port, s') → ∃ c', s' = set_tcp_port c' s.
Proof. apply tcp_new_port_again_frame. Qed.


(** The cursor stays in the range: [tcp_init] puts it there. *)
Lemma tcp_init_port_range (rand : option Z) (s : tcp_globals) :
  TCP_LOCAL_PORT_RANGE_START ≤ tcp_port s ≤ TCP_LOCAL_PORT_RANGE_END →
  TCP_LOCAL_PORT_RANGE_START ≤ tcp_port (tcp_init rand s) ≤ TCP_LOCAL_PORT_RANGE_END.
Proof.
  destruct rand as [r|]; [|done]. intros _. simpl.
  unfold TCP_ENSURE_LOCAL_PORT_RANGE, TCP_LOCAL_PORT_RANGE_START, TCP_LOCAL_PORT_RANGE_END.
  assert (Hm : Z.land r (Z.lnot 49152) = Z.land r (Z.lnot 49152) mod 2 ^ 16
                                         + 2 ^ 16 * (Z.land r (Z.lnot 49152) / 2 ^ 16)).
  { pose proof (Z.div_mod (Z.land r (Z.lnot 49152)) (2 ^ 16) ltac:(lia)). lia. }
  assert (Hlow : 0 ≤ Z.land r (Z.lnot 49152) mod 2 ^ 16 < 16384).
  { rewrite <- Z.land_ones by lia. rewrite <- Z.land_assoc.
    change (Z.land (Z.lnot 49152) (Z.ones 16)) with 16383.
    change 16383 with (Z.ones 14). rewrite Z.land_ones by lia.
    apply Z.mod_pos_bound. lia. }
  unfold u16. rewrite Hm.
  replace (Z.land r (Z.lnot 49152) mod 2 ^ 16 + 2 ^ 16 * (Z.land r (Z.lnot 49152) / 2 ^ 16)
           + 49152)
    with (Z.land r (Z.lnot 49152) mod 2 ^ 16 + 49152
          + (Z.land r (Z.lnot 49152) / 2 ^ 16) * 2 ^ 16) by lia.
  rewrite Z.mod_add by lia. rewrite (Z.mod_small (_ + 49152)) by lia. lia.
Qed.

(** C8.  With the four lists well formed, the cursor in the range and
    fuel for the 16384 passes, [tcp_new_port] returns; it returns 0 if and only if every port of
    [49152, 65535] is the local port of a PCB on one of the four lists, and
    otherwise a port of that range that no PCB on any list holds.  Only the
    cursor changes. *)
Theorem C8_tcp_new_port (fuel : nat) (s : tcp_globals) (ls : pcb_list → list ptr) :
  lists_are s ls → (∀ l, length (ls l) ≤ fuel)%nat → 16384 ≤ Z.of_nat fuel →
  TCP_LOCAL_PORT_RANGE_START ≤ tcp_port s ≤ TCP_LOCAL_PORT_RANGE_END →
  ∃ port c',
    tcp_new_port fuel s = Some (port, set_tcp_port c' s)
    ∧ TCP_LOCAL_PORT_RANGE_START ≤ c' ≤ TCP_LOCAL_PORT_RANGE_END
    ∧ (port = 0 ↔
       ∀ q, TCP_LOCAL_PORT_RANGE_START ≤ q ≤ TCP_LOCAL_PORT_RANGE_END → port_held s ls q)
    ∧ (port ≠ 0 →
       TCP_LOCAL_PORT_RANGE_START ≤ port ≤ TCP_LOCAL_PORT_RANGE_END
       ∧ ¬ port_held s ls port).
Proof.
  intros Hls Hlen Hfuel Hc.
  destruct (tcp_new_port_again_spec fuel fuel 0 s ls (tcp_port s))
    as (port & c' & Hres & Hc' & Hcases);
    try done; try lia; try (by rewrite port_after_0); try (intros j Hj; lia).
  exists port, c'. split; [exact Hres|]. split; [done|].
  destruct Hcases as [[-> Hall] | (j & Hj & -> & -> & Hfree)].
  - split; [|done]. split; [|done]. intros _ q Hq.
    destruct (port_after_surj (tcp_port s) q Hq) as (j & Hj & <-). by apply Hall.
  - pose proof (port_after_range (tcp_port s) j) as Hr. split.
    + split.
      * unfold TCP_LOCAL_PORT_RANGE_START in Hr. lia.
      * intros Hall. destruct Hfree. by apply Hall.
    + done.
Qed.


Lemma C8_tcp_new_port_witness :
  ∃ port c',
    tcp_new_port (Z.to_nat 16384) bind_state = Some (port, set_tcp_port c' bind_state)
    ∧ TCP_LOCAL_PORT_RANGE_START ≤ c' ≤ TCP_LOCAL_PORT_RANGE_END
    ∧ (port = 0 ↔
       ∀ q, TCP_LOCAL_PORT_RANGE_START ≤ q ≤ TCP_LOCAL_PORT_RANGE_END →
            port_held bind_state bind_state_lists q)
    ∧ (port ≠ 0 →
       TCP_LOCAL_PORT_RANGE_START ≤ port ≤ TCP_LOCAL_PORT_RANGE_END
       ∧ ¬ port_held bind_state bind_state_lists port).
Proof.
  apply (C8_tcp_new_port (Z.to_nat 16384) bind_state bind_state_lists).
  - intros l. destruct l; vm_compute; done.
  - intros l. destruct l; simpl; lia.
  - lia.
  - vm_compute. split; discriminate.
Defined.

(** C10.  [tcp_bind(pcb, ipaddr, 0)] on a PCB in [CLOSED] or [LISTEN_CLOS]
    with a matching IP version takes its result from [tcp_new_port] alone:
    [ERR_BUF] when that returns 0, [ERR_OK] otherwise, never [ERR_USE]; on
    [ERR_OK] the PCB is the new head of the bound list, linked to the old
    head, and carries the new port; the other lists and PCBs are as before. *)
Theorem C10_tcp_bind_port_0 (fuel : nat) (s s1 : tcp_globals) (pcb : ptr) (p : tcp_pcb)
    (ipaddr : option ip_addr_t) (port : Z) :
  deref s pcb = Some p →
  state p = CLOSED ∨ state p = LISTEN_CLOS →
  IP_ADDR_PCB_VERSION_MATCH p ipaddr = true →
  tcp_new_port fuel s = Some (port, s1) →
  ∃ err s2,
    tcp_bind fuel pcb ipaddr 0 s = Some (err, s2)
    ∧ err = (if port =? 0 then ERR_BUF else ERR_OK)
    ∧ err ≠ ERR_USE
    ∧ (err = ERR_BUF → s2 = s1)
    ∧ (err = ERR_OK →
       tcp_bound_pcbs s2 = Some pcb
       ∧ (∃ p2, deref s2 pcb = Some p2 ∧ local_port p2 = port
                ∧ next p2 = tcp_bound_pcbs s)
       ∧ tcp_listen_pcbs s2 = tcp_listen_pcbs s
       ∧ tcp_active_pcbs s2 = tcp_active_pcbs s
       ∧ tcp_tw_pcbs s2 = tcp_tw_pcbs s
       ∧ ∀ a, a ≠ pcb → deref s2 a = deref s a).
Proof.
  intros Hp Hst Hver Hnp.
  destruct (tcp_new_port_frame _ _ _ _ Hnp) as (c' & ->).
  unfold tcp_bind. rewrite Hp. cbn [mbind option_bind].
  assert (Hassert : LWIP_ASSERT (bool_decide (state p = CLOSED)
                                 || bool_decide (state p = LISTEN_CLOS)) = Some tt).
  { destruct Hst as [-> | ->]; done. }
  rewrite Hassert, Hver. cbn [mbind option_bind negb]. rewrite Z.eqb_refl, Hnp.
  cbn [mbind option_bind].
  destruct (port =? 0) eqn:Hport.
  - exists ERR_BUF, (set_tcp_port c' s).
    split; [reflexivity|]. split; [done|]. split; [done|]. split; [done|]. intros [=].
  - cbn [mbind option_bind].
    set (s2 := set_tcp_port c' s).
    assert (Hp2 : deref s2 pcb = Some p) by done.
    destruct ipaddr as [a|].
    + destruct (negb (ip_addr_isany_val a)).
      * rewrite (update_Some _ _ _ _ Hp2). cbn [mbind option_bind].
        unfold update, tcp_reg, update, deref. simpl. heap_simpl.
        eexists _, _. split; [done|]. simpl.
        split; [done|]. split; [done|]. split; [intros [=]|]. intros _.
        split; [done|]. split; [eexists; by heap_simpl|]. split; [done|].
        split; [done|]. split; [done|]. intros b Hb. by heap_simpl.
      * cbn [mbind option_bind].
        unfold update, tcp_reg, update, deref. simpl. unfold deref in Hp. rewrite Hp. simpl.
        heap_simpl.
        eexists _, _. split; [done|]. simpl.
        split; [done|]. split; [done|]. split; [intros [=]|]. intros _.
        split; [done|]. split; [eexists; by heap_simpl|]. split; [done|].
        split; [done|]. split; [done|]. intros b Hb. by heap_simpl.
    + cbn [mbind option_bind].
      unfold update, tcp_reg, update, deref. simpl. unfold deref in Hp. rewrite Hp. simpl.
      heap_simpl.
      eexists _, _. split; [done|]. simpl.
      split; [done|]. split; [done|]. split; [intros [=]|]. intros _.
      split; [done|]. split; [eexists; by heap_simpl|]. split; [done|].
      split; [done|]. split; [done|]. intros b Hb. by heap_simpl.
Qed.

Lemma C10_tcp_bind_port_0_witness :
  ∃ err s2,
    tcp_bind (Z.to_nat 16384) 2%positive None 0 bind_state = Some (err, s2)
    ∧ err = ERR_OK
    ∧ tcp_bound_pcbs s2 = Some 2%positive
    ∧ local_port <$> deref s2 2%positive = Some 49154.
Proof.
  destruct (C10_tcp_bind_port_0 (Z.to_nat 16384) bind_state
              (set_tcp_port 49154 bind_state) 2%positive pcb0 None 49154)
    as (err & s2 & Hb & Herr & _ & _ & Hok).
  - reflexivity.
  - left. reflexivity.
  - reflexivity.
  - vm_compute. reflexivity.
  - exists err, s2. simpl in Herr. destruct (Hok Herr) as (Hh & (p2 & Hp2 & Hport & _) & _).
    split; [done|]. split; [done|]. split; [done|]. by rewrite Hp2, <- Hport.
Defined.

(** ** Unlinking *)

Lemma list_head_set_heap l h s : list_head l (set_heap h s) = list_head l s.
Proof. by destruct l. Qed.

Lemma heap_set_list_head l v s : heap (set_list_head l v s) = heap s.
Proof. by destruct l. Qed.

Lemma list_head_set_list_head l l' v s :
  list_head l (set_list_head l' v s) = if decide (l = l') then v else list_head l s.
Proof. by destruct l, l'. Qed.

Lemma tcp_conn_iter_set_list_head l v s :
  tcp_conn_iter (set_list_head l v s) = tcp_conn_iter s.
Proof. by destruct l. Qed.

(** The walk of [tcp_rmv] stops at the predecessor [b] of [npcb]. *)
Lemma tcp_rmv_loop_spec (fuel : nat) (s : tcp_globals) (p : option ptr) (l1 : list ptr)
    (b a : ptr) (bp ap : tcp_pcb) :
  lseg (heap s) p l1 (Some b) →
  (∀ t tp, t ∈ l1 → heap s !! t = Some tp → next tp ≠ Some a) →
  heap s !! b = Some bp → next bp = Some a → heap s !! a = Some ap →
  (length l1 < fuel)%nat →
  tcp_rmv_loop fuel p a s = Some (set_heap (<[b := set_next (next ap) bp]> (heap s)) s).
Proof.
  revert p fuel. induction l1 as [|t l1 IH]; intros p fuel Hseg Hnext Hb Hbn Ha Hfuel.
  - simpl in Hseg. subst p. destruct fuel as [|fuel]; [simpl in Hfuel; lia|].
    simpl. unfold deref. rewrite Hb. simpl. rewrite Hbn.
    rewrite bool_decide_eq_true_2 by done. rewrite Ha. simpl.
    unfold update, deref. rewrite Hb. done.
  - apply lseg_cons in Hseg as (-> & tp & Ht & Hseg).
    destruct fuel as [|fuel]; [simpl in Hfuel; lia|].
    simpl. unfold deref. rewrite Ht. simpl.
    rewrite bool_decide_eq_false_2.
    2:{ apply (Hnext t tp); [by left|done]. }
    apply IH; try done.
    + intros t' tp' Ht' Hl. apply (Hnext t' tp'); [by right|done].
    + simpl in Hfuel. lia.
Qed.

(** In a list, the PCB before [a] is the only one linked to [a]. *)
Lemma chain_next_ne (h : gmap ptr tcp_pcb) (p : option ptr) (l1 l2 : list ptr) (a t : ptr)
    (tp : tcp_pcb) :
  chain h p (l1 ++ a :: l2) → t ∈ l1 → h !! t = Some tp → Some t ≠ last l1 →
  next tp ≠ Some a.
Proof.
  intros Hc Ht Htp Hlast Hn.
  pose proof (chain_NoDup _ _ _ Hc) as Hnd.
  apply list_elem_of_split in Ht as (la & lb & ->).
  rewrite <- app_assoc in Hc. simpl in Hc.
  apply lseg_app in Hc as (r & _ & Hc).
  apply lseg_cons in Hc as (-> & tp' & Htp' & Hc). rewrite Htp in Htp'. injection Htp' as <-.
  destruct lb as [|x lb].
  - rewrite last_snoc in Hlast. done.
  - simpl in Hc. destruct Hc as [Hx _]. rewrite Hn in Hx. injection Hx as <-.
    rewrite <- app_assoc in Hnd. simpl in Hnd.
    apply NoDup_app in Hnd as (_ & _ & Hnd).
    apply NoDup_cons in Hnd as (_ & Hnd).
    apply NoDup_cons in Hnd as (Hni & _).
    apply Hni. apply elem_of_app. right. by left.
Qed.

Lemma chain_head (h : gmap ptr tcp_pcb) (p : option ptr) (l : list ptr) :
  chain h p l → p = head l.
Proof. destruct l; simpl; [done|]. by intros [-> _]. Qed.

Lemma chain_split (h : gmap ptr tcp_pcb) (p : option ptr) (l1 l2 : list ptr) (a : ptr) :
  chain h p (l1 ++ a :: l2) →
  ∃ ap, h !! a = Some ap ∧ lseg h p l1 (Some a) ∧ chain h (next ap) l2
        ∧ next ap = head l2 ∧ (a ∉ l1) ∧ (a ∉ l2) ∧ (∀ x, x ∈ l1 → x ∉ l2).
Proof.
  intros Hc. pose proof (chain_NoDup _ _ _ Hc) as Hnd.
  apply lseg_app in Hc as (r & H1 & H2).
  apply lseg_cons in H2 as (-> & ap & Ha & H2).
  exists ap. split; [done|]. split; [done|]. split; [done|].
  split; [by apply (chain_head h)|].
  apply NoDup_app in Hnd as (_ & Hd & Hnd). apply NoDup_cons in Hnd as (Hni & _).
  split; [|split; [done|]].
  - intros Hin. apply (Hd a Hin). by left.
  - intros x Hx Hx2. apply (Hd x Hx). by right.
Qed.

Lemma tcp_rmv_head (fuel : nat) (pcbs : pcb_list) (a : ptr) (s : tcp_globals) (ap : tcp_pcb) :
  list_head pcbs s = Some a → heap s !! a = Some ap →
  tcp_rmv fuel pcbs a s =
    Some (set_heap (<[a := set_next None ap]> (heap s)) (set_list_head pcbs (next ap) s)).
Proof.
  intros Hh Ha. unfold tcp_rmv. rewrite bool_decide_eq_true_2 by done.
  unfold deref. rewrite Ha. simpl. unfold update, deref.
  rewrite heap_set_list_head, Ha. done.
Qed.

Lemma tcp_rmv_inner (fuel : nat) (pcbs : pcb_list) (a b : ptr) (s : tcp_globals)
    (l1 l2 : list ptr) (ap bp : tcp_pcb) :
  chain (heap s) (list_head pcbs s) (l1 ++ b :: a :: l2) →
  heap s !! a = Some ap → heap s !! b = Some bp → (length l1 < fuel)%nat →
  tcp_rmv fuel pcbs a s =
    Some (set_heap (<[a := set_next None ap]> (<[b := set_next (next ap) bp]> (heap s))) s).
Proof.
  intros Hc Ha Hb Hfuel.
  pose proof (chain_NoDup _ _ _ Hc) as Hnd.
  assert (Hne : b ≠ a).
  { apply NoDup_app in Hnd as (_ & _ & Hnd). apply NoDup_cons in Hnd as (Hni & _).
    intros ->. apply Hni. by left. }
  assert (Hhead : list_head pcbs s ≠ Some a).
  { intros Hh. destruct l1 as [|x l1]; simpl in Hc; destruct Hc as [Hx _];
      rewrite Hh in Hx; injection Hx as <-; [done|].
    simpl in Hnd. apply NoDup_cons in Hnd as (Hni & _). apply Hni.
    apply elem_of_app. right. right. by left. }
  unfold tcp_rmv. rewrite bool_decide_eq_false_2 by done.
  pose proof Hc as Hc'. apply lseg_app in Hc' as (r & H1 & H2).
  apply lseg_cons in H2 as (-> & bp' & Hb' & H2). rewrite Hb in Hb'. injection Hb' as <-.
  simpl in H2. destruct H2 as [Hbn _].
  rewrite (tcp_rmv_loop_spec fuel s _ l1 b a bp ap); try done.
  - simpl. unfold update, deref. simpl. rewrite lookup_insert_ne by done. rewrite Ha. done.
  - intros t tp Ht Htp.
    replace (l1 ++ b :: a :: l2) with ((l1 ++ [b]) ++ a :: l2) in Hc
      by by rewrite <- app_assoc.
    apply (chain_next_ne _ _ _ _ a t tp Hc); [apply elem_of_app; by left|done|].
    rewrite last_snoc. intros [= ->].
    apply NoDup_app in Hnd as (_ & Hd & _). apply (Hd b Ht). by left.
Qed.

Lemma set_list_head_id (l : pcb_list) (s : tcp_globals) :
  set_list_head l (list_head l s) s = s.
Proof. by destruct s, l. Qed.

Lemma tcp_rmv_chain (fuel : nat) (pcbs : pcb_list) (a : ptr) (s : tcp_globals)
    (l1 l2 : list ptr) :
  chain (heap s) (list_head pcbs s) (l1 ++ a :: l2) → (length l1 ≤ fuel)%nat →
  ∃ ap h' hd',
    heap s !! a = Some ap
    ∧ tcp_rmv fuel pcbs a s = Some (set_heap h' (set_list_head pcbs hd' s))
    ∧ chain h' hd' (l1 ++ l2)
    ∧ h' !! a = Some (set_next None ap)
    ∧ (∀ q, q ≠ a → Some q ≠ last l1 → h' !! q = heap s !! q)
    ∧ (∀ q, set_next None <$> h' !! q = set_next None <$> heap s !! q)
    ∧ match last l1 with
      | Some b => hd' = list_head pcbs s ∧ next <$> h' !! b = Some (next ap)
      | None => hd' = next ap
      end.
Proof.
  intros Hc Hfuel.
  destruct (chain_split _ _ _ _ _ Hc) as (ap & Ha & Hseg & Hl2 & Hnext & Hni1 & Hni2 & Hdisj).
  exists ap.
  destruct (last l1) as [b|] eqn:Hlast.
  - apply last_Some in Hlast as (l1' & ->).
    rewrite <- app_assoc in Hc. simpl in Hc.
    assert (Hb : is_Some (heap s !! b)).
    { apply (lseg_lookup _ _ _ _ _ Hc). apply elem_of_app. right. by left. }
    destruct Hb as (bp & Hb).
    assert (Hne : b ≠ a). { intros ->. apply Hni1. apply elem_of_app. right. by left. }
    exists (<[a := set_next None ap]> (<[b := set_next (next ap) bp]> (heap s))),
      (list_head pcbs s).
    split; [done|]. split.
    { rewrite set_list_head_id. apply (tcp_rmv_inner fuel pcbs a b s l1' l2 ap bp); try done.
      rewrite length_app in Hfuel. simpl in Hfuel. lia. }
    split.
    { apply lseg_app in Hseg as (r & Hs1 & Hs2). simpl in Hs2.
      destruct Hs2 as (-> & Hs2). rewrite Hb in Hs2. 
      rewrite <- app_assoc. simpl. apply lseg_app. exists (Some b). split.
      - apply lseg_insert_other.
        { intros Hin. apply Hni1. apply elem_of_app. by left. }
        apply lseg_insert_other; [|done].
        intros Hin. pose proof (chain_NoDup _ _ _ Hc) as Hnd.
        apply NoDup_app in Hnd as (_ & Hd & _). apply (Hd b Hin). by left.
      - apply lseg_cons. split; [done|]. exists (set_next (next ap) bp). split.
        + rewrite lookup_insert_ne by done. by rewrite lookup_insert_eq.
        + simpl. apply lseg_insert_other; [done|].
          apply lseg_insert_other; [|done].
          apply Hdisj. apply elem_of_app. right. by left. }
    split; [by rewrite lookup_insert_eq|].
    split.
    { intros q Hqa Hqb. rewrite lookup_insert_ne by done.
      rewrite lookup_insert_ne; [done|]. intros ->. by apply Hqb. }
    split.
    { intros q. destruct (decide (q = a)) as [->|Hqa].
      - rewrite lookup_insert_eq, Ha. done.
      - rewrite lookup_insert_ne by done. destruct (decide (q = b)) as [->|Hqb].
        + rewrite lookup_insert_eq, Hb. done.
        + by rewrite lookup_insert_ne. }
    split; [done|].
    rewrite lookup_insert_ne by done. by rewrite lookup_insert_eq.
  - apply last_None in Hlast as ->. simpl in *.
    exists (<[a := set_next None ap]> (heap s)), (next ap).
    split; [done|]. split.
    { apply tcp_rmv_head; [by destruct Hc|done]. }
    split; [by apply lseg_insert_other|].
    split; [by rewrite lookup_insert_eq|].
    split; [intros q Hqa _; by rewrite lookup_insert_ne|].
    split; [|done].
    intros q. destruct (decide (q = a)) as [->|Hqa].
    + rewrite lookup_insert_eq, Ha. done.
    + by rewrite lookup_insert_ne.
Qed.

(** The search of [tcp_iter_will_remove] returns the PCB before [pcb]. *)
Lemma will_remove_loop_spec (fuel : nat) (h : gmap ptr tcp_pcb) (p : option ptr)
    (l1 : list ptr) (a : ptr) (pp : option ptr) :
  lseg h p l1 (Some a) → a ∉ l1 → (length l1 ≤ fuel)%nat →
  will_remove_loop fuel h p a pp = Some (match last l1 with Some b => Some b | None => pp end).
Proof.
  revert p pp fuel. induction l1 as [|t l1 IH]; intros p pp fuel Hseg Hni Hfuel.
  - simpl in Hseg. subst p. destruct fuel; simpl; by rewrite bool_decide_eq_true_2.
  - apply lseg_cons in Hseg as (-> & tp & Ht & Hseg).
    destruct fuel as [|fuel]; [simpl in Hfuel; lia|]. simpl.
    rewrite bool_decide_eq_false_2.
    2:{ intros ->. apply Hni. by left. }
    rewrite Ht. simpl. rewrite (IH (next tp) (Some t) fuel); try done.
    + destruct l1 as [|x l1]; [done|].
      change (last (t :: x :: l1)) with (last (x :: l1)).
      destruct (last (x :: l1)) eqn:E; [done|]. by apply last_None in E.
    + intros Hin. apply Hni. by right.
    + simpl in Hfuel. lia.
Qed.

(** ** The safe iterator *)

Lemma scan_run_end : scan_run = Some scan_end_state.
Proof. vm_compute. reflexivity. Qed.

(** C3 as stated fails: in [scan_end_state], reached in the middle of a
    scan, the hook is called for the iterator's [prev] (PCB 1, the head,
    with [prev->next == current == NULL]) and [prev] is not repaired to the
    predecessor ([NULL]): the guard [current != NULL] skips the repair. *)
Lemma C3_counterexample :
  ¬ (∀ (fuel : nat) (s : tcp_globals) (pcbs : pcb_list) (l1 l2 : list ptr) (pcb : ptr)
       (p : tcp_pcb),
       chain (heap s) (list_head pcbs s) (l1 ++ pcb :: l2) →
       deref s pcb = Some p →
       (length l1 ≤ fuel)%nat →
       prev (tcp_conn_iter s) = Some pcb →
       next p = current (tcp_conn_iter s) →
       ∃ s1, iter_will_remove fuel pcb pcbs s = Some s1
             ∧ prev (tcp_conn_iter s1) = last l1).
Proof.
  intros H.
  destruct (H 1%nat scan_end_state ActiveList [] [] 1%positive _
              ltac:(vm_compute; done) eq_refl ltac:(simpl; lia) eq_refl eq_refl)
    as (s1 & Hs1 & Hprev).
  vm_compute in Hs1. injection Hs1 as <-. vm_compute in Hprev. discriminate.
Qed.

Lemma last_match_id {A} (l : list A) :
  match last l with Some b => Some b | None => None end = last l.
Proof. by destruct (last l). Qed.

(** C3 (amended).  For a PCB [pcb] on the scanned list [l1 ++ pcb :: l2]:
    - if [tcp_iter_will_remove] is called for it while it is the iterator's
      [current] and it is then unlinked, the next [tcp_iter_next] returns
      its original successor (the head of [l2], or [NULL]);
    - if it is the iterator's [prev] and [current] is not [NULL] (with
      [prev->next == current], the assertion of the source), [prev] becomes
      the predecessor of [pcb] in the list, [NULL] when [pcb] was the head,
      and after the unlink the new [prev] is linked to [current] (or
      [current] is the head);
    - if [current] is [NULL], the hook leaves the iterator as it is. *)
Theorem C3_iter_will_remove (fuel : nat) (s : tcp_globals) (pcbs : pcb_list)
    (l1 l2 : list ptr) (pcb : ptr) (p : tcp_pcb) :
  chain (heap s) (list_head pcbs s) (l1 ++ pcb :: l2) →
  deref s pcb = Some p →
  (length l1 ≤ fuel)%nat →
  let it := tcp_conn_iter s in
  next p = head l2
  ∧ (current it = Some pcb →
     ∃ s1 s2 it',
       iter_will_remove fuel pcb pcbs s = Some s1
       ∧ tcp_rmv fuel pcbs pcb s1 = Some s2
       ∧ chain (heap s2) (list_head pcbs s2) (l1 ++ l2)
       ∧ tcp_iter_next (heap s2) (tcp_conn_iter s2) = Some (next p, it')
       ∧ current it' = next p ∧ prev it' = prev it)
  ∧ (∀ c, current it = Some c → prev it = Some pcb → next p = Some c →
     ∃ s1 s2,
       iter_will_remove fuel pcb pcbs s = Some s1
       ∧ tcp_rmv fuel pcbs pcb s1 = Some s2
       ∧ chain (heap s2) (list_head pcbs s2) (l1 ++ l2)
       ∧ tcp_conn_iter s2 = {| current := Some c; prev := last l1;
                               next_is_current := next_is_current it |}
       ∧ match last l1 with
         | Some q => next <$> deref s2 q = Some (Some c)
         | None => list_head pcbs s2 = Some c
         end)
  ∧ (current it = None → iter_will_remove fuel pcb pcbs s = Some s).
Proof.
  intros Hc Hp Hfuel it.
  destruct (chain_split _ _ _ _ _ Hc) as (ap & Ha & Hseg & Hl2 & Hnext & Hni1 & Hni2 & Hdisj).
  unfold deref in Hp. rewrite Hp in Ha. injection Ha as <-.
  assert (Hhd : bool_decide (list_head pcbs s ≠ None) = true).
  { apply bool_decide_eq_true_2. destruct l1; simpl in Hc; destruct Hc as [-> _]; done. }
  split; [done|]. split; [|split].
  - intros Hcur.
    set (it1 := {| current := next p; prev := prev it; next_is_current := true |}).
    assert (H1 : iter_will_remove fuel pcb pcbs s = Some (set_tcp_conn_iter it1 s)).
    { unfold iter_will_remove, tcp_iter_will_remove. rewrite Hhd. fold it. rewrite Hcur.
      cbn [LWIP_ASSERT mbind option_bind]. rewrite bool_decide_eq_true_2 by done.
      rewrite Hp. done. }
    destruct (tcp_rmv_chain fuel pcbs pcb (set_tcp_conn_iter it1 s) l1 l2)
      as (ap & h' & hd' & Ha & Hrmv & Hc' & _); [destruct pcbs; exact Hc|done|].
    eexists _, _, _. split; [exact H1|]. split; [exact Hrmv|].
    split; [destruct pcbs; exact Hc'|]. split; [by destruct pcbs|]. destruct pcbs; split; reflexivity.
  - intros c Hcur Hprev Hpc.
    assert (Hne : pcb ≠ c).
    { intros ->. apply Hni2. rewrite Hpc in Hnext. destruct l2; [done|].
      injection Hnext as ->. by left. }
    set (it1 := {| current := Some c; prev := last l1;
                   next_is_current := next_is_current it |}).
    assert (H1 : iter_will_remove fuel pcb pcbs s = Some (set_tcp_conn_iter it1 s)).
    { unfold iter_will_remove, tcp_iter_will_remove. rewrite Hhd. fold it. rewrite Hcur.
      cbn [LWIP_ASSERT mbind option_bind]. rewrite bool_decide_eq_false_2 by done.
      rewrite Hprev. rewrite bool_decide_eq_true_2 by done. rewrite Hp.
      cbn [mbind option_bind]. rewrite Hpc. rewrite bool_decide_eq_true_2 by done.
      cbn [LWIP_ASSERT mbind option_bind].
      rewrite (will_remove_loop_spec fuel _ _ l1 pcb None Hseg Hni1 Hfuel).
      cbn [mbind option_bind]. by rewrite last_match_id. }
    destruct (tcp_rmv_chain fuel pcbs pcb (set_tcp_conn_iter it1 s) l1 l2)
      as (ap & h' & hd' & Ha & Hrmv & Hc' & _ & _ & _ & Hlast);
      [destruct pcbs; exact Hc|done|].
    change (heap (set_tcp_conn_iter it1 s)) with (heap s) in Ha.
    rewrite Hp in Ha. injection Ha as <-.
    eexists _, _. split; [exact H1|]. split; [exact Hrmv|].
    split; [destruct pcbs; exact Hc'|]. split; [by destruct pcbs|].
    destruct (last l1) as [q|].
    + destruct Hlast as [_ Hq]. rewrite Hpc in Hq. by destruct pcbs.
    + rewrite Hpc in Hlast. subst hd'. by destruct pcbs.
  - intros Hcur. unfold iter_will_remove, tcp_iter_will_remove. rewrite Hhd. fold it.
    rewrite Hcur. cbn [LWIP_ASSERT mbind option_bind]. by destruct s.
Qed.

Lemma C3_iter_will_remove_witness :
  ∃ s1 s2 it',
    iter_will_remove 3 2%positive ActiveList iter_state = Some s1
    ∧ tcp_rmv 3 ActiveList 2%positive s1 = Some s2
    ∧ tcp_iter_next (heap s2) (tcp_conn_iter s2) = Some (Some 3%positive, it').
Proof.
  destruct (C3_iter_will_remove 3 iter_state ActiveList [1%positive] [3%positive]
              2%positive _ ltac:(vm_compute; done) eq_refl ltac:(simpl; lia))
    as (_ & H & _).
  destruct (H eq_refl) as (s1 & s2 & it' & ? & ? & ? & ? & ?). eauto 10.
Defined.

(** ** The fast timer *)

Section Fasttmr.
Variable E : tcp_env.
Hypothesis output_next : ∀ q, next (tcp_output E q) = next q.

Lemma fasttmr_pcb_next (ctr : Z) (p : tcp_pcb) : next (fasttmr_pcb E ctr p) = next p.
Proof.
  unfold fasttmr_pcb. destruct (negb _); [|done]. simpl.
  destruct (has_flag _ _); [|done]. simpl. by rewrite output_next.
Qed.

Lemma fasttmr_loop_cons (fuel : nat) (a : ptr) (s : tcp_globals) (pa : tcp_pcb) :
  deref s a = Some pa → tcp_state_is_active (state pa) = true →
  fasttmr_loop E (S fuel) (Some a) s =
    fasttmr_loop E fuel (next pa)
      (set_trace ((if fasttmr_sends (tcp_timer_ctr s) pa then [EvOutput a] else [])
                  ++ trace s)
         (set_heap (<[a := fasttmr_pcb E (tcp_timer_ctr s) pa]> (heap s)) s)).
Proof.
  intros Ha Hact. simpl. rewrite Ha. simpl. rewrite Hact. simpl.
  unfold fasttmr_sends, fasttmr_pcb.
  destruct (negb (last_timer pa =? tcp_timer_ctr s)) eqn:Hlt; simpl.
  - rewrite (update_Some _ _ _ _ Ha). simpl.
    destruct (has_flag (flags pa) TF_ACK_DELAY) eqn:Hfl; simpl.
    + unfold call_tcp_output, update, deref. heap_simpl.
      rewrite output_next. simpl. rewrite !insert_insert_eq. done.
    + unfold deref. heap_simpl. done.
  - rewrite Ha. simpl. unfold deref in Ha.
    replace (set_heap (<[a:=pa]> (heap s)) s) with s; [by destruct s|].
    rewrite insert_id by done. by destruct s.
Qed.

Lemma fasttmr_loop_spec (fuel : nat) (s : tcp_globals) (p : option ptr) (l : list ptr) :
  chain (heap s) p l →
  (∀ b pb, b ∈ l → heap s !! b = Some pb → tcp_state_is_active (state pb) = true) →
  (length l ≤ fuel)%nat →
  ∃ h' ev,
    fasttmr_loop E fuel p s = Some (set_trace (ev ++ trace s) (set_heap h' s))
    ∧ (∀ b, b ∈ l → h' !! b = fasttmr_pcb E (tcp_timer_ctr s) <$> heap s !! b)
    ∧ (∀ b, b ∉ l → h' !! b = heap s !! b)
    ∧ (∀ b, EvOutput b ∈ ev ↔
            b ∈ l ∧ ∃ pb, heap s !! b = Some pb
                          ∧ fasttmr_sends (tcp_timer_ctr s) pb = true)
    ∧ (∀ e, e ∈ ev → ∃ b, e = EvOutput b).
Proof.
  revert s p fuel. induction l as [|a l IH]; intros s p fuel Hc Hact Hfuel.
  - apply chain_nil in Hc as ->. exists (heap s), [].
    split; [destruct fuel; by destruct s|].
    split; [by intros b ?%elem_of_nil|]. split; [done|].
    split; [|by intros e ?%elem_of_nil].
    intros b. split; [by intros ?%elem_of_nil|]. by intros [?%elem_of_nil _].
  - pose proof (chain_NoDup _ _ _ Hc) as Hnd. apply NoDup_cons in Hnd as (Hni & Hnd).
    apply chain_cons in Hc as (-> & pa & Ha & Hc).
    destruct fuel as [|fuel]; [simpl in Hfuel; lia|].
    rewrite (fasttmr_loop_cons fuel a s pa Ha); [|apply (Hact a); [by left|done]].
    set (e1 := if fasttmr_sends (tcp_timer_ctr s) pa then [EvOutput a] else []).
    set (s1 := set_trace (e1 ++ trace s)
                 (set_heap (<[a := fasttmr_pcb E (tcp_timer_ctr s) pa]> (heap s)) s)).
    destruct (IH s1 (next pa) fuel) as (h' & ev & Hrun & Hin & Hout & Hev & Hevs).
    { by apply lseg_insert_other. }
    { intros b pb Hb. simpl. rewrite lookup_insert_ne by (intros ->; done).
      apply Hact. by right. }
    { simpl in Hfuel. lia. }
    exists h', (ev ++ e1). split; [|split; [|split; [|split]]].
    + rewrite Hrun. unfold s1. simpl. by rewrite app_assoc.
    + intros b [->|Hb]%elem_of_cons.
      * rewrite (Hout a Hni). simpl. rewrite lookup_insert_eq. by rewrite Ha.
      * rewrite (Hin b Hb). simpl. rewrite lookup_insert_ne by (intros ->; done). done.
    + intros b Hb. rewrite Hout.
      * simpl. rewrite lookup_insert_ne; [done|]. intros ->. apply Hb. by left.
      * intros Hbl. apply Hb. by right.
    + intros b. rewrite elem_of_app, Hev. simpl. split.
      * intros [(Hb & pb & Hpb & Hs) | Hb].
        -- split; [by right|]. exists pb. split; [|done].
           rewrite lookup_insert_ne in Hpb; [done|]. intros ->. done.
        -- unfold e1 in Hb. destruct (fasttmr_sends (tcp_timer_ctr s) pa) eqn:Hs.
           ++ apply list_elem_of_singleton in Hb. injection Hb as ->.
              split; [by left|]. by exists pa.
           ++ by apply elem_of_nil in Hb.
      * intros ([->|Hb]%elem_of_cons & pb & Hpb & Hs).
        -- right. rewrite Ha in Hpb. injection Hpb as <-. unfold e1. rewrite Hs. by left.
        -- left. split; [done|]. exists pb. split; [|done].
           rewrite lookup_insert_ne; [done|]. intros ->. done.
    + intros e [He|He]%elem_of_app; [by apply Hevs|].
      unfold e1 in He. destruct (fasttmr_sends _ _); [|by apply elem_of_nil in He].
      apply list_elem_of_singleton in He. eauto.
Qed.

Hypothesis output_state : ∀ q, state (tcp_output E q) = state q.

Lemma fasttmr_pcb_state (ctr : Z) (p : tcp_pcb) : state (fasttmr_pcb E ctr p) = state p.
Proof.
  unfold fasttmr_pcb. destruct (negb _); [|done]. simpl.
  destruct (has_flag _ _); [|done]. simpl. by rewrite output_state.
Qed.

Lemma fasttmr_pcb_quiet (ctr : Z) (p : tcp_pcb) :
  has_flag (flags p) TF_ACK_DELAY = false →
  flags (fasttmr_pcb E ctr p) = flags p ∧ fasttmr_sends ctr p = false.
Proof.
  intros Hf. unfold fasttmr_pcb, fasttmr_sends. rewrite Hf.
  destruct (negb _); simpl; by rewrite ?Hf.
Qed.

(** C6.  Let the segment layer leave the link and the state of the PCB it
    works on alone.  For a PCB on the active list with [TF_ACK_DELAY] set
    and not yet processed at the timer count of the run
    ([last_timer] differs from the incremented [tcp_timer_ctr]), one run of
    [tcp_fasttmr] sets [TF_ACK_NOW], calls [tcp_output] for it and leaves
    [TF_ACK_DELAY] and [TF_ACK_NOW] clear; the run that follows calls
    [tcp_output] for it no more and leaves its flags as they are. *)
Theorem C6_fasttmr_delayed_ack (fuel : nat) (s : tcp_globals) (l : list ptr) (a : ptr)
    (p : tcp_pcb) :
  chain (heap s) (tcp_active_pcbs s) l →
  (∀ b pb, b ∈ l → heap s !! b = Some pb → tcp_state_is_active (state pb) = true) →
  (length l ≤ fuel)%nat →
  a ∈ l → deref s a = Some p →
  has_flag (flags p) TF_ACK_DELAY = true →
  last_timer p ≠ u8 (tcp_timer_ctr s + 1) →
  ∃ s1 s2 ev1 ev2 p1,
    tcp_fasttmr E fuel s = Some s1
    ∧ trace s1 = ev1 ++ trace s ∧ EvOutput a ∈ ev1
    ∧ deref s1 a = Some p1
    ∧ p1 = (let q := tcp_output E (set_flags (set_flag (flags p) TF_ACK_NOW)
                                    (set_last_timer (u8 (tcp_timer_ctr s + 1)) p)) in
            set_flags (clear_flag (flags q) (Z.lor TF_ACK_DELAY TF_ACK_NOW)) q)
    ∧ has_flag (flags p1) TF_ACK_DELAY = false
    ∧ has_flag (flags p1) TF_ACK_NOW = false
    ∧ tcp_fasttmr E fuel s1 = Some s2
    ∧ trace s2 = ev2 ++ trace s1 ∧ (EvOutput a ∉ ev2)
    ∧ flags <$> deref s2 a = Some (flags p1).
Proof.
  intros Hc Hact Hfuel Ha Hp Hfl Hlt.
  set (c1 := u8 (tcp_timer_ctr s + 1)).
  destruct (fasttmr_loop_spec fuel (set_tcp_timer_ctr c1 s) (tcp_active_pcbs s) l)
    as (h1 & ev1 & Hrun1 & Hin1 & Hout1 & Hev1 & _); try done.
  simpl in Hrun1, Hin1, Hout1, Hev1.
  set (s1 := set_trace (ev1 ++ trace s) (set_heap h1 (set_tcp_timer_ctr c1 s))).
  assert (Hp1 : h1 !! a = Some (fasttmr_pcb E c1 p)).
  { rewrite (Hin1 a Ha). unfold deref in Hp. by rewrite Hp. }
  assert (Hsend : fasttmr_sends c1 p = true).
  { unfold fasttmr_sends. rewrite Hfl. apply andb_true_intro. split; [|done].
    apply negb_true_iff. apply Z.eqb_neq. done. }
  assert (Hexp : fasttmr_pcb E c1 p =
                 (let q := tcp_output E (set_flags (set_flag (flags p) TF_ACK_NOW)
                                           (set_last_timer c1 p)) in
                  set_flags (clear_flag (flags q) (Z.lor TF_ACK_DELAY TF_ACK_NOW)) q)).
  { unfold fasttmr_pcb. apply andb_prop in Hsend as [-> _]. simpl. by rewrite Hfl. }
  assert (Hc1 : chain h1 (tcp_active_pcbs s) l).
  { apply (lseg_ext (heap s)); [|done]. intros b Hb. rewrite (Hin1 b Hb).
    destruct (heap s !! b); [|done]. simpl. by rewrite fasttmr_pcb_next. }
  assert (Hact1 : ∀ b pb, b ∈ l → h1 !! b = Some pb → tcp_state_is_active (state pb) = true).
  { intros b pb Hb. rewrite (Hin1 b Hb). destruct (heap s !! b) as [pb0|] eqn:Hb0; [|done].
    simpl. intros [= <-]. rewrite fasttmr_pcb_state. by apply (Hact b). }
  set (c2 := u8 (c1 + 1)).
  destruct (fasttmr_loop_spec fuel (set_tcp_timer_ctr c2 s1) (tcp_active_pcbs s) l)
    as (h2 & ev2 & Hrun2 & Hin2 & _ & Hev2 & _); try done.
  simpl in Hrun2, Hin2, Hev2.
  assert (Hq1 : has_flag (flags (fasttmr_pcb E c1 p)) TF_ACK_DELAY = false).
  { rewrite Hexp. simpl. apply has_flag_clear_or_l. }
  destruct (fasttmr_pcb_quiet c2 _ Hq1) as (Hfl2 & Hs2).
  eexists s1, _, ev1, ev2, (fasttmr_pcb E c1 p).
  split; [exact Hrun1|]. split; [done|]. split.
  { apply Hev1. split; [done|]. exists p. done. }
  split; [exact Hp1|]. split; [exact Hexp|]. split; [exact Hq1|]. split.
  { rewrite Hexp. simpl. apply has_flag_clear_or_r. }
  split; [exact Hrun2|]. split; [done|]. split.
  { intros (_ & pb & Hpb & Hs)%Hev2. rewrite Hp1 in Hpb. injection Hpb as <-.
    rewrite Hs2 in Hs. done. }
  unfold deref. simpl. rewrite (Hin2 a Ha), Hp1. simpl. by rewrite Hfl2.
Qed.
End Fasttmr.


Lemma C6_fasttmr_delayed_ack_witness :
  ∃ s1 s2 p1,
    tcp_fasttmr E0 1 ack_state = Some s1
    ∧ deref s1 1%positive = Some p1
    ∧ has_flag (flags p1) TF_ACK_DELAY = false
    ∧ tcp_fasttmr E0 1 s1 = Some s2
    ∧ flags <$> deref s2 1%positive = Some (flags p1).
Proof.
  destruct (C6_fasttmr_delayed_ack E0 (λ _, eq_refl) (λ _, eq_refl) 1 ack_state
              [1%positive] 1%positive (set_flags TF_ACK_DELAY (conn TCP_PRIO_NORMAL 0 None)))
    as (s1 & s2 & ev1 & ev2 & p1 & H1 & _ & _ & H2 & _ & H3 & _ & H4 & _ & _ & H5).
  - vm_compute. done.
  - intros b pb Hb%list_elem_of_singleton Hpb. subst b. vm_compute in Hpb.
    injection Hpb as <-. reflexivity.
  - simpl. lia.
  - by left.
  - reflexivity.
  - reflexivity.
  - vm_compute. discriminate.
  - exists s1, s2, p1. done.
Defined.

(** ** [tcp_connect] *)

Lemma links_kept_refl s : links_kept s s.
Proof. done. Qed.

Lemma links_kept_trans s1 s2 s3 : links_kept s1 s2 → links_kept s2 s3 → links_kept s1 s3.
Proof.
  intros (H1 & H2 & H3) (H1' & H2' & H3'). split; [|split].
  - intros l. by rewrite H1'.
  - by rewrite H2'.
  - intros q. by rewrite H3'.
Qed.

Lemma links_kept_update p f s s' :
  (∀ q, next (f q) = next q) → update p f s = Some s' → links_kept s s'.
Proof.
  intros Hf (pcb & Hp & ->)%update_inv. split; [|split].
  - intros l. by destruct l.
  - done.
  - intros q. unfold deref. simpl. destruct (decide (p = q)) as [<-|Hne].
    + rewrite lookup_insert_eq. unfold deref in Hp. rewrite Hp. simpl. by rewrite Hf.
    + by rewrite lookup_insert_ne.
Qed.

Lemma links_kept_on_list s s' l q :
  links_kept s s' →
  pcb_on_list (heap s') (list_head l s') q ↔ pcb_on_list (heap s) (list_head l s) q.
Proof.
  intros (H1 & _ & H3). unfold pcb_on_list. rewrite H1.
  split; intros (ls & Hc & Hq); exists ls; (split; [|done]);
    revert Hc; apply lseg_ext; intros b _; [symmetry|]; apply H3.
Qed.

(** [tcp_rmv] changes one list head and [next] fields, nothing else. *)
Lemma tcp_rmv_loop_frame (fuel : nat) (t : option ptr) (a : ptr) (s s' : tcp_globals) :
  tcp_rmv_loop fuel t a s = Some s' →
  ∃ h', s' = set_heap h' s
        ∧ ∀ q, set_next None <$> h' !! q = set_next None <$> heap s !! q.
Proof.
  revert t. induction fuel as [|fuel IH]; intros t; destruct t as [b|]; simpl;
    try done; try (intros [= <-]; exists (heap s); split; [by destruct s|done]).
  destruct (deref s b) as [bp|] eqn:Hb; [|done]. simpl.
  destruct (bool_decide (next bp = Some a)); [|apply IH].
  destruct (deref s a) as [ap|]; [|done]. simpl.
  intros (x & Hx & ->)%update_inv. eexists. split; [done|].
  intros q. destruct (decide (b = q)) as [<-|Hne].
  - rewrite lookup_insert_eq. unfold deref in Hx. by rewrite Hx.
  - by rewrite lookup_insert_ne.
Qed.

Lemma tcp_rmv_frame (fuel : nat) (pcbs : pcb_list) (a : ptr) (s s' : tcp_globals) :
  tcp_rmv fuel pcbs a s = Some s' →
  ∃ h' hd', s' = set_heap h' (set_list_head pcbs hd' s)
            ∧ ∀ q, set_next None <$> h' !! q = set_next None <$> heap s !! q.
Proof.
  unfold tcp_rmv. intros H.
  destruct (bool_decide (list_head pcbs s = Some a)).
  - destruct (deref s a) as [ap|] eqn:Ha; [|done]. simpl in H.
    apply update_inv in H as (x & Hx & ->).
    exists (<[a := set_next None x]> (heap (set_list_head pcbs (next ap) s))), (next ap).
    split; [by destruct pcbs|]. intros q. rewrite heap_set_list_head.
    unfold deref in Hx. rewrite heap_set_list_head in Hx.
    destruct (decide (a = q)) as [<-|Hne].
    + rewrite lookup_insert_eq. by rewrite Hx.
    + by rewrite lookup_insert_ne.
  - destruct (tcp_rmv_loop fuel (list_head pcbs s) a s) as [s1|] eqn:Hl; [|done].
    simpl in H. apply tcp_rmv_loop_frame in Hl as (h1 & -> & Hh1).
    apply update_inv in H as (x & Hx & ->).
    exists (<[a := set_next None x]> h1), (list_head pcbs s).
    split; [by destruct pcbs, s|]. intros q. unfold deref in Hx. simpl in Hx.
    destruct (decide (a = q)) as [<-|Hne].
    + rewrite lookup_insert_eq. rewrite <- Hh1, Hx. done.
    + rewrite lookup_insert_ne by done. apply Hh1.
Qed.

(** Inversion of one bind of the option monad. *)
Ltac bind_inv H :=
  match type of H with
  | (?m ≫= _) = Some _ =>
    let x := fresh "x" in
    let Hx := fresh "Hx" in
    destruct m as [x|] eqn:Hx; [cbn [mbind option_bind] in H | discriminate H]
  end.

Tactic Notation "bind_split" hyp(H) "as" simple_intropattern(x) ident(Hx) :=
  match type of H with
  | (?m ≫= _) = Some _ =>
    destruct m as [x|] eqn:Hx; [cbn [mbind option_bind] in H | discriminate H]
  end.

Section ConnectProps.
Variable E : tcp_env.

Lemma tcp_connect_no_route (fuel : nat) (s : tcp_globals) (pcb : ptr) (p : tcp_pcb)
    (a : ip_addr_t) (port : Z) (cb : option callback) :
  deref s pcb = Some p → state p = CLOSED →
  IP_ADDR_PCB_VERSION_MATCH p (Some a) = true →
  ip_addr_isany_val (local_ip p) = true →
  no_route E p a →
  tcp_connect E fuel pcb (Some a) port cb s =
    Some (ERR_RTE,
          set_heap (<[pcb := set_remote_port port (set_remote_ip a p)]> (heap s)) s).
Proof.
  intros Hp Hst Hver Hany Hroute.
  unfold tcp_connect. rewrite Hp. cbn [mbind option_bind]. rewrite Hst.
  rewrite bool_decide_eq_true_2 by done. cbn [LWIP_ASSERT mbind option_bind].
  rewrite Hver. cbn [negb].
  unfold update, deref in *. rewrite Hp. heap_simpl. rewrite Hany.
  rewrite insert_insert_eq. unfold no_route, PCB_ISIPV6 in *. simpl.
  destruct (ip_route_get_local_ip E (IP_IS_V6_VAL (local_ip p)) (local_ip p) a)
    as [[n|] [l|]]; simpl in Hroute; destruct Hroute as [?|?]; try done.
Qed.

Lemma kept_refl pcb s : kept pcb s s.
Proof. done. Qed.

Lemma kept_trans pcb s1 s2 s3 : kept pcb s1 s2 → kept pcb s2 s3 → kept pcb s1 s3.
Proof.
  intros (H1 & H2 & H3) (H1' & H2' & H3'). split; [by eapply links_kept_trans|].
  split; [by rewrite H2'|]. intros q Hq. by rewrite H3', H3.
Qed.

Lemma kept_update_at pcb f s s' :
  (∀ x, deref s pcb = Some x → next (f x) = next x ∧ state (f x) = state x) →
  update pcb f s = Some s' → kept pcb s s'.
Proof.
  intros Hf Hu. apply update_inv in Hu as (x & Hx & ->).
  destruct (Hf x Hx) as [Hn Hs]. unfold deref in *. split; [split; [|split]|split].
  - intros l. by destruct l.
  - done.
  - intros q. unfold deref. simpl. destruct (decide (pcb = q)) as [<-|Hne].
    + rewrite lookup_insert_eq, Hx. simpl. by rewrite Hn.
    + by rewrite lookup_insert_ne.
  - unfold deref. simpl. rewrite lookup_insert_eq, Hx. simpl. by rewrite Hs.
  - intros q Hq. unfold deref. simpl. by rewrite lookup_insert_ne.
Qed.

Lemma kept_update pcb f s s' :
  (∀ q, next (f q) = next q) → (∀ q, state (f q) = state q) →
  update pcb f s = Some s' → kept pcb s s'.
Proof. intros Hn Hs. apply kept_update_at. intros x _. by split. Qed.

Lemma kept_set_tcp_port pcb c s : kept pcb s (set_tcp_port c s).
Proof. split; [|done]. split; [|done]. intros l. by destruct l. Qed.

Lemma kept_set_iss pcb c s : kept pcb s (set_iss c s).
Proof. split; [|done]. split; [|done]. intros l. by destruct l. Qed.

Lemma kept_emit pcb e s : kept pcb s (emit e s).
Proof. split; [|done]. split; [|done]. intros l. by destruct l. Qed.

Lemma connect_init_next iss cb p : next (connect_init E iss cb p) = next p.
Proof. done. Qed.

Lemma connect_init_state iss cb p : state (connect_init E iss cb p) = state p.
Proof. done. Qed.

Hypothesis enqueue_next : ∀ q fl, next (tcp_enqueue_flags E q fl).2 = next q.
Hypothesis enqueue_state : ∀ q fl, state (tcp_enqueue_flags E q fl).2 = state q.

Lemma update_field {A} (g : tcp_pcb → A) (pcb : ptr) (f : tcp_pcb → tcp_pcb)
    (s s' : tcp_globals) :
  update pcb f s = Some s' → (∀ x, g (f x) = g x) →
  g <$> deref s' pcb = g <$> deref s pcb.
Proof.
  intros Hu Hg. apply update_inv in Hu as (x & Hx & ->). unfold deref in *. simpl.
  rewrite lookup_insert_eq, Hx. simpl. by rewrite Hg.
Qed.

(** Every return of [tcp_connect]: either an error, with the lists, the
    iterator and the state of the PCB as before, or [ERR_OK] after the SYN
    was enqueued, followed by the five steps "changed the pcbs state now".
    [sq] is the state in which [tcp_enqueue_flags] is called and [q] the
    record of the PCB in it, with the remote address, the port and the
    callback of the call. *)
Lemma tcp_connect_inv_syn (fuel : nat) (s s' : tcp_globals) (pcb : ptr)
    (ipaddr : option ip_addr_t) (port : Z) (cb : option callback) (err : err_t) :
  tcp_connect E fuel pcb ipaddr port cb s = Some (err, s') →
  ∃ p, deref s pcb = Some p ∧ state p = CLOSED
    ∧ ((err ≠ ERR_OK ∧ kept pcb s s')
       ∨ (err = ERR_OK
          ∧ ∃ s0 q sq, kept pcb s s0
              ∧ (tcp_enqueue_flags E q TCP_SYN).1 = ERR_OK
              ∧ (s1 ← update pcb (set_state SYN_SENT)
                         (emit (EvEnqueueFlags pcb TCP_SYN) s0);
                 s2 ← (if negb (local_port p =? 0) then tcp_rmv fuel BoundList pcb s1
                       else Some s1);
                 s3 ← iter_will_prepend pcb ActiveList s2;
                 s4 ← tcp_reg ActiveList pcb s3;
                 call_tcp_output E pcb s4) = Some s'
              ∧ kept pcb s sq ∧ deref sq pcb = Some q
              ∧ ipaddr = Some (remote_ip q) ∧ remote_port q = port ∧ connected q = cb
              ∧ s0 = set_heap (<[pcb := (tcp_enqueue_flags E q TCP_SYN).2]> (heap sq)) sq)).
Proof.
  intros H. unfold tcp_connect in H.
  bind_inv H. rename x into p, Hx into Hp. exists p. split; [done|].
  destruct (bool_decide (state p = CLOSED)) eqn:Hst; [|discriminate H].
  apply bool_decide_eq_true in Hst. cbn [LWIP_ASSERT mbind option_bind] in H.
  split; [done|].
  destruct (negb (IP_ADDR_PCB_VERSION_MATCH p ipaddr));
    [injection H as <- <-; left; split; [done|apply kept_refl]|].
  destruct ipaddr as [a|]; [|injection H as <- <-; left; split; [done|apply kept_refl]].
  bind_inv H. rename x into s1, Hx into H1.
  bind_inv H. rename x into s2, Hx into H2.
  bind_inv H. rename x into p2, Hx into Hp2.
  assert (Hlp2 : local_port p2 = local_port p ∧ remote_ip p2 = a ∧ remote_port p2 = port).
  { apply update_inv in H1 as (y1 & Hy1 & ->). apply update_inv in H2 as (y2 & Hy2 & ->).
    unfold deref in *. simpl in *. rewrite lookup_insert_eq in Hy2, Hp2.
    rewrite Hp in Hy1. injection Hy1 as <-. injection Hy2 as <-. by injection Hp2 as <-. }
  destruct Hlp2 as (Hlp2 & Hrip2 & Hrp2).
  apply (kept_update pcb) in H1; [|done..]. apply (kept_update pcb) in H2; [|done..].
  pose proof (kept_trans _ _ _ _ H1 H2) as K2. clear H1 H2.
  bind_inv H. rename x into r1, Hx into Hr1.
  assert (Hroute : r1 = inl (ERR_RTE, s2)
                   ∨ ∃ s3, r1 = inr s3 ∧ kept pcb s2 s3
                           ∧ local_port <$> deref s3 pcb = Some (local_port p)
                           ∧ (λ x, (remote_ip x, remote_port x)) <$> deref s3 pcb
                             = Some (a, port)).
  { destruct (ip_addr_isany_val (local_ip p2)).
    - destruct (ip_route_get_local_ip E _ _ _) as [[n|] [lip|]];
        try (left; by injection Hr1 as <-).
      bind_inv Hr1. injection Hr1 as <-. right. eexists. split; [done|]. split; [|split].
      + by apply (kept_update pcb) in Hx.
      + apply update_inv in Hx as (y & Hy & ->). unfold deref in *. simpl.
        rewrite lookup_insert_eq. rewrite Hp2 in Hy. injection Hy as <-. simpl. by f_equal.
      + rewrite (update_field (λ x, (remote_ip x, remote_port x)) _ _ _ _ Hx ltac:(done)),
          Hp2. simpl. by rewrite Hrip2, Hrp2.
    - injection Hr1 as <-. right. eexists. split; [done|]. split; [apply kept_refl|].
      rewrite Hp2. simpl. split; [by f_equal|by rewrite Hrip2, Hrp2]. }
  clear Hr1. destruct Hroute as [-> | (s3 & -> & K3 & Hlp3 & Hrem3)].
  { injection H as <- <-. left. done. }
  pose proof (kept_trans _ _ _ _ K2 K3) as K. clear K2 K3 Hp2 Hlp2 Hrip2 Hrp2 p2.
  bind_inv H. rename x into p3, Hx into Hp3.
  simpl in Hlp3. injection Hlp3 as Hlp3. rewrite Hlp3 in H.
  bind_inv H. rename x into r2, Hx into Hr2.
  assert (Hrem3' : (λ x, (remote_ip x, remote_port x)) <$> deref s3 pcb = Some (a, port))
    by (first [exact Hrem3 | by rewrite Hp3]).
  assert (Hport : (∃ e s4, r2 = inl (e, s4) ∧ e ≠ ERR_OK ∧ kept pcb s3 s4)
                  ∨ ∃ s4, r2 = inr s4 ∧ kept pcb s3 s4
                          ∧ (λ x, (remote_ip x, remote_port x)) <$> deref s4 pcb
                            = Some (a, port)).
  { destruct (local_port p =? 0).
    - bind_inv Hr2. destruct x as [np s4].
      apply tcp_new_port_frame in Hx as (c' & ->).
      bind_inv Hr2.
      pose proof (update_field (λ x, (remote_ip x, remote_port x)) _ _ _ _ Hx ltac:(done))
        as Hrem4.
      change (deref (set_tcp_port c' s3) pcb) with (deref s3 pcb) in Hrem4.
      rewrite Hrem3' in Hrem4.
      apply (kept_update pcb) in Hx; [|done..].
      pose proof (kept_trans _ _ _ _ (kept_set_tcp_port pcb c' s3) Hx) as Hk.
      destruct (np =? 0); injection Hr2 as <-; [left|right]; eauto 6.
    - destruct (ip_get_option p3 SOF_REUSEADDR).
      + bind_inv Hr2. bind_inv Hr2.
        destruct x0; injection Hr2 as <-; [left|right]; eauto 6 using kept_refl.
      + injection Hr2 as <-. right. eauto using kept_refl. }
  clear Hr2. destruct Hport as [(e & s4 & -> & He & K4) | (s4 & -> & K4 & Hrem4)].
  { injection H as <- <-. left. split; [done|]. by eapply kept_trans. }
  pose proof (kept_trans _ _ _ _ K K4) as K'. clear K K4 Hp3.
  unfold tcp_next_iss in H. cbn [fst snd] in H.
  pose proof (kept_trans _ _ _ _ K' (kept_set_iss pcb (u32 (iss s4 + tcp_ticks s4)) s4)) as K.
  clear K'. bind_inv H.
  pose proof (update_field (λ x, (remote_ip x, remote_port x)) _ _ _ _ Hx ltac:(done))
    as Hrem5.
  change (deref (set_iss (u32 (iss s4 + tcp_ticks s4)) s4) pcb) with (deref s4 pcb) in Hrem5.
  rewrite Hrem4 in Hrem5.
  assert (Hcb5 : connected <$> deref x pcb = Some cb).
  { apply update_inv in Hx as (y & Hy & ->). unfold deref. simpl.
    by rewrite lookup_insert_eq. }
  apply (kept_update pcb) in Hx; [|done..].
  pose proof (kept_trans _ _ _ _ K Hx) as K'. clear K Hx.
  bind_inv H. rename x0 into p5, Hx into Hp5.
  rewrite ?Hp5 in Hrem5. rewrite ?Hp5 in Hcb5. simpl in Hrem5, Hcb5.
  injection Hrem5 as Hrip5 Hrp5. injection Hcb5 as Hcb5.
  destruct (tcp_enqueue_flags E p5 TCP_SYN) as [ret p6] eqn:Henq.
  bind_inv H. pose proof Hx as Hup.
  apply (kept_update_at pcb) in Hx.
  2:{ intros y Hy. rewrite Hp5 in Hy. injection Hy as <-.
      pose proof (enqueue_next p5 TCP_SYN) as Hn. pose proof (enqueue_state p5 TCP_SYN) as Hs.
      rewrite Henq in Hn, Hs. done. }
  pose proof (kept_trans _ _ _ _ K' Hx) as K. clear Hx.
  destruct (ret =? ERR_OK) eqn:Hret.
  - apply Z.eqb_eq in Hret. subst ret. right.
    assert (Herr : err = ERR_OK).
    { do 5 bind_inv H. by injection H as <- _. }
    split; [done|]. exists x0, p5, x. split; [done|]. split; [by rewrite Henq|].
    split.
    { do 5 (bind_inv H; cbn [mbind option_bind]). injection H as _ <-. done. }
    split; [done|]. split; [done|]. split; [by rewrite Hrip5|]. split; [done|].
    split; [done|]. rewrite Henq. simpl.
    apply update_inv in Hup as (y & _ & ->). done.
  - injection H as <- <-. left. split; [by apply Z.eqb_neq|].
    eapply kept_trans; [exact K|]. apply kept_emit.
Qed.

Lemma tcp_connect_inv (fuel : nat) (s s' : tcp_globals) (pcb : ptr)
    (ipaddr : option ip_addr_t) (port : Z) (cb : option callback) (err : err_t) :
  tcp_connect E fuel pcb ipaddr port cb s = Some (err, s') →
  ∃ p, deref s pcb = Some p ∧ state p = CLOSED
    ∧ ((err ≠ ERR_OK ∧ kept pcb s s')
       ∨ (err = ERR_OK
          ∧ ∃ s0 q, kept pcb s s0
              ∧ (tcp_enqueue_flags E q TCP_SYN).1 = ERR_OK
              ∧ (s1 ← update pcb (set_state SYN_SENT)
                         (emit (EvEnqueueFlags pcb TCP_SYN) s0);
                 s2 ← (if negb (local_port p =? 0) then tcp_rmv fuel BoundList pcb s1
                       else Some s1);
                 s3 ← iter_will_prepend pcb ActiveList s2;
                 s4 ← tcp_reg ActiveList pcb s3;
                 call_tcp_output E pcb s4) = Some s')).
Proof.
  intros (p & Hp & Hst & [Herr | (Herr & s0 & q & sq & K & Henq & Hc & _)])%tcp_connect_inv_syn.
  - exists p. split; [done|]. split; [done|]. by left.
  - exists p. split; [done|]. split; [done|]. right. split; [done|]. by exists s0, q.
Qed.

Lemma tcp_connect_failure (fuel : nat) (s s' : tcp_globals) (pcb : ptr)
    (ipaddr : option ip_addr_t) (port : Z) (cb : option callback) (err : err_t) :
  tcp_connect E fuel pcb ipaddr port cb s = Some (err, s') → err ≠ ERR_OK →
  kept pcb s s' ∧ state <$> deref s pcb = Some CLOSED.
Proof.
  intros (p & Hp & Hst & [[_ K] | [-> _]])%tcp_connect_inv Herr; [|done].
  split; [done|]. rewrite Hp. simpl. by f_equal.
Qed.

Hypothesis output_next : ∀ q, next (tcp_output E q) = next q.
Hypothesis output_state : ∀ q, state (tcp_output E q) = state q.

Lemma tcp_connect_success (fuel : nat) (s s' : tcp_globals) (pcb : ptr)
    (ipaddr : option ip_addr_t) (port : Z) (cb : option callback) :
  tcp_connect E fuel pcb ipaddr port cb s = Some (ERR_OK, s') →
  (∃ q, (tcp_enqueue_flags E q TCP_SYN).1 = ERR_OK)
  ∧ state <$> deref s' pcb = Some SYN_SENT
  ∧ tcp_active_pcbs s' = Some pcb
  ∧ next <$> deref s' pcb = Some (tcp_active_pcbs s)
  ∧ tcp_iter_will_prepend (tcp_conn_iter s) pcb (tcp_active_pcbs s)
    = Some (tcp_conn_iter s')
  ∧ EvEnqueueFlags pcb TCP_SYN ∈ trace s'
  ∧ tcp_listen_pcbs s' = tcp_listen_pcbs s
  ∧ tcp_tw_pcbs s' = tcp_tw_pcbs s
  ∧ (∀ p l1 l2,
       deref s pcb = Some p → local_port p ≠ 0 →
       chain (heap s) (tcp_bound_pcbs s) (l1 ++ pcb :: l2) → (length l1 ≤ fuel)%nat →
       chain (heap s') (tcp_bound_pcbs s') (l1 ++ l2)).
Proof.
  intros (p & Hp & Hst & [[? _] | [_ (s0 & q & K & Henq & H)]])%tcp_connect_inv; [done|].
  split; [eauto|].
  destruct K as ((Hheads & Hiter & Hnext) & Hstate & _).
  bind_inv H. rename x into s1, Hx into H1.
  apply update_inv in H1 as (y & Hy & ->).
  bind_inv H. rename x into s2, Hx into H2.
  bind_inv H. rename x into s3, Hx into H3.
  bind_inv H. rename x into s4, Hx into H4.
  unfold iter_will_prepend in H3. bind_inv H3. rename x into it, Hx into Hit.
  injection H3 as <-.
  unfold tcp_reg in H4. bind_inv H4. rename x into sx, Hx into Hsx.
  apply update_inv in Hsx as (z & Hz & ->). injection H4 as <-.
  unfold call_tcp_output in H. bind_inv H. apply update_inv in Hx as (w & Hw & ->).
  injection H as <-.
  unfold deref in Hw. simpl in Hw. rewrite lookup_insert_eq in Hw. injection Hw as <-.
  unfold deref in Hz. simpl in Hz.
  (* the state after the optional removal from the bound list *)
  assert (H2' : ∃ h2 hd2,
             s2 = set_heap h2 (set_tcp_bound_pcbs hd2
                    (set_heap (<[pcb := set_state SYN_SENT y]> (heap s0))
                       (emit (EvEnqueueFlags pcb TCP_SYN) s0)))
             ∧ (∀ a, set_next None <$> h2 !! a
                     = set_next None <$> (<[pcb := set_state SYN_SENT y]> (heap s0)) !! a)
             ∧ (∀ l1 l2,
                  local_port p ≠ 0 →
                  chain (<[pcb := set_state SYN_SENT y]> (heap s0)) (tcp_bound_pcbs s0)
                    (l1 ++ pcb :: l2) →
                  (length l1 ≤ fuel)%nat → chain h2 hd2 (l1 ++ l2))).
  { destruct (negb (local_port p =? 0)) eqn:Hlp.
    - pose proof H2 as (h2 & hd2 & -> & Hh2)%tcp_rmv_frame.
      exists h2, hd2. split; [done|]. split; [done|].
      intros l1 l2 _ Hc Hlen.
      destruct (tcp_rmv_chain fuel BoundList pcb
                  (set_heap (<[pcb := set_state SYN_SENT y]> (heap s0))
                     (emit (EvEnqueueFlags pcb TCP_SYN) s0)) l1 l2 Hc Hlen)
        as (ap & h' & hd' & _ & Hrmv & Hc' & _).
      pose proof (eq_trans (eq_sym Hrmv) H2) as Heq. simpl in Heq.
      injection Heq as Hh Hhd. by subst.
    - injection H2 as <-. eexists _, (tcp_bound_pcbs s0). split; [by destruct s0|].
      split; [done|]. intros l1 l2 Hne. apply negb_false_iff, Z.eqb_eq in Hlp. done. }
  destruct H2' as (h2 & hd2 & -> & Hh2 & Hbound). simpl in *.
  assert (Hz' : state z = SYN_SENT ∧ True).
  { pose proof (f_equal (fmap state) (Hh2 pcb)) as Hpcb.
    rewrite Hz, lookup_insert_eq in Hpcb. simpl in Hpcb. split; [congruence|done]. }
  destruct Hz' as [Hzs _].
  pose proof (Hheads ActiveList) as Hact. pose proof (Hheads BoundList) as Hbnd.
  pose proof (Hheads ListenList) as Hlis. pose proof (Hheads TwList) as Htw.
  simpl in Hact, Hbnd, Hlis, Htw.
  split; [|split; [|split; [|split; [|split; [|split; [|split]]]]]].
  - unfold deref. simpl. rewrite lookup_insert_eq. simpl. rewrite output_state. simpl.
    by f_equal.
  - done.
  - unfold deref. simpl. rewrite lookup_insert_eq. simpl. rewrite output_next. simpl.
    by rewrite Hact.
  - rewrite <- Hit, Hiter, Hact. done.
  - do 2 right. by left.
  - done.
  - done.
  - intros p' l1 l2 Hp' Hlp Hc Hlen. rewrite Hp in Hp'. injection Hp' as <-.
    assert (Hni : pcb ∉ l1 ++ l2).
    { apply chain_split in Hc as (_ & _ & _ & _ & _ & Hn1 & Hn2 & _).
      intros [?|?]%elem_of_app; done. }
    apply lseg_insert_other; [done|]. apply lseg_insert_other; [done|].
    apply Hbound; [done| |done]. rewrite Hbnd.
    apply (lseg_ext (heap s)); [|done]. intros a _.
    destruct (decide (pcb = a)) as [<-|Hne].
    + rewrite lookup_insert_eq. simpl. pose proof (Hnext pcb) as Hn.
      unfold deref in Hn, Hy. simpl in Hy. rewrite Hy in Hn. done.
    + rewrite lookup_insert_ne by done. apply Hnext.
Qed.

Lemma connect_syn_state_kept fuel pcb a port cb s sq :
  connect_syn_state E fuel pcb a port cb s = Some sq →
  kept pcb s sq
  ∧ ∃ q, deref sq pcb = Some q ∧ remote_ip q = a ∧ remote_port q = port ∧ connected q = cb.
Proof.
  unfold connect_syn_state. intros H.
  bind_split H as s1 H1. bind_split H as s2 H2. bind_split H as p2 Hp2.
  bind_split H as s3 H3. bind_split H as p3 Hp3. bind_split H as s4 H4.
  unfold tcp_next_iss in H. cbn [fst snd] in H.
  set (g := λ x : tcp_pcb, (remote_ip x, remote_port x)).
  assert (R2 : g <$> deref s2 pcb = Some (a, port)).
  { apply update_inv in H1 as (y1 & Hy1 & ->). apply update_inv in H2 as (y2 & Hy2 & ->).
    unfold deref in *. simpl in *. rewrite lookup_insert_eq in Hy2 |- *.
    by injection Hy2 as <-. }
  assert (K2 : kept pcb s s2).
  { apply (kept_update pcb) in H1; [|done..]. apply (kept_update pcb) in H2; [|done..].
    by eapply kept_trans. }
  assert (K3 : kept pcb s2 s3 ∧ g <$> deref s3 pcb = Some (a, port)).
  { destruct (ip_addr_isany_val (local_ip p2)); [|by injection H3 as <-].
    destruct (ip_route_get_local_ip E _ _ _) as [[n|] [lip|]]; try done.
    split; [by apply (kept_update pcb) in H3|].
    by rewrite (update_field g _ _ _ _ H3 ltac:(done)). }
  destruct K3 as [K3 R3].
  assert (K4 : kept pcb s3 s4 ∧ g <$> deref s4 pcb = Some (a, port)).
  { destruct (local_port p3 =? 0); [|by injection H4 as <-].
    bind_split H4 as [np sn] Hn. apply tcp_new_port_frame in Hn as (c' & ->).
    split.
    - apply (kept_update pcb) in H4; [|done..].
      eapply kept_trans; [apply (kept_set_tcp_port pcb c')|done].
    - by rewrite (update_field g _ _ _ _ H4 ltac:(done)). }
  destruct K4 as [K4 R4].
  split.
  - apply (kept_update pcb) in H; [|done..].
    eapply kept_trans; [exact K2|]. eapply kept_trans; [exact K3|].
    eapply kept_trans; [exact K4|]. eapply kept_trans; [apply (kept_set_iss pcb)|exact H].
  - pose proof (update_field g _ _ _ _ H ltac:(done)) as R5.
    change (deref (set_iss _ s4) pcb) with (deref s4 pcb) in R5. rewrite R4 in R5.
    apply update_inv in H as (y & Hy & ->). unfold deref in *. simpl in *.
    rewrite lookup_insert_eq in R5 |- *. simpl in R5. injection R5 as R5 R6.
    eexists. split; [done|]. split; [exact R5|]. split; [exact R6|done].
Qed.

(** A call that returns [ERR_OK] went through [connect_syn_state], enqueued
    the SYN on the record [q] of the PCB in that state, and took the five
    steps after it. *)
Lemma tcp_connect_syn_state fuel s s' pcb p a port cb :
  deref s pcb = Some p →
  tcp_connect E fuel pcb (Some a) port cb s = Some (ERR_OK, s') →
  ∃ sq q, connect_syn_state E fuel pcb a port cb s = Some sq
    ∧ deref sq pcb = Some q
    ∧ (tcp_enqueue_flags E q TCP_SYN).1 = ERR_OK
    ∧ (s1 ← update pcb (set_state SYN_SENT)
               (emit (EvEnqueueFlags pcb TCP_SYN)
                  (set_heap (<[pcb := (tcp_enqueue_flags E q TCP_SYN).2]> (heap sq)) sq));
       s2 ← (if negb (local_port p =? 0) then tcp_rmv fuel BoundList pcb s1 else Some s1);
       s3 ← iter_will_prepend pcb ActiveList s2;
       s4 ← tcp_reg ActiveList pcb s3;
       call_tcp_output E pcb s4) = Some s'.
Proof.
  intros Hp H. unfold tcp_connect in H. unfold connect_syn_state.
  rewrite Hp in H. cbn [mbind option_bind] in H.
  bind_inv H. destruct (negb (IP_ADDR_PCB_VERSION_MATCH p (Some a))); [done|].
  bind_split H as s1 H1. cbn [mbind option_bind].
  bind_split H as s2 H2. cbn [mbind option_bind].
  bind_split H as p2 Hp2. cbn [mbind option_bind].
  assert (Hlp2 : local_port p2 = local_port p).
  { apply update_inv in H1 as (y1 & Hy1 & ->). apply update_inv in H2 as (y2 & Hy2 & ->).
    unfold deref in *. simpl in *. rewrite lookup_insert_eq in Hy2, Hp2.
    rewrite Hp in Hy1. injection Hy1 as <-. injection Hy2 as <-. by injection Hp2 as <-. }
  bind_split H as r1 Hr1.
  assert (Hroute : ∃ s3, r1 = inr s3
            ∧ (if ip_addr_isany_val (local_ip p2) then
                 match ip_route_get_local_ip E (PCB_ISIPV6 p2) (local_ip p2) (remote_ip p2) with
                 | (Some _, Some lip) => update pcb (set_local_ip lip) s2
                 | _ => None
                 end
               else Some s2) = Some s3
            ∧ local_port <$> deref s3 pcb = Some (local_port p)).
  { destruct (ip_addr_isany_val (local_ip p2)).
    - destruct (ip_route_get_local_ip E _ _ _) as [[n|] [lip|]];
        try (injection Hr1 as <-; done).
      bind_split Hr1 as s3 H3. injection Hr1 as <-. exists s3. split; [done|].
      split; [done|]. rewrite (update_field local_port _ _ _ _ H3 ltac:(done)), Hp2.
      simpl. by f_equal.
    - injection Hr1 as <-. exists s2. split; [done|]. split; [done|].
      rewrite Hp2. simpl. by f_equal. }
  destruct Hroute as (s3 & -> & -> & Hlp3). cbn [mbind option_bind].
  bind_split H as p3 Hp3. cbn [mbind option_bind].
  simpl in Hlp3. injection Hlp3 as Hlp3. rewrite Hlp3 in H |- *.
  bind_split H as r2 Hr2.
  assert (Hport : ∃ s4, r2 = inr s4
            ∧ (if local_port p =? 0 then
                 '(np, s) ← tcp_new_port fuel s3; update pcb (set_local_port np) s
               else Some s3) = Some s4).
  { destruct (local_port p =? 0).
    - bind_split Hr2 as [np sn] Hn. cbn [mbind option_bind].
      bind_split Hr2 as s4 H4. destruct (np =? 0); [by injection Hr2 as <-|].
      injection Hr2 as <-. by exists s4.
    - destruct (ip_get_option p3 SOF_REUSEADDR).
      + bind_split Hr2 as u1 Hu1. bind_split Hr2 as u2 Hu2.
        destruct u2; [by injection Hr2 as <-|]. injection Hr2 as <-. by exists s3.
      + injection Hr2 as <-. by exists s3. }
  destruct Hport as (s4 & -> & ->). cbn [mbind option_bind].
  unfold tcp_next_iss in *. cbn [fst snd] in *.
  bind_split H as s5 H5. bind_split H as p5 Hp5.
  exists s5, p5. split; [done|]. split; [done|].
  destruct (tcp_enqueue_flags E p5 TCP_SYN) as [ret p6] eqn:Henq.
  bind_split H as s6 H6. apply update_inv in H6 as (y & _ & ->). simpl.
  destruct (ret =? ERR_OK) eqn:Hret; [|injection H as Hr _; rewrite Hr in Hret; done].
  apply Z.eqb_eq in Hret. split; [done|].
  do 5 (bind_inv H; cbn [mbind option_bind]). by injection H as _ <-.
Qed.

(** The record of the PCB after a [tcp_connect] that returns [ERR_OK]: what
    [tcp_enqueue_flags] made of the record [q] of this PCB, in SYN_SENT,
    linked to the old head of the active list and passed to [tcp_output]. *)
Lemma tcp_connect_success_syn (fuel : nat) (s s' : tcp_globals) (pcb : ptr)
    (a : ip_addr_t) (port : Z) (cb : option callback) :
  tcp_connect E fuel pcb (Some a) port cb s = Some (ERR_OK, s') →
  ∃ q, syn_enqueued E fuel pcb a port cb s q
       ∧ deref s' pcb
         = Some (tcp_output E (set_next (tcp_active_pcbs s)
                   (set_state SYN_SENT (tcp_enqueue_flags E q TCP_SYN).2))).
Proof.
  intros H0. pose proof H0 as (p & Hp & _)%tcp_connect_inv.
  destruct (tcp_connect_syn_state _ _ _ _ _ _ _ _ Hp H0) as (sq & q & Hsq & Hq & Henq & H).
  destruct (connect_syn_state_kept _ _ _ _ _ _ _ Hsq) as (Kq & q' & Hq' & Hip & Hport & Hcb).
  rewrite Hq in Hq'. injection Hq' as <-.
  exists q. split.
  { split; [by exists sq|done]. }
  set (s0 := set_heap (<[pcb := (tcp_enqueue_flags E q TCP_SYN).2]> (heap sq)) sq) in H.
  assert (K : kept pcb s s0).
  { eapply kept_trans; [exact Kq|].
    apply (kept_update_at pcb (λ _, (tcp_enqueue_flags E q TCP_SYN).2)).
    - intros x Hx. rewrite Hq in Hx. injection Hx as <-. by split.
    - unfold update. by rewrite Hq. }
  assert (Hs0 : s0 = set_heap (<[pcb := (tcp_enqueue_flags E q TCP_SYN).2]> (heap sq)) sq)
    by done.
  clearbody s0.
  destruct K as ((Hheads & Hiter & Hnext) & Hstate & _).
  bind_inv H. rename x into s1, Hx into H1.
  apply update_inv in H1 as (y & Hy & ->).
  assert (Hyq : y = (tcp_enqueue_flags E q TCP_SYN).2).
  { unfold deref in Hy. simpl in Hy. rewrite Hs0 in Hy. simpl in Hy.
    rewrite lookup_insert_eq in Hy. by injection Hy. }
  bind_inv H. rename x into s2, Hx into H2.
  bind_inv H. rename x into s3, Hx into H3.
  bind_inv H. rename x into s4, Hx into H4.
  unfold iter_will_prepend in H3. bind_inv H3. rename x into it, Hx into Hit.
  injection H3 as <-.
  unfold tcp_reg in H4. bind_inv H4. rename x into sx, Hx into Hsx.
  apply update_inv in Hsx as (z & Hz & ->). injection H4 as <-.
  unfold call_tcp_output in H. bind_inv H. apply update_inv in Hx as (w & Hw & ->).
  injection H as <-.
  unfold deref in Hw. simpl in Hw. rewrite lookup_insert_eq in Hw. injection Hw as <-.
  unfold deref in Hz. simpl in Hz.
  assert (Hz' : set_next None z = set_next None (set_state SYN_SENT y)
                ∧ tcp_active_pcbs s2 = tcp_active_pcbs s0).
  { destruct (negb (local_port p =? 0)).
    - pose proof H2 as (h2 & hd2 & -> & Hh2)%tcp_rmv_frame. simpl in Hz.
      pose proof (Hh2 pcb) as Hpcb. rewrite Hz in Hpcb. simpl in Hpcb.
      rewrite lookup_insert_eq in Hpcb. simpl in Hpcb. apply (inj Some) in Hpcb.
      split; [exact Hpcb|done].
    - injection H2 as <-. simpl in Hz. rewrite lookup_insert_eq in Hz.
      injection Hz as <-. done. }
  destruct Hz' as [Hzy Hhd].
  unfold deref. simpl. rewrite lookup_insert_eq. do 2 f_equal.
  pose proof (Hheads ActiveList) as Hact. simpl in Hact.
  rewrite Hhd, Hact, <- Hyq.
  change (set_next (tcp_active_pcbs s) (set_next None z)
          = set_next (tcp_active_pcbs s) (set_next None (set_state SYN_SENT y))).
  by rewrite Hzy.
Qed.

(** C4 (amended).  [tcp_connect] on a CLOSED PCB with a wildcard local
    address, with a remote address of the PCB's IP version:
    - if the route lookup yields no interface or no local address, the call
      returns [ERR_RTE], the PCB is still CLOSED, no list head, no [next]
      link and the scan iterator have changed, so the PCB is on exactly the
      lists it was on before (none for a fresh PCB, the bound list for a
      bound one);
    - every call that returns an error leaves the PCB CLOSED and the lists
      and the iterator as they were;
    - a call that returns [ERR_OK] has enqueued the SYN of this PCB with
      [ERR_OK]: [tcp_enqueue_flags] was called on the record that the PCB
      has after the statements before the SYN ([connect_syn_state]), with
      the remote address, the port and the callback of the call, it
      returned [ERR_OK], and the PCB's record after the call is what it
      made of that record, in SYN_SENT, linked to the old head of the
      active list and passed to [tcp_output]; the PCB is in SYN_SENT and
      is the head of the active list in front of the old head, the
      iterator got the [will_prepend] notification for that list, the
      listen and tw lists are as before, and a PCB with a local port has
      left the bound list;
    - whenever a call has changed the state of the PCB, a list head, a
      [next] link or the iterator, it returned [ERR_OK] and the SYN of
      this PCB was enqueued with [ERR_OK]. *)
Theorem C4_tcp_connect_commits_on_success (fuel : nat) (s : tcp_globals) (pcb : ptr)
    (p : tcp_pcb) (a : ip_addr_t) (port : Z) (cb : option callback) :
  deref s pcb = Some p → state p = CLOSED →
  IP_ADDR_PCB_VERSION_MATCH p (Some a) = true →
  ip_addr_isany_val (local_ip p) = true →
  (no_route E p a →
     ∃ s', tcp_connect E fuel pcb (Some a) port cb s = Some (ERR_RTE, s')
           ∧ state <$> deref s' pcb = Some CLOSED
           ∧ links_kept s s'
           ∧ ∀ l, pcb_on_list (heap s') (list_head l s') pcb
                  ↔ pcb_on_list (heap s) (list_head l s) pcb)
  ∧ (∀ err s', tcp_connect E fuel pcb (Some a) port cb s = Some (err, s') →
       err ≠ ERR_OK →
       state <$> deref s' pcb = Some CLOSED ∧ links_kept s s')
  ∧ (∀ s', tcp_connect E fuel pcb (Some a) port cb s = Some (ERR_OK, s') →
       (∃ q, syn_enqueued E fuel pcb a port cb s q
             ∧ deref s' pcb
               = Some (tcp_output E (set_next (tcp_active_pcbs s)
                         (set_state SYN_SENT (tcp_enqueue_flags E q TCP_SYN).2))))
       ∧ state <$> deref s' pcb = Some SYN_SENT
       ∧ tcp_active_pcbs s' = Some pcb
       ∧ next <$> deref s' pcb = Some (tcp_active_pcbs s)
       ∧ tcp_iter_will_prepend (tcp_conn_iter s) pcb (tcp_active_pcbs s)
         = Some (tcp_conn_iter s')
       ∧ EvEnqueueFlags pcb TCP_SYN ∈ trace s'
       ∧ tcp_listen_pcbs s' = tcp_listen_pcbs s
       ∧ tcp_tw_pcbs s' = tcp_tw_pcbs s
       ∧ (∀ l1 l2,
            local_port p ≠ 0 →
            chain (heap s) (tcp_bound_pcbs s) (l1 ++ pcb :: l2) → (length l1 ≤ fuel)%nat →
            chain (heap s') (tcp_bound_pcbs s') (l1 ++ l2)))
  ∧ (∀ err s', tcp_connect E fuel pcb (Some a) port cb s = Some (err, s') →
       ¬ (state <$> deref s' pcb = Some CLOSED ∧ links_kept s s') →
       err = ERR_OK
       ∧ ∃ q, syn_enqueued E fuel pcb a port cb s q
              ∧ deref s' pcb
                = Some (tcp_output E (set_next (tcp_active_pcbs s)
                          (set_state SYN_SENT (tcp_enqueue_flags E q TCP_SYN).2)))).
Proof.
  intros Hp Hst Hver Hany.
  assert (Hfail : ∀ err s', tcp_connect E fuel pcb (Some a) port cb s = Some (err, s') →
            err ≠ ERR_OK → state <$> deref s' pcb = Some CLOSED ∧ links_kept s s').
  { intros err s' H Herr.
    destruct (tcp_connect_failure _ _ _ _ _ _ _ _ H Herr) as [(K & Ks & _) Hc].
    split; [by rewrite Ks|done]. }
  split; [|split; [done|split]].
  - intros Hroute. eexists. split; [by apply tcp_connect_no_route|].
    destruct (Hfail _ _ (tcp_connect_no_route fuel s pcb p a port cb Hp Hst Hver Hany Hroute)
                ltac:(done)) as [Hc K].
    split; [done|]. split; [done|]. intros l. by apply links_kept_on_list.
  - intros s' H.
    destruct (tcp_connect_success _ _ _ _ _ _ _ H)
      as (H1 & H2 & H3 & H4 & H5 & H6 & H7 & H8 & H9).
    split; [by apply (tcp_connect_success_syn fuel)|].
    repeat (split; [done|]). intros l1 l2. by apply H9.
  - intros err s' H Hch. destruct (decide (err = ERR_OK)) as [->|Herr].
    + split; [done|]. by apply (tcp_connect_success_syn fuel).
    + destruct Hch. by apply (Hfail err s').
Qed.

End ConnectProps.

(** C4 as stated fails: PCB 1 of [connect_bound_state] is CLOSED, has a
    wildcard local address and is bound to port 8080.  Without a route
    [tcp_connect] returns [ERR_RTE] and the PCB is still on the bound
    list. *)
Lemma C4_counterexample :
  ¬ (∀ (E : tcp_env) (fuel : nat) (s : tcp_globals) (pcb : ptr) (p : tcp_pcb)
       (a : ip_addr_t) (port : Z) (cb : option callback),
       deref s pcb = Some p → state p = CLOSED →
       IP_ADDR_PCB_VERSION_MATCH p (Some a) = true →
       ip_addr_isany_val (local_ip p) = true →
       no_route E p a →
       ∃ s', tcp_connect E fuel pcb (Some a) port cb s = Some (ERR_RTE, s')
             ∧ state <$> deref s' pcb = Some CLOSED
             ∧ ∀ l, ¬ pcb_on_list (heap s') (list_head l s') pcb).
Proof.
  intros H.
  destruct (H E0 1%nat connect_bound_state 1%positive _ (IpAddr IPv4 0x0a000001) 80 None
              eq_refl eq_refl eq_refl eq_refl ltac:(by left))
    as (s' & Hs' & _ & Hoff).
  vm_compute in Hs'. injection Hs' as <-.
  apply (Hoff BoundList). exists [1%positive]. split; [|by left].
  vm_compute. done.
Qed.

Lemma C4_tcp_connect_witness :
  (∃ s', tcp_connect E0 1 2%positive (Some (IpAddr IPv4 0x0a000001)) 80 None bind_state
         = Some (ERR_RTE, s')
         ∧ state <$> deref s' 2%positive = Some CLOSED
         ∧ links_kept bind_state s')
  ∧ (∃ s' q, tcp_connect E1 1 1%positive (Some (IpAddr IPv4 0x0a000001)) 80 None
               connect_bound_state = Some (ERR_OK, s')
             ∧ syn_enqueued E1 1 1%positive (IpAddr IPv4 0x0a000001) 80 None
                 connect_bound_state q
             ∧ local_ip q = IpAddr IPv4 0x0a000002
             ∧ state <$> deref s' 1%positive = Some SYN_SENT
             ∧ tcp_active_pcbs s' = Some 1%positive
             ∧ chain (heap s') (tcp_bound_pcbs s') []).
Proof.
  split.
  - destruct (C4_tcp_connect_commits_on_success E0
                ltac:(intros; reflexivity) ltac:(intros; reflexivity)
                ltac:(intros; reflexivity) ltac:(intros; reflexivity)
                1%nat bind_state 2%positive pcb0 (IpAddr IPv4 0x0a000001) 80 None
                eq_refl eq_refl eq_refl eq_refl) as (HA & _).
    destruct (HA ltac:(by left)) as (s' & H1 & H2 & H3 & _). eauto.
  - destruct (C4_tcp_connect_commits_on_success E1
                ltac:(intros; reflexivity) ltac:(intros; reflexivity)
                ltac:(intros; reflexivity) ltac:(intros; reflexivity)
                1%nat connect_bound_state 1%positive (set_local_port 8080 pcb0)
                (IpAddr IPv4 0x0a000001) 80 None
                eq_refl eq_refl eq_refl eq_refl) as (_ & _ & HC & _).
    destruct (tcp_connect E1 1 1%positive (Some (IpAddr IPv4 0x0a000001)) 80 None
                connect_bound_state) as [[e s']|] eqn:Hr;
      [|vm_compute in Hr; discriminate Hr].
    assert (He : e = ERR_OK) by (vm_compute in Hr; by injection Hr as <- _).
    subst e.
    destruct (HC s' eq_refl) as ((q & Hq & Hrec) & Hst & Hact & _ & _ & _ & _ & _ & Hb).
    exists s', q. split; [done|]. split; [done|]. split.
    { destruct Hq as ((sq & Hsq & _ & Hd) & _). vm_compute in Hsq. injection Hsq as <-.
      vm_compute in Hd. by injection Hd as <-. }
    split; [done|]. split; [done|].
    apply (Hb [] []); [done|vm_compute; done|simpl; lia].
Defined.

(** ** The queues of TIME_WAIT PCBs *)

Lemma tw_quiet_refl s : tw_quiet s s.
Proof. intros a p Hp Hs. right. eauto. Qed.

Lemma tw_quiet_trans s1 s2 s3 : tw_quiet s1 s2 → tw_quiet s2 s3 → tw_quiet s1 s3.
Proof.
  intros H1 H2 a p3 Hp3 Hs3.
  destruct (H2 a p3 Hp3 Hs3) as [?|(p2 & Hp2 & Hs2 & Hq)]; [by left|].
  destruct (H1 a p2 Hp2 Hs2) as [He|(p1 & Hp1 & Hs1 & Hq1)].
  - left. unfold queue_empty in *. by rewrite Hq.
  - right. exists p1. split; [done|]. split; [done|]. by rewrite Hq.
Qed.

Lemma tw_quiet_heap s s' : heap s' = heap s → tw_quiet s s'.
Proof. intros H a p Hp Hs. right. exists p. unfold deref in *. by rewrite <- H. Qed.

Lemma tw_quiet_step s s1 x s' :
  heap s' = heap x → tw_quiet s1 x → tw_quiet s s1 → tw_quiet s s'.
Proof.
  intros H3 H2 H1. eapply tw_quiet_trans; [exact H1|].
  eapply tw_quiet_trans; [exact H2|]. by apply tw_quiet_heap.
Qed.

Lemma tw_quiet_clean s s' : tw_quiet s s' → tw_clean s → tw_clean s'.
Proof.
  intros H Hc a p' Hp' Hs'. destruct (H a p' Hp' Hs') as [?|(p & Hp & Hs & Hq)]; [done|].
  unfold queue_empty. rewrite Hq. by apply (Hc a).
Qed.

Lemma tw_quiet_update a f s s' :
  update a f s = Some s' →
  (∀ p, deref s a = Some p → state (f p) = TIME_WAIT →
        queue_empty (f p) ∨ (state p = TIME_WAIT ∧ tw_queue (f p) = tw_queue p)) →
  tw_quiet s s'.
Proof.
  intros (p & Hp & ->)%update_inv Hf q p' Hp' Hs'. unfold deref in *. simpl in Hp'.
  destruct (decide (a = q)) as [<-|Hne].
  - rewrite lookup_insert_eq in Hp'. injection Hp' as <-.
    destruct (Hf p Hp Hs') as [?|[? ?]]; [by left|]. right. eauto.
  - rewrite lookup_insert_ne in Hp' by done. right. eauto.
Qed.

Lemma tw_quiet_unlinked s s' :
  (∀ q, set_next None <$> heap s' !! q = set_next None <$> heap s !! q) → tw_quiet s s'.
Proof.
  intros H a p' Hp' Hs'. right. unfold deref in *. pose proof (H a) as Ha.
  rewrite Hp' in Ha. destruct (heap s !! a) as [p|]; [|done]. simpl in Ha.
  apply (inj Some) in Ha. exists p. split; [done|].
  split.
  - apply (f_equal state) in Ha. simpl in Ha. congruence.
  - unfold tw_queue.
    pose proof (f_equal sndq Ha). pose proof (f_equal sndq_last Ha).
    pose proof (f_equal sndq_next Ha). pose proof (f_equal rtime Ha). simpl in *. congruence.
Qed.

Lemma tw_quiet_memp_free a s : tw_quiet s (memp_free a s).
Proof.
  intros q p' Hp' Hs'. right. exists p'. unfold deref, memp_free in *. simpl in Hp'.
  destruct (decide (a = q)) as [<-|Hne].
  - by rewrite lookup_delete_eq in Hp'.
  - rewrite lookup_delete_ne in Hp' by done. done.
Qed.

(** Side condition of [tw_quiet_update] for an assignment that leaves the
    state and the queue alone, or sets a state other than TIME_WAIT. *)
Ltac quiet_side :=
  let Hs := fresh in
  intros ? _ Hs; first [ right; split; [exact Hs | reflexivity]
                       | simpl in Hs; discriminate Hs ].

Ltac quiet_fact H :=
  first [ apply tw_quiet_update in H; [| solve [quiet_side]] ].

Ltac quiet_facts :=
  repeat match goal with
         | H : _ = Some _ |- _ => quiet_fact H
         end.

Ltac quiet_chain_from k :=
  lazymatch goal with
  | |- tw_quiet ?s ?s' =>
    first [ apply tw_quiet_heap; simpl; reflexivity
          | match goal with
            | Q : tw_quiet ?s1 ?x |- _ =>
              apply (tw_quiet_step s s1 x s');
              [simpl; reflexivity | exact Q | quiet_chain_from k]
            end ]
  end.

Ltac quiet_chain := quiet_chain_from tt.

Ltac if_inv H :=
  repeat match type of H with
         | (if ?c then _ else _) = Some _ => destruct c eqn:?
         | match ?c with _ => _ end = Some _ => destruct c eqn:?
         end.

Lemma tcp_reg_quiet pcbs a s s' : tcp_reg pcbs a s = Some s' → tw_quiet s s'.
Proof.
  unfold tcp_reg. intros H. bind_inv H. injection H as <-. quiet_facts.
  destruct pcbs; quiet_chain.
Qed.

Lemma tcp_rmv_quiet fuel pcbs a s s' : tcp_rmv fuel pcbs a s = Some s' → tw_quiet s s'.
Proof.
  intros (h' & hd' & -> & H)%tcp_rmv_frame. apply tw_quiet_unlinked.
  intros q. rewrite <- H. by destruct pcbs.
Qed.

Lemma iter_will_remove_quiet fuel a pcbs s s' :
  iter_will_remove fuel a pcbs s = Some s' → tw_quiet s s'.
Proof. unfold iter_will_remove. intros H. bind_inv H. injection H as <-. quiet_chain. Qed.

Lemma iter_will_prepend_quiet a pcbs s s' :
  iter_will_prepend a pcbs s = Some s' → tw_quiet s s'.
Proof. unfold iter_will_prepend. intros H. bind_inv H. injection H as <-. quiet_chain. Qed.

Lemma tcp_backlog_delayed_internal_quiet a s s' :
  tcp_backlog_delayed_internal a s = Some s' → tw_quiet s s'.
Proof.
  unfold tcp_backlog_delayed_internal. intros H. bind_inv H.
  destruct (listener x); [|injection H as <-; quiet_chain].
  destruct (negb _); [|injection H as <-; quiet_chain].
  do 3 bind_inv H. quiet_facts. quiet_chain.
Qed.

Lemma tcp_backlog_accepted_internal_quiet a s s' :
  tcp_backlog_accepted_internal a s = Some s' → tw_quiet s s'.
Proof.
  unfold tcp_backlog_accepted_internal. intros H. bind_inv H.
  destruct (listener x); [|injection H as <-; quiet_chain].
  destruct (has_flag _ _); [|injection H as <-; quiet_chain].
  do 3 bind_inv H. quiet_facts. quiet_chain.
Qed.

Ltac quiet_fact H ::=
  first [ apply tw_quiet_update in H; [| solve [quiet_side]]
        | apply tcp_reg_quiet in H
        | apply tcp_rmv_quiet in H
        | apply iter_will_remove_quiet in H
        | apply iter_will_prepend_quiet in H
        | apply tcp_backlog_delayed_internal_quiet in H
        | apply tcp_backlog_accepted_internal_quiet in H ].

Lemma tcp_backlog_delayed_quiet a s s' : tcp_backlog_delayed a s = Some s' → tw_quiet s s'.
Proof. unfold tcp_backlog_delayed. intros H. do 2 bind_inv H. quiet_facts. quiet_chain. Qed.

Lemma tcp_backlog_accepted_quiet a s s' : tcp_backlog_accepted a s = Some s' → tw_quiet s s'.
Proof. unfold tcp_backlog_accepted. intros H. do 2 bind_inv H. quiet_facts. quiet_chain. Qed.

(** Only the PCB at [a] has changed.  *)
Lemma tw_quiet_only_at a s s' :
  (∀ q, q ≠ a → deref s' q = deref s q) →
  (∀ p', deref s' a = Some p' → state p' = TIME_WAIT → queue_empty p') →
  tw_quiet s s'.
Proof.
  intros Ho Ha q p' Hp' Hs'. destruct (decide (q = a)) as [->|Hne].
  - left. by apply Ha.
  - right. exists p'. by rewrite <- Ho.
Qed.

Lemma tcp_pcb_purge_spec a s s' :
  tcp_pcb_purge a s = Some s' →
  tw_quiet s s' ∧ ∃ p', deref s' a = Some p' ∧ queue_empty p'.
Proof.
  unfold tcp_pcb_purge. intros H.
  bind_split H as p Hp. bind_split H as [] Hact. bind_split H as s1 H1. bind_split H as s2 H2.
  bind_split H as p2 Hp2. bind_split H as s3 H3. bind_split H as s4 H4.
  pose proof (deref_update_same _ _ _ _ H) as D5.
  pose proof (deref_update_same _ _ _ _ H4) as D4.
  pose proof (deref_update_same _ _ _ _ H3) as D3.
  pose proof (deref_update_same _ _ _ _ H2) as D2.
  assert (Hp' : ∃ p', deref s' a = Some p' ∧ queue_empty p').
  { rewrite D5, D4, D3. unfold deref in *. simpl. rewrite Hp2. simpl. eexists. split; [done|].
    rewrite D2 in Hp2. destruct (heap s1 !! a); [|done]. injection Hp2 as <-. done. }
  split; [|done].
  quiet_facts. eapply tw_quiet_trans; [exact H1|].
  apply (tw_quiet_only_at a).
  - intros q Hne.
    rewrite (deref_update_other _ _ _ _ _ H) by done.
    rewrite (deref_update_other _ _ _ _ _ H4) by done.
    rewrite (deref_update_other _ _ _ _ _ H3) by done.
    unfold deref. simpl. apply (deref_update_other _ _ _ _ _ H2). done.
  - intros p' Hq _. destruct Hp' as (p'' & Hq' & He). congruence.
Qed.

Lemma tcp_pcb_purge_quiet a s s' : tcp_pcb_purge a s = Some s' → tw_quiet s s'.
Proof. intros H. by apply tcp_pcb_purge_spec in H as [? _]. Qed.

Lemma tcp_report_err_quiet a e s s' : tcp_report_err a e s = Some s' → tw_quiet s s'.
Proof.
  unfold tcp_report_err. intros H. bind_inv H.
  destruct (negb _); [|injection H as <-; quiet_chain].
  bind_split H as s1 H1. bind_split H as p1 Hp1. quiet_facts.
  destruct (errf p1); injection H as <-; quiet_chain.
Qed.

Ltac quiet_fact H ::=
  first [ apply tw_quiet_update in H; [| solve [quiet_side]]
        | apply tcp_reg_quiet in H
        | apply tcp_rmv_quiet in H
        | apply iter_will_remove_quiet in H
        | apply iter_will_prepend_quiet in H
        | apply tcp_backlog_delayed_internal_quiet in H
        | apply tcp_backlog_accepted_internal_quiet in H
        | apply tcp_pcb_purge_quiet in H
        | apply tcp_report_err_quiet in H ].

Lemma tcp_move_to_time_wait_quiet fuel a s s' :
  tcp_move_to_time_wait fuel a s = Some s' → tw_quiet s s'.
Proof.
  unfold tcp_move_to_time_wait. intros H.
  bind_split H as p Hp. bind_split H as [] Hact. bind_split H as s1 H1. bind_split H as s2 H2.
  bind_split H as s3 H3. bind_split H as s4 H4. bind_split H as s5 H5.
  apply tcp_pcb_purge_spec in H3 as (Q3 & p3 & Hp3 & He).
  assert (Q4 : tw_quiet s3 s4).
  { apply (tw_quiet_update _ _ _ _ H4). intros p' Hp' _. left. rewrite Hp3 in Hp'.
    by injection Hp' as <-. }
  clear H4. quiet_facts. quiet_chain.
Qed.

Section Free.
Variable E : tcp_env.
Hypothesis seg_state : seg_layer_keeps state E.

Lemma call_tcp_output_quiet a p s s' :
  deref s a = Some p → state p ≠ TIME_WAIT →
  call_tcp_output E a s = Some s' → tw_quiet s s'.
Proof.
  intros Hp Hs H. unfold call_tcp_output in H. bind_inv H. injection H as <-.
  apply tw_quiet_update in Hx; [quiet_chain|].
  intros p' Hp' Hs'. rewrite Hp in Hp'. injection Hp' as <-.
  destruct seg_state as (Ho & _). rewrite Ho in Hs'. done.
Qed.

Lemma tcp_pcb_free_quiet fuel a rst prev s s' :
  tcp_pcb_free E fuel a rst prev s = Some s' → tw_quiet s s'.
Proof.
  unfold tcp_pcb_free. intros H. bind_split H as p Hp.
  bind_split H as [] Hnl. bind_split H as s1 H1.
  bind_split H as p1 Hp1. bind_split H as [] Hq. injection H as <-.
  eapply tw_quiet_trans; [|apply tw_quiet_memp_free].
  set (s0 := if bool_decide (tcp_input_pcb s = Some a)
             then set_tcp_input_pcb None s else s) in H1.
  assert (Hh : heap s0 = heap s) by (unfold s0; by destruct (bool_decide _)).
  clearbody s0. clear Hp1 Hq.
  assert (Q0 : tw_quiet s s0) by by apply tw_quiet_heap.
  destruct (bool_decide (state p = CLOSED)).
  { destruct (negb (local_port p =? 0)); [|injection H1 as <-; quiet_chain].
    quiet_facts. quiet_chain. }
  destruct (tcp_state_is_active (state p)) eqn:Hact.
  2:{ destruct (bool_decide (state p = TIME_WAIT)); [|injection H1 as <-; quiet_chain].
      bind_inv H1. quiet_facts. quiet_chain. }
  bind_split H1 as s2 H2.
  assert (Q2 : tw_quiet s0 s2).
  { destruct (has_flag (flags p) TF_ACK_DELAY); [|injection H2 as <-; quiet_chain].
    bind_split H2 as sf Hx. pose proof (deref_update_same _ _ _ _ Hx) as D.
    unfold deref in D at 2. rewrite Hh in D. unfold deref in Hp. rewrite Hp in D. simpl in D.
    apply (call_tcp_output_quiet _ _ _ _ D) in H2.
    2:{ simpl. intros Heq. rewrite Heq in Hact. done. }
    quiet_facts. quiet_chain. }
  clear H2. bind_split H1 as p2 Hp2. bind_split H1 as s3 H3. bind_split H1 as s4 H4.
  assert (Q3 : tw_quiet s3 s4).
  { destruct prev; [|by quiet_fact H4]. do 3 bind_inv H4. quiet_facts. quiet_chain. }
  clear H4. quiet_facts. destruct rst; quiet_chain.
Qed.

End Free.

Lemma tcp_new_port_quiet fuel s r : tcp_new_port fuel s = Some r → tw_quiet s r.2.
Proof. intros H. destruct r as [np s']. apply tcp_new_port_frame in H as (c & ->). quiet_chain. Qed.

Ltac quiet_fact H ::=
  first [ apply tw_quiet_update in H; [| solve [quiet_side]]
        | apply tcp_reg_quiet in H
        | apply tcp_rmv_quiet in H
        | apply iter_will_remove_quiet in H
        | apply iter_will_prepend_quiet in H
        | apply tcp_backlog_delayed_internal_quiet in H
        | apply tcp_backlog_accepted_internal_quiet in H
        | apply tcp_pcb_purge_quiet in H
        | apply tcp_report_err_quiet in H
        | apply tcp_new_port_quiet in H; simpl in H
        | apply tcp_move_to_time_wait_quiet in H ].

Lemma tcp_bind_quiet fuel a ip port s r : tcp_bind fuel a ip port s = Some r → tw_quiet s r.2.
Proof.
  unfold tcp_bind. intros H. bind_split H as p Hp. bind_split H as [] Hst.
  destruct (negb (IP_ADDR_PCB_VERSION_MATCH p ip)); [injection H as <-; quiet_chain|].
  bind_split H as r1 Hr. destruct r1 as [[err|port'] s1].
  { injection H as <-. simpl.
    destruct (port =? 0).
    - bind_split Hr as r2 H2. destruct r2 as [np s2]. quiet_facts.
      destruct (np =? 0); injection Hr as _ <-; quiet_chain.
    - bind_split Hr as u Hu. destruct u; injection Hr as _ <-; quiet_chain. }
  assert (Q1 : tw_quiet s s1).
  { destruct (port =? 0).
    - bind_split Hr as r2 H2. destruct r2 as [np s2]. quiet_facts.
      destruct (np =? 0); injection Hr as _ <-; quiet_chain.
    - bind_split Hr as u Hu. destruct u; injection Hr as _ <-; quiet_chain. }
  clear Hr. bind_split H as s2 H2. bind_split H as s3 H3. bind_split H as s4 H4.
  injection H as <-. simpl.
  assert (Q2 : tw_quiet s1 s2).
  { destruct ip as [i|]; [|injection H2 as <-; quiet_chain].
    destruct (negb (ip_addr_isany_val i)); [|injection H2 as <-; quiet_chain].
    quiet_facts. quiet_chain. }
  clear H2. quiet_facts. quiet_chain.
Qed.

Lemma tcp_backlog_set_quiet a n s s' : tcp_backlog_set a n s = Some s' → tw_quiet s s'.
Proof. unfold tcp_backlog_set. intros H. do 2 bind_inv H. quiet_facts. quiet_chain. Qed.

Ltac quiet_fact H ::=
  first [ apply tw_quiet_update in H; [| solve [quiet_side]]
        | apply tcp_reg_quiet in H
        | apply tcp_rmv_quiet in H
        | apply iter_will_remove_quiet in H
        | apply iter_will_prepend_quiet in H
        | apply tcp_backlog_delayed_internal_quiet in H
        | apply tcp_backlog_accepted_internal_quiet in H
        | apply tcp_pcb_purge_quiet in H
        | apply tcp_report_err_quiet in H
        | apply tcp_new_port_quiet in H; simpl in H
        | apply tcp_move_to_time_wait_quiet in H
        | apply tcp_backlog_set_quiet in H ].

Lemma tcp_listen_with_backlog_quiet E fuel a n s r :
  tcp_listen_with_backlog E fuel a n s = Some r → tw_quiet s r.2.
Proof.
  unfold tcp_listen_with_backlog. intros H. bind_split H as p Hp. bind_split H as [] Hst.
  bind_split H as u Hu. destruct u; [injection H as <-; quiet_chain|].
  bind_split H as s1 H1. bind_split H as s2 H2. bind_split H as s3 H3.
  bind_split H as s4 H4. bind_split H as s5 H5. bind_split H as s6 H6.
  bind_split H as s7 H7. injection H as <-. simpl.
  assert (Q3 : tw_quiet s2 s3).
  { destruct (negb (local_port p =? 0)); [|injection H3 as <-; quiet_chain].
    quiet_facts. quiet_chain. }
  clear H3. quiet_facts. quiet_chain.
Qed.

Lemma tcp_listen_dual_with_backlog_quiet E fuel a n s r :
  tcp_listen_dual_with_backlog E fuel a n s = Some r → tw_quiet s r.2.
Proof.
  unfold tcp_listen_dual_with_backlog. intros H. bind_split H as p Hp.
  bind_split H as u Hu. destruct u; [injection H as <-; quiet_chain|].
  bind_split H as r1 H1. destruct r1 as [err s1]. bind_split H as p1 Hp1.
  bind_split H as s2 H2. injection H as <-. simpl.
  apply tcp_listen_with_backlog_quiet in H1. simpl in H1.
  assert (Q2 : tw_quiet s1 s2).
  { destruct ((err =? ERR_OK) && ip_addr_isany_val (local_ip p1));
      [|injection H2 as <-; quiet_chain].
    quiet_facts. quiet_chain. }
  quiet_chain.
Qed.

Lemma clear_listener_quiet fuel pcb l s s' :
  clear_listener fuel pcb l s = Some s' → tw_quiet s s'.
Proof.
  revert pcb s. induction fuel as [|fuel IH]; intros [a|] s H; simpl in H;
    try discriminate H; try (injection H as <-; quiet_chain).
  bind_split H as p Hp. bind_split H as s1 H1. apply IH in H.
  assert (Q1 : tw_quiet s s1).
  { destruct (bool_decide (listener p = Some l)); [|injection H1 as <-; quiet_chain].
    quiet_facts. quiet_chain. }
  quiet_chain.
Qed.

Lemma tcp_close_listen_quiet fuel a s s' : tcp_close_listen fuel a s = Some s' → tw_quiet s s'.
Proof.
  unfold tcp_close_listen. intros H. bind_split H as p Hp. bind_split H as [] Hl.
  bind_split H as s1 H1. injection H as <-.
  eapply tw_quiet_trans; [|apply tw_quiet_memp_free].
  destruct (bool_decide (state p = LISTEN)).
  - bind_split H1 as s2 H2. bind_split H1 as s3 H3.
    apply clear_listener_quiet in H2, H3. quiet_facts. quiet_chain.
  - destruct (negb (local_port p =? 0)); [|injection H1 as <-; quiet_chain].
    quiet_facts. quiet_chain.
Qed.

Section TimerFields.
Variable E : tcp_env.
Context {A : Type} (f : tcp_pcb → A).
Hypothesis seg_f : seg_layer_keeps f E.
Hypothesis tim_f : timer_field f.

Lemma slowtmr_rexmit_keeps a p : f (slowtmr_rexmit E a p).1 = f p.
Proof.
  destruct tim_f as (F1 & F2 & F3 & F4 & F5 & F6 & F7).
  destruct seg_f as (S1 & S2 & S3 & S4 & S5).
  unfold slowtmr_rexmit.
  repeat match goal with
         | |- context [if ?c then _ else _] => destruct c eqn:?
         | |- context [let '(_, _) := ?c in _] => destruct c eqn:?
         end; simpl; 
  repeat first [ rewrite F1 | rewrite F2 | rewrite F3 | rewrite F4 | rewrite F5 | rewrite F6 | rewrite F7 | rewrite S4 ]; try done.
  all: try match goal with H : tcp_zero_window_probe E ?q = (_, ?r) |- _ =>
      let K := fresh in pose proof (S3 q) as K; rewrite H in K; simpl in K; rewrite K end.
  all: repeat first [ rewrite F1 | rewrite F2 | rewrite F3 | rewrite F4 | rewrite F5 | rewrite F6 | rewrite F7 | rewrite S4 ]; try done.
Qed.

Lemma slowtmr_active_pcb_keeps ticks a p : f (slowtmr_active_pcb E ticks a p).1.1.1 = f p.
Proof.
  destruct tim_f as (F1 & F2 & F3 & F4 & F5 & F6 & F7).
  destruct seg_f as (S1 & S2 & S3 & S4 & S5).
  unfold slowtmr_active_pcb.
  pose proof (slowtmr_rexmit_keeps a p) as R.
  destruct (slowtmr_rexmit E a p) as [p1 ev1]. simpl in R.
  assert (K : ∀ q, f (tcp_keepalive E q).2 = f q) by done.
  repeat match goal with
         | |- context [if ?c then _ else _] => destruct c eqn:?
         | |- context [tcp_keepalive E ?q] =>
           let H := fresh in pose proof (K q) as H; destruct (tcp_keepalive E q); simpl in H
         end; simpl; repeat rewrite F7; congruence.
Qed.
End TimerFields.

Lemma timer_field_state : timer_field state.
Proof. by repeat split. Qed.

Section Timers.
Variable E : tcp_env.
Hypothesis seg_state : seg_layer_keeps state E.

Lemma active_not_tw st : tcp_state_is_active st = true → st ≠ TIME_WAIT.
Proof. by intros H ->. Qed.

Lemma LWIP_ASSERT_inv b : LWIP_ASSERT b = Some () → b = true.
Proof. by destruct b. Qed.

Lemma fasttmr_loop_quiet fuel pcb s s' : fasttmr_loop E fuel pcb s = Some s' → tw_quiet s s'.
Proof.
  revert pcb s. induction fuel as [|fuel IH]; intros [a|] s H; simpl in H;
    try discriminate H; try (injection H as <-; quiet_chain).
  bind_split H as p Hp. bind_split H as [] Hact. apply LWIP_ASSERT_inv in Hact.
  bind_split H as s1 H1. bind_split H as p1 Hp1. apply IH in H.
  assert (Q1 : tw_quiet s s1).
  { destruct (negb (last_timer p =? tcp_timer_ctr s)); [|injection H1 as <-; quiet_chain].
    bind_split H1 as s2 H2.
    destruct (has_flag (flags p) TF_ACK_DELAY); [|injection H1 as <-; quiet_facts; quiet_chain].
    bind_split H1 as s3 H3. bind_split H1 as s4 H4.
    pose proof (deref_update_same _ _ _ _ H3) as D.
    rewrite (deref_update_same _ _ _ _ H2), Hp in D. simpl in D.
    apply (call_tcp_output_quiet E seg_state _ _ _ _ D) in H4;
      [|by apply active_not_tw].
    quiet_facts. quiet_chain. }
  quiet_chain.
Qed.

Lemma tcp_fasttmr_quiet fuel s s' : tcp_fasttmr E fuel s = Some s' → tw_quiet s s'.
Proof. unfold tcp_fasttmr. intros H. apply fasttmr_loop_quiet in H. quiet_chain. Qed.

Lemma tcp_kill_prio_quiet fuel prio s s' : tcp_kill_prio E fuel prio s = Some s' → tw_quiet s s'.
Proof.
  unfold tcp_kill_prio. intros H. bind_split H as i Hi.
  destruct i as [a|]; [|injection H as <-; quiet_chain].
  bind_split H as s1 H1. apply tcp_pcb_free_quiet in H; [|done].
  quiet_facts. quiet_chain.
Qed.

Lemma slowtmr_active_loop_quiet n fuel s s' :
  slowtmr_active_loop E n fuel s = Some s' → tw_quiet s s'.
Proof.
  revert s. induction n as [|n IH]; intros s H; simpl in H; [done|].
  bind_split H as r Hr. destruct r as [[a|] it]; [|injection H as <-; quiet_chain].
  cbn [mbind option_bind] in H.
  bind_split H as p Hp. bind_split H as [] Hact. apply LWIP_ASSERT_inv in Hact.
  simpl in H.
  destruct (last_timer p =? tcp_timer_ctr s); [apply IH in H; quiet_chain|].
  bind_split H as s1 H1. bind_split H as p1 Hp1.
  pose proof (deref_update_same _ _ _ _ H1) as D1. unfold deref in D1 at 2. simpl in D1.
  unfold deref in Hp. simpl in Hp. rewrite Hp in D1. simpl in D1.
  rewrite Hp1 in D1. injection D1 as ->.
  pose proof (slowtmr_active_pcb_keeps E state seg_state timer_field_state
                (tcp_ticks s1) a (set_last_timer (tcp_timer_ctr s) p)) as Hst.
  destruct (slowtmr_active_pcb E (tcp_ticks s1) a (set_last_timer (tcp_timer_ctr s) p))
    as [[[p2 rm] rs] ev]. simpl in Hst.
  bind_split H as s2 H2. bind_split H as s3 H3. apply IH in H.
  pose proof (deref_update_same _ _ _ _ H2) as D2. rewrite Hp1 in D2. simpl in D2.
  assert (Q2 : tw_quiet s1 s2).
  { apply (tw_quiet_update _ _ _ _ H2). intros q _ Hq. rewrite Hst in Hq.
    by apply active_not_tw in Hact. }
  assert (Q3 : tw_quiet s2 s3).
  { destruct (negb (rm =? 0)).
    - bind_split H3 as s4 H4. bind_split H3 as s5 H5.
      apply tcp_pcb_free_quiet in H3; [|done]. quiet_facts. quiet_chain.
    - apply (call_tcp_output_quiet E seg_state a p2) in H3; [quiet_chain|done|].
      rewrite Hst. by apply active_not_tw. }
  clear H2 H3. quiet_facts. quiet_chain.
Qed.

Lemma slowtmr_tw_loop_quiet n fuel s s' :
  slowtmr_tw_loop E n fuel s = Some s' → tw_quiet s s'.
Proof.
  revert s. induction n as [|n IH]; intros s H; simpl in H; [done|].
  bind_split H as r Hr. destruct r as [[a|] it]; [|injection H as <-; quiet_chain].
  cbn [mbind option_bind] in H.
  bind_split H as p Hp. bind_split H as [] Hact. bind_split H as s1 H1. apply IH in H.
  assert (Q1 : tw_quiet s s1).
  { destruct (negb _); [|injection H1 as <-; quiet_chain].
    apply tcp_pcb_free_quiet in H1; [|done]. quiet_chain. }
  quiet_chain.
Qed.

Lemma tcp_slowtmr_quiet fuel s s' : tcp_slowtmr E fuel s = Some s' → tw_quiet s s'.
Proof.
  unfold tcp_slowtmr. intros H. bind_split H as s1 H1.
  apply slowtmr_active_loop_quiet in H1. apply slowtmr_tw_loop_quiet in H. quiet_chain.
Qed.

Lemma tcp_tmr_quiet fuel s s' : tcp_tmr E fuel s = Some s' → tw_quiet s s'.
Proof.
  unfold tcp_tmr. intros H. bind_split H as s1 H1. apply tcp_fasttmr_quiet in H1.
  destruct (has_flag _ 1); [|injection H as <-; quiet_chain].
  apply tcp_slowtmr_quiet in H. quiet_chain.
Qed.

End Timers.

Section ConnectQuiet.
Variable E : tcp_env.
Hypothesis seg_state : seg_layer_keeps state E.
Hypothesis seg_next : seg_layer_keeps next E.

Lemma kept_quiet a p s s' :
  deref s a = Some p → state p ≠ TIME_WAIT → kept a s s' → tw_quiet s s'.
Proof.
  intros Hp Hs (_ & Hst & Ho). apply (tw_quiet_only_at a); [done|].
  intros p' Hp' Hs'. rewrite Hp', Hp in Hst. simpl in Hst. congruence.
Qed.

Lemma tcp_connect_quiet fuel a ip port cb s r :
  tcp_connect E fuel a ip port cb s = Some r → tw_quiet s r.2.
Proof.
  destruct r as [err s']. simpl. intros H.
  destruct seg_state as (So & Se & _). destruct seg_next as (No & Ne & _).
  pose proof (tcp_connect_inv E Ne Se _ _ _ _ _ _ _ _ H)
    as (p & Hp & Hst & [[Herr K] | [-> (s0 & q & K & Henq & Hc)]]).
  { apply (kept_quiet a p); [done| |done]. by rewrite Hst. }
  pose proof (tcp_connect_success E Ne Se No So _ _ _ _ _ _ _ H) as (_ & Hfin & _).
  apply (kept_quiet a p) in K; [|done|by rewrite Hst].
  bind_split Hc as s1 H1. bind_split Hc as s2 H2. bind_split Hc as s3 H3.
  bind_split Hc as s4 H4.
  assert (Q2 : tw_quiet s1 s2).
  { destruct (negb (local_port p =? 0)); [|injection H2 as <-; quiet_chain].
    quiet_facts. quiet_chain. }
  clear H2.
  assert (Q5 : tw_quiet s4 s').
  { pose proof Hc as Hc'. unfold call_tcp_output in Hc'. bind_split Hc' as s5 H5.
    injection Hc' as <-. apply update_inv in H5 as (p4 & Hp4 & ->).
    apply (call_tcp_output_quiet E seg_state a p4 _ _ Hp4); [|done].
    unfold deref in Hfin. simpl in Hfin. rewrite lookup_insert_eq in Hfin. simpl in Hfin.
    rewrite So in Hfin. injection Hfin as ->. done. }
  clear Hc. quiet_facts. quiet_chain.
Qed.

End ConnectQuiet.

Lemma tcp_pcb_purge_total (a : ptr) (s : tcp_globals) (p : tcp_pcb) :
  deref s a = Some p → tcp_state_is_active (state p) = true →
  (∀ l, backlog_held p = Some l →
        ∃ lp, deref s l = Some lp ∧ l ≠ a ∧ 0 < accepts_pending lp ≤ 255) →
  tcp_pcb_purge a s =
    Some (set_heap (<[a := purged p]> (released p (heap s))) (emit (EvSegsFree (sndq p)) s)).
Proof.
  intros Hp Hact Hl. unfold tcp_pcb_purge. rewrite Hp. simpl. rewrite Hact. simpl.
  unfold purged, released.
  destruct (backlog_held p) as [l|] eqn:Hb.
  - destruct (Hl l eq_refl) as (lp & Hlp & Hne & Hap).
    unfold backlog_held in Hb. destruct (has_flag (flags p) TF_BACKLOGPEND) eqn:Hf; [|done].
    rewrite (backlog_accepted_pending s a l p lp) by (done || lia). simpl.
    unfold deref in Hlp. rewrite Hlp.
    unfold update, deref. heap_simpl. by rewrite !insert_insert_eq.
  - rewrite (backlog_accepted_noop s a p Hp).
    2:{ unfold backlog_held in Hb. destruct (has_flag (flags p) TF_BACKLOGPEND); [by left|by right]. }
    simpl. unfold update, deref in *. rewrite Hp. heap_simpl. by rewrite !insert_insert_eq.
Qed.

Lemma backlog_held_next v p : backlog_held (set_next v p) = backlog_held p.
Proof. done. Qed.

Lemma tcp_move_to_time_wait_total (fuel : nat) (s : tcp_globals) (a : ptr) (p : tcp_pcb)
    (l1 l2 lt : list ptr) :
  deref s a = Some p → tcp_state_is_active (state p) = true →
  chain (heap s) (tcp_active_pcbs s) (l1 ++ a :: l2) → (length l1 ≤ fuel)%nat →
  chain (heap s) (tcp_tw_pcbs s) lt → (∀ q, q ∈ lt → q ∉ l1 ++ a :: l2) →
  current (tcp_conn_iter s) = None →
  (∀ l, backlog_held p = Some l →
        ∃ lp, deref s l = Some lp ∧ l ≠ a ∧ 0 < accepts_pending lp ≤ 255) →
  ∃ s', tcp_move_to_time_wait fuel a s = Some s'
    ∧ deref s' a = Some (set_next (tcp_tw_pcbs s) (set_state TIME_WAIT (purged p)))
    ∧ tcp_tw_pcbs s' = Some a
    ∧ chain (heap s') (tcp_active_pcbs s') (l1 ++ l2)
    ∧ chain (heap s') (tcp_tw_pcbs s') (a :: lt)
    ∧ EvSegsFree (sndq p) ∈ trace s'
    ∧ (∀ l lp, backlog_held p = Some l → deref s l = Some lp →
         accepts_pending <$> deref s' l = Some (accepts_pending lp - 1)).
Proof.
  intros Hp Hact Hc Hfuel Htw Hdisj Hit Hl.
  assert (Hhd : tcp_active_pcbs s ≠ None).
  { pose proof (chain_head _ _ _ Hc) as Hh. rewrite Hh. by destruct l1. }
  destruct (tcp_rmv_chain fuel ActiveList a (set_tcp_conn_iter (tcp_conn_iter s) s) l1 l2
              Hc Hfuel) as (ap & h1 & hd1 & Ha & Hrmv & Hc1 & Ha1 & Hfr & Hun & Hlast).
  simpl in Ha, Hfr, Hun, Hlast. unfold deref in Hp. rewrite Hp in Ha. injection Ha as <-.
  assert (Hl1 : ∀ l, backlog_held p = Some l →
            ∃ lp1 lp, h1 !! l = Some lp1 ∧ heap s !! l = Some lp ∧ l ≠ a
                      ∧ accepts_pending lp1 = accepts_pending lp
                      ∧ 0 < accepts_pending lp ≤ 255).
  { intros l Hb. destruct (Hl l Hb) as (lp & Hlp & Hne & Hap).
    pose proof (Hun l) as Hu. unfold deref in Hlp. rewrite Hlp in Hu.
    destruct (h1 !! l) as [lp1|] eqn:Hlp1; [|done]. simpl in Hu. apply (inj Some) in Hu.
    exists lp1, lp. split; [done|]. split; [done|]. split; [done|].
    split; [by apply (f_equal accepts_pending) in Hu|done]. }
  assert (Hrun : tcp_move_to_time_wait fuel a s =
            Some (emit EvTimerNeeded
                    (set_tcp_tw_pcbs (Some a)
                       (set_heap (<[a := set_next (tcp_tw_pcbs s)
                                           (set_state TIME_WAIT (purged (set_next None p)))]>
                                    (released (set_next None p) h1))
                          (emit (EvSegsFree (sndq p)) (set_tcp_active_pcbs hd1 s)))))).
  { unfold tcp_move_to_time_wait. unfold deref. rewrite Hp. simpl. rewrite Hact. simpl.
    unfold iter_will_remove, tcp_iter_will_remove.
    simpl. rewrite (bool_decide_eq_true_2 (tcp_active_pcbs s ≠ None)) by done.
    simpl. rewrite Hit. simpl.
    rewrite Hrmv. simpl.
    rewrite (tcp_pcb_purge_total a _ (set_next None p)); simpl; [|done|done|].
    2:{ intros l Hb. destruct (Hl1 l Hb) as (lp1 & lp & Hlp1 & Hlp & Hne & Hap & Hr).
        exists lp1. unfold deref. simpl. split; [done|]. split; [done|]. by rewrite Hap. }
    unfold update, deref. heap_simpl.
    unfold iter_will_prepend, tcp_iter_will_prepend. simpl. rewrite Hit.
    replace (bool_decide (tcp_tw_pcbs s ≠ None) && bool_decide (tcp_tw_pcbs s = None))
      with false by (by destruct (tcp_tw_pcbs s)).
    simpl. unfold tcp_reg, update, deref. heap_simpl. by rewrite !insert_insert_eq. }
  eexists. split; [exact Hrun|]. unfold deref. simpl.
  assert (Hni : a ∉ l1 ++ l2).
  { apply chain_split in Hc as (_ & _ & _ & _ & _ & Hn1 & Hn2 & _).
    intros [?|?]%elem_of_app; done. }
  assert (Hnt : a ∉ lt).
  { intros Hin. apply (Hdisj a Hin). apply elem_of_app. right. by left. }
  assert (Hrel : ∀ q, next <$> released (set_next None p) h1 !! q = next <$> h1 !! q).
  { intros q. unfold released. rewrite backlog_held_next.
    destruct (backlog_held p) as [l|] eqn:Hb; [|done].
    destruct (Hl1 l eq_refl) as (lp1 & lp & Hlp1 & _). rewrite Hlp1.
    destruct (decide (l = q)) as [<-|Hne].
    - by rewrite lookup_insert_eq, Hlp1.
    - by rewrite lookup_insert_ne. }
  split; [|split; [|split; [|split; [|split]]]].
  - rewrite lookup_insert_eq. f_equal. unfold purged. rewrite backlog_held_next.
    by destruct (backlog_held p).
  - done.
  - apply lseg_insert_other; [done|]. revert Hc1. apply lseg_ext. intros q _. apply Hrel.
  - apply chain_cons. split; [done|]. eexists. rewrite lookup_insert_eq. split; [done|].
    simpl. apply lseg_insert_other; [done|]. revert Htw. apply lseg_ext.
    intros q Hq. rewrite Hrel. rewrite Hfr; [done| |].
    + by intros ->.
    + intros Hlast'. apply (Hdisj q Hq). apply elem_of_app. left.
      destruct (last l1) as [b|] eqn:Hb; [|done]. injection Hlast' as ->.
      apply last_Some in Hb as (l' & ->). apply elem_of_app. right. by left.
  - right. by left.
  - intros l lp Hb Hlp. destruct (Hl1 l Hb) as (lp1 & lp' & Hlp1 & Hlp' & Hne & Hap & _).
    rewrite Hlp in Hlp'. injection Hlp' as <-.
    rewrite lookup_insert_ne by done. unfold released. rewrite backlog_held_next, Hb, Hlp1.
    rewrite lookup_insert_eq. simpl. by rewrite Hap.
Qed.

Lemma fmap_snd_inv {A B} (m : option (A * B)) (y : B) :
  snd <$> m = Some y → ∃ r, m = Some r ∧ r.2 = y.
Proof. destruct m as [r|]; [|done]. intros [= <-]. eauto. Qed.

(** ** The remaining functions and the queues of TIME_WAIT PCBs *)

Lemma update_keeps_non_tw a f s s' :
  update a f s = Some s' → (∀ p, state (f p) = state p) →
  (∃ p, deref s a = Some p ∧ state p ≠ TIME_WAIT) →
  tw_quiet s s' ∧ ∃ p', deref s' a = Some p' ∧ state p' ≠ TIME_WAIT.
Proof.
  intros H Hf (p & Hp & Hs). pose proof (deref_update_same _ _ _ _ H) as D.
  rewrite Hp in D. simpl in D. split; [|exists (f p); by rewrite Hf].
  apply (tw_quiet_update _ _ _ _ H). intros p0 Hp0 Hs0. rewrite Hp in Hp0.
  injection Hp0 as <-. by rewrite Hf in Hs0.
Qed.

Lemma update_set_state_non_tw a st s s' :
  update a (set_state st) s = Some s' → st ≠ TIME_WAIT →
  tw_quiet s s' ∧ ∃ p', deref s' a = Some p' ∧ state p' ≠ TIME_WAIT.
Proof.
  intros H Hst. pose proof (deref_update_same _ _ _ _ H) as D.
  destruct (update_inv _ _ _ _ H) as (p & Hp & _). rewrite Hp in D. simpl in D.
  split; [|by exists (set_state st p)].
  apply (tw_quiet_update _ _ _ _ H). by intros p0 _ Hs0.
Qed.

Lemma memp_store_quiet a p s : state p ≠ TIME_WAIT → tw_quiet s (memp_store a p s).
Proof.
  intros Hs q p' Hp' Hs'. unfold deref, memp_store in *. simpl in Hp'.
  destruct (decide (a = q)) as [<-|Hne].
  - rewrite lookup_insert_eq in Hp'. by injection Hp' as <-.
  - rewrite lookup_insert_ne in Hp' by done. right. eauto.
Qed.

Section Reclaimed.
Variable E : tcp_env.
Hypothesis seg_state : seg_layer_keeps state E.

Lemma tcp_abort_quiet fuel a s s' : tcp_abort E fuel a s = Some s' → tw_quiet s s'.
Proof. unfold tcp_abort. intros H. do 3 bind_inv H. by apply tcp_pcb_free_quiet in H. Qed.

Lemma tcp_kill_state_quiet fuel st s s' :
  tcp_kill_state E fuel st s = Some s' → tw_quiet s s'.
Proof.
  unfold tcp_kill_state. intros H. bind_inv H. bind_split H as i Hi.
  destruct i as [a|]; [|injection H as <-; apply tw_quiet_refl].
  bind_split H as s1 H1. apply tcp_report_err_quiet in H1.
  apply tcp_pcb_free_quiet in H; [|done]. by eapply tw_quiet_trans.
Qed.

Lemma tcp_kill_timewait_quiet fuel s s' :
  tcp_kill_timewait E fuel s = Some s' → tw_quiet s s'.
Proof.
  unfold tcp_kill_timewait. intros H. bind_split H as i Hi.
  destruct i as [a|]; [|injection H as <-; apply tw_quiet_refl].
  by apply tcp_pcb_free_quiet in H.
Qed.

Lemma txnow_loop_quiet fuel pcb s s' : txnow_loop E fuel pcb s = Some s' → tw_quiet s s'.
Proof.
  revert pcb s. induction fuel as [|fuel IH]; intros [a|] s H; simpl in H;
    try discriminate H; try (injection H as <-; apply tw_quiet_refl).
  bind_split H as p Hp. bind_split H as [] Hact. apply LWIP_ASSERT_inv in Hact.
  bind_split H as s1 H1. bind_split H as p1 Hp1. apply IH in H.
  eapply tw_quiet_trans; [|exact H].
  destruct (has_flag (flags p) TF_NAGLEMEMERR); [|injection H1 as <-; apply tw_quiet_refl].
  apply (call_tcp_output_quiet E seg_state _ _ _ _ Hp) in H1; [done|].
  by apply active_not_tw.
Qed.

Lemma tcp_txnow_quiet fuel s s' : tcp_txnow E fuel s = Some s' → tw_quiet s s'.
Proof. apply txnow_loop_quiet. Qed.

Lemma netif_pcblist_quiet n fuel old pcb s s' :
  tcp_netif_ipv4_addr_changed_pcblist E n fuel old pcb s = Some s' → tw_quiet s s'.
Proof.
  revert pcb s. induction n as [|n IH]; intros [a|] s H; simpl in H;
    try discriminate H; try (injection H as <-; apply tw_quiet_refl).
  bind_split H as p Hp.
  destruct (negb (tcp_pcb_is_listen p) && negb (IP_IS_V6_VAL (local_ip p))
            && ip4_addr_cmp (ip_val (local_ip p)) old); [|by apply IH in H].
  bind_split H as s1 H1. bind_split H as s2 H2. apply IH in H.
  apply tcp_report_err_quiet in H1. apply tcp_pcb_free_quiet in H2; [|done].
  eapply tw_quiet_trans; [exact H1|]. by eapply tw_quiet_trans.
Qed.

Lemma netif_listen_loop_quiet n old new lpcb s s' :
  netif_listen_loop n old new lpcb s = Some s' → tw_quiet s s'.
Proof.
  revert lpcb s. induction n as [|n IH]; intros [a|] s H; simpl in H;
    try discriminate H; try (injection H as <-; apply tw_quiet_refl).
  bind_split H as lp Hlp. bind_split H as s1 H1. apply IH in H.
  eapply tw_quiet_trans; [|exact H].
  destruct (negb (IP_IS_V6_VAL (local_ip lp))); [|injection H1 as <-; apply tw_quiet_refl].
  destruct (negb (ip4_addr_isany_val (ip_val (local_ip lp)))
            && ip4_addr_cmp (ip_val (local_ip lp)) old);
    [|injection H1 as <-; apply tw_quiet_refl].
  by quiet_fact H1.
Qed.

Lemma tcp_netif_ipv4_addr_changed_quiet fuel old new s s' :
  tcp_netif_ipv4_addr_changed E fuel old new s = Some s' → tw_quiet s s'.
Proof.
  unfold tcp_netif_ipv4_addr_changed. intros H.
  bind_split H as s1 H1. bind_split H as s2 H2.
  apply netif_pcblist_quiet in H1. apply netif_pcblist_quiet in H2.
  eapply tw_quiet_trans; [exact H1|]. eapply tw_quiet_trans; [exact H2|].
  destruct (negb (ip4_addr_isany new)); [|injection H as <-; apply tw_quiet_refl].
  destruct new as [n|]; [|injection H as <-; apply tw_quiet_refl].
  by apply netif_listen_loop_quiet in H.
Qed.

End Reclaimed.

Section Closed.
Variable E : tcp_env.
Variable TCP_WND_MAX : tcp_pcb → Z.
Variable tcp_send_fin : tcp_pcb → err_t * tcp_pcb.
Hypothesis seg_state : seg_layer_keeps state E.
Hypothesis fin_state : ∀ p, state (tcp_send_fin p).2 = state p.

Lemma close_send_fin_quiet pcb ok s r p :
  deref s pcb = Some p → state p ≠ TIME_WAIT →
  (∀ s1 s2, ok s1 = Some s2 →
     tw_quiet s1 s2 ∧ ∃ p2, deref s2 pcb = Some p2 ∧ state p2 ≠ TIME_WAIT) →
  close_send_fin tcp_send_fin pcb ok s = Some r →
  r.1.2 = Some pcb ∧ tw_quiet s r.2
  ∧ ∃ p2, deref r.2 pcb = Some p2 ∧ state p2 ≠ TIME_WAIT.
Proof.
  intros Hp Hs Hok H. unfold close_send_fin in H. rewrite Hp in H. simpl in H.
  pose proof (fin_state p) as Hf. destruct (tcp_send_fin p) as [e q]. simpl in Hf.
  bind_split H as s1 H1. bind_split H as s2 H2. injection H as <-. simpl.
  split; [done|].
  pose proof (deref_update_same _ _ _ _ H1) as D. rewrite Hp in D. simpl in D.
  assert (Q1 : tw_quiet s s1).
  { apply (tw_quiet_update _ _ _ _ H1). intros p0 _ Hs0. congruence. }
  destruct (e =? ERR_OK).
  - apply Hok in H2 as [Q2 Hp2]. split; [by eapply tw_quiet_trans|done].
  - injection H2 as <-. split; [done|]. exists q. split; [done|congruence].
Qed.

Lemma close_shutdown_switch_quiet fuel pcb s r :
  close_shutdown_switch E tcp_send_fin fuel pcb s = Some r → tw_quiet s r.2.
Proof.
  unfold close_shutdown_switch. intros H. bind_split H as p Hp.
  bind_split H as [[err pcb'] s1] Hsw. bind_split H as s2 H2. injection H as <-. simpl.
  assert (Hq : tw_quiet s s1
               ∧ ∀ a, pcb' = Some a → ∃ p2, deref s1 a = Some p2 ∧ state p2 ≠ TIME_WAIT).
  { destruct (state p) eqn:Hst;
      try (injection Hsw as <- <- <-; split; [apply tw_quiet_refl|done]);
      try (bind_split Hsw as s0 H0; injection Hsw as <- <- <-;
           apply tcp_pcb_free_quiet in H0; done).
    - apply (close_send_fin_quiet _ _ _ _ p Hp) in Hsw; [|by rewrite Hst|].
      + simpl in Hsw. destruct Hsw as (-> & Q & Hp2). split; [done|].
        by intros a [= <-].
      + intros sa sb Hab. bind_split Hab as sc Hc.
        apply tcp_backlog_accepted_internal_quiet in Hc.
        apply update_set_state_non_tw in Hab as [Q Hp2]; [|done].
        split; [by eapply tw_quiet_trans|done].
    - apply (close_send_fin_quiet _ _ _ _ p Hp) in Hsw; [|by rewrite Hst|].
      + simpl in Hsw. destruct Hsw as (-> & Q & Hp2). split; [done|].
        by intros a [= <-].
      + intros sa sb Hab. by apply update_set_state_non_tw in Hab.
    - apply (close_send_fin_quiet _ _ _ _ p Hp) in Hsw; [|by rewrite Hst|].
      + simpl in Hsw. destruct Hsw as (-> & Q & Hp2). split; [done|].
        by intros a [= <-].
      + intros sa sb Hab. by apply update_set_state_non_tw in Hab. }
  destruct Hq as [Q Hp2]. eapply tw_quiet_trans; [exact Q|].
  destruct pcb' as [a|]; [|injection H2 as <-; apply tw_quiet_refl].
  destruct (err =? ERR_OK); [|injection H2 as <-; apply tw_quiet_refl].
  destruct (Hp2 a eq_refl) as (p2 & D & Hs2).
  by apply (call_tcp_output_quiet E seg_state _ _ _ _ D) in H2.
Qed.

Lemma tcp_close_shutdown_quiet fuel pcb rst s r :
  tcp_close_shutdown E TCP_WND_MAX tcp_send_fin fuel pcb rst s = Some r → tw_quiet s r.2.
Proof.
  unfold tcp_close_shutdown. intros H. bind_split H as p Hp. bind_split H as [] Hnl.
  destruct (rst && (bool_decide (state p = ESTABLISHED) || bool_decide (state p = CLOSE_WAIT)));
    [|by apply close_shutdown_switch_quiet in H].
  destruct (negb (rcv_wnd p =? TCP_WND_MAX p)); [|by apply close_shutdown_switch_quiet in H].
  bind_split H as [] Hnu. bind_split H as s1 H1. injection H as <-. simpl.
  destruct (bool_decide (state p = ESTABLISHED)).
  - apply tcp_move_to_time_wait_quiet in H1. quiet_chain.
  - bind_split H1 as s0 H0. apply tcp_pcb_free_quiet in H1; [|done].
    quiet_facts. quiet_chain.
Qed.

Lemma tcp_close_quiet fuel pcb s s' :
  tcp_close E TCP_WND_MAX tcp_send_fin fuel pcb s = Some s' → tw_quiet s s'.
Proof.
  unfold tcp_close. intros H. do 3 bind_inv H. bind_split H as s1 H1.
  bind_split H as [err s2] H2. apply tcp_close_shutdown_quiet in H2. simpl in H2.
  quiet_facts. eapply tw_quiet_trans; [exact H1|]. eapply tw_quiet_trans; [exact H2|].
  destruct (negb (err =? ERR_OK)); [|injection H as <-; apply tw_quiet_refl].
  by apply tcp_pcb_free_quiet in H.
Qed.

Lemma tcp_shut_tx_quiet fuel pcb s r :
  tcp_shut_tx E TCP_WND_MAX tcp_send_fin fuel pcb s = Some r → tw_quiet s r.2.
Proof.
  unfold tcp_shut_tx. intros H. bind_split H as p Hp. do 2 bind_inv H.
  destruct (state p); try (injection H as <-; apply tw_quiet_refl);
    by apply tcp_close_shutdown_quiet in H.
Qed.

End Closed.

Section Window.
Variable X : Ext.t.
Variable E : tcp_env.
Hypothesis seg_state : seg_layer_keeps state E.

Lemma tcp_update_rcv_ann_wnd_quiet a s r :
  tcp_update_rcv_ann_wnd X E a s = Some r → tw_quiet s r.2.
Proof.
  unfold tcp_update_rcv_ann_wnd. intros H. bind_split H as p Hp.
  destruct (Ext.TCP_SEQ_GEQ X _ _).
  { bind_split H as s1 H1. injection H as <-. simpl. by quiet_fact H1. }
  destruct (Ext.TCP_SEQ_GT X _ _).
  { bind_split H as s1 H1. injection H as <-. simpl. by quiet_fact H1. }
  bind_inv H. bind_split H as s1 H1. injection H as <-. simpl. by quiet_fact H1.
Qed.

(** [tcp_output] on a PCB of a state whose TIME_WAIT PCBs have empty
    queues. *)
Lemma call_tcp_output_clean a s s' :
  tcp_output_spares_tw E → tw_clean s →
  call_tcp_output E a s = Some s' → tw_quiet s s'.
Proof.
  intros Ho Hc H. unfold call_tcp_output in H. bind_split H as s1 H1. injection H as <-.
  apply tw_quiet_update in H1; [quiet_chain|].
  intros p Hp Hs. destruct seg_state as (So & _). rewrite So in Hs.
  left. apply Ho; [done|]. by apply (Hc a).
Qed.

Lemma tcp_recved_internal_clean a len s s' :
  tcp_output_spares_tw E → tw_clean s →
  tcp_recved_internal X E a len s = Some s' → tw_quiet s s'.
Proof.
  intros Ho Hc H. unfold tcp_recved_internal in H.
  bind_split H as s1 H1. bind_split H as p1 Hp1. bind_split H as s2 H2.
  bind_split H as [w s3] H3. apply tcp_update_rcv_ann_wnd_quiet in H3. simpl in H3.
  assert (Q1 : tw_quiet s s1) by by quiet_fact H1.
  assert (Q2 : tw_quiet s1 s2).
  { destruct (rcv_wnd p1 >? Ext.TCP_WND_MAX X p1); [by quiet_fact H2|].
    destruct (rcv_wnd p1 =? 0); [|injection H2 as <-; apply tw_quiet_refl].
    destruct (bool_decide (state p1 = CLOSE_WAIT) || bool_decide (state p1 = LAST_ACK));
      [by quiet_fact H2|done]. }
  assert (Q3 : tw_quiet s s3).
  { eapply tw_quiet_trans; [exact Q1|]. by eapply tw_quiet_trans. }
  destruct (s32 w >=? Ext.TCP_WND_UPDATE_THRESHOLD X); [|by injection H as <-].
  bind_split H as s4 H4. assert (Q4 : tw_quiet s3 s4) by by quiet_fact H4.
  assert (Q : tw_quiet s s4) by by eapply tw_quiet_trans.
  apply call_tcp_output_clean in H; [by eapply tw_quiet_trans|done|].
  by apply (tw_quiet_clean s).
Qed.

Lemma tcp_recved_clean a len s s' :
  tcp_output_spares_tw E → tw_clean s →
  tcp_recved X E a len s = Some s' → tw_quiet s s'.
Proof.
  intros Ho Hc H. unfold tcp_recved in H. do 3 bind_inv H.
  by apply tcp_recved_internal_clean in H.
Qed.

Lemma tcp_sndq_pop_clean a s r :
  tw_clean s → tcp_sndq_pop X a s = Some r → tw_quiet s r.2.
Proof.
  intros Hc H. unfold tcp_sndq_pop in H. bind_split H as p Hp. bind_split H as [] Hq.
  bind_split H as seg Hseg. bind_split H as s1 H1. bind_split H as p1 Hp1.
  bind_split H as s2 H2. bind_split H as p2 Hp2. bind_split H as s3 H3.
  cbn zeta in H. bind_split H as p3 Hp3. bind_split H as [] Hlen. bind_split H as s4 H4.
  injection H as <-. simpl.
  assert (Hs : state p ≠ TIME_WAIT).
  { intros Heq. pose proof (Hc a p Hp Heq) as He. unfold queue_empty, tw_queue in He.
    congruence. }
  apply update_keeps_non_tw in H1 as [Q1 N1]; [|done|by eauto].
  assert (Q2 : tw_quiet s1 s2 ∧ ∃ p', deref s2 a = Some p' ∧ state p' ≠ TIME_WAIT).
  { destruct (bool_decide (sndq p1 = None)); [|by injection H2 as <-; split; [apply tw_quiet_refl|]].
    by apply update_keeps_non_tw in H2. }
  destruct Q2 as [Q2 N2].
  assert (Q3 : tw_quiet s2 s3 ∧ ∃ p', deref s3 a = Some p' ∧ state p' ≠ TIME_WAIT).
  { destruct (bool_decide (sndq_next p2 = Some seg));
      [|by injection H3 as <-; split; [apply tw_quiet_refl|]].
    by apply update_keeps_non_tw in H3. }
  destruct Q3 as [Q3 N3].
  apply update_keeps_non_tw in H4 as [Q4 _]; [|done|done].
  eapply tw_quiet_trans; [exact Q1|]. eapply tw_quiet_trans; [exact Q2|].
  by eapply tw_quiet_trans.
Qed.

End Window.

Section Allocated.
Variable X : Ext.t.
Variable E : tcp_env.
Hypothesis seg_state : seg_layer_keeps state E.
Hypothesis set_v6_state : ∀ p, state (Ext.ip_set_v6 X p) = state p.

Lemma tcp_alloc_block_quiet fuel prio s r :
  tcp_alloc_block X E fuel prio s = Some r → tw_quiet s r.2.
Proof.
  unfold tcp_alloc_block. intros H.
  destruct (memp_malloc X MEMP_TCP_PCB s); [injection H as <-; apply tw_quiet_refl|].
  bind_split H as s1 H1. apply tcp_kill_timewait_quiet in H1; [|done].
  eapply tw_quiet_trans; [exact H1|].
  destruct (memp_malloc X MEMP_TCP_PCB s1); [injection H as <-; apply tw_quiet_refl|].
  bind_split H as s2 H2. apply tcp_kill_state_quiet in H2; [|done].
  eapply tw_quiet_trans; [exact H2|].
  destruct (memp_malloc X MEMP_TCP_PCB s2); [injection H as <-; apply tw_quiet_refl|].
  bind_split H as s3 H3. apply tcp_kill_state_quiet in H3; [|done].
  eapply tw_quiet_trans; [exact H3|].
  destruct (memp_malloc X MEMP_TCP_PCB s3); [injection H as <-; apply tw_quiet_refl|].
  bind_split H as s4 H4. apply tcp_kill_prio_quiet in H4; [|done].
  by injection H as <-.
Qed.

(** The PCB that [tcp_alloc] returns is CLOSED. *)
Lemma tcp_alloc_quiet fuel prio s r :
  tcp_alloc X E fuel prio s = Some r →
  tw_quiet s r.2 ∧ ∀ a, r.1 = Some a → state <$> deref r.2 a = Some CLOSED.
Proof.
  unfold tcp_alloc. intros H. bind_split H as [pcb s1] H1.
  apply tcp_alloc_block_quiet in H1. simpl in H1.
  destruct pcb as [a|]; [|by injection H as <-].
  simpl in H. injection H as <-. simpl. split.
  - eapply tw_quiet_trans; [exact H1|].
    eapply tw_quiet_trans; [|by apply memp_store_quiet]. by apply tw_quiet_heap.
  - intros ? [= <-]. unfold deref, memp_store. simpl. by rewrite lookup_insert_eq.
Qed.

(** The PCB that [tcp_new_listen] returns is in LISTEN_CLOS. *)
Lemma tcp_new_listen_quiet s :
  tw_quiet s (tcp_new_listen X s).2
  ∧ ∀ a, (tcp_new_listen X s).1 = Some a →
         state <$> deref (tcp_new_listen X s).2 a = Some LISTEN_CLOS.
Proof.
  unfold tcp_new_listen. destruct (memp_malloc X MEMP_TCP_PCB_LISTEN s) as [a|]; simpl.
  - split; [by apply memp_store_quiet|].
    intros ? [= <-]. unfold deref, memp_store. simpl. by rewrite lookup_insert_eq.
  - split; [apply tw_quiet_refl|done].
Qed.

Lemma call_ip_set_v6_quiet pcb st s s' :
  st ≠ TIME_WAIT → (∀ a, pcb = Some a → state <$> deref s a = Some st) →
  call_ip_set_v6 X pcb s = Some s' → tw_quiet s s'.
Proof.
  intros Hst Hp H. destruct pcb as [a|]; simpl in H; [|injection H as <-; apply tw_quiet_refl].
  apply update_keeps_non_tw in H as [? _]; [done|done|].
  specialize (Hp a eq_refl). destruct (deref s a) as [p|]; [|done].
  injection Hp as Hp. exists p. split; [done|congruence].
Qed.

Lemma tcp_new_ip6_quiet fuel s r : tcp_new_ip6 X E fuel s = Some r → tw_quiet s r.2.
Proof.
  unfold tcp_new_ip6. intros H. bind_split H as [pcb s1] H1. bind_split H as s2 H2.
  injection H as <-. simpl. apply tcp_alloc_quiet in H1 as [Q1 Hp]. simpl in *.
  apply (call_ip_set_v6_quiet _ CLOSED) in H2; [by eapply tw_quiet_trans|done|done].
Qed.

Lemma tcp_new_listen_ip6_quiet s r : tcp_new_listen_ip6 X s = Some r → tw_quiet s r.2.
Proof.
  unfold tcp_new_listen_ip6. intros H. pose proof (tcp_new_listen_quiet s) as [Q1 Hp].
  destruct (tcp_new_listen X s) as [pcb s1]. simpl in *. bind_split H as s2 H2.
  injection H as <-. simpl.
  apply (call_ip_set_v6_quiet _ LISTEN_CLOS) in H2; [by eapply tw_quiet_trans|done|done].
Qed.

End Allocated.

Lemma tcp_setprio_quiet X a prio s s' : tcp_setprio X a prio s = Some s' → tw_quiet s s'.
Proof. unfold tcp_setprio. intros H. do 2 bind_inv H. by quiet_fact H. Qed.

Lemma tcp_err_quiet a cb s s' : tcp_err a cb s = Some s' → tw_quiet s s'.
Proof. unfold tcp_err. intros H. do 3 bind_inv H. by quiet_fact H. Qed.

(** A call that is no [queue_call] leaves the queues of the TIME_WAIT PCBs
    alone. *)
Lemma tcp_run_quiet (X : Ext.t) (E : tcp_env) (fuel : nat) (c : tcp_call)
    (s s' : tcp_globals) :
  seg_layer_keeps state E → seg_layer_keeps next E → ext_keeps_state X →
  tcp_run X E fuel c s = Some s' → queue_call c = false → tw_quiet s s'.
Proof.
  intros Hs Hn [Hfin Hv6] H Hc. destruct c; try discriminate Hc; clear Hc; simpl in H;
    try (apply fmap_snd_inv in H as (r & H & <-)).
  - injection H as <-. destruct rand; apply tw_quiet_heap; reflexivity.
  - by eapply tcp_tmr_quiet.
  - by eapply tcp_close_shutdown_quiet.
  - by eapply tcp_close_quiet.
  - by eapply tcp_shut_tx_quiet.
  - by eapply tcp_close_listen_quiet.
  - by eapply tcp_abort_quiet.
  - by eapply tcp_bind_quiet.
  - by eapply tcp_listen_with_backlog_quiet.
  - by eapply tcp_backlog_set_quiet.
  - by eapply tcp_backlog_delayed_quiet.
  - by eapply tcp_backlog_delayed_internal_quiet.
  - by eapply tcp_backlog_accepted_quiet.
  - by eapply tcp_backlog_accepted_internal_quiet.
  - by eapply tcp_listen_dual_with_backlog_quiet.
  - by eapply tcp_update_rcv_ann_wnd_quiet.
  - by eapply tcp_new_port_quiet.
  - by eapply tcp_connect_quiet.
  - by eapply tcp_slowtmr_quiet.
  - by eapply tcp_fasttmr_quiet.
  - by eapply tcp_txnow_quiet.
  - injection H as <-. by apply tw_quiet_heap.
  - injection H as <-. apply tw_quiet_refl.
  - by eapply tcp_setprio_quiet.
  - by eapply tcp_kill_prio_quiet.
  - by eapply tcp_kill_state_quiet.
  - by eapply tcp_kill_timewait_quiet.
  - by eapply tcp_alloc_quiet.
  - by eapply tcp_alloc_quiet.
  - injection H as <-. apply tcp_new_listen_quiet.
  - by eapply tcp_new_ip6_quiet.
  - by eapply tcp_new_listen_ip6_quiet.
  - unfold tcp_arg in H. do 2 bind_inv H. by quiet_fact H.
  - unfold tcp_recv in H. do 3 bind_inv H. by quiet_fact H.
  - unfold tcp_sent in H. do 3 bind_inv H. by quiet_fact H.
  - by eapply tcp_err_quiet.
  - unfold tcp_accept in H. do 2 bind_inv H. by quiet_fact H.
  - by eapply tcp_reg_quiet.
  - by eapply tcp_rmv_quiet.
  - injection H as <-. by apply tw_quiet_heap.
  - bind_inv H. injection H as <-. by apply tw_quiet_heap.
  - by eapply iter_will_remove_quiet.
  - by eapply iter_will_prepend_quiet.
  - by eapply tcp_pcb_purge_quiet.
  - by eapply tcp_pcb_free_quiet.
  - by eapply tcp_move_to_time_wait_quiet.
  - by eapply tcp_report_err_quiet.
  - injection H as <-. by apply tw_quiet_heap.
  - by eapply netif_pcblist_quiet.
  - by eapply tcp_netif_ipv4_addr_changed_quiet.
  - bind_inv H. injection H as <-. apply tw_quiet_refl.
Qed.

(** Every call keeps the queues of the TIME_WAIT PCBs empty. *)
Lemma tcp_run_clean (X : Ext.t) (E : tcp_env) (fuel : nat) (c : tcp_call)
    (s s' : tcp_globals) :
  seg_layer_keeps state E → seg_layer_keeps next E → ext_keeps_state X →
  tcp_output_spares_tw E →
  tcp_run X E fuel c s = Some s' → tw_clean s → tw_quiet s s'.
Proof.
  intros Hs Hn Hx Ho H Hc. destruct (queue_call c) eqn:Hq.
  2:{ by eapply tcp_run_quiet. }
  destruct c; try discriminate Hq; simpl in H.
  - by eapply tcp_recved_clean.
  - by eapply tcp_recved_internal_clean.
  - apply fmap_snd_inv in H as (r & H & <-). by eapply tcp_sndq_pop_clean.
Qed.

(** C9 as stated fails.  [tcp_backlog_delayed(pcb 2)] counts the connection
    in the backlog of its listener and sets [TF_BACKLOGPEND];
    [tcp_close_listen(pcb 1)] then clears [listener] of the connection and
    leaves the flag.  The tw list is empty.  [tcp_move_to_time_wait(pcb 2)]
    purges the PCB, where [tcp_backlog_accepted_internal] does nothing
    without a listener, and puts it on the tw list with [TF_BACKLOGPEND]
    set. *)
Lemma C9_counterexample :
  ¬ (∀ (fuel : nat) (s s' : tcp_globals) (pcb : ptr),
       (∀ a p, pcb_on_list (heap s) (tcp_tw_pcbs s) a → deref s a = Some p →
               sndq p = None ∧ sndq_last p = None ∧ sndq_next p = None ∧ rtime p = -1
               ∧ has_flag (flags p) TF_BACKLOGPEND = false) →
       tcp_move_to_time_wait fuel pcb s = Some s' →
       ∀ a p, pcb_on_list (heap s') (tcp_tw_pcbs s') a → deref s' a = Some p →
              sndq p = None ∧ sndq_last p = None ∧ sndq_next p = None ∧ rtime p = -1
              ∧ has_flag (flags p) TF_BACKLOGPEND = false).
Proof.
  intros H.
  destruct orphan_run as [s1|] eqn:Hrun; [|vm_compute in Hrun; discriminate].
  destruct (tcp_move_to_time_wait 2 2%positive s1) as [s2|] eqn:Hm.
  2:{ vm_compute in Hrun. injection Hrun as <-. vm_compute in Hm. discriminate. }
  assert (Hpre : ∀ a p, pcb_on_list (heap s1) (tcp_tw_pcbs s1) a → deref s1 a = Some p →
            sndq p = None ∧ sndq_last p = None ∧ sndq_next p = None ∧ rtime p = -1
            ∧ has_flag (flags p) TF_BACKLOGPEND = false).
  { intros a p (l & Hc & Hin) _. vm_compute in Hrun. injection Hrun as <-.
    simpl in Hc. destruct l as [|b l]; [by apply elem_of_nil in Hin|].
    apply chain_cons in Hc as [? _]. done. }
  destruct (deref s2 2%positive) as [p2|] eqn:Hp2.
  2:{ vm_compute in Hrun. injection Hrun as <-. vm_compute in Hm. injection Hm as <-.
      vm_compute in Hp2. discriminate. }
  assert (Hon : pcb_on_list (heap s2) (tcp_tw_pcbs s2) 2%positive).
  { exists [2%positive]. split; [|by left].
    vm_compute in Hrun. injection Hrun as <-. vm_compute in Hm. injection Hm as <-.
    vm_compute. done. }
  destruct (H _ _ _ _ Hpre Hm _ _ Hon Hp2) as (_ & _ & _ & _ & Hflag).
  vm_compute in Hrun. injection Hrun as <-. vm_compute in Hm. injection Hm as <-.
  vm_compute in Hp2. injection Hp2 as <-. vm_compute in Hflag. discriminate.
Qed.

(** C9 (amended).  With a segment layer that leaves [state] and [next] of
    the PCB it works on alone:
    - [tcp_move_to_time_wait] on a PCB of the active list (no scan of the
      iterator in progress, the listener that counts the PCB has a
      nonzero count) returns; the PCB is then the head of the tw list in
      front of the old list, in state TIME_WAIT, with [sndq], [sndq_last]
      and [sndq_next] null and [rtime] at -1, its segments handed to
      [tcp_segs_free]; [TF_BACKLOGPEND] is cleared and the slot given back
      if the PCB has a listener, and the flags are as before if it has
      none;
    - no function of tcp.c, called as [tcp_run] has it with a
      [tcp_send_fin] and an [ip_set_v6] that leave [state] alone, changes
      the queue or the retransmission timer of a PCB in TIME_WAIT, and a
      PCB that a call puts in TIME_WAIT has an empty queue and [rtime] at
      -1.  For every function but [tcp_recved], [tcp_recved_internal] and
      [tcp_sndq_pop] this holds in any state.  For all of them it holds in
      the states where every TIME_WAIT PCB has an empty queue, given a
      [tcp_output] that leaves the empty queue of a TIME_WAIT PCB empty:
      [tcp_recved] calls [tcp_output] whatever the state of the PCB, and
      [tcp_sndq_pop] fails its assertion on an empty queue.  So if every
      TIME_WAIT PCB has an empty queue before a call, so it is after
      it. *)
Theorem C9_time_wait_queue_empty (E : tcp_env) :
  seg_layer_keeps state E → seg_layer_keeps next E →
  (∀ (fuel : nat) (s : tcp_globals) (a : ptr) (p : tcp_pcb) (l1 l2 lt : list ptr),
     deref s a = Some p → tcp_state_is_active (state p) = true →
     chain (heap s) (tcp_active_pcbs s) (l1 ++ a :: l2) → (length l1 ≤ fuel)%nat →
     chain (heap s) (tcp_tw_pcbs s) lt → (∀ q, q ∈ lt → q ∉ l1 ++ a :: l2) →
     current (tcp_conn_iter s) = None →
     (∀ l, backlog_held p = Some l →
           ∃ lp, deref s l = Some lp ∧ l ≠ a ∧ 0 < accepts_pending lp ≤ 255) →
     ∃ s' p',
       tcp_move_to_time_wait fuel a s = Some s'
       ∧ deref s' a = Some p'
       ∧ tcp_tw_pcbs s' = Some a
       ∧ chain (heap s') (tcp_tw_pcbs s') (a :: lt)
       ∧ chain (heap s') (tcp_active_pcbs s') (l1 ++ l2)
       ∧ state p' = TIME_WAIT
       ∧ sndq p' = None ∧ sndq_last p' = None ∧ sndq_next p' = None ∧ rtime p' = -1
       ∧ EvSegsFree (sndq p) ∈ trace s'
       ∧ (listener p ≠ None → has_flag (flags p') TF_BACKLOGPEND = false)
       ∧ (listener p = None → flags p' = flags p)
       ∧ (∀ l lp, backlog_held p = Some l → deref s l = Some lp →
            accepts_pending <$> deref s' l = Some (accepts_pending lp - 1)))
  ∧ (∀ (X : Ext.t) (fuel : nat) (c : tcp_call) (s s' : tcp_globals),
       ext_keeps_state X →
       tcp_run X E fuel c s = Some s' →
       (queue_call c = false → tw_quiet s s' ∧ (tw_clean s → tw_clean s'))
       ∧ (tcp_output_spares_tw E → tw_clean s → tw_quiet s s' ∧ tw_clean s')).
Proof.
  intros Hs Hn. split.
  - intros fuel s a p l1 l2 lt Hp Hact Hc Hfuel Htw Hdisj Hit Hl.
    destruct (tcp_move_to_time_wait_total fuel s a p l1 l2 lt Hp Hact Hc Hfuel Htw Hdisj
                Hit Hl) as (s' & Hrun & Hp' & Hhd & Hca & Hct & Hev & Hacc).
    exists s', (set_next (tcp_tw_pcbs s) (set_state TIME_WAIT (purged p))).
    repeat (split; [done|]). split; [|split; [|done]].
    + intros Hlis. simpl. unfold backlog_held.
      destruct (has_flag (flags p) TF_BACKLOGPEND) eqn:Hf; [|done].
      destruct (listener p); [|done]. simpl. apply has_flag_clear_same.
    + intros Hlis. simpl. unfold backlog_held. rewrite Hlis.
      by destruct (has_flag (flags p) TF_BACKLOGPEND).
  - intros X fuel c s s' Hx H. split.
    + intros Hq. pose proof (tcp_run_quiet X E fuel c s s' Hs Hn Hx H Hq) as Q.
      split; [done|]. by apply tw_quiet_clean.
    + intros Ho Hc. pose proof (tcp_run_clean X E fuel c s s' Hs Hn Hx Ho H Hc) as Q.
      split; [done|]. by apply (tw_quiet_clean s).
Qed.

Lemma C9_time_wait_queue_empty_witness :
  (∃ s' p', tcp_move_to_time_wait 1 2%positive backlog_state = Some s'
            ∧ deref s' 2%positive = Some p'
            ∧ tcp_tw_pcbs s' = Some 2%positive
            ∧ state p' = TIME_WAIT ∧ sndq p' = None ∧ rtime p' = -1
            ∧ has_flag (flags p') TF_BACKLOGPEND = false)
  ∧ (∃ s', recved_tw_run = Some s' ∧ EvOutput 1%positive ∈ trace s'
           ∧ tw_quiet tw_state s' ∧ tw_clean s')
  ∧ (∃ s', close_unread_run = Some s' ∧ tcp_tw_pcbs s' = Some 2%positive
           ∧ tw_quiet backlog_state s').
Proof.
  destruct (C9_time_wait_queue_empty E0
              ltac:(repeat split; intros; reflexivity)
              ltac:(repeat split; intros; reflexivity)) as [Hmove Hrun].
  split; [|split].
  - destruct (Hmove 1%nat backlog_state 2%positive _ [] [] [] eq_refl eq_refl
                ltac:(vm_compute; done) ltac:(simpl; lia) ltac:(done)
                ltac:(by intros q ?%elem_of_nil) eq_refl
                ltac:(intros l Hb; vm_compute in Hb; injection Hb as <-;
                      eexists; split; [reflexivity|]; split; [done|simpl; lia]))
      as (s' & p' & H1 & H2 & H3 & _ & _ & H4 & H5 & _ & _ & H6 & _ & H7 & _).
    exists s', p'. repeat (split; [done|]). by apply H7.
  - destruct recved_tw_run as [s'|] eqn:Hr; [|vm_compute in Hr; discriminate Hr].
    destruct (Hrun X0 1%nat (Call_tcp_recved 1%positive 1000) tw_state s'
                ltac:(split; intros; reflexivity) Hr) as [_ Hclean].
    exists s'. split; [done|]. split.
    { vm_compute in Hr. injection Hr as <-. simpl. by left. }
    apply Hclean; [by intros p _ He|].
    intros a p Hp _. unfold deref in Hp. simpl in Hp.
    apply lookup_insert_Some in Hp as [[<- <-]|[_ Hp]]; [reflexivity|].
    by rewrite lookup_empty in Hp.
  - destruct close_unread_run as [s'|] eqn:Hr; [|vm_compute in Hr; discriminate Hr].
    destruct (Hrun X0 2%nat (Call_tcp_close 2%positive) backlog_state s'
                ltac:(split; intros; reflexivity) Hr) as [Hquiet _].
    exists s'. split; [done|]. split.
    { vm_compute in Hr. by injection Hr as <-. }
    by apply Hquiet.
Defined.

(** ** [tcp_slowtmr] on well-formed lists *)

Lemma pending_count_app h l la lb :
  pending_count h l (la ++ lb) = pending_count h l la + pending_count h l lb.
Proof. induction la as [|a la IH]; simpl; lia. Qed.

Lemma pending_count_ext h h' l la :
  (∀ a, a ∈ la → backlog_held <$> h' !! a = backlog_held <$> h !! a) →
  pending_count h' l la = pending_count h l la.
Proof.
  induction la as [|a la IH]; intros H; simpl; [done|].
  rewrite IH by (intros b Hb; apply H; by right).
  unfold pending_on. pose proof (H a ltac:(by left)) as Ha.
  destruct (h' !! a), (h !! a); simpl in Ha; try done. by injection Ha as ->.
Qed.

Lemma pending_count_nonneg h l la : 0 ≤ pending_count h l la.
Proof. induction la as [|a la IH]; simpl; [done|]. destruct (pending_on h l a); lia. Qed.

Lemma pending_count_elem h l la a p :
  a ∈ la → h !! a = Some p → backlog_held p = Some l → 0 < pending_count h l la.
Proof.
  intros Hin Ha Hb. induction la as [|b la IH]; [by apply elem_of_nil in Hin|].
  simpl. pose proof (pending_count_nonneg h l la).
  apply elem_of_cons in Hin as [<-|Hin].
  - unfold pending_on. rewrite Ha. rewrite bool_decide_eq_true_2 by done. lia.
  - specialize (IH Hin). destruct (pending_on h l b); lia.
Qed.

Lemma lists_ok_disjoint h ha ht la lt a :
  lists_ok h ha ht la lt → a ∈ la → a ∉ lt.
Proof.
  intros (Ha & Ht & Hsa & Hst & _) Hin Hin'.
  destruct (lseg_lookup _ _ _ _ _ Ha Hin) as [p Hp].
  pose proof (Hsa a p Hin Hp) as H1. destruct (Hst a p Hin' Hp) as [H2 _].
  by rewrite H2 in H1.
Qed.

(** An assignment to a PCB of the active list that leaves its link, its
    state and its backlog slot alone keeps the lists well formed. *)
Lemma lists_ok_update h ha ht la lt a p q :
  lists_ok h ha ht la lt → a ∈ la → h !! a = Some p →
  next q = next p → state q = state p → backlog_held q = backlog_held p →
  lists_ok (<[a := q]> h) ha ht la lt.
Proof.
  intros Hok Hin Hp Hn Hs Hb. pose proof (lists_ok_disjoint _ _ _ _ _ _ Hok Hin) as Hnt.
  destruct Hok as (Ha & Ht & Hsa & Hst & Hbl).
  assert (Hheld : ∀ b, backlog_held <$> <[a := q]> h !! b = backlog_held <$> h !! b).
  { intros b. destruct (decide (a = b)) as [<-|Hne].
    - rewrite lookup_insert_eq, Hp. simpl. by rewrite Hb.
    - by rewrite lookup_insert_ne. }
  split; [by eapply lseg_insert_same_next|]. split; [by apply lseg_insert_other|].
  split; [|split].
  - intros b pb Hb' Hpb. destruct (decide (a = b)) as [<-|Hne].
    + rewrite lookup_insert_eq in Hpb. injection Hpb as <-. rewrite Hs. by apply (Hsa a).
    + rewrite lookup_insert_ne in Hpb by done. by apply (Hsa b).
  - intros b pb Hb' Hpb. rewrite lookup_insert_ne in Hpb by (by intros ->). by apply (Hst b).
  - intros b pb l Hb' Hpb Hl.
    assert (Hold : ∃ pb0, h !! b = Some pb0 ∧ backlog_held pb0 = Some l).
    { pose proof (Hheld b) as Hh. rewrite Hpb in Hh. simpl in Hh.
      destruct (h !! b) as [pb0|]; [|done]. injection Hh as Hh. exists pb0. by rewrite <- Hh. }
    destruct Hold as (pb0 & Hpb0 & Hl0).
    destruct (Hbl b pb0 l Hb' Hpb0 Hl0) as (lp & Hlp & Hls & Hcnt).
    exists lp. split; [|split; [done|]].
    + rewrite lookup_insert_ne; [done|]. intros <-. rewrite Hp in Hlp. injection Hlp as <-.
      pose proof (Hsa a p Hin Hp) as Hact. by rewrite Hls in Hact.
    + rewrite (pending_count_ext h); [done|]. intros c _. apply Hheld.
Qed.

Lemma unlinked_field {A} (f : tcp_pcb → A) (o1 o2 : option tcp_pcb) :
  (∀ p, f (set_next None p) = f p) →
  set_next None <$> o1 = set_next None <$> o2 → f <$> o1 = f <$> o2.
Proof.
  intros Hf H. destruct o1 as [p1|], o2 as [p2|]; simpl in *; try done.
  apply (inj Some) in H. f_equal. rewrite <- (Hf p1), <- (Hf p2). by rewrite H.
Qed.

Lemma released_lookup p h q :
  released p h !! q = h !! q
  ∨ ∃ lp, backlog_held p = Some q ∧ h !! q = Some lp
          ∧ released p h !! q = Some (set_accepts_pending (accepts_pending lp - 1) lp).
Proof.
  unfold released. destruct (backlog_held p) as [l|]; [|by left].
  destruct (h !! l) as [lp|] eqn:Hl; [|by left].
  destruct (decide (l = q)) as [<-|Hne].
  - right. exists lp. by rewrite lookup_insert_eq.
  - left. by rewrite lookup_insert_ne.
Qed.

Lemma released_field {A} (f : tcp_pcb → A) p h q :
  (∀ v x, f (set_accepts_pending v x) = f x) →
  f <$> released p h !! q = f <$> h !! q.
Proof.
  intros Hf. destruct (released_lookup p h q) as [->|(lp & _ & -> & ->)]; [done|].
  simpl. by rewrite Hf.
Qed.

Lemma active_state_facts st :
  tcp_state_is_active st = true →
  tcp_pcb_is_listen_state st = false ∧ st ≠ CLOSED ∧ st ≠ TIME_WAIT ∧ st ≠ LISTEN.
Proof. by destruct st. Qed.

(** The lists after a PCB of the active list was unlinked ([h1], [ha1]),
    purged and freed. *)
Lemma lists_ok_remove_active h ha ht l1 a l2 lt p h1 ha1 :
  lists_ok h ha ht (l1 ++ a :: l2) lt → h !! a = Some p →
  chain h1 ha1 (l1 ++ l2) →
  (∀ q, q ≠ a → set_next None <$> h1 !! q = set_next None <$> h !! q) →
  (∀ q, q ∈ lt → h1 !! q = h !! q) →
  lists_ok (delete a (released p h1)) ha1 ht (l1 ++ l2) lt.
Proof.
  intros Hok Hp Hc1 Hun Hlt.
  assert (Hin : a ∈ l1 ++ a :: l2) by (apply elem_of_app; right; by left).
  pose proof (lists_ok_disjoint _ _ _ _ _ _ Hok Hin) as Hnt.
  destruct Hok as (Ha & Ht & Hsa & Hst & Hbl).
  pose proof (chain_NoDup _ _ _ Ha) as Hnd.
  assert (Hni : a ∉ l1 ++ l2).
  { apply chain_split in Ha as (_ & _ & _ & _ & _ & Hn1 & Hn2 & _).
    intros [?|?]%elem_of_app; done. }
  assert (Hsub : ∀ q, q ∈ l1 ++ l2 → q ∈ l1 ++ a :: l2 ∧ q ≠ a).
  { intros q Hq. split; [|by intros ->].
    apply elem_of_app in Hq as [?|?]; apply elem_of_app; [by left|right; by right]. }
  (* fields of the PCBs that stay *)
  assert (Hfld : ∀ {A} (f : tcp_pcb → A) q,
            (∀ x, f (set_next None x) = f x) → (∀ v x, f (set_accepts_pending v x) = f x) →
            q ≠ a → f <$> delete a (released p h1) !! q = f <$> h !! q).
  { intros A f q Hf1 Hf2 Hne. rewrite lookup_delete_ne by done.
    rewrite released_field by done. apply unlinked_field; [done|]. by apply Hun. }
  split; [|split; [|split; [|split]]].
  - apply lseg_delete_other; [done|]. revert Hc1. apply lseg_ext. intros q _.
    by apply released_field.
  - apply lseg_delete_other; [done|]. revert Ht. apply lseg_ext. intros q Hq.
    rewrite released_field by done. by rewrite Hlt.
  - intros q pq Hq Hpq. destruct (Hsub q Hq) as [Hq' Hne].
    pose proof (Hfld _ state q ltac:(done) ltac:(done) Hne) as Hs. rewrite Hpq in Hs.
    destruct (h !! q) as [pq0|] eqn:Hq0; [|done]. simpl in Hs. injection Hs as ->.
    by apply (Hsa q).
  - intros q pq Hq Hpq. assert (Hne : q ≠ a) by (by intros ->).
    pose proof (Hfld _ state q ltac:(done) ltac:(done) Hne) as Hs.
    pose proof (Hfld _ sndq q ltac:(done) ltac:(done) Hne) as Hsq. rewrite Hpq in Hs, Hsq.
    destruct (h !! q) as [pq0|] eqn:Hq0; [|done]. simpl in Hs, Hsq.
    injection Hs as ->. injection Hsq as ->. by apply (Hst q).
  - intros q pq l Hq Hpq Hl. destruct (Hsub q Hq) as [Hq' Hne].
    pose proof (Hfld _ backlog_held q ltac:(done) ltac:(done) Hne) as Hb. rewrite Hpq in Hb.
    destruct (h !! q) as [pq0|] eqn:Hq0; [|done]. simpl in Hb. injection Hb as Hb.
    destruct (Hbl q pq0 l Hq' Hq0 ltac:(congruence)) as (lp & Hlp & Hls & Hcnt).
    assert (Hla : l ≠ a).
    { intros ->. rewrite Hp in Hlp. injection Hlp as <-.
      pose proof (Hsa a p Hin Hp) as Hact. by rewrite Hls in Hact. }
    assert (Hcount : pending_count (delete a (released p h1)) l (l1 ++ l2)
                     = pending_count h l (l1 ++ a :: l2)
                       - (if bool_decide (backlog_held p = Some l) then 1 else 0)).
    { rewrite (pending_count_ext h).
      2:{ intros c Hc. destruct (Hsub c Hc) as [_ Hca]. by apply Hfld. }
      rewrite !pending_count_app. simpl. unfold pending_on. rewrite Hp.
      destruct (bool_decide (backlog_held p = Some l)); lia. }
    pose proof (Hun l Hla) as Hul. rewrite Hlp in Hul.
    destruct (h1 !! l) as [lp1|] eqn:Hlp1; [|done]. simpl in Hul. apply (inj Some) in Hul.
    assert (Hap1 : accepts_pending lp1 = accepts_pending lp)
      by (by apply (f_equal accepts_pending) in Hul).
    assert (Hls1 : state lp1 = LISTEN) by (apply (f_equal state) in Hul; simpl in Hul; congruence).
    rewrite lookup_delete_ne by done.
    destruct (released_lookup p h1 l) as [Hr|(lp' & Hb' & Hlp' & Hr)]; rewrite Hr.
    + exists lp1. split; [done|]. split; [done|]. rewrite Hcount, Hap1.
      destruct (bool_decide (backlog_held p = Some l)); lia.
    + rewrite Hlp1 in Hlp'. injection Hlp' as <-. eexists. split; [done|]. split; [done|].
      simpl. rewrite Hcount, Hap1. rewrite bool_decide_eq_true_2 by done. lia.
Qed.

Lemma chain_unlink_after h hd l1 b a l2 bp ap :
  chain h hd (l1 ++ b :: a :: l2) → h !! b = Some bp → h !! a = Some ap →
  next bp = Some a ∧ chain (<[b := set_next (next ap) bp]> h) hd (l1 ++ b :: l2).
Proof.
  intros Hc Hb Ha. pose proof (chain_NoDup _ _ _ Hc) as Hnd.
  apply NoDup_app in Hnd as (_ & Hd & Hnd). apply NoDup_cons in Hnd as (Hb2 & _).
  apply lseg_app in Hc as (r & H1 & H2).
  apply lseg_cons in H2 as (-> & bp' & Hb' & H2). rewrite Hb in Hb'. injection Hb' as <-.
  apply lseg_cons in H2 as (Hn & ap' & Ha' & H2). rewrite Ha in Ha'. injection Ha' as <-.
  split; [done|]. apply lseg_app. exists (Some b). split.
  - apply lseg_insert_other; [|done]. intros Hin. apply (Hd b Hin). by left.
  - apply lseg_cons. split; [done|]. eexists. rewrite lookup_insert_eq. split; [done|].
    simpl. apply lseg_insert_other; [|done]. intros Hin. apply Hb2. by right.
Qed.

(** The lists after a PCB of the tw list was unlinked ([h1], [ht1]) and
    freed. *)
Lemma lists_ok_remove_tw h ha ht la l1 a l2 p h1 ht1 :
  lists_ok h ha ht la (l1 ++ a :: l2) → h !! a = Some p →
  chain h1 ht1 (l1 ++ l2) →
  (∀ q, q ≠ a → set_next None <$> h1 !! q = set_next None <$> h !! q) →
  (∀ q, q ∈ la → h1 !! q = h !! q) →
  lists_ok (delete a h1) ha ht1 la (l1 ++ l2).
Proof.
  intros Hok Hp Hc1 Hun Hla.
  assert (Hin : a ∈ l1 ++ a :: l2) by (apply elem_of_app; right; by left).
  assert (Hnla : a ∉ la) by (intros Hin'; by apply (lists_ok_disjoint _ _ _ _ _ _ Hok Hin')).
  destruct Hok as (Ha & Ht & Hsa & Hst & Hbl).
  assert (Hni : a ∉ l1 ++ l2).
  { apply chain_split in Ht as (_ & _ & _ & _ & _ & Hn1 & Hn2 & _).
    intros [?|?]%elem_of_app; done. }
  assert (Hsub : ∀ q, q ∈ l1 ++ l2 → q ∈ l1 ++ a :: l2 ∧ q ≠ a).
  { intros q Hq. split; [|by intros ->].
    apply elem_of_app in Hq as [?|?]; apply elem_of_app; [by left|right; by right]. }
  assert (Hsame : ∀ q, q ∈ la → delete a h1 !! q = h !! q).
  { intros q Hq. rewrite lookup_delete_ne by (by intros ->). by apply Hla. }
  assert (Hfld : ∀ {A} (f : tcp_pcb → A) q,
            (∀ x, f (set_next None x) = f x) →
            q ≠ a → f <$> delete a h1 !! q = f <$> h !! q).
  { intros A f q Hf1 Hne. rewrite lookup_delete_ne by done.
    apply unlinked_field; [done|]. by apply Hun. }
  split; [|split; [|split; [|split]]].
  - revert Ha. apply lseg_ext. intros q Hq. by rewrite Hsame.
  - by apply lseg_delete_other.
  - intros q pq Hq Hpq. rewrite Hsame in Hpq by done. by apply (Hsa q).
  - intros q pq Hq Hpq. destruct (Hsub q Hq) as [Hq' Hne].
    pose proof (Hfld _ state q ltac:(done) Hne) as Hs.
    pose proof (Hfld _ sndq q ltac:(done) Hne) as Hsq. rewrite Hpq in Hs, Hsq.
    destruct (h !! q) as [pq0|] eqn:Hq0; [|done]. simpl in Hs, Hsq.
    injection Hs as ->. injection Hsq as ->. by apply (Hst q).
  - intros q pq l Hq Hpq Hl. rewrite Hsame in Hpq by done.
    destruct (Hbl q pq l Hq Hpq Hl) as (lp & Hlp & Hls & Hcnt).
    assert (Hne : l ≠ a).
    { intros ->. rewrite Hp in Hlp. injection Hlp as <-.
      destruct (Hst a p Hin Hp) as [Hs' _]. by rewrite Hs' in Hls. }
    pose proof (Hfld _ state l ltac:(done) Hne) as Hs.
    pose proof (Hfld _ accepts_pending l ltac:(done) Hne) as Hap. rewrite Hlp in Hs, Hap.
    destruct (delete a h1 !! l) as [lp1|]; [|done]. simpl in Hs, Hap.
    injection Hs as Hs. injection Hap as Hap. exists lp1. split; [done|].
    split; [congruence|]. rewrite Hap. rewrite (pending_count_ext h); [done|].
    intros c Hc. by rewrite Hsame.
Qed.

Lemma backlog_held_set_flags p f :
  has_flag f TF_BACKLOGPEND = has_flag (flags p) TF_BACKLOGPEND →
  backlog_held (set_flags f p) = backlog_held p.
Proof. unfold backlog_held. simpl. by intros ->. Qed.

(** What [tcp_report_err] does to the PCB: at most [TF_NOUSER] is set. *)
Lemma tcp_report_err_total (a : ptr) (e : err_t) (s : tcp_globals) (p : tcp_pcb) :
  heap s !! a = Some p →
  ∃ s' p', tcp_report_err a e s = Some s'
    ∧ heap s' = <[a := p']> (heap s)
    ∧ next p' = next p ∧ state p' = state p ∧ backlog_held p' = backlog_held p
    ∧ has_flag (flags p') TF_ACK_DELAY = has_flag (flags p) TF_ACK_DELAY
    ∧ tcp_active_pcbs s' = tcp_active_pcbs s ∧ tcp_tw_pcbs s' = tcp_tw_pcbs s
    ∧ tcp_conn_iter s' = tcp_conn_iter s
    ∧ tcp_ticks s' = tcp_ticks s ∧ tcp_timer_ctr s' = tcp_timer_ctr s.
Proof.
  intros Hp. unfold tcp_report_err. rewrite (Hp : deref s a = Some p).
  cbn [mbind option_bind].
  destruct (negb (has_flag (flags p) TF_NOUSER)).
  - unfold update. rewrite (Hp : deref s a = Some p). cbn [mbind option_bind].
    unfold deref. simpl. rewrite lookup_insert_eq. simpl.
    exists (match errf p with
            | Some cb => emit (EvErrf a cb e)
                           (set_heap (<[a := set_flags (set_flag (flags p) TF_NOUSER) p]>
                                        (heap s)) s)
            | None => set_heap (<[a := set_flags (set_flag (flags p) TF_NOUSER) p]>
                                  (heap s)) s
            end), (set_flags (set_flag (flags p) TF_NOUSER) p).
    split; [by destruct (errf p)|]. split; [by destruct (errf p)|].
    split; [done|]. split; [done|].
    split; [by apply backlog_held_set_flags, has_flag_set_other|].
    split; [by apply has_flag_set_other|].
    by destruct (errf p).
  - exists s, p. split; [done|]. split; [by rewrite insert_id|]. done.
Qed.

Lemma tcp_report_err_run (a : ptr) (e : err_t) (s : tcp_globals) (p : tcp_pcb) :
  heap s !! a = Some p →
  tcp_report_err a e s
  = Some (set_trace (report_events a p e ++ trace s)
            (set_heap (<[a := reported p]> (heap s)) s)).
Proof.
  intros Hp. unfold tcp_report_err, reported, report_events.
  rewrite (Hp : deref s a = Some p). cbn [mbind option_bind].
  destruct (has_flag (flags p) TF_NOUSER); simpl.
  - rewrite insert_id by done. by destruct s.
  - unfold update. rewrite (Hp : deref s a = Some p). cbn [mbind option_bind].
    unfold deref. simpl. rewrite lookup_insert_eq. simpl. by destruct (errf p).
Qed.

Section SlowTimer.
Variable E : tcp_env.

Lemma tcp_pcb_free_active (fuel : nat) (s : tcp_globals) (a : ptr) (p : tcp_pcb)
    (rst : bool) (l1 l2 lt : list ptr) :
  conn_lists_ok s (l1 ++ a :: l2) lt → heap s !! a = Some p →
  has_flag (flags p) TF_ACK_DELAY = false →
  current (tcp_conn_iter s) = Some a →
  ∃ s', tcp_pcb_free E fuel a rst (last l1) s = Some s'
    ∧ conn_lists_ok s' (l1 ++ l2) lt
    ∧ tcp_conn_iter s' = {| current := head l2; prev := prev (tcp_conn_iter s);
                            next_is_current := true |}
    ∧ tcp_ticks s' = tcp_ticks s ∧ tcp_timer_ctr s' = tcp_timer_ctr s
    ∧ (∀ q, q ∈ lt → heap s' !! q = heap s !! q)
    ∧ heap s' !! a = None
    ∧ (∀ q, q ∈ l2 → heap s' !! q = heap s !! q)
    ∧ (∀ q, heap s !! q = None → heap s' !! q = None)
    ∧ (∀ e, e ∈ trace s → e ∈ trace s').
Proof.
  intros Hok Hp Hack Hcur. unfold conn_lists_ok in *.
  assert (Hin : a ∈ l1 ++ a :: l2) by (apply elem_of_app; right; by left).
  pose proof Hok as (Ha & Ht & Hsa & Hst & Hbl).
  pose proof (Hsa a p Hin Hp) as Hact.
  destruct (active_state_facts _ Hact) as (Hnl & Hnc & Hntw & Hnli).
  destruct (chain_split _ _ _ _ _ Ha) as (p' & Hp' & Hseg1 & Hc2 & Hnx & Hn1 & Hn2 & Hd12).
  rewrite Hp in Hp'. injection Hp' as <-.
  assert (Hhd : tcp_active_pcbs s ≠ None).
  { pose proof (chain_head _ _ _ Ha) as Hh. rewrite Hh. by destruct l1. }
  (* the listener that counts [a] *)
  assert (Hlis : ∀ l, backlog_held p = Some l →
            ∃ lp, heap s !! l = Some lp ∧ l ≠ a ∧ (l ∉ l1 ++ a :: l2)
                  ∧ 0 < accepts_pending lp ≤ 255).
  { intros l Hl. destruct (Hbl a p l Hin Hp Hl) as (lp & Hlp & Hls & Hcnt).
    pose proof (pending_count_elem _ _ _ _ _ Hin Hp Hl).
    assert (Hnin : l ∉ l1 ++ a :: l2).
    { intros Hl'. pose proof (Hsa l lp Hl' Hlp) as Hc. by rewrite Hls in Hc. }
    exists lp. split; [done|]. split; [by intros ->|]. split; [done|lia]. }
  assert (Hfree : ∀ h1 ha1,
            chain h1 ha1 (l1 ++ l2) →
            (∀ q, q ≠ a → set_next None <$> h1 !! q = set_next None <$> heap s !! q) →
            (∀ q, q ∈ lt → h1 !! q = heap s !! q) →
            (∀ q, q ∈ l2 → h1 !! q = heap s !! q) →
            lists_ok (delete a (released p h1)) ha1 (tcp_tw_pcbs s) (l1 ++ l2) lt
            ∧ (∀ q, q ∈ lt → delete a (released p h1) !! q = heap s !! q)
            ∧ delete a (released p h1) !! a = None
            ∧ (∀ q, q ∈ l2 → delete a (released p h1) !! q = heap s !! q)
            ∧ (∀ q, heap s !! q = None → delete a (released p h1) !! q = None)).
  { intros h1 ha1 Hc1 Hun Hlt Hl2. split; [|split; [|split; [|split]]].
    - by apply (lists_ok_remove_active (heap s) (tcp_active_pcbs s)).
    - intros q Hq. assert (Hqa : q ≠ a).
      { intros ->. by apply (lists_ok_disjoint _ _ _ _ _ _ Hok Hin). }
      rewrite lookup_delete_ne by done.
      destruct (released_lookup p h1 q) as [->|(lp' & Hb' & _)]; [by apply Hlt|].
      destruct (Hbl a p q Hin Hp Hb') as (lp & Hlp & Hls & _).
      destruct (Hst q lp Hq Hlp) as [Hs' _]. by rewrite Hs' in Hls.
    - apply lookup_delete_eq.
    - intros q Hq. assert (Hqa : q ≠ a) by (by intros ->).
      rewrite lookup_delete_ne by done.
      destruct (released_lookup p h1 q) as [->|(lp' & Hb' & _)]; [by apply Hl2|].
      destruct (Hlis q Hb') as (? & _ & _ & Hnin & _). exfalso. apply Hnin.
      apply elem_of_app. right. by right.
    - intros q Hq. destruct (decide (q = a)) as [->|Hqa]; [apply lookup_delete_eq|].
      rewrite lookup_delete_ne by done. pose proof (Hun q Hqa) as Hu. rewrite Hq in Hu.
      destruct (released_lookup p h1 q) as [->|(lp' & _ & Hlp' & _)].
      + by destruct (h1 !! q).
      + by rewrite Hlp' in Hu. }
  destruct (last l1) as [b|] eqn:Hlast.
  - apply last_Some in Hlast as (l1' & ->). rewrite <- app_assoc in Ha. simpl in Ha.
    assert (Hbin : b ∈ (l1' ++ [b]) ++ a :: l2).
    { apply elem_of_app. left. apply elem_of_app. right. by left. }
    destruct (lseg_lookup _ _ _ _ _ (proj1 Hok) Hbin) as [bp Hb].
    destruct (chain_unlink_after _ _ _ _ _ _ _ _ Ha Hb Hp) as [Hbn Hc1].
    assert (Hba : b ≠ a) by (intros ->; apply Hn1; apply elem_of_app; right; by left).
    destruct (Hfree (<[b := set_next (next p) bp]> (heap s)) (tcp_active_pcbs s))
      as (Hok' & Hfr' & Hna' & Hl2' & Hnn').
    { by rewrite <- app_assoc. }
    { intros q Hq. destruct (decide (b = q)) as [<-|Hne].
      - rewrite lookup_insert_eq, Hb. done.
      - by rewrite lookup_insert_ne. }
    { intros q Hq. rewrite lookup_insert_ne; [done|]. intros <-.
      by apply (lists_ok_disjoint _ _ _ _ _ _ Hok Hbin). }
    { intros q Hq. rewrite lookup_insert_ne; [done|]. intros <-.
      apply (Hd12 b); [|done]. apply elem_of_app. right. by left. }
    assert (Hpurge : ∀ s1, heap s1 = <[b := set_next (next p) bp]> (heap s) →
              tcp_pcb_purge a s1 =
                Some (set_heap (<[a := purged p]> (released p (heap s1)))
                        (emit (EvSegsFree (sndq p)) s1))).
    { intros s1 Hs1. apply tcp_pcb_purge_total; [|done|].
      - unfold deref. rewrite Hs1. by rewrite lookup_insert_ne.
      - intros l Hl. destruct (Hlis l Hl) as (lp & Hlp & Hla & Hnin & Hap).
        exists lp. unfold deref. rewrite Hs1. rewrite lookup_insert_ne; [done|].
        intros <-. done. }
    unfold tcp_pcb_free. rewrite (Hp : deref s a = Some p). cbn [mbind option_bind].
    unfold tcp_pcb_is_listen. rewrite Hnl. cbn [negb LWIP_ASSERT mbind option_bind].
    rewrite (bool_decide_eq_false_2 (state p = CLOSED)) by done.
    rewrite Hact, Hack.
    destruct (bool_decide (tcp_input_pcb s = Some a)), rst.
    all: eexists; split;
      [ cbn [mbind option_bind]; unfold deref; cbn [heap set_tcp_input_pcb];
        rewrite Hp; cbn [mbind option_bind];
        unfold iter_will_remove, tcp_iter_will_remove; simpl;
        rewrite (bool_decide_eq_true_2 (tcp_active_pcbs s ≠ None)) by done;
        cbn [LWIP_ASSERT mbind option_bind]; rewrite Hcur;
        rewrite (bool_decide_eq_true_2 (a = a)) by done; rewrite Hp;
        cbn [mbind option_bind]; unfold deref; simpl; rewrite Hb; simpl;
        rewrite (bool_decide_eq_true_2 (next bp = Some a)) by done; simpl;
        rewrite Hp; simpl; unfold update, deref; simpl; rewrite Hb; simpl;
        rewrite Hpurge by done; simpl; rewrite lookup_insert_eq; simpl;
        reflexivity
      | unfold conn_lists_ok; simpl; rewrite delete_insert_eq ].
    all: split; [exact Hok'|]; split; [by rewrite Hnx|]; split; [done|];
      split; [done|]; split; [exact Hfr'|]; split; [exact Hna'|]; split; [exact Hl2'|];
      split; [exact Hnn'|]; intros e He; repeat right; exact He.
  - apply last_None in Hlast as ->. simpl in *.
    pose proof (chain_head _ _ _ Ha) as Hh. simpl in Hh.
    destruct (Hfree (<[a := set_next None p]> (heap s)) (next p))
      as (Hok' & Hfr' & Hna' & Hl2' & Hnn').
    { by apply lseg_insert_other. }
    { intros q Hq. by rewrite lookup_insert_ne. }
    { intros q Hq. rewrite lookup_insert_ne; [done|]. intros <-.
      by apply (lists_ok_disjoint _ _ _ _ _ _ Hok Hin). }
    { intros q Hq. rewrite lookup_insert_ne; [done|]. by intros <-. }
    assert (Hpurge : ∀ s1, heap s1 = <[a := set_next None p]> (heap s) →
              tcp_pcb_purge a s1 =
                Some (set_heap (<[a := purged (set_next None p)]>
                                  (released (set_next None p) (heap s1)))
                        (emit (EvSegsFree (sndq p)) s1))).
    { intros s1 Hs1. apply (tcp_pcb_purge_total a s1 (set_next None p)); [|done|].
      - unfold deref. rewrite Hs1. by rewrite lookup_insert_eq.
      - intros l Hl. destruct (Hlis l Hl) as (lp & Hlp & Hla & Hnin & Hap).
        exists lp. unfold deref. rewrite Hs1. rewrite lookup_insert_ne; done. }
    unfold tcp_pcb_free. rewrite (Hp : deref s a = Some p). cbn [mbind option_bind].
    unfold tcp_pcb_is_listen. rewrite Hnl. cbn [negb LWIP_ASSERT mbind option_bind].
    rewrite (bool_decide_eq_false_2 (state p = CLOSED)) by done.
    rewrite Hact, Hack.
    destruct (bool_decide (tcp_input_pcb s = Some a)), rst.
    all: eexists; split;
      [ cbn [mbind option_bind]; unfold deref; cbn [heap set_tcp_input_pcb];
        rewrite Hp; cbn [mbind option_bind];
        unfold iter_will_remove, tcp_iter_will_remove; simpl;
        rewrite (bool_decide_eq_true_2 (tcp_active_pcbs s ≠ None)) by done;
        cbn [LWIP_ASSERT mbind option_bind]; rewrite Hcur;
        rewrite (bool_decide_eq_true_2 (a = a)) by done; rewrite Hp;
        cbn [mbind option_bind];
        rewrite (tcp_rmv_head fuel ActiveList a _ p) by done;
        cbn [mbind option_bind];
        rewrite Hpurge by done; simpl; rewrite lookup_insert_eq; simpl;
        reflexivity
      | unfold conn_lists_ok; simpl; rewrite delete_insert_eq ].
    all: split; [exact Hok'|]; split; [by rewrite Hnx|]; split; [done|];
      split; [done|]; split; [exact Hfr'|]; split; [exact Hna'|]; split; [exact Hl2'|];
      split; [exact Hnn'|]; intros e He; repeat right; exact He.
Qed.

Lemma tcp_pcb_free_tw (fuel : nat) (s : tcp_globals) (a : ptr) (p : tcp_pcb)
    (rst : bool) (pv : option ptr) (la l1 l2 : list ptr) :
  conn_lists_ok s la (l1 ++ a :: l2) → heap s !! a = Some p →
  current (tcp_conn_iter s) = Some a → (length l1 ≤ fuel)%nat →
  ∃ s', tcp_pcb_free E fuel a rst pv s = Some s'
    ∧ conn_lists_ok s' la (l1 ++ l2)
    ∧ tcp_conn_iter s' = {| current := head l2; prev := prev (tcp_conn_iter s);
                            next_is_current := true |}
    ∧ tcp_ticks s' = tcp_ticks s ∧ tcp_timer_ctr s' = tcp_timer_ctr s
    ∧ heap s' !! a = None
    ∧ (∀ q, q ≠ a → set_next None <$> heap s' !! q = set_next None <$> heap s !! q)
    ∧ trace s' = EvMempFree a :: trace s.
Proof.
  intros Hok Hp Hcur Hfuel. unfold conn_lists_ok in *.
  assert (Hin : a ∈ l1 ++ a :: l2) by (apply elem_of_app; right; by left).
  pose proof Hok as (Ha & Ht & Hsa & Hst & Hbl).
  destruct (Hst a p Hin Hp) as [Hs Hq].
  destruct (chain_split _ _ _ _ _ Ht) as (p' & Hp' & Hseg1 & Hc2 & Hnx & Hn1 & Hn2 & Hd12).
  rewrite Hp in Hp'. injection Hp' as <-.
  assert (Hhd : tcp_tw_pcbs s ≠ None).
  { pose proof (chain_head _ _ _ Ht) as Hh. rewrite Hh. by destruct l1. }
  assert (Hrmv : ∀ s1, heap s1 = heap s → tcp_tw_pcbs s1 = tcp_tw_pcbs s →
            ∃ h1 ht1,
              tcp_rmv fuel TwList a s1 = Some (set_heap h1 (set_tcp_tw_pcbs ht1 s1))
              ∧ h1 !! a = Some (set_next None p)
              ∧ lists_ok (delete a h1) (tcp_active_pcbs s) ht1 la (l1 ++ l2)
              ∧ (∀ q, q ≠ a → set_next None <$> delete a h1 !! q
                              = set_next None <$> heap s !! q)).
  { intros s1 E1 E2.
    destruct (tcp_rmv_chain fuel TwList a s1 l1 l2) as
      (ap & h1 & ht1 & Hap & Hr & Hc1 & Ha1 & Hfr & Hun & _);
      [simpl; by rewrite E1, E2|done|].
    rewrite E1, Hp in Hap. injection Hap as <-.
    exists h1, ht1. split; [done|]. split; [done|]. split.
    - apply (lists_ok_remove_tw (heap s) _ (tcp_tw_pcbs s) _ _ _ _ p); try done.
      + intros q _. rewrite <- E1. apply Hun.
      + intros q Hqa. rewrite <- E1. apply Hfr.
        * intros ->. by apply (lists_ok_disjoint _ _ _ _ _ _ Hok Hqa).
        * intros Hl. apply (lists_ok_disjoint _ _ _ _ _ _ Hok Hqa).
          destruct (last l1) as [b|] eqn:Hb; [|done]. injection Hl as ->.
          apply last_Some in Hb as (l' & ->). apply elem_of_app. left.
          apply elem_of_app. right. by left.
    - intros q Hne. rewrite lookup_delete_ne by done. rewrite <- E1. apply Hun. }
  unfold tcp_pcb_free. rewrite (Hp : deref s a = Some p). cbn [mbind option_bind].
  unfold tcp_pcb_is_listen. rewrite Hs. cbn [tcp_pcb_is_listen_state tcp_state_is_active].
  cbn [negb LWIP_ASSERT mbind option_bind].
  rewrite (bool_decide_eq_false_2 (TIME_WAIT = CLOSED)) by done.
  rewrite (bool_decide_eq_true_2 (TIME_WAIT = TIME_WAIT)) by done.
  destruct (bool_decide (tcp_input_pcb s = Some a)).
  all: match goal with
       | |- context [iter_will_remove _ _ TwList ?s0] =>
         destruct (Hrmv (set_tcp_conn_iter
                           {| current := next p; prev := prev (tcp_conn_iter s);
                              next_is_current := true |} s0) eq_refl eq_refl)
           as (h1 & ht1 & Hr & Ha1 & Hok' & Hun')
       end.
  all: eexists; split;
    [ unfold iter_will_remove, tcp_iter_will_remove; simpl;
      rewrite (bool_decide_eq_true_2 (tcp_tw_pcbs s ≠ None)) by done;
      cbn [LWIP_ASSERT mbind option_bind]; rewrite Hcur;
      rewrite (bool_decide_eq_true_2 (a = a)) by done; rewrite Hp;
      cbn [mbind option_bind]; rewrite Hr; cbn [mbind option_bind];
      unfold deref; simpl; rewrite Ha1; simpl;
      rewrite (bool_decide_eq_true_2 (sndq p = None)) by done; simpl;
      reflexivity
    | unfold conn_lists_ok; simpl ].
  all: split; [exact Hok'|]; split; [by rewrite Hnx|]; split; [done|];
    split; [done|]; split; [by rewrite lookup_delete_eq|]; split; [exact Hun'|done].
Qed.


Lemma tcp_iter_next_at (h : gmap ptr tcp_pcb) (hd : option ptr) (it : tcp_iter)
    (l1 l2 : list ptr) :
  chain h hd (l1 ++ l2) → iter_at it l1 l2 →
  tcp_iter_next h it
  = Some (head l2, {| current := head l2; prev := last l1; next_is_current := false |}).
Proof.
  intros Hc Hit. unfold tcp_iter_next, iter_at in *.
  destruct (next_is_current it).
  - destruct Hit as [-> ->]. done.
  - destruct Hit as (l & c & -> & -> & Hp). simpl.
    rewrite <- app_assoc in Hc. simpl in Hc.
    apply lseg_app in Hc as (r & _ & Hc). apply lseg_cons in Hc as (_ & cp & Hcp & Hc).
    rewrite Hcp. simpl. rewrite last_snoc.
    assert (Hn : next cp = head l2) by (by apply (chain_head h)). by rewrite Hn.
Qed.

Hypothesis seg_next : seg_layer_keeps next E.
Hypothesis seg_state : seg_layer_keeps state E.
Hypothesis seg_held : seg_layer_keeps backlog_held E.

Lemma slowtmr_active_loop_end (n fuel : nat) (s : tcp_globals) (l1 lt : list ptr) :
  conn_lists_ok s l1 lt → iter_at (tcp_conn_iter s) l1 [] →
  slowtmr_active_loop E (S n) fuel s
  = Some (set_tcp_conn_iter {| current := None; prev := last l1; next_is_current := false |} s).
Proof.
  intros (Ha & _) Hit. cbn [slowtmr_active_loop].
  rewrite (tcp_iter_next_at _ (tcp_active_pcbs s) _ l1 []); [done| by rewrite app_nil_r|done].
Qed.

(** "If the PCB should be removed, do it." *)
Lemma slowtmr_remove_ok (fuel : nat) (s : tcp_globals) (a : ptr) (p : tcp_pcb)
    (rst : bool) (l1 l2 lt : list ptr) :
  conn_lists_ok s (l1 ++ a :: l2) lt → heap s !! a = Some p →
  tcp_conn_iter s = {| current := Some a; prev := last l1; next_is_current := false |} →
  ∃ s', (s3 ← update a (λ p, set_flags (clear_flag (flags p) TF_ACK_DELAY) p) s;
         s4 ← tcp_report_err a ERR_ABRT s3;
         tcp_pcb_free E fuel a rst (prev (tcp_conn_iter s4)) s4) = Some s'
    ∧ conn_lists_ok s' (l1 ++ l2) lt
    ∧ tcp_conn_iter s' = {| current := head l2; prev := last l1; next_is_current := true |}
    ∧ tcp_ticks s' = tcp_ticks s ∧ tcp_timer_ctr s' = tcp_timer_ctr s
    ∧ (∀ q, q ∈ lt → heap s' !! q = heap s !! q)
    ∧ heap s' !! a = None
    ∧ (∀ q, q ∈ l2 → heap s' !! q = heap s !! q)
    ∧ (∀ q, heap s !! q = None → heap s' !! q = None)
    ∧ (∀ e, e ∈ report_events a p ERR_ABRT ++ trace s → e ∈ trace s').
Proof.
  intros Hok Hp Hit.
  assert (Hin : a ∈ l1 ++ a :: l2) by (apply elem_of_app; right; by left).
  destruct (chain_split _ _ _ _ _ (proj1 Hok)) as (_ & _ & _ & _ & _ & _ & Hn2 & _).
  rewrite (update_Some a _ s p Hp). cbn [mbind option_bind].
  set (p3 := set_flags (clear_flag (flags p) TF_ACK_DELAY) p).
  set (s3 := set_heap (<[a := p3]> (heap s)) s).
  destruct (tcp_report_err_total a ERR_ABRT s3 p3) as
    (s4 & p4 & Hrep & Hh4 & Hn4 & Hs4 & Hb4 & Hf4 & Ea & Et & Ei & Ek & Ec).
  { unfold s3. simpl. by rewrite lookup_insert_eq. }
  rewrite Hrep. cbn [mbind option_bind].
  assert (Hh4' : heap s4 = <[a := p4]> (heap s)).
  { rewrite Hh4. unfold s3. simpl. by rewrite insert_insert_eq. }
  assert (Hok4 : conn_lists_ok s4 (l1 ++ a :: l2) lt).
  { unfold conn_lists_ok. rewrite Hh4', Ea, Et.
    apply (lists_ok_update _ _ _ _ _ _ p); [done..| |].
    - by rewrite Hs4.
    - rewrite Hb4. unfold p3. by apply backlog_held_set_flags, has_flag_clear_other. }
  assert (Htr4 : trace s4 = report_events a p ERR_ABRT ++ trace s).
  { pose proof (tcp_report_err_run a ERR_ABRT s3 p3) as Hrun3. rewrite Hrep in Hrun3.
    injection Hrun3 as ->; [|unfold s3; simpl; by rewrite lookup_insert_eq].
    unfold report_events, p3. simpl. by rewrite has_flag_clear_other. }
  destruct (tcp_pcb_free_active fuel s4 a p4 rst l1 l2 lt Hok4) as
    (s5 & Hfree & Hok5 & Hi5 & Hk5 & Hc5 & Hfr5 & Hna5 & Hl25 & Hnn5 & Htr5).
  { rewrite Hh4'. by rewrite lookup_insert_eq. }
  { rewrite Hf4. unfold p3. simpl. apply has_flag_clear_same. }
  { rewrite Ei. unfold s3. simpl. by rewrite Hit. }
  exists s5. rewrite Ei. unfold s3 at 1. simpl. rewrite Hit. simpl.
  split; [done|]. split; [done|]. split.
  { rewrite Hi5, Ei. unfold s3. simpl. by rewrite Hit. }
  split; [by rewrite Hk5, Ek|]. split; [by rewrite Hc5, Ec|].
  split.
  { intros q Hq. rewrite Hfr5, Hh4' by done. rewrite lookup_insert_ne; [done|].
    intros <-. by apply (lists_ok_disjoint _ _ _ _ _ _ Hok Hin). }
  split; [done|]. split.
  { intros q Hq. rewrite Hl25, Hh4' by done. rewrite lookup_insert_ne; [done|].
    by intros <-. }
  split.
  { intros q Hq. apply Hnn5. rewrite Hh4'. rewrite lookup_insert_ne; [done|].
    intros <-. by rewrite Hp in Hq. }
  intros e He. apply Htr5. by rewrite Htr4.
Qed.

(** "Try to output." *)
Lemma slowtmr_output_ok (s : tcp_globals) (a : ptr) (p : tcp_pcb) (l1 l2 lt : list ptr) :
  conn_lists_ok s (l1 ++ a :: l2) lt → heap s !! a = Some p →
  ∃ s', call_tcp_output E a s = Some s'
    ∧ conn_lists_ok s' (l1 ++ a :: l2) lt
    ∧ tcp_conn_iter s' = tcp_conn_iter s
    ∧ tcp_ticks s' = tcp_ticks s ∧ tcp_timer_ctr s' = tcp_timer_ctr s
    ∧ (∀ q, q ∈ lt → heap s' !! q = heap s !! q)
    ∧ (∀ q, q ∈ l2 → heap s' !! q = heap s !! q)
    ∧ (∀ q, heap s !! q = None → heap s' !! q = None)
    ∧ (∀ e, e ∈ trace s → e ∈ trace s').
Proof.
  intros Hok Hp.
  assert (Hin : a ∈ l1 ++ a :: l2) by (apply elem_of_app; right; by left).
  destruct (chain_split _ _ _ _ _ (proj1 Hok)) as (_ & _ & _ & _ & _ & _ & Hn2 & _).
  unfold call_tcp_output. rewrite (update_Some a _ s p Hp). cbn [mbind option_bind].
  eexists. split; [done|]. unfold conn_lists_ok. simpl.
  destruct seg_next as (Hn & _). destruct seg_state as (Hs & _).
  destruct seg_held as (Hb & _).
  split; [by apply (lists_ok_update _ _ _ _ _ _ p)|].
  split; [done|]. split; [done|]. split; [done|].
  split.
  { intros q Hq. rewrite lookup_insert_ne; [done|].
    intros <-. by apply (lists_ok_disjoint _ _ _ _ _ _ Hok Hin). }
  split; [intros q Hq; rewrite lookup_insert_ne; [done|by intros <-]|].
  split; [|intros e He; by right].
  intros q Hq. rewrite lookup_insert_ne; [done|]. intros <-. by rewrite Hp in Hq.
Qed.

Lemma slowtmr_active_loop_step (n fuel : nat) (s : tcp_globals) (a : ptr)
    (l1 l2 lt : list ptr) :
  conn_lists_ok s (l1 ++ a :: l2) lt → iter_at (tcp_conn_iter s) l1 (a :: l2) →
  ∃ s1 l1', slowtmr_active_loop E (S n) fuel s = slowtmr_active_loop E n fuel s1
    ∧ conn_lists_ok s1 (l1' ++ l2) lt ∧ iter_at (tcp_conn_iter s1) l1' l2
    ∧ (length l1' ≤ S (length l1))%nat
    ∧ tcp_ticks s1 = tcp_ticks s ∧ tcp_timer_ctr s1 = tcp_timer_ctr s
    ∧ (∀ q, q ∈ lt → heap s1 !! q = heap s !! q)
    ∧ (∀ q, q ∈ l2 → heap s1 !! q = heap s !! q)
    ∧ (∀ q, heap s !! q = None → heap s1 !! q = None)
    ∧ (∀ e, e ∈ trace s → e ∈ trace s1)
    ∧ (∀ p, heap s !! a = Some p → last_timer p ≠ tcp_timer_ctr s →
         (slowtmr_visit E s a p).1.1.2 ≠ 0 →
         heap s1 !! a = None
         ∧ ∀ e, e ∈ report_events a (slowtmr_visit E s a p).1.1.1 ERR_ABRT → e ∈ trace s1)
    ∧ (∀ q, q ∈ l1 → q ∈ l1')
    ∧ (∀ p, heap s !! a = Some p →
         last_timer p = tcp_timer_ctr s ∨ (slowtmr_visit E s a p).1.1.2 = 0 → a ∈ l1').
Proof.
  intros Hok Hit.
  assert (Hin : a ∈ l1 ++ a :: l2) by (apply elem_of_app; right; by left).
  pose proof Hok as (Ha & Ht & Hsa & Hst & Hbl).
  destruct (chain_split _ _ _ _ _ Ha) as (_ & _ & _ & _ & _ & _ & Hn2 & _).
  destruct (lseg_lookup _ _ _ _ _ Ha Hin) as [p Hp].
  pose proof (Hsa a p Hin Hp) as Hact.
  set (it1 := {| current := Some a; prev := last l1; next_is_current := false |}).
  set (s1 := set_tcp_conn_iter it1 s).
  assert (Hstep : slowtmr_active_loop E (S n) fuel s
                  = (p ← deref s1 a;
                     _ ← LWIP_ASSERT (tcp_state_is_active (state p));
                     if last_timer p =? tcp_timer_ctr s1 then slowtmr_active_loop E n fuel s1
                     else
                       s ← update a (set_last_timer (tcp_timer_ctr s1)) s1;
                       p ← deref s a;
                       let '(p, pcb_remove, pcb_reset, ev) :=
                         slowtmr_active_pcb E (tcp_ticks s) a p in
                       s ← update a (λ _, p) s;
                       let s := set_trace (ev ++ trace s) s in
                       s ← (if negb (pcb_remove =? 0) then
                              s ← update a (λ p, set_flags
                                                   (clear_flag (flags p) TF_ACK_DELAY) p) s;
                              s ← tcp_report_err a ERR_ABRT s;
                              tcp_pcb_free E fuel a (negb (pcb_reset =? 0))
                                (prev (tcp_conn_iter s)) s
                            else call_tcp_output E a s);
                       slowtmr_active_loop E n fuel s)).
  { cbn [slowtmr_active_loop].
    by rewrite (tcp_iter_next_at _ (tcp_active_pcbs s) _ l1 (a :: l2)) by done. }
  rewrite Hstep. clear Hstep.
  rewrite (Hp : deref s1 a = Some p). cbn [mbind option_bind].
  rewrite Hact. cbn [LWIP_ASSERT mbind option_bind].
  assert (Hkeep : ∀ sx, heap sx = heap s → tcp_active_pcbs sx = tcp_active_pcbs s →
            tcp_tw_pcbs sx = tcp_tw_pcbs s → tcp_conn_iter sx = it1 →
            conn_lists_ok sx ((l1 ++ [a]) ++ l2) lt
            ∧ iter_at (tcp_conn_iter sx) (l1 ++ [a]) l2).
  { intros sx E1 E2 E3 E4. split.
    - unfold conn_lists_ok. rewrite E1, E2, E3, <- app_assoc. done.
    - rewrite E4. unfold iter_at. simpl. exists l1, a. done. }
  destruct (last_timer p =? tcp_timer_ctr s1) eqn:Hskip.
  { exists s1, (l1 ++ [a]). split; [done|].
    destruct (Hkeep s1) as [? ?]; try done.
    rewrite length_app. simpl.
    split; [done|]. split; [done|]. split; [lia|]. split; [done|]. split; [done|].
    split; [done|]. split; [done|]. split; [done|]. split; [done|].
    split; [|split].
    - intros p0 Hp0 Hlast. rewrite Hp in Hp0. injection Hp0 as <-.
      apply Z.eqb_eq in Hskip. done.
    - intros q Hq. apply elem_of_app. by left.
    - intros _ _ _. apply elem_of_app. right. by left. }
  rewrite (update_Some a _ s1 p Hp). cbn [mbind option_bind].
  set (p1 := set_last_timer (tcp_timer_ctr s1) p).
  set (s2 := set_heap (<[a := p1]> (heap s1)) s1).
  assert (Hp1 : deref s2 a = Some p1) by (unfold deref, s2; simpl; by rewrite lookup_insert_eq).
  rewrite Hp1. cbn [mbind option_bind].
  pose proof (slowtmr_active_pcb_keeps E next seg_next ltac:(by repeat split)
                (tcp_ticks s2) a p1) as Kn.
  pose proof (slowtmr_active_pcb_keeps E state seg_state ltac:(by repeat split)
                (tcp_ticks s2) a p1) as Ks.
  pose proof (slowtmr_active_pcb_keeps E backlog_held seg_held ltac:(by repeat split)
                (tcp_ticks s2) a p1) as Kb.
  assert (Hvisit : slowtmr_visit E s a p = slowtmr_active_pcb E (tcp_ticks s2) a p1)
    by reflexivity.
  destruct (slowtmr_active_pcb E (tcp_ticks s2) a p1) as [[[p2 rm] rs] ev].
  simpl in Kn, Ks, Kb.
  rewrite (update_Some a _ s2 p1 Hp1). cbn [mbind option_bind].
  set (s3 := set_trace _ _).
  assert (Hh3 : heap s3 = <[a := p2]> (heap s)).
  { unfold s3, s2, s1. simpl. by rewrite insert_insert_eq. }
  assert (Htr3 : ∀ e, e ∈ trace s → e ∈ trace s3).
  { intros e He. unfold s3. simpl. apply elem_of_app. by right. }
  assert (Hl23 : ∀ q, q ∈ l2 → heap s3 !! q = heap s !! q).
  { intros q Hq. rewrite Hh3. rewrite lookup_insert_ne; [done|]. by intros <-. }
  assert (Hnn3 : ∀ q, heap s !! q = None → heap s3 !! q = None).
  { intros q Hq. rewrite Hh3. rewrite lookup_insert_ne; [done|].
    intros <-. by rewrite Hp in Hq. }
  assert (Hok3 : conn_lists_ok s3 (l1 ++ a :: l2) lt).
  { unfold conn_lists_ok. rewrite Hh3. by apply (lists_ok_update _ _ _ _ _ _ p). }
  assert (Hp3 : heap s3 !! a = Some p2) by (by rewrite Hh3, lookup_insert_eq).
  assert (Hfr3 : ∀ q, q ∈ lt → heap s3 !! q = heap s !! q).
  { intros q Hq. rewrite Hh3. rewrite lookup_insert_ne; [done|].
    intros <-. by apply (lists_ok_disjoint _ _ _ _ _ _ Hok Hin). }
  destruct (negb (rm =? 0)) eqn:Hrm.
  - destruct (slowtmr_remove_ok fuel s3 a p2 (negb (rs =? 0)) l1 l2 lt Hok3 Hp3 eq_refl)
      as (s4 & Hrun & Hok4 & Hi4 & Hk4 & Hc4 & Hfr4 & Hna4 & Hl24 & Hnn4 & Htr4).
    rewrite Hrun. cbn [mbind option_bind].
    exists s4, l1. split; [done|]. split; [done|].
    split; [by rewrite Hi4|]. split; [lia|]. split; [by rewrite Hk4|].
    split; [by rewrite Hc4|]. split; [intros q Hq; by rewrite Hfr4, Hfr3|].
    split; [intros q Hq; by rewrite Hl24, Hl23|].
    split; [intros q Hq; by apply Hnn4, Hnn3|].
    split; [intros e He; apply Htr4, elem_of_app; right; by apply Htr3|].
    split; [|split; [done|]].
    + intros p0 Hp0 _ _. rewrite Hp in Hp0. injection Hp0 as <-. rewrite Hvisit. simpl.
      split; [done|]. intros e He. apply Htr4, elem_of_app. by left.
    + intros p0 Hp0 [Hl|Hv]; rewrite Hp in Hp0; injection Hp0 as <-; exfalso.
      * apply Z.eqb_neq in Hskip. done.
      * rewrite Hvisit in Hv. simpl in Hv. rewrite Hv in Hrm. done.
  - destruct (slowtmr_output_ok s3 a p2 l1 l2 lt Hok3 Hp3)
      as (s4 & Hrun & Hok4 & Hi4 & Hk4 & Hc4 & Hfr4 & Hl24 & Hnn4 & Htr4).
    rewrite Hrun. cbn [mbind option_bind].
    exists s4, (l1 ++ [a]). split; [done|].
    split; [by rewrite <- app_assoc|].
    split; [rewrite Hi4; unfold iter_at; simpl; by exists l1, a|].
    rewrite length_app. simpl. split; [lia|]. split; [by rewrite Hk4|].
    split; [by rewrite Hc4|]. split; [intros q Hq; by rewrite Hfr4, Hfr3|].
    split; [intros q Hq; by rewrite Hl24, Hl23|].
    split; [intros q Hq; by apply Hnn4, Hnn3|].
    split; [intros e He; by apply Htr4, Htr3|].
    split; [|split].
    + intros p0 Hp0 _ Hv. rewrite Hp in Hp0. injection Hp0 as <-. rewrite Hvisit in Hv.
      simpl in Hv. apply negb_false_iff, Z.eqb_eq in Hrm. done.
    + intros q Hq. apply elem_of_app. by left.
    + intros _ _ _. apply elem_of_app. right. by left.
Qed.

Lemma slowtmr_active_loop_ok (n fuel : nat) (l2 : list ptr) :
  ∀ (s : tcp_globals) (l1 lt : list ptr),
    conn_lists_ok s (l1 ++ l2) lt → iter_at (tcp_conn_iter s) l1 l2 →
    (length l2 < n)%nat →
    ∃ s' la', slowtmr_active_loop E n fuel s = Some s'
      ∧ conn_lists_ok s' la' lt
      ∧ (length la' ≤ length (l1 ++ l2))%nat
      ∧ tcp_ticks s' = tcp_ticks s ∧ tcp_timer_ctr s' = tcp_timer_ctr s
      ∧ (∀ q, q ∈ lt → heap s' !! q = heap s !! q)
      ∧ (∀ q, heap s !! q = None → heap s' !! q = None)
      ∧ (∀ e, e ∈ trace s → e ∈ trace s')
      ∧ (∀ q p, q ∈ l2 → heap s !! q = Some p → last_timer p ≠ tcp_timer_ctr s →
           (slowtmr_visit E s q p).1.1.2 ≠ 0 →
           heap s' !! q = None
           ∧ ∀ e, e ∈ report_events q (slowtmr_visit E s q p).1.1.1 ERR_ABRT →
                  e ∈ trace s')
      ∧ (∀ q, q ∈ l1 → q ∈ la')
      ∧ (∀ q p, q ∈ l2 → heap s !! q = Some p →
           last_timer p = tcp_timer_ctr s ∨ (slowtmr_visit E s q p).1.1.2 = 0 → q ∈ la').
Proof.
  revert n. induction l2 as [|a l2 IH]; intros n s l1 lt Hok Hit Hn.
  - destruct n as [|n]; [simpl in Hn; lia|]. rewrite app_nil_r in *.
    rewrite (slowtmr_active_loop_end n fuel s l1 lt Hok Hit).
    eexists _, l1. split; [done|]. split; [done|]. split; [done|]. split; [done|].
    split; [done|]. split; [done|]. split; [done|]. split; [done|].
    split; [by intros q p ?%elem_of_nil|]. split; [done|].
    by intros q p ?%elem_of_nil.
  - destruct n as [|n]; [simpl in Hn; lia|].
    destruct (slowtmr_active_loop_step n fuel s a l1 l2 lt Hok Hit)
      as (s1 & l1' & -> & Hok1 & Hit1 & Hlen & Hk & Hc & Hfr & Hl2 & Hnn & Htr & Hfate
          & Hm1 & Hm2).
    destruct (IH n s1 l1' lt Hok1 Hit1)
      as (s' & la' & Hrun & Hok' & Hlen' & Hk' & Hc' & Hfr' & Hnn' & Htr' & Hfate'
          & Hm1' & Hm2').
    { simpl in Hn. lia. }
    exists s', la'. split; [done|]. split; [done|].
    split; [rewrite !length_app in *; simpl; lia|].
    split; [by rewrite Hk'|]. split; [by rewrite Hc'|].
    split; [intros q Hq; by rewrite Hfr', Hfr|].
    split; [intros q Hq; by apply Hnn', Hnn|].
    split; [intros e He; by apply Htr', Htr|].
    assert (Hvs : ∀ q p, slowtmr_visit E s1 q p = slowtmr_visit E s q p)
      by (intros q p; unfold slowtmr_visit; by rewrite Hk, Hc).
    split; [|split].
    + intros q p [->|Hq]%elem_of_cons Hp Hlast Hv.
      * destruct (Hfate p Hp Hlast Hv) as [Hnone Hev].
        split; [by apply Hnn'|]. intros e He. by apply Htr', Hev.
      * rewrite <- Hvs.
        apply (Hfate' q p Hq); [by rewrite Hl2|by rewrite Hc|by rewrite Hvs].
    + intros q Hq. by apply Hm1', Hm1.
    + intros q p [->|Hq]%elem_of_cons Hp Hkept.
      * apply Hm1'. by apply (Hm2 p).
      * apply (Hm2' q p Hq); [by rewrite Hl2|]. by rewrite Hc, Hvs.
Qed.

Lemma tw_expired_unlinked (ticks : Z) (o1 o2 : option tcp_pcb) :
  set_next None <$> o1 = set_next None <$> o2 →
  tw_expired E ticks <$> o1 = tw_expired E ticks <$> o2.
Proof. by apply unlinked_field. Qed.

Lemma slowtmr_tw_loop_ok (n fuel : nat) (l2 : list ptr) :
  ∀ (s : tcp_globals) (la l1 : list ptr),
    conn_lists_ok s la (l1 ++ l2) → iter_at (tcp_conn_iter s) l1 l2 →
    (length l2 < n)%nat → (length (l1 ++ l2) ≤ fuel)%nat →
    ∃ s' l2', slowtmr_tw_loop E n fuel s = Some s'
      ∧ conn_lists_ok s' la (l1 ++ l2')
      ∧ (length l2' ≤ length l2)%nat
      ∧ tcp_ticks s' = tcp_ticks s
      ∧ (∀ q, q ∈ l2' → q ∈ l2)
      ∧ (∀ q, heap s' !! q = None
              ∨ set_next None <$> heap s' !! q = set_next None <$> heap s !! q)
      ∧ (∀ q p, q ∈ l2 → heap s !! q = Some p → tw_expired E (tcp_ticks s) p = true →
           heap s' !! q = None ∧ EvMempFree q ∈ trace s')
      ∧ (∀ q p, q ∈ l2 → heap s !! q = Some p → tw_expired E (tcp_ticks s) p = false →
           q ∈ l2')
      ∧ (∀ e, e ∈ trace s → e ∈ trace s').
Proof.
  revert n. induction l2 as [|a l2 IH]; intros n s la l1 Hok Hit Hn Hfuel.
  - destruct n as [|n]; [simpl in Hn; lia|]. rewrite app_nil_r in *.
    cbn [slowtmr_tw_loop].
    rewrite (tcp_iter_next_at _ (tcp_tw_pcbs s) _ l1 []);
      [|rewrite app_nil_r; apply Hok|done].
    cbn [mbind option_bind head]. eexists _, []. split; [done|]. rewrite app_nil_r.
    split; [done|]. split; [done|]. split; [done|]. split; [done|].
    split; [by right|]. split; [by intros q p ?%elem_of_nil|].
    split; [by intros q p ?%elem_of_nil|done].
  - destruct n as [|n]; [simpl in Hn; lia|].
    assert (Hin : a ∈ l1 ++ a :: l2) by (apply elem_of_app; right; by left).
    pose proof Hok as (Ha & Ht & Hsa & Hst & Hbl).
    destruct (lseg_lookup _ _ _ _ _ Ht Hin) as [p Hp].
    destruct (Hst a p Hin Hp) as [Hs Hq].
    pose proof (chain_NoDup _ _ _ Ht) as Hnd.
    apply NoDup_app in Hnd as (_ & _ & Hnd). apply NoDup_cons in Hnd as (Hna & _).
    set (it1 := {| current := Some a; prev := last l1; next_is_current := false |}).
    set (s1 := set_tcp_conn_iter it1 s).
    assert (Hstep : slowtmr_tw_loop E (S n) fuel s
                    = (p ← deref s1 a;
                       _ ← LWIP_ASSERT (bool_decide (state p = TIME_WAIT));
                       s ← (if negb ((if tw_expired E (tcp_ticks s1) p then 0 + 1 else 0)
                                     =? 0)
                            then tcp_pcb_free E fuel a false (prev (tcp_conn_iter s1)) s1
                            else Some s1);
                       slowtmr_tw_loop E n fuel s)).
    { cbn [slowtmr_tw_loop].
      by rewrite (tcp_iter_next_at _ (tcp_tw_pcbs s) _ l1 (a :: l2)) by done. }
    rewrite Hstep. clear Hstep.
    rewrite (Hp : deref s1 a = Some p). cbn [mbind option_bind].
    rewrite (bool_decide_eq_true_2 (state p = TIME_WAIT)) by done.
    cbn [LWIP_ASSERT mbind option_bind].
    change (tcp_ticks s1) with (tcp_ticks s).
    destruct (tw_expired E (tcp_ticks s) p) eqn:Hexp; simpl negb; cbv iota.
    + (* the PCB has stayed long enough: it is freed *)
      destruct (tcp_pcb_free_tw fuel s1 a p false (prev (tcp_conn_iter s1)) la l1 l2)
        as (s2 & Hfree & Hok2 & Hi2 & Hk2 & _ & Ha2 & Hun2 & Htr2); [done..| |].
      { rewrite length_app in Hfuel. lia. }
      rewrite Hfree. cbn [mbind option_bind].
      destruct (IH n s2 la l1 Hok2) as
        (s' & l2' & Hrun & Hok' & Hlen & Hk' & Hsub & F1 & F2 & F3 & F4).
      { rewrite Hi2. unfold iter_at. simpl. done. }
      { simpl in Hn. lia. }
      { rewrite !length_app in *. simpl in Hfuel. lia. }
      assert (Ha' : heap s' !! a = None).
      { destruct (F1 a) as [?|Hu]; [done|]. rewrite Ha2 in Hu.
        by destruct (heap s' !! a). }
      assert (Hexp2 : ∀ q, q ∈ l2 →
                tw_expired E (tcp_ticks s2) <$> heap s2 !! q
                = tw_expired E (tcp_ticks s) <$> heap s !! q).
      { intros q Hq'. rewrite Hk2. apply tw_expired_unlinked. apply Hun2. by intros ->. }
      exists s', l2'. split; [done|]. split; [done|]. split; [simpl; lia|].
      split; [by rewrite Hk', Hk2|]. split; [intros q Hq'; right; by apply Hsub|].
      split; [|split; [|split]].
      * intros q. destruct (decide (q = a)) as [->|Hne]; [by left|].
        destruct (F1 q) as [?|Hu]; [by left|]. right. rewrite Hu. by apply Hun2.
      * intros q pq Hq' Hpq Hx. apply elem_of_cons in Hq' as [->|Hq'].
        { split; [done|]. apply F4. rewrite Htr2. by left. }
        pose proof (Hexp2 q Hq') as He. rewrite Hpq in He. simpl in He.
        destruct (heap s2 !! q) as [pq2|] eqn:Hpq2; [|done]. simpl in He.
        injection He as He. apply (F2 q pq2); [done..|]. by rewrite He.
      * intros q pq Hq' Hpq Hx. apply elem_of_cons in Hq' as [->|Hq'].
        { rewrite Hp in Hpq. injection Hpq as <-. by rewrite Hexp in Hx. }
        pose proof (Hexp2 q Hq') as He. rewrite Hpq in He. simpl in He.
        destruct (heap s2 !! q) as [pq2|] eqn:Hpq2; [|done]. simpl in He.
        injection He as He. apply (F3 q pq2); [done..|]. by rewrite He.
      * intros e He. apply F4. rewrite Htr2. by right.
    + (* it stays *)
      cbn [mbind option_bind].
      destruct (IH n s1 la (l1 ++ [a])) as
        (s' & l2' & Hrun & Hok' & Hlen & Hk' & Hsub & F1 & F2 & F3 & F4).
      { unfold conn_lists_ok. simpl. by rewrite <- app_assoc. }
      { unfold iter_at. simpl. by exists l1, a. }
      { simpl in Hn. lia. }
      { rewrite <- app_assoc. done. }
      exists s', (a :: l2'). split; [done|].
      split; [by rewrite <- app_assoc in Hok'|]. split; [simpl; lia|].
      split; [done|]. split.
      { intros q [->|Hq']%elem_of_cons; [by left|right; by apply Hsub]. }
      split; [done|]. split; [|split; [|done]].
      * intros q pq Hq' Hpq Hx. apply elem_of_cons in Hq' as [->|Hq'].
        { rewrite Hp in Hpq. injection Hpq as <-. by rewrite Hexp in Hx. }
        by apply (F2 q pq).
      * intros q pq Hq' Hpq Hx. apply elem_of_cons in Hq' as [->|Hq']; [by left|].
        right. by apply (F3 q pq).
Qed.

(** One call of [tcp_slowtmr] on well-formed lists. *)
Lemma tcp_slowtmr_ok (fuel : nat) (s : tcp_globals) (la lt : list ptr) :
  conn_lists_ok s la lt → (length la < fuel)%nat → (length lt < fuel)%nat →
  ∃ s' la' lt', tcp_slowtmr E fuel s = Some s'
    ∧ conn_lists_ok s' la' lt'
    ∧ (length la' ≤ length la)%nat ∧ (length lt' ≤ length lt)%nat
    ∧ tcp_ticks s' = u32 (tcp_ticks s + 1)
    ∧ (∀ q p, q ∈ lt → heap s !! q = Some p →
         tw_expired E (u32 (tcp_ticks s + 1)) p = true →
         heap s' !! q = None ∧ (q ∉ lt') ∧ EvMempFree q ∈ trace s')
    ∧ (∀ q p, q ∈ lt → heap s !! q = Some p →
         tw_expired E (u32 (tcp_ticks s + 1)) p = false →
         q ∈ lt' ∧ set_next None <$> heap s' !! q = Some (set_next None p))
    ∧ (∀ q p, q ∈ la → heap s !! q = Some p →
         last_timer p ≠ u8 (tcp_timer_ctr s + 1) →
         (slowtmr_active_pcb E (u32 (tcp_ticks s + 1)) q
            (set_last_timer (u8 (tcp_timer_ctr s + 1)) p)).1.1.2 ≠ 0 →
         heap s' !! q = None ∧ (q ∉ la')
         ∧ ∀ e, e ∈ report_events q
                      (slowtmr_active_pcb E (u32 (tcp_ticks s + 1)) q
                         (set_last_timer (u8 (tcp_timer_ctr s + 1)) p)).1.1.1 ERR_ABRT →
                e ∈ trace s')
    ∧ (∀ q p, q ∈ la → heap s !! q = Some p →
         last_timer p = u8 (tcp_timer_ctr s + 1)
         ∨ (slowtmr_active_pcb E (u32 (tcp_ticks s + 1)) q
              (set_last_timer (u8 (tcp_timer_ctr s + 1)) p)).1.1.2 = 0 →
         q ∈ la').
Proof.
  intros Hok Hla Hlt. unfold tcp_slowtmr.
  set (s0 := set_tcp_conn_iter _ _).
  destruct (slowtmr_active_loop_ok fuel fuel la s0 [] lt) as
    (s1 & la1 & Hrun1 & Hok1 & Hlen1 & Hk1 & _ & Hfr1 & _ & _ & Hfate1 & _ & Hsurv1);
    [done| |done|].
  { unfold s0, iter_at, tcp_iter_start. simpl. split; [|done].
    destruct Hok as (Ha & _). by apply (chain_head (heap s)). }
  rewrite Hrun1. cbn [mbind option_bind].
  set (s2 := set_tcp_conn_iter _ s1).
  destruct (slowtmr_tw_loop_ok fuel fuel lt s2 la1 []) as
    (s' & lt' & Hrun2 & Hok2 & Hlen2 & Hk2 & Hsub & F1 & F2 & F3 & F4);
    [done| |done|simpl; lia|].
  { unfold s2, iter_at, tcp_iter_start. simpl. split; [|done].
    destruct Hok1 as (_ & Ht & _). by apply (chain_head (heap s1)). }
  exists s', la1, lt'. split; [done|]. split; [done|]. split; [done|]. split; [done|].
  assert (Hk : tcp_ticks s2 = u32 (tcp_ticks s + 1)).
  { change (tcp_ticks s2) with (tcp_ticks s1). by rewrite Hk1. }
  split; [by rewrite Hk2|]. split; [|split; [|split]].
  - intros q p Hq Hp Hx. rewrite <- Hfr1 in Hp by done.
    destruct (F2 q p Hq Hp) as [Hnone Hev]; [by rewrite Hk|].
    split; [done|]. split; [|done]. intros Hq'.
    destruct Hok2 as (_ & Ht2 & _). simpl in Ht2.
    destruct (lseg_lookup _ _ _ _ _ Ht2 Hq') as [? Hsome]. by rewrite Hnone in Hsome.
  - intros q p Hq Hp Hx. rewrite <- Hfr1 in Hp by done.
    assert (Hq' : q ∈ lt') by (apply (F3 q p); [done..|by rewrite Hk]).
    split; [done|]. destruct Hok2 as (_ & Ht2 & _). simpl in Ht2.
    destruct (lseg_lookup _ _ _ _ _ Ht2 Hq') as [p' Hsome].
    destruct (F1 q) as [Hn|Hu]; [by rewrite Hn in Hsome|].
    rewrite Hu. change (heap s2) with (heap s1). by rewrite Hp.
  - intros q p Hq Hp Hlast Hv.
    destruct (Hfate1 q p Hq Hp Hlast Hv) as [Hnone Hev].
    assert (Hnone' : heap s' !! q = None).
    { destruct (F1 q) as [?|Hu]; [done|]. change (heap s2) with (heap s1) in Hu.
      rewrite Hnone in Hu. by destruct (heap s' !! q). }
    split; [done|]. split.
    + intros Hq'. destruct Hok2 as (Ha2 & _).
      destruct (lseg_lookup _ _ _ _ _ Ha2 Hq') as [? Hsome]. by rewrite Hnone' in Hsome.
    + intros e He. apply F4. by apply Hev.
  - intros q p Hq Hp Hkept. by apply (Hsurv1 q p).
Qed.

Lemma u32_age_succ (t m : Z) : u32 (u32 (t + 1) - m) = u32 (u32 (t - m) + 1).
Proof.
  unfold u32. rewrite Zminus_mod_idemp_l, Zplus_mod_idemp_l. f_equal. lia.
Qed.

(** A PCB of the tw list stays on it as long as its age stays at or below
    the limit. *)
Lemma slow_ticks_keep (fuel k : nat) :
  ∀ (s : tcp_globals) (la lt : list ptr) (x : ptr) (px : tcp_pcb),
    conn_lists_ok s la lt → (length la < fuel)%nat → (length lt < fuel)%nat →
    x ∈ lt → heap s !! x = Some px →
    u32 (tcp_ticks s - tmr px) + Z.of_nat k ≤ 2 * TCP_MSL E / TCP_SLOW_INTERVAL E →
    2 * TCP_MSL E / TCP_SLOW_INTERVAL E < 2 ^ 32 - 1 →
    ∃ s' la' lt' px', slow_ticks E fuel k s = Some s'
      ∧ conn_lists_ok s' la' lt'
      ∧ (length la' < fuel)%nat ∧ (length lt' < fuel)%nat
      ∧ x ∈ lt' ∧ heap s' !! x = Some px' ∧ tmr px' = tmr px
      ∧ u32 (tcp_ticks s' - tmr px') = u32 (tcp_ticks s - tmr px) + Z.of_nat k.
Proof.
  induction k as [|k IH]; intros s la lt x px Hok Hla Hlt Hx Hpx Hage HN.
  - exists s, la, lt, px. simpl. repeat (split; [done|]). lia.
  - destruct (tcp_slowtmr_ok fuel s la lt Hok Hla Hlt) as
      (s1 & la1 & lt1 & Hrun & Hok1 & Hla1 & Hlt1 & Hk1 & _ & Hkeep & _).
    assert (Hage0 : 0 ≤ u32 (tcp_ticks s - tmr px) < 2 ^ 32).
    { unfold u32. apply Z.mod_pos_bound. lia. }
    assert (Hage1 : u32 (u32 (tcp_ticks s + 1) - tmr px) = u32 (tcp_ticks s - tmr px) + 1).
    { rewrite u32_age_succ. unfold u32 at 1. apply Z.mod_small. lia. }
    destruct (Hkeep x px Hx Hpx) as [Hx1 Hpx1].
    { unfold tw_expired. rewrite Hage1, Z.gtb_ltb. apply Z.ltb_ge. lia. }
    destruct (heap s1 !! x) as [px1|] eqn:Hp1; [|done]. simpl in Hpx1.
    apply (inj Some) in Hpx1.
    assert (Htmr : tmr px1 = tmr px) by (by apply (f_equal tmr) in Hpx1).
    destruct (IH s1 la1 lt1 x px1 Hok1) as
      (s' & la' & lt' & px' & Hrun' & Hok' & Hla' & Hlt' & Hx' & Hpx' & Htmr' & Hage');
      [lia|lia|done|done| |done|].
    { rewrite Hk1, Htmr, Hage1. lia. }
    exists s', la', lt', px'. cbn [slow_ticks]. rewrite Hrun. cbn [mbind option_bind].
    split; [done|]. repeat (split; [done|]). split; [congruence|].
    rewrite Hage', Hk1, Htmr, Hage1. lia.
Qed.
End SlowTimer.



(** ** Registering and removing *)

Lemma tcp_rmv_loop_absent (fuel : nat) (s : tcp_globals) (p : option ptr) (l : list ptr)
    (a : ptr) :
  chain (heap s) p l → a ∉ l → (length l ≤ fuel)%nat → tcp_rmv_loop fuel p a s = Some s.
Proof.
  revert p fuel. induction l as [|t l IH]; intros p fuel Hc Hni Hfuel.
  - apply chain_nil in Hc as ->. by destruct fuel.
  - apply chain_cons in Hc as (-> & tp & Ht & Hc).
    destruct fuel as [|fuel]; [simpl in Hfuel; lia|].
    simpl. unfold deref. rewrite Ht. simpl.
    rewrite bool_decide_eq_false_2.
    + apply IH; [done| |simpl in Hfuel; lia]. intros Hin. apply Hni. by right.
    + intros Hn. pose proof (chain_head _ _ _ Hc) as Hh. rewrite Hn in Hh.
      destruct l as [|x l]; [done|]. injection Hh as <-. apply Hni. right. by left.
Qed.

(** [tcp_rmv] of a PCB of the list: the list loses the PCB and keeps its
    order, the PCB's link is [NULL], the PCB before it is relinked and no
    other PCB, no other list and no event is touched. *)
Theorem tcp_rmv_unlinks (fuel : nat) (pcbs : pcb_list) (a : ptr) (s : tcp_globals)
    (l1 l2 : list ptr) :
  chain (heap s) (list_head pcbs s) (l1 ++ a :: l2) → (length l1 ≤ fuel)%nat →
  ∃ s' ap,
    deref s a = Some ap
    ∧ tcp_rmv fuel pcbs a s = Some s'
    ∧ chain (heap s') (list_head pcbs s') (l1 ++ l2)
    ∧ deref s' a = Some (set_next None ap)
    ∧ (∀ q, q ≠ a → Some q ≠ last l1 → deref s' q = deref s q)
    ∧ (∀ q, set_next None <$> deref s' q = set_next None <$> deref s q)
    ∧ (∀ l, l ≠ pcbs → list_head l s' = list_head l s)
    ∧ tcp_conn_iter s' = tcp_conn_iter s
    ∧ trace s' = trace s.
Proof.
  intros Hc Hfuel.
  destruct (tcp_rmv_chain fuel pcbs a s l1 l2 Hc Hfuel)
    as (ap & h' & hd' & Hap & Hr & Hc' & Ha' & Hfr & Hun & _).
  exists (set_heap h' (set_list_head pcbs hd' s)), ap.
  split; [done|]. split; [done|].
  split. { simpl. rewrite list_head_set_heap, list_head_set_list_head.
           by rewrite decide_True. }
  split; [done|]. split; [done|]. split; [done|].
  split. { intros l Hl. rewrite list_head_set_heap, list_head_set_list_head.
           by rewrite decide_False. }
  split; [by destruct pcbs|by destruct pcbs].
Qed.

Lemma tcp_rmv_unlinks_witness :
  ∃ s' ap, deref iter_state 2%positive = Some ap
    ∧ tcp_rmv 1 ActiveList 2%positive iter_state = Some s'
    ∧ chain (heap s') (list_head ActiveList s') ([1%positive] ++ [3%positive])
    ∧ deref s' 2%positive = Some (set_next None ap).
Proof.
  destruct (tcp_rmv_unlinks 1 ActiveList 2%positive iter_state [1%positive] [3%positive])
    as (s' & ap & H1 & H2 & H3 & H4 & _).
  - vm_compute. repeat split.
  - simpl. lia.
  - exists s', ap. split; [exact H1|]. split; [exact H2|]. split; [exact H3|exact H4].
Defined.

(** [tcp_rmv] of a PCB that is not on the list: the list is walked to its
    end and stays as it is; only the link of the PCB is set to [NULL]. *)
Theorem tcp_rmv_absent (fuel : nat) (pcbs : pcb_list) (a : ptr) (s : tcp_globals)
    (l : list ptr) (ap : tcp_pcb) :
  chain (heap s) (list_head pcbs s) l → a ∉ l → deref s a = Some ap →
  (length l ≤ fuel)%nat →
  tcp_rmv fuel pcbs a s = Some (set_heap (<[a := set_next None ap]> (heap s)) s)
  ∧ chain (<[a := set_next None ap]> (heap s)) (list_head pcbs s) l.
Proof.
  intros Hc Hni Ha Hfuel. split; [|by apply lseg_insert_other].
  unfold tcp_rmv. rewrite bool_decide_eq_false_2.
  - rewrite (tcp_rmv_loop_absent fuel s _ l a) by done. simpl.
    unfold update. rewrite Ha. done.
  - intros Hh. pose proof (chain_head _ _ _ Hc) as Hh'. rewrite Hh in Hh'.
    destruct l as [|x l]; [done|]. injection Hh' as <-. apply Hni. by left.
Qed.

Lemma tcp_rmv_absent_witness :
  tcp_rmv 1 BoundList 2%positive bind_state
  = Some (set_heap (<[2%positive := set_next None pcb0]> (heap bind_state)) bind_state)
  ∧ chain (<[2%positive := set_next None pcb0]> (heap bind_state))
          (list_head BoundList bind_state) [1%positive].
Proof.
  apply (tcp_rmv_absent 1 BoundList 2%positive bind_state [1%positive] pcb0).
  - vm_compute. repeat split.
  - intros [H|H%elem_of_nil]%elem_of_cons; [discriminate H|exact H].
  - reflexivity.
  - simpl. lia.
Defined.

(** [tcp_reg] puts an allocated PCB in front of the list and asks for the
    timer; [tcp_rmv] right after it takes the PCB off again: the head of
    the list and every other PCB are what they were, the PCB is unlinked. *)
Theorem tcp_reg_rmv_round_trip (fuel : nat) (pcbs : pcb_list) (a : ptr) (s : tcp_globals)
    (p : tcp_pcb) (l : list ptr) :
  deref s a = Some p →
  ∃ s1,
    tcp_reg pcbs a s = Some s1
    ∧ list_head pcbs s1 = Some a
    ∧ deref s1 a = Some (set_next (list_head pcbs s) p)
    ∧ (chain (heap s) (list_head pcbs s) l → a ∉ l →
       chain (heap s1) (list_head pcbs s1) (a :: l))
    ∧ tcp_rmv fuel pcbs a s1
      = Some (emit EvTimerNeeded (set_heap (<[a := set_next None p]> (heap s)) s)).
Proof.
  intros Hp. unfold tcp_reg, update. rewrite Hp. cbn [mbind option_bind].
  eexists. split; [reflexivity|].
  split. { unfold emit. by destruct pcbs. }
  split. { unfold emit, deref. destruct pcbs; simpl; by rewrite lookup_insert_eq. }
  split.
  { intros Hc Hni. apply chain_cons. split; [by destruct pcbs|].
    exists (set_next (list_head pcbs s) p). split.
    - destruct pcbs; simpl; by rewrite lookup_insert_eq.
    - change (next (set_next (list_head pcbs s) p)) with (list_head pcbs s).
      destruct pcbs; simpl; by apply lseg_insert_other. }
  rewrite (tcp_rmv_head fuel pcbs a _ (set_next (list_head pcbs s) p)).
  - f_equal. destruct s, pcbs; simpl; unfold emit, set_heap, set_trace; simpl;
      by rewrite insert_insert_eq.
  - by destruct pcbs.
  - destruct pcbs; simpl; by rewrite lookup_insert_eq.
Qed.

Lemma tcp_reg_rmv_round_trip_witness :
  ∃ s1, tcp_reg BoundList 2%positive bind_state = Some s1
    ∧ list_head BoundList s1 = Some 2%positive
    ∧ tcp_rmv 0 BoundList 2%positive s1
      = Some (emit EvTimerNeeded
                (set_heap (<[2%positive := set_next None pcb0]> (heap bind_state))
                   bind_state)).
Proof.
  destruct (tcp_reg_rmv_round_trip 0 BoundList 2%positive bind_state pcb0 [1%positive]
              eq_refl) as (s1 & H1 & H2 & _ & _ & H3).
  exists s1. split; [exact H1|]. split; [exact H2|exact H3].
Defined.

(** ** Scans *)

Lemma iter_scan_at (n : nat) (h : gmap ptr tcp_pcb) (hd : option ptr) (l2 : list ptr) :
  ∀ (it : tcp_iter) (l1 : list ptr),
    chain h hd (l1 ++ l2) → iter_at it l1 l2 → (length l2 < n)%nat →
    iter_scan n h it = Some l2.
Proof.
  revert n. induction l2 as [|a l2 IH]; intros n it l1 Hc Hit Hn.
  - destruct n as [|n]; [simpl in Hn; lia|]. simpl.
    rewrite (tcp_iter_next_at h hd it l1 []) by done. done.
  - destruct n as [|n]; [simpl in Hn; lia|]. simpl.
    rewrite (tcp_iter_next_at h hd it l1 (a :: l2)) by done. simpl.
    rewrite (IH n _ (l1 ++ [a])).
    + done.
    + by rewrite <- app_assoc.
    + unfold iter_at. simpl. by exists l1, a.
    + simpl in Hn. lia.
Qed.

(** A scan that starts at the head of a list returns every PCB of the list
    once, in the order of the list, and then [NULL]. *)
Theorem tcp_iter_scan_visits_list (n : nat) (h : gmap ptr tcp_pcb) (hd : option ptr)
    (l : list ptr) :
  chain h hd l → (length l < n)%nat → iter_scan n h (tcp_iter_start hd) = Some l.
Proof.
  intros Hc Hn. apply (iter_scan_at n h hd l _ []); [done| |done].
  unfold iter_at, tcp_iter_start. simpl. split; [|done]. by apply (chain_head h).
Qed.

Lemma tcp_iter_scan_visits_list_witness :
  iter_scan 4 (heap iter_state) (tcp_iter_start (tcp_active_pcbs iter_state))
  = Some [1%positive; 2%positive; 3%positive].
Proof.
  apply tcp_iter_scan_visits_list.
  - vm_compute. repeat split.
  - simpl. lia.
Defined.

(** A PCB that is put in front of the list under a scan ([l1] visited,
    [l2] to come): the hook and [tcp_reg] return, the new PCB is not
    visited, the scan returns the PCBs it had still to return, and on a
    list that was not empty the iterator's [prev] is the PCB before
    [current] in the new list. *)
Theorem tcp_iter_will_prepend_keeps_scan (n : nat) (pcbs : pcb_list) (s : tcp_globals)
    (a : ptr) (p : tcp_pcb) (l1 l2 : list ptr) :
  chain (heap s) (list_head pcbs s) (l1 ++ l2) → iter_at (tcp_conn_iter s) l1 l2 →
  deref s a = Some p → a ∉ l1 ++ l2 → (length l2 < n)%nat →
  ∃ s1 s2,
    iter_will_prepend a pcbs s = Some s1
    ∧ tcp_reg pcbs a s1 = Some s2
    ∧ chain (heap s2) (list_head pcbs s2) (a :: l1 ++ l2)
    ∧ iter_scan n (heap s2) (tcp_conn_iter s2) = Some l2
    ∧ (l1 ++ l2 ≠ [] → iter_at (tcp_conn_iter s2) (a :: l1) l2).
Proof.
  intros Hc Hit Hp Hni Hn.
  pose proof (chain_head _ _ _ Hc) as Hh.
  pose proof (chain_NoDup _ _ _ Hc) as Hnd.
  (* the iterator after the hook *)
  assert (Hpre : ∃ it', tcp_iter_will_prepend (tcp_conn_iter s) a (list_head pcbs s) = Some it'
             ∧ (l1 ++ l2 ≠ [] → iter_at it' (a :: l1) l2)
             ∧ (l1 ++ l2 = [] → it' = tcp_conn_iter s)).
  { unfold tcp_iter_will_prepend, iter_at in *. rewrite Hh.
    destruct (tcp_conn_iter s) as [cur pv nic]. simpl in *.
    destruct l1 as [|x l1].
    - simpl in *. destruct nic.
      + destruct Hit as [-> ->]. destruct l2 as [|y l2]; simpl.
        * eexists. split; [reflexivity|]. split; [done|done].
        * rewrite (bool_decide_eq_true_2 (Some y = Some y)) by done.
          simpl. eexists. split; [reflexivity|]. split; [|done]. intros _. done.
      + destruct Hit as (l & c & Hl & _). by destruct l.
    - simpl in *. apply NoDup_cons in Hnd as [Hx Hnd]. destruct nic.
      + destruct Hit as [-> ->].
        rewrite ?(bool_decide_eq_true_2 (Some x ≠ None)) by done.
        rewrite (bool_decide_eq_false_2 (Some x = head l2)).
        2:{ intros Hx'. destruct l2 as [|y l2]; [done|]. injection Hx' as <-.
            apply Hx. apply elem_of_app. right. by left. }
        simpl. eexists. split; [reflexivity|]. split; [|done]. intros _. simpl.
        split; [done|]. by destruct l1.
      + destruct Hit as (l & c & Hl & -> & ->).
        rewrite ?(bool_decide_eq_true_2 (Some x ≠ None)) by done.
        destruct l as [|y l].
        * simpl in Hl. injection Hl as <- ->.
          rewrite (bool_decide_eq_true_2 (Some x = Some x)) by done. simpl.
          eexists. split; [reflexivity|]. split; [|done]. intros _.
          exists [a], x. done.
        * simpl in Hl. injection Hl as <- ->.
          rewrite (bool_decide_eq_false_2 (Some x = Some c)).
          2:{ intros [= ->]. apply Hx. apply elem_of_app. left.
              apply elem_of_app. right. by left. }
          simpl. eexists. split; [reflexivity|]. split; [|done]. intros _.
          exists (a :: x :: l), c. split; [done|]. split; [done|]. by destruct l. }
  destruct Hpre as (it' & Hpre & Hat & Hemp).
  set (s1 := set_tcp_conn_iter it' s).
  assert (Hs1 : heap s1 = heap s ∧ list_head pcbs s1 = list_head pcbs s)
    by (subst s1; by destruct pcbs).
  destruct Hs1 as [Hh1 Hl1].
  set (s2 := emit EvTimerNeeded
               (set_list_head pcbs (Some a)
                  (set_heap (<[a := set_next (list_head pcbs s) p]> (heap s)) s1))).
  assert (Hs2 : heap s2 = <[a := set_next (list_head pcbs s) p]> (heap s)
                ∧ list_head pcbs s2 = Some a ∧ tcp_conn_iter s2 = it')
    by (subst s2 s1; by destruct pcbs).
  assert (Hc2 : chain (<[a := set_next (list_head pcbs s) p]> (heap s)) (Some a)
                  (a :: l1 ++ l2)).
  { apply chain_cons. split; [done|]. eexists. rewrite lookup_insert_eq. split; [done|].
    simpl. by apply lseg_insert_other. }
  exists s1, s2.
  split. { unfold iter_will_prepend. by rewrite Hpre. }
  split. { assert (Hp1 : deref s1 a = Some p) by (unfold deref; rewrite Hh1; exact Hp).
           unfold tcp_reg, update. rewrite Hp1, Hh1, Hl1. done. }
  destruct Hs2 as (-> & -> & ->). clearbody s1 s2.
  split; [exact Hc2|].
  destruct (decide (l1 ++ l2 = [])) as [He|Hne].
  - rewrite (Hemp He). apply app_eq_nil in He as [-> ->]. split; [|done].
    unfold iter_at in Hit. destruct n as [|n]; [simpl in Hn; lia|].
    simpl. unfold tcp_iter_next.
    destruct (tcp_conn_iter s) as [cur pv nic]. simpl in *. destruct nic.
    + destruct Hit as [-> _]. done.
    + destruct Hit as (l & c & Hl & _). by destruct l.
  - split; [|by intros _; apply Hat].
    apply (iter_scan_at n _ (Some a) l2 it' (a :: l1)); [done|by apply Hat|done].
Qed.

Lemma tcp_iter_will_prepend_keeps_scan_witness :
  ∃ s1 s2,
    iter_will_prepend 2%positive BoundList
      (set_tcp_conn_iter (tcp_iter_start (Some 1%positive)) bind_state) = Some s1
    ∧ tcp_reg BoundList 2%positive s1 = Some s2
    ∧ iter_scan 2 (heap s2) (tcp_conn_iter s2) = Some [1%positive]
    ∧ iter_at (tcp_conn_iter s2) [2%positive] [1%positive].
Proof.
  destruct (tcp_iter_will_prepend_keeps_scan 2 BoundList
              (set_tcp_conn_iter (tcp_iter_start (Some 1%positive)) bind_state)
              2%positive pcb0 [] [1%positive])
    as (s1 & s2 & H1 & H2 & _ & H3 & H4).
  - vm_compute. repeat split.
  - vm_compute. repeat split.
  - reflexivity.
  - intros [H|H%elem_of_nil]%elem_of_cons; [discriminate H|exact H].
  - simpl. lia.
  - exists s1, s2. split; [exact H1|]. split; [exact H2|]. split; [exact H3|].
    apply H4. discriminate.
Defined.

(** ** [tcp_pcb_purge] *)

Lemma queue_reset_id (q : tcp_pcb) :
  sndq q = None → sndq_last q = None → sndq_next q = None → rtime q = -1 →
  set_sndq_next None (set_sndq_last None (set_sndq None (set_rtime (-1) q))) = q.
Proof. destruct q. simpl. by intros -> -> -> ->. Qed.

Lemma purged_idem (p : tcp_pcb) :
  backlog_held (purged p) = None ∧ purged (purged p) = purged p.
Proof.
  assert (H : backlog_held (purged p) = None).
  { unfold purged. destruct (backlog_held p) as [l|] eqn:Hb; [|done].
    unfold backlog_held. simpl. by rewrite has_flag_clear_same. }
  split; [done|]. unfold purged at 1. rewrite H.
  apply queue_reset_id; unfold purged; by destruct (backlog_held p).
Qed.

(** [tcp_pcb_purge] of a PCB in an active state: the queue is handed to
    [tcp_segs_free] and emptied, the retransmission timer is stopped, and
    a slot that the PCB holds in the backlog of its listener is given
    back; link, state and all other PCBs are left alone.  A second purge
    frees nothing and gives nothing back: only [tcp_segs_free(NULL)] is
    called. *)
Theorem tcp_pcb_purge_twice (a : ptr) (s : tcp_globals) (p : tcp_pcb) :
  deref s a = Some p → tcp_state_is_active (state p) = true →
  (∀ l, backlog_held p = Some l →
        ∃ lp, deref s l = Some lp ∧ l ≠ a ∧ 0 < accepts_pending lp ≤ 255) →
  ∃ s1 p1,
    tcp_pcb_purge a s = Some s1
    ∧ deref s1 a = Some p1
    ∧ sndq p1 = None ∧ sndq_last p1 = None ∧ sndq_next p1 = None ∧ rtime p1 = -1
    ∧ backlog_held p1 = None
    ∧ state p1 = state p ∧ next p1 = next p
    ∧ trace s1 = EvSegsFree (sndq p) :: trace s
    ∧ (∀ l lp, backlog_held p = Some l → deref s l = Some lp →
         deref s1 l = Some (set_accepts_pending (accepts_pending lp - 1) lp))
    ∧ (∀ q, q ≠ a → backlog_held p ≠ Some q → deref s1 q = deref s q)
    ∧ tcp_pcb_purge a s1 = Some (emit (EvSegsFree None) s1).
Proof.
  intros Hp Hact Hl. destruct (purged_idem p) as [Hnone Hidem].
  eexists _, (purged p). split; [by apply tcp_pcb_purge_total|].
  unfold deref. simpl. split; [by rewrite lookup_insert_eq|].
  split; [done|]. split; [done|]. split; [done|]. split; [done|]. split; [done|].
  split. { unfold purged. by destruct (backlog_held p). }
  split. { unfold purged. by destruct (backlog_held p). }
  split; [done|]. split; [|split].
  - intros l lp Hb Hlp. destruct (Hl l Hb) as (_ & _ & Hne & _).
    rewrite lookup_insert_ne by done. unfold released. rewrite Hb.
    rewrite (Hlp : heap s !! l = Some lp). by rewrite lookup_insert_eq.
  - intros q Hq Hb. rewrite lookup_insert_ne by done.
    destruct (released_lookup p (heap s) q) as [->|(lp & Hb' & _)]; done.
  - rewrite (tcp_pcb_purge_total a _ (purged p)).
    + simpl. rewrite Hidem. unfold released at 1. rewrite Hnone.
      rewrite insert_insert_eq. done.
    + unfold deref. simpl. by rewrite lookup_insert_eq.
    + unfold purged. by destruct (backlog_held p).
    + intros l Hb. by rewrite Hnone in Hb.
Qed.

Lemma tcp_pcb_purge_twice_witness :
  ∃ s1 p1,
    tcp_pcb_purge 2%positive purge_state = Some s1
    ∧ deref s1 2%positive = Some p1
    ∧ sndq p1 = None ∧ rtime p1 = -1
    ∧ trace s1 = [EvSegsFree (Some 7%positive)]
    ∧ accepts_pending <$> deref s1 1%positive = Some 0
    ∧ tcp_pcb_purge 2%positive s1 = Some (emit (EvSegsFree None) s1).
Proof.
  destruct (tcp_pcb_purge_twice 2%positive purge_state
              (set_sndq (Some 7%positive) (set_sndq_last (Some 9%positive)
                 (set_sndq_next (Some 8%positive) (set_rtime 3
                    (set_listener (Some 1%positive) (set_flags TF_BACKLOGPEND
                       (conn TCP_PRIO_NORMAL 0 None)))))))
              eq_refl eq_refl)
    as (s1 & p1 & H1 & H2 & H3 & _ & _ & H4 & _ & _ & _ & H5 & H6 & _ & H7).
  - intros l Hb. vm_compute in Hb. injection Hb as <-.
    eexists. split; [reflexivity|]. split; [discriminate|]. vm_compute. split; [reflexivity|].
    discriminate.
  - exists s1, p1. split; [exact H1|]. split; [exact H2|]. split; [exact H3|].
    split; [exact H4|]. split; [exact H5|]. split; [|exact H7].
    rewrite (H6 1%positive _ eq_refl eq_refl). reflexivity.
Defined.

(** ** One call of [tcp_slowtmr] *)



(** ** Scenarios

    Tactics for the hypotheses of the theorems at the states above. *)
Ltac elem_cases H :=
  repeat (apply elem_of_cons in H as [->|H]); [..|by apply elem_of_nil in H].

Ltac concrete_lists_ok :=
  split; [vm_compute; repeat split|];
  split; [vm_compute; repeat split|];
  split; [intros ? ? Hin Hp; elem_cases Hin; vm_compute in Hp; injection Hp as <-;
          reflexivity|];
  split; [intros ? ? Hin Hp; elem_cases Hin; vm_compute in Hp; injection Hp as <-;
          split; reflexivity|];
  intros ? ? ? Hin Hp Hb; elem_cases Hin; vm_compute in Hp; injection Hp as <-;
  vm_compute in Hb; discriminate Hb.

Ltac E0_keeps :=
  repeat split; intros; try reflexivity;
  apply backlog_held_set_flags, has_flag_clear_other; reflexivity.

(** ** Freeing a connection outside a scan *)

Lemma released_unlinked p h h' q :
  (∀ x, set_next None <$> h' !! x = set_next None <$> h !! x) →
  set_next None <$> released p h' !! q = set_next None <$> released p h !! q.
Proof.
  intros Hun. unfold released. destruct (backlog_held p) as [l|]; [|apply Hun].
  pose proof (Hun l) as Hl.
  destruct (h' !! l) as [lp'|] eqn:H1; destruct (h !! l) as [lp|] eqn:H2; simpl in Hl;
    try discriminate Hl; [|apply Hun].
  apply (inj Some) in Hl.
  destruct (decide (l = q)) as [<-|Hne].
  - rewrite !lookup_insert_eq. simpl. f_equal.
    pose proof (f_equal accepts_pending Hl) as Hap. simpl in Hap. rewrite Hap.
    change (set_accepts_pending (accepts_pending lp - 1) (set_next None lp')
            = set_accepts_pending (accepts_pending lp - 1) (set_next None lp)).
    by rewrite Hl.
  - rewrite !lookup_insert_ne by done. apply Hun.
Qed.

Lemma released_insert_other p p1 h a q :
  q ≠ a → backlog_held p1 = backlog_held p →
  released p1 (<[a := p1]> h) !! q = released p h !! q.
Proof.
  intros Hq Hb. unfold released. rewrite Hb. destruct (backlog_held p) as [l|].
  - destruct (decide (l = a)) as [->|Hla].
    + rewrite lookup_insert_eq. rewrite lookup_insert_ne by done.
      rewrite lookup_insert_ne by done.
      destruct (h !! a); [by rewrite lookup_insert_ne|done].
    + rewrite lookup_insert_ne by done. destruct (h !! l) as [lp|].
      * destruct (decide (l = q)) as [<-|Hlq].
        -- by rewrite !lookup_insert_eq.
        -- rewrite !lookup_insert_ne by done. done.
      * by rewrite lookup_insert_ne.
  - by rewrite lookup_insert_ne.
Qed.

Section FreeIdle.
Variable E : tcp_env.

(** The part of [tcp_pcb_free] after the delayed ACK and the RST, for a
    PCB of the active list, outside a scan. *)
Lemma free_active_rest (fuel : nat) (x : tcp_globals) (a : ptr) (p : tcp_pcb)
    (l1 l2 lt : list ptr) :
  conn_lists_ok x (l1 ++ a :: l2) lt → heap x !! a = Some p →
  current (tcp_conn_iter x) = None → (length l1 ≤ fuel)%nat →
  ∃ h' hd',
    (s ← iter_will_remove fuel a ActiveList x;
     s ← tcp_rmv fuel ActiveList a s;
     tcp_pcb_purge a s)
    ≫= (λ s, q ← deref s a;
             _ ← LWIP_ASSERT (bool_decide (sndq q = None));
             Some (memp_free a s))
    = Some (set_trace (EvMempFree a :: EvSegsFree (sndq p) :: trace x)
              (set_heap h' (set_tcp_active_pcbs hd' x)))
    ∧ lists_ok h' hd' (tcp_tw_pcbs x) (l1 ++ l2) lt
    ∧ h' !! a = None
    ∧ (∀ q, q ≠ a → set_next None <$> h' !! q = set_next None <$> released p (heap x) !! q)
    ∧ (∀ q, q ∈ lt → h' !! q = heap x !! q)
    ∧ (∀ q, q ∉ l1 ++ a :: l2 → h' !! q = released p (heap x) !! q).
Proof.
  intros Hok Hp Hcur Hfuel. unfold conn_lists_ok in *.
  assert (Hin : a ∈ l1 ++ a :: l2) by (apply elem_of_app; right; by left).
  pose proof Hok as (Ha & Ht & Hsa & Hst & Hbl).
  pose proof (Hsa a p Hin Hp) as Hact.
  assert (Hhd : tcp_active_pcbs x ≠ None).
  { pose proof (chain_head _ _ _ Ha) as Hh. rewrite Hh. by destruct l1. }
  set (x1 := set_tcp_conn_iter (tcp_conn_iter x) x).
  assert (Hiwr : iter_will_remove fuel a ActiveList x = Some x1).
  { unfold iter_will_remove, tcp_iter_will_remove. simpl.
    rewrite (bool_decide_eq_true_2 (tcp_active_pcbs x ≠ None)) by done.
    cbn [LWIP_ASSERT mbind option_bind]. by rewrite Hcur. }
  destruct (tcp_rmv_chain fuel ActiveList a x1 l1 l2 Ha Hfuel)
    as (ap & h1 & hd1 & Hap & Hrmv & Hc1 & Ha1 & Hfr & Hun & _).
  change (heap x1) with (heap x) in Hap, Hfr, Hun.
  rewrite Hp in Hap. injection Hap as <-.
  (* the listener that counts [a] *)
  assert (Hlis : ∀ l, backlog_held p = Some l →
            ∃ lp1 lp, h1 !! l = Some lp1 ∧ heap x !! l = Some lp ∧ l ≠ a
                  ∧ accepts_pending lp1 = accepts_pending lp
                  ∧ 0 < accepts_pending lp ≤ 255).
  { intros l Hl. destruct (Hbl a p l Hin Hp Hl) as (lp & Hlp & Hls & Hcnt).
    pose proof (pending_count_elem _ _ _ _ _ Hin Hp Hl).
    pose proof (Hun l) as Hu. rewrite Hlp in Hu.
    destruct (h1 !! l) as [lp1|] eqn:Hlp1; [|done]. simpl in Hu. apply (inj Some) in Hu.
    exists lp1, lp. split; [done|]. split; [done|].
    split. { intros ->. rewrite Hp in Hlp. injection Hlp as <-. by rewrite Hls in Hact. }
    split; [by apply (f_equal accepts_pending) in Hu|lia]. }
  set (x2 := set_heap h1 (set_list_head ActiveList hd1 x1)) in *.
  assert (Hpurge : tcp_pcb_purge a x2 =
            Some (set_heap (<[a := purged (set_next None p)]>
                              (released (set_next None p) h1))
                    (emit (EvSegsFree (sndq p)) x2))).
  { apply (tcp_pcb_purge_total a x2 (set_next None p)); [done|done|].
    intros l Hl. destruct (Hlis l Hl) as (lp1 & lp & Hlp1 & Hlp & Hne & Hap & Hr).
    exists lp1. split; [done|]. split; [done|]. by rewrite Hap. }
  exists (delete a (released p h1)), hd1.
  split.
  { rewrite Hiwr. cbn [mbind option_bind]. rewrite Hrmv. cbn [mbind option_bind].
    rewrite Hpurge. cbn [mbind option_bind]. unfold deref. simpl.
    rewrite lookup_insert_eq. simpl. unfold memp_free, emit. simpl.
    rewrite delete_insert_eq. subst x2 x1. reflexivity. }
  split.
  { apply (lists_ok_remove_active (heap x) (tcp_active_pcbs x));
      [done|done|done|by intros q _|].
    intros q Hq. apply Hfr.
    - intros ->. by apply (lists_ok_disjoint _ _ _ _ _ _ Hok Hin).
    - intros Hl. destruct (last l1) as [b|] eqn:Hb; [|done]. injection Hl as ->.
      apply last_Some in Hb as (l' & ->).
      apply (lists_ok_disjoint _ _ _ _ _ _ Hok) in Hq; [done|].
      apply elem_of_app. left. apply elem_of_app. right. by left. }
  split; [by rewrite lookup_delete_eq|].
  split.
  { intros q Hq. rewrite lookup_delete_ne by done. by apply released_unlinked. }
  split.
  { intros q Hq. assert (Hqa : q ≠ a).
    { intros ->. by apply (lists_ok_disjoint _ _ _ _ _ _ Hok Hin). }
    rewrite lookup_delete_ne by done.
    destruct (released_lookup p h1 q) as [->|(lp' & Hb' & _)].
    - apply Hfr; [done|]. intros Hl. destruct (last l1) as [b|] eqn:Hb; [|done].
      injection Hl as ->. apply last_Some in Hb as (l' & ->).
      apply (lists_ok_disjoint _ _ _ _ _ _ Hok) in Hq; [done|].
      apply elem_of_app. left. apply elem_of_app. right. by left.
    - destruct (Hbl a p q Hin Hp Hb') as (lp & Hlp & Hls & _).
      destruct (Hst q lp Hq Hlp) as [Hs' _]. by rewrite Hs' in Hls. }
  assert (Hout : ∀ q, q ∉ l1 ++ a :: l2 → h1 !! q = heap x !! q).
  { intros q Hq. apply Hfr.
    - intros ->. done.
    - intros Hl. destruct (last l1) as [b|] eqn:Hb; [|done]. injection Hl as ->.
      apply last_Some in Hb as (l' & ->). apply Hq.
      apply elem_of_app. left. apply elem_of_app. right. by left. }
  intros q Hq. assert (Hqa : q ≠ a) by (by intros ->).
  rewrite lookup_delete_ne by done. unfold released.
  destruct (backlog_held p) as [l|] eqn:Hl; [|by apply Hout].
  destruct (Hbl a p l Hin Hp Hl) as (lp & Hlp & Hls & _).
  assert (Hnl : l ∉ l1 ++ a :: l2).
  { intros Hl'. pose proof (Hsa l lp Hl' Hlp) as H. by rewrite Hls in H. }
  rewrite (Hout l Hnl), Hlp.
  destruct (decide (l = q)) as [->|Hne].
  - by rewrite !lookup_insert_eq.
  - rewrite !lookup_insert_ne by done. by apply Hout.
Qed.

Hypothesis seg_next : seg_layer_keeps next E.
Hypothesis seg_state : seg_layer_keeps state E.
Hypothesis seg_held : seg_layer_keeps backlog_held E.

Lemma ack_flushed_keeps (p : tcp_pcb) :
  next (ack_flushed E p) = next p ∧ state (ack_flushed E p) = state p
  ∧ backlog_held (ack_flushed E p) = backlog_held p.
Proof.
  unfold ack_flushed. destruct (has_flag (flags p) TF_ACK_DELAY); [|done].
  destruct seg_next as (Hn & _), seg_state as (Hs & _), seg_held as (Hh & _).
  rewrite Hn, Hs, Hh. split; [done|]. split; [done|].
  by apply backlog_held_set_flags, has_flag_set_other.
Qed.

(** [tcp_pcb_free] of a PCB of the active list, outside a scan and with no
    hint for the previous PCB. *)
Lemma tcp_pcb_free_active_idle_frame (fuel : nat) (s : tcp_globals) (a : ptr) (p : tcp_pcb)
    (rst : bool) (l1 l2 lt : list ptr) :
  conn_lists_ok s (l1 ++ a :: l2) lt → heap s !! a = Some p →
  current (tcp_conn_iter s) = None → (length l1 ≤ fuel)%nat →
  ∃ h' hd',
    tcp_pcb_free E fuel a rst None s
    = Some (set_trace (free_active_events E a p rst ++ trace s)
              (set_heap h'
                 (set_tcp_active_pcbs hd'
                    (set_tcp_input_pcb
                       (if bool_decide (tcp_input_pcb s = Some a) then None
                        else tcp_input_pcb s) s))))
    ∧ lists_ok h' hd' (tcp_tw_pcbs s) (l1 ++ l2) lt
    ∧ h' !! a = None
    ∧ (∀ q, q ≠ a → set_next None <$> h' !! q = set_next None <$> released p (heap s) !! q)
    ∧ (∀ q, q ∈ lt → h' !! q = heap s !! q)
    ∧ (∀ q, q ∉ l1 ++ a :: l2 → h' !! q = released p (heap s) !! q).
Proof.
  intros Hok Hp Hcur Hfuel.
  assert (Hin : a ∈ l1 ++ a :: l2) by (apply elem_of_app; right; by left).
  pose proof Hok as (Ha & Ht & Hsa & Hst & Hbl).
  pose proof (Hsa a p Hin Hp) as Hact.
  destruct (active_state_facts _ Hact) as (Hnl & Hnc & Hntw & Hnli).
  destruct (ack_flushed_keeps p) as (Hn1 & Hs1 & Hb1).
  set (p1 := ack_flushed E p) in *.
  set (inp := if bool_decide (tcp_input_pcb s = Some a) then None else tcp_input_pcb s).
  (* the state when the PCB is unlinked *)
  set (ev := (if rst then [EvRst (snd_nxt p1) (rcv_nxt p1) (local_ip p1) (remote_ip p1)
                                 (local_port p1) (remote_port p1)] else [])
             ++ (if has_flag (flags p) TF_ACK_DELAY then [EvOutput a] else [])).
  set (x := set_trace (ev ++ trace s)
              (set_heap (<[a := p1]> (heap s)) (set_tcp_input_pcb inp s))).
  assert (Hokx : conn_lists_ok x (l1 ++ a :: l2) lt).
  { unfold conn_lists_ok. simpl. by apply (lists_ok_update _ _ _ _ _ a p). }
  destruct (free_active_rest fuel x a p1 l1 l2 lt Hokx)
    as (h' & hd' & Hrun & Hok' & Hna & Hun & Hlt & Hout).
  { simpl. by rewrite lookup_insert_eq. }
  { done. }
  { done. }
  simpl in Hok', Hun, Hlt, Hout.
  exists h', hd'. split; [|split; [done|split; [done|split; [|split]]]].
  - unfold tcp_pcb_free. rewrite (Hp : deref s a = Some p). cbn [mbind option_bind].
    unfold tcp_pcb_is_listen. rewrite Hnl. cbn [negb LWIP_ASSERT mbind option_bind].
    rewrite (bool_decide_eq_false_2 (state p = CLOSED)) by done.
    rewrite Hact.
    assert (Hs0 : (if bool_decide (tcp_input_pcb s = Some a) then set_tcp_input_pcb None s
                   else s) = set_tcp_input_pcb inp s).
    { subst inp. destruct (bool_decide (tcp_input_pcb s = Some a)); [done|by destruct s]. }
    rewrite Hs0.
    assert (Hack : (if has_flag (flags p) TF_ACK_DELAY
                    then s1 ← update a (λ p, set_flags (set_flag (flags p) TF_ACK_NOW) p)
                                (set_tcp_input_pcb inp s);
                         call_tcp_output E a s1
                    else Some (set_tcp_input_pcb inp s))
                   = Some (set_trace ((if has_flag (flags p) TF_ACK_DELAY then [EvOutput a]
                                       else []) ++ trace s)
                             (set_heap (<[a := p1]> (heap s)) (set_tcp_input_pcb inp s)))).
    { subst p1. unfold ack_flushed. destruct (has_flag (flags p) TF_ACK_DELAY).
      - unfold update, call_tcp_output, update, deref. simpl. rewrite Hp. simpl.
        rewrite lookup_insert_eq. simpl. by rewrite insert_insert_eq.
      - simpl. rewrite insert_id by done. by destruct s. }
    rewrite Hack. cbn [mbind option_bind].
    match goal with
    | |- context [deref ?y a ≫= _] =>
      assert (Hd : deref y a = Some p1) by (unfold deref; simpl; apply lookup_insert_eq);
      rewrite Hd
    end.
    cbn [mbind option_bind].
    assert (Hx : (if rst
                  then emit (EvRst (snd_nxt p1) (rcv_nxt p1) (local_ip p1) (remote_ip p1)
                                   (local_port p1) (remote_port p1))
                         (set_trace ((if has_flag (flags p) TF_ACK_DELAY then [EvOutput a]
                                      else []) ++ trace s)
                            (set_heap (<[a := p1]> (heap s)) (set_tcp_input_pcb inp s)))
                  else set_trace ((if has_flag (flags p) TF_ACK_DELAY then [EvOutput a]
                                   else []) ++ trace s)
                         (set_heap (<[a := p1]> (heap s)) (set_tcp_input_pcb inp s))) = x).
    { subst x ev. by destruct rst. }
    rewrite Hx. etrans; [exact Hrun|]. f_equal.
  - intros q Hq. rewrite Hun by done. by rewrite (released_insert_other p).
  - intros q Hq. rewrite Hlt by done. rewrite lookup_insert_ne; [done|].
    intros <-. by apply (lists_ok_disjoint _ _ _ _ _ _ Hok Hin).
  - intros q Hq. rewrite Hout by done. rewrite (released_insert_other p); [done| |done].
    by intros ->.
Qed.

Lemma tcp_pcb_free_active_idle (fuel : nat) (s : tcp_globals) (a : ptr) (p : tcp_pcb)
    (rst : bool) (l1 l2 lt : list ptr) :
  conn_lists_ok s (l1 ++ a :: l2) lt → heap s !! a = Some p →
  current (tcp_conn_iter s) = None → (length l1 ≤ fuel)%nat →
  ∃ h' hd',
    tcp_pcb_free E fuel a rst None s
    = Some (set_trace (free_active_events E a p rst ++ trace s)
              (set_heap h'
                 (set_tcp_active_pcbs hd'
                    (set_tcp_input_pcb
                       (if bool_decide (tcp_input_pcb s = Some a) then None
                        else tcp_input_pcb s) s))))
    ∧ lists_ok h' hd' (tcp_tw_pcbs s) (l1 ++ l2) lt
    ∧ h' !! a = None
    ∧ (∀ q, q ≠ a → set_next None <$> h' !! q = set_next None <$> released p (heap s) !! q)
    ∧ (∀ q, q ∈ lt → h' !! q = heap s !! q).
Proof.
  intros Hok Hp Hcur Hfuel.
  destruct (tcp_pcb_free_active_idle_frame fuel s a p rst l1 l2 lt Hok Hp Hcur Hfuel)
    as (h' & hd' & H1 & H2 & H3 & H4 & H5 & _).
  by exists h', hd'.
Qed.

(** [tcp_pcb_free] of a PCB of the tw list, outside a scan. *)
Lemma tcp_pcb_free_tw_idle (fuel : nat) (s : tcp_globals) (a : ptr) (p : tcp_pcb)
    (rst : bool) (la l1 l2 : list ptr) :
  conn_lists_ok s la (l1 ++ a :: l2) → heap s !! a = Some p →
  current (tcp_conn_iter s) = None → (length l1 ≤ fuel)%nat →
  ∃ h' hd',
    tcp_pcb_free E fuel a rst None s
    = Some (set_trace (EvMempFree a :: trace s)
              (set_heap h'
                 (set_tcp_tw_pcbs hd'
                    (set_tcp_input_pcb
                       (if bool_decide (tcp_input_pcb s = Some a) then None
                        else tcp_input_pcb s) s))))
    ∧ lists_ok h' (tcp_active_pcbs s) hd' la (l1 ++ l2)
    ∧ h' !! a = None
    ∧ (∀ q, q ≠ a → set_next None <$> h' !! q = set_next None <$> heap s !! q)
    ∧ (∀ q, q ∈ la → h' !! q = heap s !! q).
Proof.
  intros Hok Hp Hcur Hfuel. unfold conn_lists_ok in *.
  assert (Hin : a ∈ l1 ++ a :: l2) by (apply elem_of_app; right; by left).
  pose proof Hok as (Ha & Ht & Hsa & Hst & Hbl).
  destruct (Hst a p Hin Hp) as [Hs Hq].
  assert (Hnla : a ∉ la) by (intros Hin'; by apply (lists_ok_disjoint _ _ _ _ _ _ Hok Hin')).
  assert (Hhd : tcp_tw_pcbs s ≠ None).
  { pose proof (chain_head _ _ _ Ht) as Hh. rewrite Hh. by destruct l1. }
  set (inp := if bool_decide (tcp_input_pcb s = Some a) then None else tcp_input_pcb s).
  set (x := set_tcp_conn_iter (tcp_conn_iter s) (set_tcp_input_pcb inp s)).
  destruct (tcp_rmv_chain fuel TwList a x l1 l2 Ht Hfuel)
    as (ap & h1 & ht1 & Hap & Hr & Hc1 & Ha1 & Hfr & Hun & _).
  change (heap x) with (heap s) in Hap, Hfr, Hun.
  rewrite Hp in Hap. injection Hap as <-.
  assert (Hla : ∀ q, q ∈ la → h1 !! q = heap s !! q).
  { intros q Hqa. apply Hfr.
    - by intros ->.
    - intros Hl. destruct (last l1) as [b|] eqn:Hb; [|done]. injection Hl as ->.
      apply last_Some in Hb as (l' & ->).
      apply (lists_ok_disjoint _ _ _ _ _ _ Hok) in Hqa. apply Hqa.
      apply elem_of_app. left. apply elem_of_app. right. by left. }
  exists (delete a h1), ht1. split; [|split; [|split; [|split]]].
  - unfold tcp_pcb_free. rewrite (Hp : deref s a = Some p). cbn [mbind option_bind].
    unfold tcp_pcb_is_listen. rewrite Hs. cbn [tcp_pcb_is_listen_state tcp_state_is_active].
    cbn [negb LWIP_ASSERT mbind option_bind].
    rewrite (bool_decide_eq_false_2 (TIME_WAIT = CLOSED)) by done.
    rewrite (bool_decide_eq_true_2 (TIME_WAIT = TIME_WAIT)) by done.
    assert (Hs0 : (if bool_decide (tcp_input_pcb s = Some a) then set_tcp_input_pcb None s
                   else s) = set_tcp_input_pcb inp s).
    { subst inp. destruct (bool_decide (tcp_input_pcb s = Some a)); [done|by destruct s]. }
    rewrite Hs0.
    assert (Hiwr : iter_will_remove fuel a TwList (set_tcp_input_pcb inp s) = Some x).
    { unfold iter_will_remove, tcp_iter_will_remove. simpl.
      rewrite (bool_decide_eq_true_2 (tcp_tw_pcbs s ≠ None)) by done.
      cbn [LWIP_ASSERT mbind option_bind]. by rewrite Hcur. }
    rewrite Hiwr. cbn [mbind option_bind]. rewrite Hr. cbn [mbind option_bind].
    unfold deref. simpl. rewrite Ha1. simpl.
    rewrite (bool_decide_eq_true_2 (sndq p = None)) by done. simpl.
    unfold memp_free, emit. simpl. f_equal.
  - by apply (lists_ok_remove_tw (heap s) _ (tcp_tw_pcbs s) _ _ _ _ p).
  - by rewrite lookup_delete_eq.
  - intros q Hne. rewrite lookup_delete_ne by done. apply Hun.
  - intros q Hqa. rewrite lookup_delete_ne by (by intros ->). by apply Hla.
Qed.

End FreeIdle.

(** ** The scans for the oldest PCB *)

Lemma idle_ticks_nonneg (ticks : Z) (p : tcp_pcb) : 0 ≤ idle_ticks ticks p.
Proof. unfold idle_ticks, u32. apply Z.mod_pos_bound. lia. Qed.

Lemma oldest_of_cons_new h ticks sel t l pt :
  h !! t = Some pt → sel pt = true →
  (∀ q pq, q ∈ l → h !! q = Some pq → sel pq = true →
     idle_ticks ticks pq < idle_ticks ticks pt) →
  oldest_of h ticks sel (t :: l) t.
Proof.
  intros Ht Hs Hl. exists [], l, pt. split; [done|]. split; [done|]. split; [done|].
  split; [|done]. by intros q pq ?%elem_of_nil.
Qed.

Lemma oldest_of_cons_old h ticks sel t l a :
  oldest_of h ticks sel l a →
  (∀ pt pa, h !! t = Some pt → h !! a = Some pa → sel pt = true →
     idle_ticks ticks pt ≤ idle_ticks ticks pa) →
  oldest_of h ticks sel (t :: l) a.
Proof.
  intros (l1 & l2 & pa & -> & Ha & Hs & H1 & H2) Ht.
  exists (t :: l1), l2, pa. split; [done|]. split; [done|]. split; [done|].
  split; [|done]. intros q pq [->|Hq]%elem_of_cons Hpq Hsel.
  - by apply (Ht pq pa).
  - by apply (H1 q pq).
Qed.

Lemma kill_timewait_scan_spec (fuel : nat) (s : tcp_globals) (l : list ptr) :
  ∀ (pcb : option ptr) (inact : Z) (cand : option ptr),
    chain (heap s) pcb l →
    (∀ q pq, q ∈ l → heap s !! q = Some pq → state pq = TIME_WAIT) →
    (length l ≤ fuel)%nat →
    ∃ r, kill_timewait_scan fuel s pcb inact cand = Some r
      ∧ ((r = cand ∧ ∀ q pq, q ∈ l → heap s !! q = Some pq →
                      idle_ticks (tcp_ticks s) pq < inact)
         ∨ ∃ a pa, r = Some a ∧ oldest_of (heap s) (tcp_ticks s) (λ _, true) l a
                   ∧ heap s !! a = Some pa ∧ inact ≤ idle_ticks (tcp_ticks s) pa).
Proof.
  revert fuel. induction l as [|t l IH]; intros fuel pcb inact cand Hc Hst Hfuel.
  - apply chain_nil in Hc as ->. exists cand. split; [by destruct fuel|].
    left. split; [done|]. by intros q pq ?%elem_of_nil.
  - apply chain_cons in Hc as (-> & pt & Ht & Hc).
    destruct fuel as [|fuel]; [simpl in Hfuel; lia|].
    assert (Hst' : ∀ q pq, q ∈ l → heap s !! q = Some pq → state pq = TIME_WAIT).
    { intros q pq Hq. apply Hst. by right. }
    assert (Hfuel' : (length l ≤ fuel)%nat) by (simpl in Hfuel; lia).
    cbn [kill_timewait_scan]. rewrite (Ht : deref s t = Some pt). cbn [mbind option_bind].
    rewrite (bool_decide_eq_true_2 (state pt = TIME_WAIT)) by (apply (Hst t); [by left|done]).
    cbn [LWIP_ASSERT mbind option_bind].
    fold (idle_ticks (tcp_ticks s) pt).
    destruct (idle_ticks (tcp_ticks s) pt >=? inact) eqn:Hge.
    + apply Z.geb_le in Hge.
      destruct (IH fuel (next pt) (idle_ticks (tcp_ticks s) pt) (Some t) Hc Hst' Hfuel')
        as (r & Hr & [[-> Hlt]|(a & pa & -> & Hold & Ha & Hle)]).
      * exists (Some t). split; [done|]. right. exists t, pt. split; [done|].
        split; [|done]. apply (oldest_of_cons_new _ _ _ _ _ pt); [done|done|].
        intros q pq Hq Hpq _. by apply (Hlt q).
      * exists (Some a). split; [done|]. right. exists a, pa. split; [done|].
        split; [|split; [done|lia]]. apply oldest_of_cons_old; [done|].
        intros pt' pa' Ht' Ha' _. rewrite Ht in Ht'. rewrite Ha in Ha'.
        injection Ht' as <-. injection Ha' as <-. done.
    + rewrite Z.geb_leb in Hge; apply Z.leb_gt in Hge.
      destruct (IH fuel (next pt) inact cand Hc Hst' Hfuel')
        as (r & Hr & [[-> Hlt]|(a & pa & -> & Hold & Ha & Hle)]).
      * exists cand. split; [done|]. left. split; [done|].
        intros q pq [->|Hq]%elem_of_cons Hpq.
        -- rewrite Ht in Hpq. by injection Hpq as <-.
        -- by apply (Hlt q).
      * exists (Some a). split; [done|]. right. exists a, pa. split; [done|].
        split; [|done]. apply oldest_of_cons_old; [done|].
        intros pt' pa' Ht' Ha' _. rewrite Ht in Ht'. rewrite Ha in Ha'.
        injection Ht' as <-. injection Ha' as <-. lia.
Qed.

Lemma kill_state_scan_spec (fuel : nat) (s : tcp_globals) (st : tcp_state) (l : list ptr) :
  ∀ (pcb : option ptr) (inact : Z) (cand : option ptr),
    chain (heap s) pcb l →
    (∀ q pq, q ∈ l → heap s !! q = Some pq → tcp_state_is_active (state pq) = true) →
    (length l ≤ fuel)%nat →
    ∃ r, kill_state_scan fuel s pcb st inact cand = Some r
      ∧ ((r = cand ∧ ∀ q pq, q ∈ l → heap s !! q = Some pq → state pq = st →
                      idle_ticks (tcp_ticks s) pq < inact)
         ∨ ∃ a pa, r = Some a
                   ∧ oldest_of (heap s) (tcp_ticks s) (λ p, bool_decide (state p = st)) l a
                   ∧ heap s !! a = Some pa ∧ inact ≤ idle_ticks (tcp_ticks s) pa).
Proof.
  revert fuel. induction l as [|t l IH]; intros fuel pcb inact cand Hc Hst Hfuel.
  - apply chain_nil in Hc as ->. exists cand. split; [by destruct fuel|].
    left. split; [done|]. by intros q pq ?%elem_of_nil.
  - apply chain_cons in Hc as (-> & pt & Ht & Hc).
    destruct fuel as [|fuel]; [simpl in Hfuel; lia|].
    assert (Hst' : ∀ q pq, q ∈ l → heap s !! q = Some pq →
                     tcp_state_is_active (state pq) = true).
    { intros q pq Hq. apply Hst. by right. }
    assert (Hfuel' : (length l ≤ fuel)%nat) by (simpl in Hfuel; lia).
    cbn [kill_state_scan]. rewrite (Ht : deref s t = Some pt). cbn [mbind option_bind].
    rewrite (Hst t pt) by (by left || done).
    cbn [LWIP_ASSERT mbind option_bind].
    fold (idle_ticks (tcp_ticks s) pt).
    assert (Hskip : ∀ r,
              (state pt = st → idle_ticks (tcp_ticks s) pt < inact) →
              kill_state_scan fuel s (next pt) st inact cand = Some r →
              (r = cand ∧ (∀ q pq, q ∈ l → heap s !! q = Some pq → state pq = st →
                             idle_ticks (tcp_ticks s) pq < inact)
               ∨ ∃ a pa, r = Some a
                   ∧ oldest_of (heap s) (tcp_ticks s) (λ p, bool_decide (state p = st)) l a
                   ∧ heap s !! a = Some pa ∧ inact ≤ idle_ticks (tcp_ticks s) pa) →
              r = cand ∧ (∀ q pq, q ∈ t :: l → heap s !! q = Some pq → state pq = st →
                            idle_ticks (tcp_ticks s) pq < inact)
              ∨ ∃ a pa, r = Some a
                  ∧ oldest_of (heap s) (tcp_ticks s) (λ p, bool_decide (state p = st))
                      (t :: l) a
                  ∧ heap s !! a = Some pa ∧ inact ≤ idle_ticks (tcp_ticks s) pa).
    { intros r Hyoung _ [[-> Hlt]|(a & pa & -> & Hold & Ha & Hle)].
      - left. split; [done|]. intros q pq [->|Hq]%elem_of_cons Hpq Hs.
        + rewrite Ht in Hpq. injection Hpq as <-. by apply Hyoung.
        + by apply (Hlt q).
      - right. exists a, pa. split; [done|]. split; [|done].
        apply oldest_of_cons_old; [done|].
        intros pt' pa' Ht' Ha' Hsel. rewrite Ht in Ht'. rewrite Ha in Ha'.
        injection Ht' as <-. injection Ha' as <-.
        apply bool_decide_eq_true_1 in Hsel. specialize (Hyoung Hsel). lia. }
    destruct (bool_decide (state pt = st)) eqn:Hsel.
    + apply bool_decide_eq_true_1 in Hsel.
      destruct (idle_ticks (tcp_ticks s) pt >=? inact) eqn:Hge.
      * apply Z.geb_le in Hge.
        destruct (IH fuel (next pt) (idle_ticks (tcp_ticks s) pt) (Some t) Hc Hst' Hfuel')
          as (r & Hr & [[-> Hlt]|(a & pa & -> & Hold & Ha & Hle)]).
        -- exists (Some t). split; [done|]. right. exists t, pt. split; [done|].
           split; [|done]. apply (oldest_of_cons_new _ _ _ _ _ pt); [done| |].
           ++ by apply bool_decide_eq_true_2.
           ++ intros q pq Hq Hpq Hs. apply (Hlt q); [done|done|].
              by apply bool_decide_eq_true_1 in Hs.
        -- exists (Some a). split; [done|]. right. exists a, pa. split; [done|].
           split; [|split; [done|lia]]. apply oldest_of_cons_old; [done|].
           intros pt' pa' Ht' Ha' _. rewrite Ht in Ht'. rewrite Ha in Ha'.
           injection Ht' as <-. injection Ha' as <-. done.
      * rewrite Z.geb_leb in Hge; apply Z.leb_gt in Hge.
        destruct (IH fuel (next pt) inact cand Hc Hst' Hfuel') as (r & Hr & Hres).
        exists r. split; [done|]. apply (Hskip r); [by intros _|done|done].
    + apply bool_decide_eq_false_1 in Hsel.
      destruct (IH fuel (next pt) inact cand Hc Hst' Hfuel') as (r & Hr & Hres).
      exists r. split; [done|]. apply (Hskip r); [by intros ?|done|done].
Qed.

(** ** [tcp_report_err] *)

Lemma reported_keeps (p : tcp_pcb) :
  next (reported p) = next p ∧ state (reported p) = state p
  ∧ backlog_held (reported p) = backlog_held p
  ∧ has_flag (flags (reported p)) TF_NOUSER = true.
Proof.
  unfold reported. destruct (has_flag (flags p) TF_NOUSER) eqn:Hf; [done|].
  split; [done|]. split; [done|].
  split; [by apply backlog_held_set_flags, has_flag_set_other|].
  by apply has_flag_set_same.
Qed.

(** [tcp_report_err] sets [TF_NOUSER] and calls the error callback only
    if the flag was clear and a callback is set; nothing else changes.  A
    second report, with any error code, changes nothing and calls
    nothing: the callback is called at most once. *)
Theorem tcp_report_err_once (a : ptr) (e : err_t) (s : tcp_globals) (p : tcp_pcb) :
  deref s a = Some p →
  ∃ s1 p1,
    tcp_report_err a e s = Some s1
    ∧ deref s1 a = Some p1
    ∧ has_flag (flags p1) TF_NOUSER = true
    ∧ (has_flag (flags p) TF_NOUSER = true → s1 = s)
    ∧ (has_flag (flags p) TF_NOUSER = false →
       p1 = set_flags (set_flag (flags p) TF_NOUSER) p
       ∧ trace s1 = match errf p with
                    | Some cb => EvErrf a cb e :: trace s
                    | None => trace s
                    end)
    ∧ (∀ q, q ≠ a → deref s1 q = deref s q)
    ∧ (∀ e', tcp_report_err a e' s1 = Some s1).
Proof.
  intros Hp. destruct (reported_keeps p) as (_ & _ & _ & Hf).
  eexists _, (reported p). split; [by apply tcp_report_err_run|].
  unfold deref. simpl. split; [by rewrite lookup_insert_eq|]. split; [done|].
  split; [|split; [|split]].
  - intros Hu. unfold reported, report_events. rewrite Hu. simpl.
    rewrite insert_id by done. by destruct s.
  - intros Hu. unfold reported, report_events. rewrite Hu.
    split; [done|]. by destruct (errf p).
  - intros q Hq. by rewrite lookup_insert_ne.
  - intros e'. rewrite (tcp_report_err_run a e' _ (reported p)).
    + simpl. unfold report_events. rewrite Hf. simpl. rewrite insert_insert_eq.
      unfold reported at 1. rewrite Hf. done.
    + simpl. by rewrite lookup_insert_eq.
Qed.

(** ** [tcp_abort] *)

Section AbortProps.
Variable E : tcp_env.
Hypothesis seg_next : seg_layer_keeps next E.
Hypothesis seg_state : seg_layer_keeps state E.
Hypothesis seg_held : seg_layer_keeps backlog_held E.

Lemma tcp_abort_active_run (fuel : nat) (s : tcp_globals) (a : ptr) (p : tcp_pcb)
    (l1 l2 lt : list ptr) :
  conn_lists_ok s (l1 ++ a :: l2) lt → deref s a = Some p →
  has_flag (flags p) TF_NOUSER = false →
  current (tcp_conn_iter s) = None → (length l1 ≤ fuel)%nat →
  ∃ s', tcp_abort E fuel a s = Some s'
    ∧ conn_lists_ok s' (l1 ++ l2) lt
    ∧ deref s' a = None
    ∧ tcp_input_pcb s' ≠ Some a
    ∧ trace s' = free_active_events E a p true ++ trace s
    ∧ (∀ q, q ∈ lt → deref s' q = deref s q).
Proof.
  intros Hok Hp Hu Hcur Hfuel.
  assert (Hin : a ∈ l1 ++ a :: l2) by (apply elem_of_app; right; by left).
  pose proof (proj1 (proj2 (proj2 Hok)) a p Hin Hp) as Hact.
  destruct (active_state_facts _ Hact) as (Hnl & _).
  destruct (tcp_pcb_free_active_idle E seg_next seg_state seg_held fuel s a p true l1 l2 lt
              Hok Hp Hcur Hfuel) as (h' & hd' & Hrun & Hok' & Hna & _ & Hlt).
  eexists. split.
  { unfold tcp_abort. rewrite Hp. cbn [mbind option_bind].
    unfold tcp_pcb_is_listen. rewrite Hnl, Hu. cbn [negb LWIP_ASSERT mbind option_bind].
    exact Hrun. }
  split; [exact Hok'|]. split; [exact Hna|]. split; [|split; [done|exact Hlt]].
  simpl. destruct (bool_decide (tcp_input_pcb s = Some a)) eqn:Hi; [done|].
  by apply bool_decide_eq_false_1 in Hi.
Qed.

End AbortProps.

(** [tcp_abort] of a connection of the active list, outside a scan, with
    a segment layer that leaves [next], [state] and the backlog slot
    alone: the call returns, the PCB is unlinked and its memory freed,
    [tcp_input_pcb] does not refer to it, the lists stay well formed, and
    the calls made are, in order: [tcp_output] if an ACK was delayed, one
    RST with the sequence numbers, addresses and ports of the PCB,
    [tcp_segs_free] of its queue and [memp_free].  The error callback is
    not called. *)
Theorem tcp_abort_active (E : tcp_env) (fuel : nat) (s : tcp_globals) (a : ptr)
    (p : tcp_pcb) (l1 l2 lt : list ptr) :
  seg_layer_keeps next E → seg_layer_keeps state E → seg_layer_keeps backlog_held E →
  conn_lists_ok s (l1 ++ a :: l2) lt → deref s a = Some p →
  has_flag (flags p) TF_NOUSER = false →
  current (tcp_conn_iter s) = None → (length l1 ≤ fuel)%nat →
  let p1 := if has_flag (flags p) TF_ACK_DELAY
            then tcp_output E (set_flags (set_flag (flags p) TF_ACK_NOW) p) else p in
  ∃ s', tcp_abort E fuel a s = Some s'
    ∧ conn_lists_ok s' (l1 ++ l2) lt
    ∧ deref s' a = None
    ∧ tcp_input_pcb s' ≠ Some a
    ∧ trace s' = EvMempFree a :: EvSegsFree (sndq p1)
                 :: EvRst (snd_nxt p1) (rcv_nxt p1) (local_ip p1) (remote_ip p1)
                          (local_port p1) (remote_port p1)
                 :: (if has_flag (flags p) TF_ACK_DELAY then [EvOutput a] else [])
                 ++ trace s
    ∧ (∀ q, q ∈ lt → deref s' q = deref s q).
Proof.
  intros Hn Hs Hb Hok Hp Hu Hcur Hfuel p1.
  exact (tcp_abort_active_run E Hn Hs Hb fuel s a p l1 l2 lt Hok Hp Hu Hcur Hfuel).
Qed.

(** [tcp_abort] of a connection in TIME_WAIT, outside a scan: the PCB is
    unlinked from the tw list and freed; no RST is sent and nothing else
    is called. *)
Theorem tcp_abort_time_wait (E : tcp_env) (fuel : nat) (s : tcp_globals) (a : ptr)
    (p : tcp_pcb) (la l1 l2 : list ptr) :
  conn_lists_ok s la (l1 ++ a :: l2) → deref s a = Some p →
  has_flag (flags p) TF_NOUSER = false →
  current (tcp_conn_iter s) = None → (length l1 ≤ fuel)%nat →
  ∃ s', tcp_abort E fuel a s = Some s'
    ∧ conn_lists_ok s' la (l1 ++ l2)
    ∧ deref s' a = None
    ∧ tcp_input_pcb s' ≠ Some a
    ∧ trace s' = EvMempFree a :: trace s
    ∧ (∀ q, q ∈ la → deref s' q = deref s q).
Proof.
  intros Hok Hp Hu Hcur Hfuel.
  assert (Hin : a ∈ l1 ++ a :: l2) by (apply elem_of_app; right; by left).
  destruct (proj1 (proj2 (proj2 (proj2 Hok))) a p Hin Hp) as [Hst _].
  destruct (tcp_pcb_free_tw_idle E fuel s a p true la l1 l2 Hok Hp Hcur Hfuel)
    as (h' & hd' & Hrun & Hok' & Hna & _ & Hla).
  eexists. split.
  { unfold tcp_abort. rewrite Hp. cbn [mbind option_bind].
    unfold tcp_pcb_is_listen. rewrite Hst, Hu. cbn [negb LWIP_ASSERT mbind option_bind].
    exact Hrun. }
  split; [exact Hok'|]. split; [exact Hna|]. split; [|split; [done|exact Hla]].
  simpl. destruct (bool_decide (tcp_input_pcb s = Some a)) eqn:Hi; [done|].
  by apply bool_decide_eq_false_1 in Hi.
Qed.

(** ** [tcp_kill_timewait], [tcp_kill_state] *)

(** [tcp_kill_timewait] outside a scan, on well-formed lists: with an
    empty tw list nothing happens; otherwise exactly one PCB of the tw
    list is freed, with no other call: none on the list has been idle for
    longer, and those after it in the list have been idle for a shorter
    time. *)
Theorem tcp_kill_timewait_oldest (E : tcp_env) (fuel : nat) (s : tcp_globals)
    (la lt : list ptr) :
  conn_lists_ok s la lt → current (tcp_conn_iter s) = None → (length lt ≤ fuel)%nat →
  (lt = [] → tcp_kill_timewait E fuel s = Some s)
  ∧ (lt ≠ [] →
     ∃ a pa l1 l2 s',
       lt = l1 ++ a :: l2 ∧ deref s a = Some pa
       ∧ (∀ q pq, q ∈ l1 → deref s q = Some pq →
            idle_ticks (tcp_ticks s) pq ≤ idle_ticks (tcp_ticks s) pa)
       ∧ (∀ q pq, q ∈ l2 → deref s q = Some pq →
            idle_ticks (tcp_ticks s) pq < idle_ticks (tcp_ticks s) pa)
       ∧ tcp_kill_timewait E fuel s = Some s'
       ∧ conn_lists_ok s' la (l1 ++ l2)
       ∧ deref s' a = None
       ∧ trace s' = EvMempFree a :: trace s
       ∧ (∀ q, q ∈ la → deref s' q = deref s q)).
Proof.
  intros Hok Hcur Hfuel.
  pose proof Hok as (Ha & Ht & Hsa & Hst & Hbl).
  destruct (kill_timewait_scan_spec fuel s lt (tcp_tw_pcbs s) 0 None Ht) as (r & Hr & Hres).
  { intros q pq Hq Hpq. by apply (Hst q pq). }
  { done. }
  split.
  - intros ->. apply chain_nil in Ht. unfold tcp_kill_timewait. rewrite Ht.
    by destruct fuel.
  - intros Hne. destruct Hres as [[-> Hlt]|(a & pa & -> & Hold & Hpa & _)].
    { destruct lt as [|q lt]; [done|].
      destruct (lseg_lookup _ _ _ _ q Ht ltac:(by left)) as [pq Hpq].
      pose proof (Hlt q pq ltac:(by left) Hpq). pose proof (idle_ticks_nonneg (tcp_ticks s) pq).
      lia. }
    destruct Hold as (l1 & l2 & pa' & -> & Hpa' & _ & H1 & H2).
    rewrite Hpa in Hpa'. injection Hpa' as <-.
    destruct (tcp_pcb_free_tw_idle E fuel s a pa false la l1 l2 Hok Hpa Hcur)
      as (h' & hd' & Hrun & Hok' & Hna & _ & Hla).
    { rewrite length_app in Hfuel. lia. }
    exists a, pa, l1, l2. eexists. split; [done|]. split; [done|].
    split; [by intros q pq Hq Hpq; apply (H1 q pq)|].
    split; [by intros q pq Hq Hpq; apply (H2 q pq)|].
    split. { unfold tcp_kill_timewait. rewrite Hr. cbn [mbind option_bind]. exact Hrun. }
    split; [exact Hok'|]. split; [exact Hna|]. split; [done|exact Hla].
Qed.

Section KillState.
Variable E : tcp_env.
Hypothesis seg_next : seg_layer_keeps next E.
Hypothesis seg_state : seg_layer_keeps state E.
Hypothesis seg_held : seg_layer_keeps backlog_held E.

Lemma tcp_kill_state_run (fuel : nat) (st : tcp_state) (s : tcp_globals)
    (la lt : list ptr) :
  conn_lists_ok s la lt → current (tcp_conn_iter s) = None → (length la ≤ fuel)%nat →
  st = CLOSING ∨ st = LAST_ACK →
  ((∀ q pq, q ∈ la → deref s q = Some pq → state pq ≠ st) →
   tcp_kill_state E fuel st s = Some s)
  ∧ (∀ x px, x ∈ la → deref s x = Some px → state px = st →
     ∃ a pa l1 l2 s',
       la = l1 ++ a :: l2 ∧ deref s a = Some pa ∧ state pa = st
       ∧ (∀ q pq, q ∈ l1 → deref s q = Some pq → state pq = st →
            idle_ticks (tcp_ticks s) pq ≤ idle_ticks (tcp_ticks s) pa)
       ∧ (∀ q pq, q ∈ l2 → deref s q = Some pq → state pq = st →
            idle_ticks (tcp_ticks s) pq < idle_ticks (tcp_ticks s) pa)
       ∧ tcp_kill_state E fuel st s = Some s'
       ∧ conn_lists_ok s' (l1 ++ l2) lt
       ∧ deref s' a = None
       ∧ trace s' = free_active_events E a (reported pa) false
                    ++ report_events a pa ERR_ABRT ++ trace s
       ∧ (∀ q, q ∈ lt → deref s' q = deref s q)).
Proof.
  intros Hok Hcur Hfuel Hst.
  pose proof Hok as (Ha & Ht & Hsa & Hstw & Hbl).
  destruct (kill_state_scan_spec fuel s st la (tcp_active_pcbs s) 0 None Ha Hsa Hfuel)
    as (r & Hr & Hres).
  assert (Hassert : LWIP_ASSERT (bool_decide (st = CLOSING) || bool_decide (st = LAST_ACK))
                    = Some ()).
  { destruct Hst as [-> | ->]; done. }
  split.
  - intros Hnone. unfold tcp_kill_state. rewrite Hassert, Hr. cbn [mbind option_bind].
    destruct Hres as [[-> _]|(a & pa & -> & Hold & Hpa & _)]; [done|].
    destruct Hold as (l1 & l2 & pa' & -> & Hpa' & Hsel & _).
    apply bool_decide_eq_true_1 in Hsel. exfalso.
    apply (Hnone a pa'); [|done|done]. apply elem_of_app. right. by left.
  - intros x px Hx Hpx Hsx.
    destruct Hres as [[-> Hlt]|(a & pa & -> & Hold & Hpa & _)].
    { pose proof (Hlt x px Hx Hpx Hsx). pose proof (idle_ticks_nonneg (tcp_ticks s) px).
      lia. }
    destruct Hold as (l1 & l2 & pa' & -> & Hpa' & Hsel & H1 & H2).
    rewrite Hpa in Hpa'. injection Hpa' as <-.
    apply bool_decide_eq_true_1 in Hsel.
    assert (Hin : a ∈ l1 ++ a :: l2) by (apply elem_of_app; right; by left).
    destruct (reported_keeps pa) as (Hrn & Hrs & Hrb & _).
    set (x1 := set_trace (report_events a pa ERR_ABRT ++ trace s)
                 (set_heap (<[a := reported pa]> (heap s)) s)).
    assert (Hok1 : conn_lists_ok x1 (l1 ++ a :: l2) lt).
    { unfold conn_lists_ok. simpl. by apply (lists_ok_update _ _ _ _ _ a pa). }
    destruct (tcp_pcb_free_active_idle E seg_next seg_state seg_held fuel x1 a (reported pa)
                false l1 l2 lt Hok1) as (h' & hd' & Hrun & Hok' & Hna & _ & Hlt).
    { simpl. by rewrite lookup_insert_eq. }
    { done. }
    { rewrite length_app in Hfuel. lia. }
    exists a, pa, l1, l2. eexists. split; [done|]. split; [done|]. split; [done|].
    split. { intros q pq Hq Hpq Hs. apply (H1 q pq); [done|done|].
             by apply bool_decide_eq_true_2. }
    split. { intros q pq Hq Hpq Hs. apply (H2 q pq); [done|done|].
             by apply bool_decide_eq_true_2. }
    split.
    { unfold tcp_kill_state. rewrite Hassert, Hr. cbn [mbind option_bind].
      rewrite (tcp_report_err_run a ERR_ABRT s pa) by done. cbn [mbind option_bind].
      exact Hrun. }
    split; [exact Hok'|]. split; [exact Hna|]. split.
    { simpl. by rewrite app_assoc. }
    intros q Hq. unfold deref. simpl. rewrite Hlt by done. simpl.
    rewrite lookup_insert_ne; [done|]. intros <-.
    by apply (lists_ok_disjoint _ _ _ _ _ _ Hok Hin).
Qed.

End KillState.

(** [tcp_kill_state] for CLOSING or LAST_ACK, outside a scan, on
    well-formed lists, with a segment layer that leaves [next], [state]
    and the backlog slot alone: when no active PCB is in the state nothing
    happens; otherwise one PCB in that state is freed, the one idle for
    the longest time (the last of these in the list): the error callback
    gets ERR_ABRT if the PCB still had a user, and no RST is sent. *)
Theorem tcp_kill_state_oldest (E : tcp_env) (fuel : nat) (st : tcp_state) (s : tcp_globals)
    (la lt : list ptr) :
  seg_layer_keeps next E → seg_layer_keeps state E → seg_layer_keeps backlog_held E →
  conn_lists_ok s la lt → current (tcp_conn_iter s) = None → (length la ≤ fuel)%nat →
  st = CLOSING ∨ st = LAST_ACK →
  ((∀ q pq, q ∈ la → deref s q = Some pq → state pq ≠ st) →
   tcp_kill_state E fuel st s = Some s)
  ∧ (∀ x px, x ∈ la → deref s x = Some px → state px = st →
     ∃ a pa l1 l2 s',
       la = l1 ++ a :: l2 ∧ deref s a = Some pa ∧ state pa = st
       ∧ (∀ q pq, q ∈ l1 → deref s q = Some pq → state pq = st →
            idle_ticks (tcp_ticks s) pq ≤ idle_ticks (tcp_ticks s) pa)
       ∧ (∀ q pq, q ∈ l2 → deref s q = Some pq → state pq = st →
            idle_ticks (tcp_ticks s) pq < idle_ticks (tcp_ticks s) pa)
       ∧ tcp_kill_state E fuel st s = Some s'
       ∧ conn_lists_ok s' (l1 ++ l2) lt
       ∧ deref s' a = None
       ∧ (let p1 := ack_flushed E (reported pa) in
          trace s' = EvMempFree a :: EvSegsFree (sndq p1)
                     :: (if has_flag (flags pa) TF_ACK_DELAY then [EvOutput a] else [])
                     ++ (if has_flag (flags pa) TF_NOUSER then []
                         else match errf pa with
                              | Some cb => [EvErrf a cb ERR_ABRT]
                              | None => []
                              end)
                     ++ trace s)
       ∧ (∀ q, q ∈ lt → deref s' q = deref s q)).
Proof.
  intros Hn Hs Hb Hok Hcur Hfuel Hst.
  destruct (tcp_kill_state_run E Hn Hs Hb fuel st s la lt Hok Hcur Hfuel Hst) as [H1 H2].
  split; [exact H1|]. intros x px Hx Hpx Hsx.
  destruct (H2 x px Hx Hpx Hsx)
    as (a & pa & l1 & l2 & s' & G1 & G2 & G3 & G4 & G5 & G6 & G7 & G8 & G9 & G10).
  exists a, pa, l1, l2, s'. split; [done|]. split; [done|]. split; [done|].
  split; [done|]. split; [done|]. split; [done|]. split; [done|]. split; [done|].
  split; [|done]. rewrite G9. unfold free_active_events, report_events. simpl.
  do 2 f_equal.
  assert (Hfl : has_flag (flags (reported pa)) TF_ACK_DELAY = has_flag (flags pa) TF_ACK_DELAY).
  { unfold reported. destruct (has_flag (flags pa) TF_NOUSER); [done|].
    by apply has_flag_set_other. }
  by rewrite Hfl.
Qed.

(** ** Scenarios for the theorems on reclaiming *)

Lemma tcp_report_err_once_witness :
  ∃ s1, tcp_report_err 3%positive ERR_ABRT reclaim_state = Some s1
    ∧ trace s1 = [EvErrf 3%positive 5%positive ERR_ABRT]
    ∧ tcp_report_err 3%positive ERR_ABRT s1 = Some s1.
Proof.
  destruct (tcp_report_err_once 3%positive ERR_ABRT reclaim_state
              (set_errf (Some 5%positive) (conn TCP_PRIO_NORMAL 90 (Some 4%positive)))
              eq_refl) as (s1 & p1 & H1 & _ & _ & _ & H2 & _ & H3).
  exists s1. split; [exact H1|]. split; [|exact (H3 ERR_ABRT)].
  exact (proj2 (H2 eq_refl)).
Defined.

Lemma tcp_abort_active_witness :
  ∃ s', tcp_abort E0 2 3%positive reclaim_state = Some s'
    ∧ conn_lists_ok s' [4%positive; 5%positive] [1%positive; 2%positive]
    ∧ deref s' 3%positive = None
    ∧ trace s' = [EvMempFree 3%positive; EvSegsFree None;
                  EvRst 0 0 IP_ADDR_ANY IP_ADDR_ANY 0 0].
Proof.
  destruct (tcp_abort_active E0 2 reclaim_state 3%positive
              (set_errf (Some 5%positive) (conn TCP_PRIO_NORMAL 90 (Some 4%positive)))
              [] [4%positive; 5%positive] [1%positive; 2%positive]
              ltac:(E0_keeps) ltac:(E0_keeps) ltac:(E0_keeps)
              ltac:(concrete_lists_ok) eq_refl eq_refl eq_refl ltac:(simpl; lia))
    as (s' & H1 & H2 & H3 & _ & H4 & _).
  exists s'. split; [exact H1|]. split; [exact H2|]. split; [exact H3|exact H4].
Defined.

Lemma tcp_abort_time_wait_witness :
  ∃ s', tcp_abort E0 2 2%positive reclaim_state = Some s'
    ∧ conn_lists_ok s' [3%positive; 4%positive; 5%positive] [1%positive]
    ∧ trace s' = [EvMempFree 2%positive].
Proof.
  destruct (tcp_abort_time_wait E0 2 reclaim_state 2%positive
              (set_state TIME_WAIT (set_tmr 10 pcb0))
              [3%positive; 4%positive; 5%positive] [1%positive] []
              ltac:(concrete_lists_ok) eq_refl eq_refl eq_refl ltac:(simpl; lia))
    as (s' & H1 & H2 & _ & _ & H3 & _).
  exists s'. split; [exact H1|]. split; [exact H2|exact H3].
Defined.

Lemma tcp_kill_timewait_oldest_witness :
  ∃ a s', tcp_kill_timewait E0 2 reclaim_state = Some s'
    ∧ deref s' a = None ∧ trace s' = [EvMempFree a].
Proof.
  destruct (tcp_kill_timewait_oldest E0 2 reclaim_state
              [3%positive; 4%positive; 5%positive] [1%positive; 2%positive]
              ltac:(concrete_lists_ok) eq_refl ltac:(simpl; lia)) as [_ H].
  destruct (H ltac:(discriminate)) as (a & pa & l1 & l2 & s' & _ & _ & _ & _ & H1 & _ & H2 & H3 & _).
  exists a, s'. split; [exact H1|]. split; [exact H2|exact H3].
Defined.

Lemma tcp_kill_state_oldest_witness :
  ∃ a pa s', deref reclaim_state a = Some pa ∧ state pa = LAST_ACK
    ∧ tcp_kill_state E0 3 LAST_ACK reclaim_state = Some s'
    ∧ deref s' a = None.
Proof.
  destruct (tcp_kill_state_oldest E0 3 LAST_ACK reclaim_state
              [3%positive; 4%positive; 5%positive] [1%positive; 2%positive]
              ltac:(E0_keeps) ltac:(E0_keeps) ltac:(E0_keeps)
              ltac:(concrete_lists_ok) eq_refl ltac:(simpl; lia) ltac:(by right)) as [_ H].
  destruct (H 5%positive (set_state LAST_ACK (set_tmr 70 pcb0))
              ltac:(right; right; left) eq_refl eq_refl)
    as (a & pa & l1 & l2 & s' & _ & H1 & H2 & _ & _ & H3 & _ & H4 & _).
  exists a, pa, s'. split; [exact H1|]. split; [exact H2|]. split; [exact H3|exact H4].
Defined.

(** ** Assignments that keep the lists well formed *)

Lemma lists_ok_ext h h' ha ht la lt :
  lists_ok h ha ht la lt →
  (∀ b, b ∉ la → h' !! b = h !! b) →
  (∀ b p, b ∈ la → h !! b = Some p →
     ∃ p', h' !! b = Some p' ∧ next p' = next p ∧ state p' = state p
           ∧ backlog_held p' = backlog_held p) →
  lists_ok h' ha ht la lt.
Proof.
  intros Hok Hout Hin. pose proof Hok as (Ha & Ht & Hsa & Hst & Hbl).
  assert (Hold : ∀ b p', b ∈ la → h' !! b = Some p' →
            ∃ p, h !! b = Some p ∧ next p' = next p ∧ state p' = state p
                 ∧ backlog_held p' = backlog_held p).
  { intros b p' Hb Hp'. destruct (lseg_lookup _ _ _ _ _ Ha Hb) as [p Hp].
    destruct (Hin b p Hb Hp) as (p'' & Hp'' & H1 & H2 & H3).
    rewrite Hp' in Hp''. injection Hp'' as <-. by exists p. }
  assert (Hheld : ∀ b, b ∈ la → backlog_held <$> h' !! b = backlog_held <$> h !! b).
  { intros b Hb. destruct (lseg_lookup _ _ _ _ _ Ha Hb) as [p Hp].
    destruct (Hin b p Hb Hp) as (p' & Hp' & _ & _ & H3). rewrite Hp, Hp'. simpl.
    by rewrite H3. }
  split; [|split; [|split; [|split]]].
  - apply (lseg_ext h); [|done]. intros b Hb.
    destruct (lseg_lookup _ _ _ _ _ Ha Hb) as [p Hp].
    destruct (Hin b p Hb Hp) as (p' & Hp' & H1 & _). rewrite Hp, Hp'. simpl. by rewrite H1.
  - apply (lseg_ext h); [|done]. intros b Hb. rewrite Hout; [done|].
    intros Hb'. by apply (lists_ok_disjoint _ _ _ _ _ _ Hok Hb').
  - intros b p' Hb Hp'. destruct (Hold b p' Hb Hp') as (p & Hp & _ & H2 & _).
    rewrite H2. by apply (Hsa b).
  - intros b p' Hb Hp'. rewrite Hout in Hp'; [by apply (Hst b)|].
    intros Hb'. by apply (lists_ok_disjoint _ _ _ _ _ _ Hok Hb').
  - intros b p' l Hb Hp' Hl. destruct (Hold b p' Hb Hp') as (p & Hp & _ & _ & H3).
    rewrite H3 in Hl. destruct (Hbl b p l Hb Hp Hl) as (lp & Hlp & Hls & Hcnt).
    exists lp. split; [|split; [done|]].
    + rewrite Hout; [done|]. intros Hl'. pose proof (Hsa l lp Hl' Hlp) as Hact.
      by rewrite Hls in Hact.
    + by rewrite (pending_count_ext h).
Qed.

(** ** [tcp_txnow] *)

Section TxnowProps.
Variable E : tcp_env.
Hypothesis seg_next : seg_layer_keeps next E.
Hypothesis seg_state : seg_layer_keeps state E.
Hypothesis seg_held : seg_layer_keeps backlog_held E.

Lemma txnow_loop_cons (fuel : nat) (a : ptr) (s : tcp_globals) (pa : tcp_pcb) :
  deref s a = Some pa → tcp_state_is_active (state pa) = true →
  txnow_loop E (S fuel) (Some a) s =
    txnow_loop E fuel (next pa)
      (set_trace ((if has_flag (flags pa) TF_NAGLEMEMERR then [EvOutput a] else [])
                  ++ trace s)
         (set_heap (<[a := txnow_pcb E pa]> (heap s)) s)).
Proof.
  intros Ha Hact. cbn [txnow_loop]. rewrite Ha. cbn [mbind option_bind].
  rewrite Hact. cbn [LWIP_ASSERT mbind option_bind]. unfold txnow_pcb.
  destruct (has_flag (flags pa) TF_NAGLEMEMERR).
  - unfold call_tcp_output. rewrite (update_Some _ _ _ _ Ha). cbn [mbind option_bind].
    unfold deref. simpl. rewrite lookup_insert_eq. simpl.
    destruct seg_next as (Hn & _). by rewrite Hn.
  - cbn [mbind option_bind]. rewrite Ha. cbn [mbind option_bind]. simpl.
    unfold deref in Ha. rewrite insert_id by done. by destruct s.
Qed.

Lemma txnow_loop_spec (fuel : nat) (l : list ptr) :
  ∀ (s : tcp_globals) (p : option ptr),
    chain (heap s) p l →
    (∀ b pb, b ∈ l → heap s !! b = Some pb → tcp_state_is_active (state pb) = true) →
    (length l ≤ fuel)%nat →
    ∃ h',
      txnow_loop E fuel p s
      = Some (set_trace (reverse (EvOutput <$> List.filter (nagle_pending (heap s)) l)
                         ++ trace s) (set_heap h' s))
      ∧ (∀ b, b ∈ l → h' !! b = txnow_pcb E <$> heap s !! b)
      ∧ (∀ b, b ∉ l → h' !! b = heap s !! b).
Proof.
  revert fuel. induction l as [|a l IH]; intros fuel s p Hc Hact Hfuel.
  - apply chain_nil in Hc as ->. exists (heap s).
    split; [destruct fuel; by destruct s|].
    split; [by intros b ?%elem_of_nil|done].
  - pose proof (chain_NoDup _ _ _ Hc) as Hnd. apply NoDup_cons in Hnd as (Hni & Hnd).
    apply chain_cons in Hc as (-> & pa & Ha & Hc).
    destruct fuel as [|fuel]; [simpl in Hfuel; lia|].
    rewrite (txnow_loop_cons fuel a s pa Ha); [|apply (Hact a); [by left|done]].
    set (e1 := if has_flag (flags pa) TF_NAGLEMEMERR then [EvOutput a] else []).
    set (s1 := set_trace (e1 ++ trace s) (set_heap (<[a := txnow_pcb E pa]> (heap s)) s)).
    destruct (IH fuel s1 (next pa)) as (h' & Hrun & Hin & Hout).
    { by apply lseg_insert_other. }
    { intros b pb Hb. simpl. rewrite lookup_insert_ne by (intros ->; done).
      apply Hact. by right. }
    { simpl in Hfuel. lia. }
    exists h'. split; [|split].
    + assert (Htr : reverse (EvOutput <$> List.filter (nagle_pending (heap s1)) l)
                    ++ trace s1
                    = reverse (EvOutput <$> List.filter (nagle_pending (heap s)) (a :: l))
                      ++ trace s).
      { assert (Hf : List.filter (nagle_pending (heap s1)) l
                     = List.filter (nagle_pending (heap s)) l).
        { apply List.filter_ext_in. intros b Hb%list_elem_of_In. unfold nagle_pending.
          simpl. rewrite lookup_insert_ne; [done|]. by intros ->. }
        rewrite Hf. cbn [List.filter]. unfold nagle_pending at 2. rewrite Ha.
        unfold s1, e1. simpl.
        destruct (has_flag (flags pa) TF_NAGLEMEMERR).
        - rewrite fmap_cons, reverse_cons, <- app_assoc. done.
        - done. }
      rewrite Hrun, Htr. unfold s1. by destruct s.
    + intros b [->|Hb]%elem_of_cons.
      * rewrite (Hout a Hni). simpl. rewrite lookup_insert_eq. by rewrite Ha.
      * rewrite (Hin b Hb). simpl. rewrite lookup_insert_ne by (intros ->; done). done.
    + intros b Hb. rewrite Hout.
      * simpl. rewrite lookup_insert_ne; [done|]. intros ->. apply Hb. by left.
      * intros Hbl. apply Hb. by right.
Qed.

Lemma tcp_txnow_run (fuel : nat) (s : tcp_globals) (la lt : list ptr) :
  conn_lists_ok s la lt → (length la ≤ fuel)%nat →
  ∃ s', tcp_txnow E fuel s = Some s'
    ∧ conn_lists_ok s' la lt
    ∧ trace s' = reverse (EvOutput <$> List.filter (nagle_pending (heap s)) la) ++ trace s
    ∧ (∀ b p, b ∈ la → deref s b = Some p →
         deref s' b = Some (if has_flag (flags p) TF_NAGLEMEMERR then tcp_output E p
                            else p))
    ∧ (∀ b, b ∉ la → deref s' b = deref s b).
Proof.
  intros Hok Hfuel. pose proof Hok as (Ha & Ht & Hsa & Hst & Hbl).
  destruct (txnow_loop_spec fuel la s (tcp_active_pcbs s) Ha Hsa Hfuel)
    as (h' & Hrun & Hin & Hout).
  eexists. split; [exact Hrun|]. unfold conn_lists_ok, deref. simpl.
  split; [|split; [done|split; [|done]]].
  - apply (lists_ok_ext (heap s)); [done|done|].
    intros b p Hb Hp. rewrite (Hin b Hb), Hp. simpl. eexists. split; [done|].
    unfold txnow_pcb. destruct (has_flag (flags p) TF_NAGLEMEMERR); [|done].
    destruct seg_next as (H1 & _), seg_state as (H2 & _), seg_held as (H3 & _).
    by rewrite H1, H2, H3.
  - intros b p Hb Hp. rewrite (Hin b Hb), Hp. done.
Qed.

End TxnowProps.

(** [tcp_txnow] on well-formed lists, with a segment layer that leaves
    [next], [state] and the backlog slot alone: it returns and calls
    [tcp_output] once for every active PCB that has [TF_NAGLEMEMERR] set,
    in list order, and for no other PCB; only these PCBs change, and the
    lists stay well formed. *)
Theorem tcp_txnow_outputs (E : tcp_env) (fuel : nat) (s : tcp_globals) (la lt : list ptr) :
  seg_layer_keeps next E → seg_layer_keeps state E → seg_layer_keeps backlog_held E →
  conn_lists_ok s la lt → (length la ≤ fuel)%nat →
  ∃ s', tcp_txnow E fuel s = Some s'
    ∧ conn_lists_ok s' la lt
    ∧ trace s' = reverse (EvOutput <$> List.filter (nagle_pending (heap s)) la) ++ trace s
    ∧ (∀ b p, b ∈ la → deref s b = Some p →
         deref s' b = Some (if has_flag (flags p) TF_NAGLEMEMERR then tcp_output E p
                            else p))
    ∧ (∀ b, b ∉ la → deref s' b = deref s b).
Proof.
  intros Hn Hs Hb Hok Hfuel.
  destruct (tcp_txnow_run E Hn Hs Hb fuel s la lt Hok Hfuel) as (s' & H1 & H2 & H3 & H4 & H5).
  exists s'. split; [exact H1|]. split; [exact H2|]. split; [exact H3|].
  split; [exact H4|exact H5].
Qed.

(** ** [tcp_pcbs_sane] *)

Lemma pcbs_sane_loop_spec (fuel : nat) (h : gmap ptr tcp_pcb) (ok : tcp_state → bool)
    (l : list ptr) :
  ∀ p, chain h p l → (length l ≤ fuel)%nat →
       (pcbs_sane_loop fuel h p ok = Some tt
        ↔ ∀ b pb, b ∈ l → h !! b = Some pb → ok (state pb) = true)
       ∧ (pcbs_sane_loop fuel h p ok = None
          ↔ ∃ b pb, b ∈ l ∧ h !! b = Some pb ∧ ok (state pb) = false).
Proof.
  revert fuel. induction l as [|a l IH]; intros fuel p Hc Hfuel.
  - apply chain_nil in Hc as ->. split.
    + split; [by intros _ b pb ?%elem_of_nil|]. intros _. by destruct fuel.
    + split; [by destruct fuel|]. by intros (b & pb & ?%elem_of_nil & _).
  - apply chain_cons in Hc as (-> & pa & Ha & Hc).
    destruct fuel as [|fuel]; [simpl in Hfuel; lia|].
    destruct (IH fuel (next pa) Hc ltac:(simpl in Hfuel; lia)) as [IH1 IH2].
    cbn [pcbs_sane_loop]. rewrite Ha. cbn [mbind option_bind].
    destruct (ok (state pa)) eqn:Hok; cbn [LWIP_ASSERT mbind option_bind].
    + split.
      * rewrite IH1. split.
        -- intros H b pb [->|Hb]%elem_of_cons Hpb.
           ++ rewrite Ha in Hpb. by injection Hpb as <-.
           ++ by apply (H b).
        -- intros H b pb Hb. apply H. by right.
      * rewrite IH2. split.
        -- intros (b & pb & Hb & Hpb & Hf). exists b, pb. split; [by right|done].
        -- intros (b & pb & [->|Hb]%elem_of_cons & Hpb & Hf).
           ++ rewrite Ha in Hpb. injection Hpb as <-. congruence.
           ++ by exists b, pb.
    + split.
      * split; [done|]. intros H. specialize (H a pa ltac:(by left) Ha). congruence.
      * split; [|done]. intros _. exists a, pa. split; [by left|done].
Qed.

(** [tcp_pcbs_sane] on two well-linked lists: it returns 1 exactly when
    every PCB of the active list is in an active state and every PCB of the
    tw list is in TIME_WAIT, and one of its assertions fails otherwise; it
    returns 1 on well-formed connection lists. *)
Theorem tcp_pcbs_sane_iff (fuel : nat) (s : tcp_globals) (la lt : list ptr) :
  chain (heap s) (tcp_active_pcbs s) la → chain (heap s) (tcp_tw_pcbs s) lt →
  (length la ≤ fuel)%nat → (length lt ≤ fuel)%nat →
  (tcp_pcbs_sane fuel s = Some 1
   ↔ (∀ b pb, b ∈ la → deref s b = Some pb → tcp_state_is_active (state pb) = true)
     ∧ (∀ b pb, b ∈ lt → deref s b = Some pb → state pb = TIME_WAIT))
  ∧ (tcp_pcbs_sane fuel s = None ∨ tcp_pcbs_sane fuel s = Some 1)
  ∧ (conn_lists_ok s la lt → tcp_pcbs_sane fuel s = Some 1).
Proof.
  intros Ha Ht Hla Hlt.
  destruct (pcbs_sane_loop_spec fuel (heap s) tcp_state_is_active la _ Ha Hla) as [A1 A2].
  destruct (pcbs_sane_loop_spec fuel (heap s) (λ st, bool_decide (st = TIME_WAIT)) lt _
              Ht Hlt) as [T1 T2].
  assert (Hiff : tcp_pcbs_sane fuel s = Some 1
            ↔ (∀ b pb, b ∈ la → deref s b = Some pb →
                 tcp_state_is_active (state pb) = true)
              ∧ (∀ b pb, b ∈ lt → deref s b = Some pb → state pb = TIME_WAIT)).
  { unfold tcp_pcbs_sane, deref. split.
    - intros H.
      destruct (pcbs_sane_loop fuel (heap s) (tcp_active_pcbs s) tcp_state_is_active)
        as [[]|] eqn:H1; [|done]. cbn [mbind option_bind] in H.
      destruct (pcbs_sane_loop fuel (heap s) (tcp_tw_pcbs s) _) as [[]|] eqn:H2; [|done].
      split; [by apply A1|]. intros b pb Hb Hpb.
      apply (bool_decide_eq_true_1 (state pb = TIME_WAIT)). by apply (proj1 T1 eq_refl b).
    - intros [H1 H2]. rewrite (proj2 A1 H1). cbn [mbind option_bind].
      rewrite (proj2 T1); [done|]. intros b pb Hb Hpb. apply bool_decide_eq_true_2.
      by apply (H2 b). }
  split; [exact Hiff|]. split.
  - unfold tcp_pcbs_sane.
    destruct (pcbs_sane_loop fuel (heap s) (tcp_active_pcbs s) tcp_state_is_active)
      as [[]|]; [|by left]. cbn [mbind option_bind].
    destruct (pcbs_sane_loop fuel (heap s) (tcp_tw_pcbs s) _) as [[]|]; [by right|by left].
  - intros (_ & _ & Hsa & Hst & _). apply Hiff. split; [done|].
    intros b pb Hb Hpb. by destruct (Hst b pb Hb Hpb).
Qed.

Lemma tcp_pcbs_sane_iff_witness :
  tcp_pcbs_sane 1 insane_state = None ∨ tcp_pcbs_sane 1 insane_state = Some 1.
Proof.
  apply (tcp_pcbs_sane_iff 1 insane_state [] [1%positive]).
  - vm_compute. repeat split.
  - vm_compute. repeat split.
  - simpl. lia.
  - simpl. lia.
Defined.

Lemma tcp_txnow_outputs_witness :
  ∃ s', tcp_txnow E0 3 txnow_state = Some s'
    ∧ trace s' = [EvOutput 3%positive; EvOutput 1%positive].
Proof.
  destruct (tcp_txnow_outputs E0 3 txnow_state [1%positive; 2%positive; 3%positive] []
              ltac:(E0_keeps) ltac:(E0_keeps) ltac:(E0_keeps)
              ltac:(concrete_lists_ok) ltac:(simpl; lia))
    as (s' & H1 & _ & H2 & _).
  exists s'. split; [exact H1|exact H2].
Defined.

(** ** What the timers leave alone *)

Lemma counters_kept_refl s : counters_kept s s.
Proof. by repeat split. Qed.

Lemma counters_kept_trans s1 s2 s3 :
  counters_kept s1 s2 → counters_kept s2 s3 → counters_kept s1 s3.
Proof.
  intros (A1 & A2 & A3 & A4 & A5 & A6) (B1 & B2 & B3 & B4 & B5 & B6).
  repeat split; congruence.
Qed.

Lemma counters_kept_update a f s s' : update a f s = Some s' → counters_kept s s'.
Proof. intros (p & _ & ->)%update_inv. by repeat split. Qed.

Lemma counters_kept_rmv fuel pcbs a s s' :
  pcbs ≠ ListenList → tcp_rmv fuel pcbs a s = Some s' → counters_kept s s'.
Proof. intros Hne (h' & hd' & -> & _)%tcp_rmv_frame. by destruct pcbs. Qed.

Lemma counters_kept_iter_will_remove fuel a pcbs s s' :
  iter_will_remove fuel a pcbs s = Some s' → counters_kept s s'.
Proof. unfold iter_will_remove. intros H. bind_inv H. by injection H as <-. Qed.

Lemma counters_kept_accepted a s s' :
  tcp_backlog_accepted_internal a s = Some s' → counters_kept s s'.
Proof.
  unfold tcp_backlog_accepted_internal. intros H. bind_split H as p Hp.
  destruct (listener p); [|injection H as <-; apply counters_kept_refl].
  destruct (has_flag _ _); [|injection H as <-; apply counters_kept_refl].
  bind_split H as lp Hlp. bind_split H as [] Ha. bind_split H as s1 H1.
  apply counters_kept_update in H1, H. by eapply counters_kept_trans.
Qed.

Lemma counters_kept_purge a s s' : tcp_pcb_purge a s = Some s' → counters_kept s s'.
Proof.
  unfold tcp_pcb_purge. intros H.
  bind_split H as p Hp. bind_split H as [] Hact. bind_split H as s1 H1. bind_split H as s2 H2.
  bind_split H as p2 Hp2. bind_split H as s3 H3. bind_split H as s4 H4.
  apply counters_kept_accepted in H1. apply counters_kept_update in H2, H3, H4, H.
  eapply counters_kept_trans; [exact H1|]. eapply counters_kept_trans; [exact H2|].
  eapply counters_kept_trans; [|exact H]. eapply counters_kept_trans; [|exact H4].
  destruct H3 as (A1 & A2 & A3 & A4 & A5 & A6). by repeat split.
Qed.

Lemma counters_kept_report_err a e s s' :
  tcp_report_err a e s = Some s' → counters_kept s s'.
Proof.
  unfold tcp_report_err. intros H. bind_split H as p Hp.
  destruct (negb _); [|injection H as <-; apply counters_kept_refl].
  bind_split H as s1 H1. bind_split H as p1 Hp1. apply counters_kept_update in H1.
  destruct (errf p1); injection H as <-; destruct H1 as (A1 & A2 & A3 & A4 & A5 & A6);
    by repeat split.
Qed.

Lemma counters_kept_output E a s s' : call_tcp_output E a s = Some s' → counters_kept s s'.
Proof.
  unfold call_tcp_output. intros H. bind_split H as s1 H1. injection H as <-.
  apply counters_kept_update in H1. destruct H1 as (A1 & A2 & A3 & A4 & A5 & A6).
  by repeat split.
Qed.

Lemma counters_kept_free E fuel a rst pv s s' :
  tcp_pcb_free E fuel a rst pv s = Some s' → counters_kept s s'.
Proof.
  unfold tcp_pcb_free. intros H. bind_split H as p Hp.
  bind_split H as [] Hnl. bind_split H as s1 H1.
  bind_split H as p1 Hp1. bind_split H as [] Hq. injection H as <-.
  assert (K1 : counters_kept s s1).
  { set (s0 := if bool_decide (tcp_input_pcb s = Some a)
               then set_tcp_input_pcb None s else s) in H1.
    assert (K0 : counters_kept s s0).
    { unfold s0. destruct (bool_decide _); by repeat split. }
    clearbody s0. eapply counters_kept_trans; [exact K0|].
    destruct (bool_decide (state p = CLOSED)).
    { destruct (negb (local_port p =? 0)); [|injection H1 as <-; apply counters_kept_refl].
      by apply counters_kept_rmv in H1. }
    destruct (tcp_state_is_active (state p)).
    2:{ destruct (bool_decide (state p = TIME_WAIT));
          [|injection H1 as <-; apply counters_kept_refl].
        bind_split H1 as s2 H2. apply counters_kept_iter_will_remove in H2.
        apply counters_kept_rmv in H1; [|done]. by eapply counters_kept_trans. }
    bind_split H1 as s2 H2.
    assert (K2 : counters_kept s0 s2).
    { destruct (has_flag (flags p) TF_ACK_DELAY);
        [|injection H2 as <-; apply counters_kept_refl].
      bind_split H2 as sf Hx. apply counters_kept_update in Hx.
      apply counters_kept_output in H2. by eapply counters_kept_trans. }
    clear H2. bind_split H1 as p2 Hp2. bind_split H1 as s3 H3. bind_split H1 as s4 H4.
    apply counters_kept_iter_will_remove in H3. apply counters_kept_purge in H1.
    assert (K4 : counters_kept s3 s4).
    { destruct pv as [pr|]; [|by apply counters_kept_rmv in H4].
      bind_split H4 as prp Hprp. bind_split H4 as [] Has. bind_split H4 as p4 Hp4.
      by apply counters_kept_update in H4. }
    eapply counters_kept_trans; [exact K2|].
    eapply counters_kept_trans; [|exact H1]. eapply counters_kept_trans; [|exact K4].
    eapply counters_kept_trans; [|exact H3]. destruct rst; by repeat split. }
  destruct K1 as (A1 & A2 & A3 & A4 & A5 & A6). by repeat split.
Qed.

Lemma counters_kept_active_loop E n fuel s s' :
  slowtmr_active_loop E n fuel s = Some s' → counters_kept s s'.
Proof.
  revert s. induction n as [|n IH]; intros s H; simpl in H; [done|].
  bind_split H as r Hr. destruct r as [[a|] it]; [|injection H as <-; by repeat split].
  cbn [mbind option_bind] in H.
  bind_split H as p Hp. bind_split H as [] Hact. simpl in H.
  destruct (last_timer p =? tcp_timer_ctr s).
  { apply IH in H. destruct H as (A1 & A2 & A3 & A4 & A5 & A6). by repeat split. }
  bind_split H as s1 H1. bind_split H as p1 Hp1.
  destruct (slowtmr_active_pcb E (tcp_ticks s1) a p1) as [[[p2 rm] rs] ev].
  bind_split H as s2 H2. bind_split H as s3 H3. apply IH in H.
  apply counters_kept_update in H1, H2.
  assert (K3 : counters_kept (set_trace (ev ++ trace s2) s2) s3).
  { destruct (negb (rm =? 0)).
    - bind_split H3 as s4 H4. bind_split H3 as s5 H5.
      apply counters_kept_update in H4. apply counters_kept_report_err in H5.
      apply counters_kept_free in H3.
      eapply counters_kept_trans; [exact H4|]. by eapply counters_kept_trans.
    - by apply counters_kept_output in H3. }
  eapply counters_kept_trans; [|exact H]. eapply counters_kept_trans; [|exact K3].
  eapply counters_kept_trans; [|eapply counters_kept_trans; [exact H2|by repeat split]].
  destruct H1 as (A1 & A2 & A3 & A4 & A5 & A6). by repeat split.
Qed.

Lemma counters_kept_tw_loop E n fuel s s' :
  slowtmr_tw_loop E n fuel s = Some s' → counters_kept s s'.
Proof.
  revert s. induction n as [|n IH]; intros s H; simpl in H; [done|].
  bind_split H as r Hr. destruct r as [[a|] it]; [|injection H as <-; by repeat split].
  cbn [mbind option_bind] in H.
  bind_split H as p Hp. bind_split H as [] Hact. bind_split H as s1 H1. apply IH in H.
  eapply counters_kept_trans; [|exact H].
  destruct (negb _).
  - apply counters_kept_free in H1. destruct H1 as (A1 & A2 & A3 & A4 & A5 & A6).
    by repeat split.
  - injection H1 as <-. by repeat split.
Qed.

(** [tcp_slowtmr] counts one tick and one timer pass and leaves the
    counter of [tcp_tmr], the port allocator, the sequence number
    generator and the listen list alone. *)
Lemma tcp_slowtmr_counters E fuel s s' :
  tcp_slowtmr E fuel s = Some s' →
  tcp_timer s' = tcp_timer s ∧ tcp_timer_ctr s' = u8 (tcp_timer_ctr s + 1)
  ∧ tcp_ticks s' = u32 (tcp_ticks s + 1) ∧ tcp_port s' = tcp_port s ∧ iss s' = iss s
  ∧ tcp_listen_pcbs s' = tcp_listen_pcbs s.
Proof.
  unfold tcp_slowtmr. intros H. bind_split H as s1 H1.
  apply counters_kept_active_loop in H1. apply counters_kept_tw_loop in H.
  destruct H1 as (A1 & A2 & A3 & A4 & A5 & A6), H as (B1 & B2 & B3 & B4 & B5 & B6).
  simpl in *. repeat split; congruence.
Qed.

(** ** [tcp_fasttmr] and [tcp_tmr] on well-formed lists *)

Section TmrProps.
Variable E : tcp_env.
Hypothesis seg_next : seg_layer_keeps next E.
Hypothesis seg_state : seg_layer_keeps state E.
Hypothesis seg_held : seg_layer_keeps backlog_held E.

Lemma fasttmr_pcb_held (ctr : Z) (p : tcp_pcb) :
  backlog_held (fasttmr_pcb E ctr p) = backlog_held p.
Proof.
  unfold fasttmr_pcb. destruct (negb (last_timer p =? ctr)); [|done]. simpl.
  destruct (has_flag (flags p) TF_ACK_DELAY); [|done].
  destruct seg_held as (Hh & _).
  rewrite backlog_held_set_flags.
  - rewrite Hh. rewrite backlog_held_set_flags; [done|]. by apply has_flag_set_other.
  - by apply has_flag_clear_other.
Qed.

Lemma tcp_fasttmr_run (fuel : nat) (s : tcp_globals) (la lt : list ptr) :
  conn_lists_ok s la lt → (length la ≤ fuel)%nat →
  ∃ s', tcp_fasttmr E fuel s = Some s'
    ∧ conn_lists_ok s' la lt
    ∧ tcp_timer s' = tcp_timer s ∧ tcp_timer_ctr s' = u8 (tcp_timer_ctr s + 1)
    ∧ tcp_ticks s' = tcp_ticks s
    ∧ (∀ b, b ∉ la → deref s' b = deref s b).
Proof.
  intros Hok Hfuel. pose proof Hok as (Ha & Ht & Hsa & Hst & Hbl).
  destruct seg_next as (Hn & _), seg_state as (Hs & _).
  destruct (fasttmr_loop_spec E Hn fuel (set_tcp_timer_ctr (u8 (tcp_timer_ctr s + 1)) s)
              (tcp_active_pcbs s) la Ha Hsa Hfuel) as (h' & ev & Hrun & Hin & Hout & _).
  eexists. split; [exact Hrun|]. unfold conn_lists_ok, deref. simpl.
  split; [|done].
  apply (lists_ok_ext (heap s)); [done|done|].
  intros b p Hb Hp. rewrite (Hin b Hb). simpl. rewrite Hp. simpl. eexists. split; [done|].
  split; [by apply fasttmr_pcb_next|]. split; [by apply fasttmr_pcb_state|].
  apply fasttmr_pcb_held.
Qed.

Lemma odd_flag (x : Z) : has_flag x 1 = Z.odd x.
Proof.
  unfold has_flag. change 1 with (Z.ones 1) at 1. rewrite Z.land_ones by lia.
  rewrite Z.pow_1_r, Zmod_odd. by destruct (Z.odd x).
Qed.

Lemma tcp_tmr_run (fuel : nat) (s : tcp_globals) (la lt : list ptr) :
  conn_lists_ok s la lt → (length la < fuel)%nat → (length lt < fuel)%nat →
  ∃ s' la' lt',
    tcp_tmr E fuel s = Some s'
    ∧ conn_lists_ok s' la' lt'
    ∧ (length la' ≤ length la)%nat ∧ (length lt' ≤ length lt)%nat
    ∧ tcp_timer s' = u8 (tcp_timer s + 1)
    ∧ (if Z.even (tcp_timer s)
       then tcp_ticks s' = u32 (tcp_ticks s + 1)
            ∧ tcp_timer_ctr s' = u8 (u8 (tcp_timer_ctr s + 1) + 1)
       else tcp_ticks s' = tcp_ticks s ∧ tcp_timer_ctr s' = u8 (tcp_timer_ctr s + 1)).
Proof.
  intros Hok Hla Hlt.
  destruct (tcp_fasttmr_run fuel s la lt Hok ltac:(lia)) as (s1 & H1 & Hok1 & T1 & C1 & K1 & _).
  assert (Hodd : has_flag (u8 (tcp_timer s + 1)) 1 = Z.even (tcp_timer s)).
  { rewrite odd_flag. unfold u8. rewrite <- Z.bit0_odd, Z.mod_pow2_bits_low by lia.
    rewrite Z.bit0_odd, Z.odd_add. simpl. rewrite <- Z.negb_even.
    by destruct (Z.even (tcp_timer s)). }
  unfold tcp_tmr. rewrite H1. cbn [mbind option_bind]. simpl. rewrite T1, Hodd.
  destruct (Z.even (tcp_timer s)).
  - destruct (tcp_slowtmr_ok E seg_next seg_state seg_held fuel
                (set_tcp_timer (u8 (tcp_timer s + 1)) s1) la lt)
      as (s' & la' & lt' & Hrun & Hok' & Hla' & Hlt' & _); [done|done|done|].
    pose proof (tcp_slowtmr_counters _ _ _ _ Hrun) as (A1 & A2 & A3 & _).
    simpl in A1, A2, A3.
    exists s', la', lt'. split; [done|]. split; [done|]. split; [done|]. split; [done|].
    split; [done|]. rewrite A2, A3, C1, K1. done.
  - exists (set_tcp_timer (u8 (tcp_timer s + 1)) s1), la, lt.
    split; [done|]. split; [done|]. split; [done|]. split; [done|]. done.
Qed.

End TmrProps.

(** [tcp_fasttmr] on well-formed lists, with a segment layer that leaves
    [next], [state] and the backlog slot alone, returns and keeps the
    lists as they are and well formed; it counts one timer pass and changes
    no PCB outside the active list. *)
Theorem tcp_fasttmr_keeps_lists (E : tcp_env) (fuel : nat) (s : tcp_globals)
    (la lt : list ptr) :
  seg_layer_keeps next E → seg_layer_keeps state E → seg_layer_keeps backlog_held E →
  conn_lists_ok s la lt → (length la ≤ fuel)%nat →
  ∃ s', tcp_fasttmr E fuel s = Some s'
    ∧ conn_lists_ok s' la lt
    ∧ tcp_timer s' = tcp_timer s ∧ tcp_timer_ctr s' = u8 (tcp_timer_ctr s + 1)
    ∧ tcp_ticks s' = tcp_ticks s
    ∧ (∀ b, b ∉ la → deref s' b = deref s b).
Proof.
  intros Hn Hs Hb Hok Hfuel.
  destruct (tcp_fasttmr_run E Hn Hs Hb fuel s la lt Hok Hfuel)
    as (s' & H1 & H2 & H3 & H4 & H5 & H6).
  exists s'. split; [exact H1|]. split; [exact H2|]. split; [exact H3|].
  split; [exact H4|]. split; [exact H5|exact H6].
Qed.

Lemma tcp_fasttmr_keeps_lists_witness :
  ∃ s', tcp_fasttmr E0 3 txnow_state = Some s'
    ∧ conn_lists_ok s' [1%positive; 2%positive; 3%positive] []
    ∧ tcp_timer_ctr s' = 1.
Proof.
  destruct (tcp_fasttmr_keeps_lists E0 3 txnow_state [1%positive; 2%positive; 3%positive] []
              ltac:(E0_keeps) ltac:(E0_keeps) ltac:(E0_keeps)
              ltac:(concrete_lists_ok) ltac:(simpl; lia))
    as (s' & H1 & H2 & _ & H3 & _).
  exists s'. split; [exact H1|]. split; [exact H2|exact H3].
Defined.



(** ** [tcp_bind] to a given port *)

Lemma bind_in_use_spec (fuel : nat) (h : gmap ptr tcp_pcb) (pcb : tcp_pcb)
    (ipaddr : option ip_addr_t) (port : Z) (l : list ptr) :
  ∀ p, chain h p l → (length l ≤ fuel)%nat →
    ∃ b, bind_in_use fuel h p pcb ipaddr port = Some b
         ∧ (b = true ↔ ∃ c cp, c ∈ l ∧ h !! c = Some cp
                                ∧ bind_conflict pcb ipaddr port cp = true).
Proof.
  revert fuel. induction l as [|a l IH]; intros fuel p Hc Hlen.
  - apply chain_nil in Hc as ->. exists false. split; [by destruct fuel|].
    split; [done|]. by intros (c & cp & ?%elem_of_nil & _).
  - apply chain_cons in Hc as (-> & pa & Ha & Hc).
    destruct fuel as [|fuel]; simpl in Hlen; [lia|].
    cbn [bind_in_use]. rewrite Ha. cbn [mbind option_bind].
    fold (bind_conflict pcb ipaddr port pa).
    destruct (bind_conflict pcb ipaddr port pa) eqn:Hcf.
    + exists true. split; [done|]. split; [|done]. intros _. exists a, pa.
      split; [by left|done].
    + destruct (IH fuel (next pa) Hc ltac:(lia)) as (b & -> & Hb).
      exists b. split; [done|]. rewrite Hb. split.
      * intros (c & cp & Hin & Hcp & Hcc). exists c, cp. split; [by right|done].
      * intros (c & cp & [->|Hin]%elem_of_cons & Hcp & Hcc).
        -- rewrite Ha in Hcp. injection Hcp as <-. congruence.
        -- by exists c, cp.
Qed.

Lemma bind_in_use_lists_spec (fuel : nat) (s : tcp_globals) (ls : pcb_list → list ptr)
    (lists : list pcb_list) (pcb : tcp_pcb) (ipaddr : option ip_addr_t) (port : Z) :
  lists_are s ls → (∀ l, length (ls l) ≤ fuel)%nat →
  ∃ b, bind_in_use_lists fuel s lists pcb ipaddr port = Some b
       ∧ (b = true ↔ ∃ l c cp, l ∈ lists ∧ c ∈ ls l ∧ heap s !! c = Some cp
                                ∧ bind_conflict pcb ipaddr port cp = true).
Proof.
  intros Hls Hlen. induction lists as [|l lists IH]; simpl.
  - exists false. split; [done|]. split; [done|].
    by intros (l & c & cp & ?%elem_of_nil & _).
  - destruct (bind_in_use_spec fuel (heap s) pcb ipaddr port (ls l) _ (Hls l) (Hlen l))
      as (b & -> & Hb). simpl. destruct b.
    + exists true. split; [done|]. split; [|done]. intros _.
      destruct (proj1 Hb eq_refl) as (c & cp & Hc & Hcp & Hcf).
      exists l, c, cp. split; [by left|done].
    + destruct IH as (b' & -> & Hb'). exists b'. split; [done|]. rewrite Hb'. split.
      * intros (l' & c & cp & Hl' & H). exists l', c, cp. split; [by right|done].
      * intros (l' & c & cp & [->|Hl']%elem_of_cons & Hc & Hcp & Hcf).
        -- assert (false = true); [|done]. apply Hb. by exists c, cp.
        -- by exists l', c, cp.
Qed.

(** [tcp_bind] to a port other than 0, on well-linked lists, for a PCB in
    CLOSED or LISTEN_CLOS and an address of its IP version: the call
    returns ERR_USE or ERR_OK.  It returns ERR_USE, and changes nothing,
    exactly when a PCB on one of the lists it checks (the tw list is left
    out for a PCB with SOF_REUSEADDR) has the port, not both PCBs have
    SOF_REUSEADDR, the IP versions agree and the addresses overlap (either
    is the any-address, or they are equal).  Otherwise the PCB gets the
    port (and the address, unless it is the any-address) and is put in
    front of the bound list; nothing else changes. *)
Theorem tcp_bind_port_in_use (fuel : nat) (s : tcp_globals) (ls : pcb_list → list ptr)
    (pcb : ptr) (p : tcp_pcb) (ipaddr : option ip_addr_t) (port : Z) :
  lists_are s ls → (∀ l, length (ls l) ≤ fuel)%nat →
  deref s pcb = Some p →
  state p = CLOSED ∨ state p = LISTEN_CLOS →
  IP_ADDR_PCB_VERSION_MATCH p ipaddr = true →
  port ≠ 0 →
  let in_use := ∃ l c cp, l ∈ bind_lists p ∧ c ∈ ls l ∧ deref s c = Some cp
                          ∧ bind_conflict p ipaddr port cp = true in
  ∃ err s',
    tcp_bind fuel pcb ipaddr port s = Some (err, s')
    ∧ (err = ERR_USE ∨ err = ERR_OK)
    ∧ (err = ERR_USE ↔ in_use)
    ∧ (err = ERR_USE → s' = s)
    ∧ (err = ERR_OK →
       s' = emit EvTimerNeeded
              (set_tcp_bound_pcbs (Some pcb)
                 (set_heap (<[pcb := bound_to ipaddr port (tcp_bound_pcbs s) p]> (heap s))
                    s))).
Proof.
  intros Hls Hlen Hp Hst Hver Hport in_use.
  destruct (bind_in_use_lists_spec fuel s ls (bind_lists p) p ipaddr port Hls Hlen)
    as (b & Hrun & Hb).
  unfold tcp_bind. rewrite Hp. cbn [mbind option_bind].
  assert (Hassert : LWIP_ASSERT (bool_decide (state p = CLOSED)
                                 || bool_decide (state p = LISTEN_CLOS)) = Some tt).
  { destruct Hst as [-> | ->]; done. }
  rewrite Hassert, Hver. cbn [mbind option_bind negb].
  rewrite (proj2 (Z.eqb_neq port 0) Hport).
  unfold bind_lists in Hrun. rewrite Hrun. cbn [mbind option_bind].
  destruct b.
  - exists ERR_USE, s. split; [done|]. split; [by left|]. split; [|done].
    split; [intros _; by apply Hb|done].
  - cbn [mbind option_bind].
    assert (Hno : ¬ in_use) by (intros H; by apply Hb in H).
    assert (Hrest :
      (s1 ← match ipaddr with
            | Some a => if negb (ip_addr_isany_val a) then update pcb (set_local_ip a) s
                        else Some s
            | None => Some s
            end;
       s2 ← update pcb (set_local_port port) s1;
       s3 ← tcp_reg BoundList pcb s2;
       Some (ERR_OK, s3))
      = Some (ERR_OK,
              emit EvTimerNeeded
                (set_tcp_bound_pcbs (Some pcb)
                   (set_heap (<[pcb := bound_to ipaddr port (tcp_bound_pcbs s) p]> (heap s))
                      s)))).
    { unfold bound_to. destruct ipaddr as [a|]; [destruct (negb (ip_addr_isany_val a))|].
      - rewrite (update_Some _ _ _ _ Hp). cbn [mbind option_bind].
        unfold update, tcp_reg, update, deref. simpl.
        repeat (rewrite ?lookup_insert_eq, ?insert_insert_eq; simpl). by destruct s.
      - cbn [mbind option_bind]. rewrite (update_Some _ _ _ _ Hp). cbn [mbind option_bind].
        unfold tcp_reg, update, deref. simpl.
        repeat (rewrite ?lookup_insert_eq, ?insert_insert_eq; simpl). by destruct s.
      - cbn [mbind option_bind]. rewrite (update_Some _ _ _ _ Hp). cbn [mbind option_bind].
        unfold tcp_reg, update, deref. simpl.
        repeat (rewrite ?lookup_insert_eq, ?insert_insert_eq; simpl). by destruct s. }
    rewrite Hrest. eexists _, _. split; [done|]. split; [by right|].
    split; [|split; [done|done]]. split; [done|]. intros H. by apply Hno in H.
Qed.

Lemma tcp_bind_port_in_use_witness :
  (∃ s', tcp_bind 1 2%positive (Some (IpAddr IPv4 0x0a000002)) 8080 bind_tw_state
         = Some (ERR_USE, s'))
  ∧ (∃ s', tcp_bind 1 3%positive (Some (IpAddr IPv4 0x0a000002)) 8080 bind_tw_state
           = Some (ERR_OK, s')).
Proof.
  split.
  - destruct (tcp_bind_port_in_use 1 bind_tw_state bind_tw_lists 2%positive pcb0
                (Some (IpAddr IPv4 0x0a000002)) 8080)
      as (err & s' & H1 & _ & H2 & _).
    + intros l; destruct l; vm_compute; done.
    + intros []; simpl; lia.
    + reflexivity.
    + by left.
    + reflexivity.
    + discriminate.
    + exists s'. rewrite H1. f_equal. f_equal. apply H2.
      exists TwList, 1%positive, (set_local_port 8080 (set_local_ip (IpAddr IPv4 0x0a000002)
                                     (set_state TIME_WAIT pcb0))).
      split; [vm_compute; do 3 right; left|]. split; [by left|]. split; reflexivity.
  - destruct (tcp_bind_port_in_use 1 bind_tw_state bind_tw_lists 3%positive
                (set_so_options SOF_REUSEADDR pcb0)
                (Some (IpAddr IPv4 0x0a000002)) 8080)
      as (err & s' & H1 & [H3|H3] & H2 & _).
    + intros l; destruct l; vm_compute; done.
    + intros []; simpl; lia.
    + reflexivity.
    + by left.
    + reflexivity.
    + discriminate.
    + exfalso. destruct (proj1 H2 H3) as (l & c & cp & Hl & Hc & _).
      vm_compute in Hl. elem_cases Hl; simpl in Hc; by apply elem_of_nil in Hc.
    + exists s'. rewrite H1, H3. reflexivity.
Defined.

(** ** [tcp_listen_with_backlog] *)

Ltac closed_not_elem H :=
  repeat (apply elem_of_cons in H as [H|H]; [discriminate H|]); by apply elem_of_nil in H.

Lemma filter_ne_absent (a : ptr) (l : list ptr) : a ∉ l → filter (λ q, q ≠ a) l = l.
Proof.
  induction l as [|x l IH]; [done|]. intros Hni.
  rewrite filter_cons_True.
  - f_equal. apply IH. intros H. apply Hni. by right.
  - intros ->. apply Hni. by left.
Qed.

Lemma filter_ne_split (a : ptr) (l1 l2 : list ptr) :
  a ∉ l1 → a ∉ l2 → filter (λ q, q ≠ a) (l1 ++ a :: l2) = l1 ++ l2.
Proof.
  intros H1 H2. rewrite filter_app, filter_cons_False by (intros H; by apply H).
  by rewrite !filter_ne_absent.
Qed.

Lemma listen_in_use_spec (fuel : nat) (h : gmap ptr tcp_pcb) (lp : tcp_pcb) (l : list ptr) :
  ∀ p, chain h p l → (length l ≤ fuel)%nat →
    ∃ b, listen_in_use fuel h p lp = Some b
         ∧ (b = true ↔ ∃ o op, o ∈ l ∧ h !! o = Some op ∧ listen_conflict lp op = true).
Proof.
  revert fuel. induction l as [|a l IH]; intros fuel p Hc Hlen.
  - apply chain_nil in Hc as ->. exists false. split; [by destruct fuel|].
    split; [done|]. by intros (c & cp & ?%elem_of_nil & _).
  - apply chain_cons in Hc as (-> & pa & Ha & Hc).
    destruct fuel as [|fuel]; simpl in Hlen; [lia|].
    cbn [listen_in_use]. rewrite Ha. cbn [mbind option_bind].
    fold (listen_conflict lp pa).
    destruct (listen_conflict lp pa) eqn:Hcf.
    + exists true. split; [done|]. split; [|done]. intros _. exists a, pa.
      split; [by left|done].
    + destruct (IH fuel (next pa) Hc ltac:(lia)) as (b & -> & Hb).
      exists b. split; [done|]. rewrite Hb. split.
      * intros (c & cp & Hin & Hcp & Hcc). exists c, cp. split; [by right|done].
      * intros (c & cp & [->|Hin]%elem_of_cons & Hcp & Hcc).
        -- rewrite Ha in Hcp. injection Hcp as <-. congruence.
        -- by exists c, cp.
Qed.

(** The step "if (lpcb->local_port != 0) tcp_rmv(&tcp_bound_pcbs, lpcb)"
    for a PCB that is on the bound list exactly when it has a port. *)
Lemma listen_unbind (fuel : nat) (s : tcp_globals) (ls : pcb_list → list ptr) (a : ptr)
    (p : tcp_pcb) :
  lists_are s ls → (∀ l, length (ls l) ≤ fuel)%nat →
  deref s a = Some p →
  (a ∈ ls BoundList ↔ local_port p ≠ 0) →
  ∃ h' hd' pa,
    (if negb (local_port p =? 0) then tcp_rmv fuel BoundList a s else Some s)
    = Some (set_heap h' (set_tcp_bound_pcbs hd' s))
    ∧ chain h' hd' (filter (λ q, q ≠ a) (ls BoundList))
    ∧ h' !! a = Some pa ∧ set_next None pa = set_next None p
    ∧ (∀ q, q ∉ ls BoundList → h' !! q = heap s !! q)
    ∧ (∀ q, set_next None <$> h' !! q = set_next None <$> heap s !! q).
Proof.
  intros Hls Hlen Hp Hport.
  destruct (local_port p =? 0) eqn:Hz; simpl.
  - apply Z.eqb_eq in Hz.
    assert (Hni : a ∉ ls BoundList) by (intros H; by apply Hport in H).
    exists (heap s), (tcp_bound_pcbs s), p.
    split; [by destruct s|]. rewrite filter_ne_absent by done.
    split; [apply (Hls BoundList)|]. done.
  - apply Z.eqb_neq in Hz. apply Hport in Hz.
    apply list_elem_of_split in Hz as (l1 & l2 & Hl).
    pose proof (Hls BoundList) as Hc. rewrite Hl in Hc.
    destruct (chain_split _ _ _ _ _ Hc) as (_ & _ & _ & _ & _ & Hni1 & Hni2 & _).
    destruct (tcp_rmv_chain fuel BoundList a s l1 l2 Hc) as
      (ap & h' & hd' & Hap & Hr & Hc' & Ha' & Hfr & Hun & _).
    { specialize (Hlen BoundList). rewrite Hl, length_app in Hlen. lia. }
    unfold deref in Hp. rewrite Hp in Hap. injection Hap as <-.
    exists h', hd', (set_next None p). split; [exact Hr|].
    rewrite Hl, filter_ne_split by done.
    split; [done|]. split; [done|]. split; [done|]. split; [|done].
    intros q Hq. apply Hfr.
    + intros ->. apply Hq. apply elem_of_app. right. by left.
    + intros Hlast. apply Hq. apply elem_of_app. left.
      symmetry in Hlast. apply last_Some in Hlast as (l' & ->).
      apply elem_of_app. right. by left.
Qed.

Lemma listening_relink (E : tcp_env) (backlog : Z) (hd : option ptr) (pa p : tcp_pcb) :
  set_next None pa = set_next None p →
  set_next hd
    (set_initial_rcv_wnd (TCPWND_MIN16 (TCP_WND E))
       (set_backlog (if backlog =? 0 then 1 else backlog) (set_accepts_pending 0 pa)))
  = set_next hd
      (set_initial_rcv_wnd (TCPWND_MIN16 (TCP_WND E))
         (set_backlog (if backlog =? 0 then 1 else backlog) (set_accepts_pending 0 p))).
Proof.
  intros H.
  transitivity (set_next hd
    (set_initial_rcv_wnd (TCPWND_MIN16 (TCP_WND E))
       (set_backlog (if backlog =? 0 then 1 else backlog)
          (set_accepts_pending 0 (set_next None pa))))); [by destruct pa|].
  rewrite H. by destruct p.
Qed.

Lemma tcp_listen_run (E : tcp_env) (fuel : nat) (s : tcp_globals)
    (ls : pcb_list → list ptr) (a : ptr) (lp : tcp_pcb) (backlog : Z) :
  lists_are s ls → lists_disjoint ls → (∀ l, length (ls l) ≤ fuel)%nat →
  deref s a = Some lp → state lp = LISTEN_CLOS →
  (∀ l, a ∈ ls l ↔ l = BoundList ∧ local_port lp ≠ 0) →
  ∃ err s',
    tcp_listen_with_backlog E fuel a backlog s = Some (err, s')
    ∧ (err = ERR_USE ∨ err = ERR_OK)
    ∧ (err = ERR_USE ↔
       ip_get_option lp SOF_REUSEADDR = true
       ∧ ∃ o op, o ∈ ls ListenList ∧ deref s o = Some op ∧ listen_conflict lp op = true)
    ∧ (err = ERR_USE → s' = s)
    ∧ (err = ERR_OK →
       lists_are s' (listen_lists a ls)
       ∧ deref s' a = Some (listening E backlog (tcp_listen_pcbs s) lp)
       ∧ (∀ q, q ≠ a → set_next None <$> deref s' q = set_next None <$> deref s q)
       ∧ trace s' = EvTimerNeeded :: trace s).
Proof.
  intros Hls Hdisj Hlen Hp Hst Hon.
  unfold tcp_listen_with_backlog. rewrite Hp. cbn [mbind option_bind].
  rewrite Hst. cbn [mbind option_bind LWIP_ASSERT]. simpl bool_decide. cbn [mbind option_bind].
  assert (Hused : ∃ b,
    (if ip_get_option lp SOF_REUSEADDR
     then listen_in_use fuel (heap s) (tcp_listen_pcbs s) lp else Some false) = Some b
    ∧ (b = true ↔ ip_get_option lp SOF_REUSEADDR = true
                  ∧ ∃ o op, o ∈ ls ListenList ∧ deref s o = Some op
                            ∧ listen_conflict lp op = true)).
  { destruct (ip_get_option lp SOF_REUSEADDR).
    - destruct (listen_in_use_spec fuel (heap s) lp (ls ListenList) _ (Hls ListenList)
                  (Hlen ListenList)) as (b & Hb & Hiff).
      exists b. split; [exact Hb|]. rewrite Hiff. split; [done|]. by intros [_ H].
    - exists false. split; [done|]. split; [done|]. by intros [? _]. }
  destruct Hused as (b & -> & Hb). cbn [mbind option_bind].
  destruct b.
  { exists ERR_USE, s. split; [done|]. split; [by left|]. split; [|done].
    split; [intros _; by apply Hb|done]. }
  set (lp2 := set_accept_any_ip_version 0 (set_state LISTEN lp)).
  set (s2 := set_heap (<[a := lp2]> (heap s)) s).
  assert (Hs2 : (update a (set_state LISTEN) s ≫= update a (set_accept_any_ip_version 0))
                = Some s2).
  { rewrite (update_Some _ _ _ _ Hp). cbn [mbind option_bind].
    unfold update, deref. simpl. rewrite lookup_insert_eq. simpl.
    rewrite insert_insert_eq. unfold s2. by destruct s. }
  assert (Hls2 : lists_are s2 ls).
  { intros l. unfold s2. rewrite list_head_set_heap. simpl.
    eapply lseg_insert_same_next; [exact Hp|done|apply Hls]. }
  assert (Hp2 : deref s2 a = Some lp2) by (unfold deref, s2; simpl; apply lookup_insert_eq).
  destruct (listen_unbind fuel s2 ls a lp2 Hls2 Hlen Hp2) as
    (h' & hd' & pa & Hr & Hc' & Ha' & Hpa & Hfr & Hun).
  { split; [intros H; apply (Hon BoundList) in H as [_ H]; exact H
           |intros H; apply (Hon BoundList); split; [done|exact H]]. }
  assert (Hni : ∀ l, l ≠ BoundList → a ∉ ls l).
  { intros l Hl Hin. apply Hon in Hin as [-> _]. done. }
  set (s3 := set_heap h' (set_tcp_bound_pcbs hd' s)).
  assert (Hr3 : (if negb (local_port lp =? 0) then tcp_rmv fuel BoundList a s2 else Some s2)
                = Some s3).
  { change (local_port lp) with (local_port lp2). rewrite Hr. unfold s3, s2. by destruct s. }
  set (pf := listening E backlog (tcp_listen_pcbs s) lp).
  set (s' := emit EvTimerNeeded
               (set_tcp_listen_pcbs (Some a) (set_heap (<[a := pf]> h') s3))).
  assert (Hrest :
    (s4 ← update a (set_accepts_pending 0) s3;
     s5 ← tcp_backlog_set a backlog s4;
     s6 ← update a (set_initial_rcv_wnd (TCPWND_MIN16 (TCP_WND E))) s5;
     s7 ← tcp_reg ListenList a s6;
     Some (ERR_OK, s7)) = Some (ERR_OK, s')).
  { assert (Hp3 : deref s3 a = Some pa) by exact Ha'.
    rewrite (update_Some _ _ _ _ Hp3). cbn [mbind option_bind].
    unfold tcp_backlog_set, tcp_reg, update, deref. simpl.
    repeat (rewrite ?lookup_insert_eq, ?insert_insert_eq; simpl).
    assert (Hsta : state pa = LISTEN).
    { change (state (set_next None pa) = LISTEN). by rewrite Hpa. }
    rewrite Hsta. simpl.
    repeat (rewrite ?lookup_insert_eq, ?insert_insert_eq; simpl).
    rewrite (listening_relink E backlog (tcp_listen_pcbs s) pa lp2 Hpa).
    unfold s', s3, pf, listening, lp2. simpl. by destruct s. }
  exists ERR_OK, s'.
  split.
  { change (update a (set_state LISTEN) s ≫= (λ s0, update a (set_accept_any_ip_version 0) s0
              ≫= (λ s1, (if negb (local_port lp =? 0) then tcp_rmv fuel BoundList a s1
                         else Some s1) ≫= (λ s4, update a (set_accepts_pending 0) s4
              ≫= (λ s5, tcp_backlog_set a backlog s5
              ≫= (λ s6, update a (set_initial_rcv_wnd (TCPWND_MIN16 (TCP_WND E))) s6
              ≫= (λ s7, tcp_reg ListenList a s7 ≫= (λ s8, Some (ERR_OK, s8))))))))
            = Some (ERR_OK, s')).
    destruct (update a (set_state LISTEN) s) as [s1|] eqn:H1; [|done].
    cbn [mbind option_bind] in Hs2 |- *. rewrite Hs2. cbn [mbind option_bind].
    rewrite Hr3. exact Hrest. }
  split; [by right|]. split; [split; [done|intros H; by apply Hb in H]|].
  split; [done|]. intros _.
  assert (Hother : ∀ q, q ≠ a → q ∉ ls BoundList → heap s' !! q = heap s !! q).
  { intros q Hqa Hqb. unfold s'. simpl. rewrite lookup_insert_ne by done.
    rewrite (Hfr q Hqb). unfold s2. simpl. by rewrite lookup_insert_ne. }
  assert (Hkeep : ∀ l, l ≠ BoundList → chain (heap s') (list_head l s) (ls l)).
  { intros l Hl. apply (lseg_ext (heap s)); [|apply Hls].
    intros q Hq. rewrite Hother; [done| |].
    - intros ->. by apply (Hni l).
    - by apply (Hdisj l BoundList). }
  split; [|split; [|split]].
  - intros l. destruct l.
    + apply chain_cons. split; [done|]. exists pf.
      split; [unfold s'; simpl; apply lookup_insert_eq|].
      apply (Hkeep ListenList). done.
    + unfold s'. simpl. apply lseg_insert_other; [|exact Hc'].
      intros Hin. apply list_elem_of_filter in Hin as [Hne _]. done.
    + apply (Hkeep ActiveList). done.
    + apply (Hkeep TwList). done.
  - unfold deref, s'. simpl. apply lookup_insert_eq.
  - intros q Hq. unfold deref, s'. simpl. rewrite lookup_insert_ne by done.
    rewrite Hun. unfold s2. simpl. by rewrite lookup_insert_ne.
  - done.
Qed.

(** [tcp_listen_with_backlog] for a PCB in LISTEN_CLOS which is on the
    bound list exactly when it has a port, on well-linked disjoint lists.
    The call returns ERR_USE, changing nothing, exactly when the PCB has
    SOF_REUSEADDR and a listener has its IP version, port and address.
    Otherwise it returns ERR_OK: the PCB has left the bound list and heads
    the listen list, the other lists are as before; it is in LISTEN with no
    pending accepts, the backlog given (1 for 0) and the initial receive
    window; the other PCBs differ in their links at most; one timer
    request is made. *)
Theorem tcp_listen_moves_to_listen_list (E : tcp_env) (fuel : nat) (s : tcp_globals)
    (ls : pcb_list → list ptr) (a : ptr) (lp : tcp_pcb) (backlog : Z) :
  lists_are s ls → lists_disjoint ls → (∀ l, length (ls l) ≤ fuel)%nat →
  deref s a = Some lp → state lp = LISTEN_CLOS →
  (∀ l, a ∈ ls l ↔ l = BoundList ∧ local_port lp ≠ 0) →
  ∃ err s',
    tcp_listen_with_backlog E fuel a backlog s = Some (err, s')
    ∧ (err = ERR_USE ∨ err = ERR_OK)
    ∧ (err = ERR_USE ↔
       ip_get_option lp SOF_REUSEADDR = true
       ∧ ∃ o op, o ∈ ls ListenList ∧ deref s o = Some op ∧ listen_conflict lp op = true)
    ∧ (err = ERR_USE → s' = s)
    ∧ (err = ERR_OK →
       lists_are s' (listen_lists a ls)
       ∧ deref s' a = Some (listening E backlog (tcp_listen_pcbs s) lp)
       ∧ (∀ q, q ≠ a → set_next None <$> deref s' q = set_next None <$> deref s q)
       ∧ trace s' = EvTimerNeeded :: trace s).
Proof. apply tcp_listen_run. Qed.

Lemma tcp_listen_moves_to_listen_list_witness :
  ∃ s', tcp_listen_with_backlog E0 1 2%positive 0 listen_dual_state = Some (ERR_OK, s')
        ∧ lists_are s' (listen_lists 2%positive listen_dual_lists)
        ∧ (backlog <$> deref s' 2%positive) = Some 1.
Proof.
  destruct (tcp_listen_moves_to_listen_list E0 1 listen_dual_state listen_dual_lists
              2%positive
              (set_local_port 80 (set_local_ip (IpAddr IPv4 0x0a000002)
                 (set_state LISTEN_CLOS pcb0))) 0)
    as (err & s' & Hrun & [He|He] & Hiff & _ & Hok).
  - intros l; destruct l; vm_compute; done.
  - intros l1 l2 q Hne H1 H2.
    destruct l1, l2; simpl in H1, H2; try done; elem_cases H1; closed_not_elem H2.
  - intros l; destruct l; simpl; lia.
  - reflexivity.
  - reflexivity.
  - intros l. split.
    + intros H. destruct l; simpl in H;
        [closed_not_elem H|split; [done|by vm_compute]|closed_not_elem H..].
    + intros [-> _]. by left.
  - exfalso. apply Hiff in He as [He _]. vm_compute in He. discriminate He.
  - exists s'. destruct (Hok He) as (H1 & H2 & _).
    split; [by rewrite <- He|]. split; [exact H1|]. rewrite H2. reflexivity.
Defined.

(** ** [tcp_close_listen] *)

Lemma unref_listener_next (a : ptr) (p : tcp_pcb) : next (unref_listener a p) = next p.
Proof. unfold unref_listener. by destruct (bool_decide _). Qed.

Lemma clear_listener_spec (fuel : nat) (a : ptr) (l : list ptr) :
  ∀ (s : tcp_globals) (p : option ptr),
    chain (heap s) p l → (length l ≤ fuel)%nat →
    ∃ h', clear_listener fuel p a s = Some (set_heap h' s)
          ∧ ∀ q, h' !! q = (if bool_decide (q ∈ l) then unref_listener a else id)
                           <$> heap s !! q.
Proof.
  revert fuel. induction l as [|t l IH]; intros fuel s p Hc Hlen.
  - apply chain_nil in Hc as ->. exists (heap s). split; [destruct fuel; by destruct s|].
    intros q. rewrite bool_decide_eq_false_2 by apply not_elem_of_nil.
    by destruct (heap s !! q).
  - pose proof (chain_NoDup _ _ _ Hc) as Hnd. apply NoDup_cons in Hnd as (Hni & _).
    apply chain_cons in Hc as (-> & tp & Ht & Hc).
    destruct fuel as [|fuel]; simpl in Hlen; [lia|].
    cbn [clear_listener]. unfold deref at 1. rewrite Ht. cbn [mbind option_bind].
    set (s1 := set_heap (<[t := unref_listener a tp]> (heap s)) s).
    assert (Hs1 : (if bool_decide (listener tp = Some a) then update t (set_listener None) s
                   else Some s) = Some s1).
    { unfold s1, unref_listener. destruct (bool_decide (listener tp = Some a)).
      - by apply update_Some.
      - rewrite insert_id by done. by destruct s. }
    rewrite Hs1. cbn [mbind option_bind].
    destruct (IH fuel s1 (next tp)) as (h' & -> & Hh'); [|lia|].
    { unfold s1. simpl. by apply lseg_insert_other. }
    exists h'. split; [unfold s1; by destruct s|].
    intros q. rewrite Hh'. unfold s1. simpl.
    destruct (decide (q = t)) as [->|Hne].
    + rewrite lookup_insert_eq, Ht. rewrite bool_decide_eq_false_2 by done.
      rewrite bool_decide_eq_true_2 by by left. done.
    + rewrite lookup_insert_ne by done.
      destruct (decide (q ∈ l)) as [Hin|Hnin].
      * rewrite !bool_decide_eq_true_2; [done|by right|done].
      * rewrite !bool_decide_eq_false_2; [done| |done].
        intros [->|?]%elem_of_cons; done.
Qed.

Lemma tcp_close_listen_run (fuel : nat) (s : tcp_globals) (ls : pcb_list → list ptr)
    (a : ptr) (lp : tcp_pcb) :
  lists_are s ls → lists_disjoint ls → (∀ l, length (ls l) ≤ fuel)%nat →
  deref s a = Some lp → state lp = LISTEN → a ∈ ls ListenList →
  ∃ s',
    tcp_close_listen fuel a s = Some s'
    ∧ lists_are s' (close_listen_lists a ls)
    ∧ deref s' a = None
    ∧ (∀ q p, q ∈ ls ActiveList ∨ q ∈ ls TwList → deref s q = Some p →
         deref s' q = Some (unref_listener a p))
    ∧ (∀ q, q ∉ ls ActiveList → q ∉ ls TwList → q ≠ a →
         set_next None <$> deref s' q = set_next None <$> deref s q)
    ∧ trace s' = EvMempFree a :: trace s.
Proof.
  intros Hls Hdisj Hlen Hp Hst Hin.
  unfold tcp_close_listen. rewrite Hp. cbn [mbind option_bind].
  unfold tcp_pcb_is_listen. rewrite Hst. simpl LWIP_ASSERT. cbn [mbind option_bind].
  simpl bool_decide. cbv iota.
  destruct (clear_listener_spec fuel a (ls ActiveList) s (tcp_active_pcbs s)
              (Hls ActiveList) (Hlen ActiveList)) as (h1 & -> & Hh1).
  cbn [mbind option_bind].
  set (s1 := set_heap h1 s).
  assert (Hnext1 : ∀ q, next <$> h1 !! q = next <$> heap s !! q).
  { intros q. rewrite Hh1. destruct (heap s !! q) as [x|]; [|done]. simpl.
    destruct (bool_decide _); [by rewrite unref_listener_next|done]. }
  destruct (clear_listener_spec fuel a (ls TwList) s1 (tcp_tw_pcbs s1)) as (h2 & -> & Hh2).
  { apply (lseg_ext (heap s)); [intros q _; apply Hnext1|apply (Hls TwList)]. }
  { apply Hlen. }
  cbn [mbind option_bind].
  set (s2 := set_heap h2 s1).
  assert (Hnext2 : ∀ q, next <$> h2 !! q = next <$> heap s !! q).
  { intros q. rewrite Hh2. rewrite <- Hnext1. unfold s1. simpl.
    destruct (h1 !! q) as [x|]; [|done]. simpl.
    destruct (bool_decide _); [by rewrite unref_listener_next|done]. }
  apply list_elem_of_split in Hin as (l1 & l2 & Hl).
  assert (Hc2 : chain (heap s2) (list_head ListenList s2) (l1 ++ a :: l2)).
  { rewrite <- Hl. apply (lseg_ext (heap s)); [intros q _; apply Hnext2|apply (Hls ListenList)]. }
  destruct (chain_split _ _ _ _ _ Hc2) as (_ & _ & _ & _ & _ & Hni1 & Hni2 & _).
  destruct (tcp_rmv_chain fuel ListenList a s2 l1 l2 Hc2) as
    (ap & h' & hd' & Hap & Hr & Hc' & Ha' & Hfr & Hun & _).
  { specialize (Hlen ListenList). rewrite Hl, length_app in Hlen. lia. }
  rewrite Hr. cbn [mbind option_bind].
  eexists. split; [reflexivity|].
  assert (Hnl : ∀ l q, l ≠ ListenList → q ∈ ls l → q ≠ a ∧ Some q ≠ last l1).
  { intros l q Hne Hq. split.
    - intros ->. apply (Hdisj l ListenList a Hne Hq). rewrite Hl.
      apply elem_of_app. right. by left.
    - intros Hlast. symmetry in Hlast. apply last_Some in Hlast as (l' & ->).
      apply (Hdisj l ListenList q Hne Hq). rewrite Hl.
      apply elem_of_app. left. apply elem_of_app. right. by left. }
  assert (Hkeep : ∀ l, l ≠ ListenList → chain (delete a h') (list_head l s) (ls l)).
  { intros l Hne. apply (lseg_ext (heap s)); [|apply Hls].
    intros q Hq. destruct (Hnl l q Hne Hq) as [Hqa Hql].
    rewrite lookup_delete_ne by done. rewrite Hfr by done. apply Hnext2. }
  split; [|split; [|split; [|split]]].
  - intros l. destruct l; simpl.
    + rewrite Hl, filter_ne_split by done. apply lseg_delete_other; [|exact Hc'].
      intros [H|H]%elem_of_app; done.
    + apply (Hkeep BoundList). done.
    + apply (Hkeep ActiveList). done.
    + apply (Hkeep TwList). done.
  - unfold deref, memp_free. simpl. apply lookup_delete_eq.
  - intros q p Hq Hqp. unfold deref, memp_free. simpl.
    assert (Hq' : q ≠ a ∧ Some q ≠ last l1).
    { destruct Hq as [Hq|Hq]; [by apply (Hnl ActiveList)|by apply (Hnl TwList)]. }
    destruct Hq' as [Hqa Hql].
    rewrite lookup_delete_ne by done. rewrite Hfr by done.
    unfold s2. simpl. rewrite Hh2. unfold s1. simpl. rewrite Hh1.
    unfold deref in Hqp. rewrite Hqp. simpl.
    destruct Hq as [Hq|Hq].
    + rewrite (bool_decide_eq_true_2 (q ∈ ls ActiveList)) by done.
      rewrite (bool_decide_eq_false_2 (q ∈ ls TwList)); [done|].
      by apply (Hdisj ActiveList TwList).
    + rewrite (bool_decide_eq_true_2 (q ∈ ls TwList)) by done.
      rewrite (bool_decide_eq_false_2 (q ∈ ls ActiveList)); [done|].
      by apply (Hdisj TwList ActiveList).
  - intros q Hqa Hqt Hne. unfold deref, memp_free. simpl.
    rewrite lookup_delete_ne by done. rewrite Hun.
    unfold s2. simpl. rewrite Hh2. unfold s1. simpl. rewrite Hh1.
    rewrite !bool_decide_eq_false_2 by done.
    by destruct (heap s !! q).
  - unfold memp_free, emit. simpl. by destruct s.
Qed.

(** [tcp_close_listen] of a listener in LISTEN that is on the listen list,
    on well-linked disjoint lists: the call returns; the listener has left
    the listen list, whose order is kept, and its memory is freed; every
    connection on the active and tw lists that referred to it has
    [listener] NULL and is otherwise unchanged, the other connections are
    unchanged: no PCB is left with a pointer to the freed listener.  The
    other PCBs differ in their links at most, and the only event is the
    [memp_free]. *)
Theorem tcp_close_listen_clears_references (fuel : nat) (s : tcp_globals)
    (ls : pcb_list → list ptr) (a : ptr) (lp : tcp_pcb) :
  lists_are s ls → lists_disjoint ls → (∀ l, length (ls l) ≤ fuel)%nat →
  deref s a = Some lp → state lp = LISTEN → a ∈ ls ListenList →
  ∃ s',
    tcp_close_listen fuel a s = Some s'
    ∧ lists_are s' (close_listen_lists a ls)
    ∧ deref s' a = None
    ∧ (∀ q p, q ∈ ls ActiveList ∨ q ∈ ls TwList → deref s q = Some p →
         deref s' q = Some (unref_listener a p) ∧ listener (unref_listener a p) ≠ Some a)
    ∧ (∀ q, q ∉ ls ActiveList → q ∉ ls TwList → q ≠ a →
         set_next None <$> deref s' q = set_next None <$> deref s q)
    ∧ trace s' = EvMempFree a :: trace s.
Proof.
  intros Hls Hdisj Hlen Hp Hst Hin.
  destruct (tcp_close_listen_run fuel s ls a lp Hls Hdisj Hlen Hp Hst Hin)
    as (s' & Hrun & H1 & H2 & H3 & H4 & H5).
  exists s'. split; [done|]. split; [done|]. split; [done|].
  split; [|done]. intros q p Hq Hqp. split; [by apply H3|].
  unfold unref_listener. destruct (bool_decide (listener p = Some a)) eqn:Hb; [done|].
  by apply bool_decide_eq_false in Hb.
Qed.

Lemma tcp_close_listen_clears_references_witness :
  ∃ s', tcp_close_listen 1 1%positive backlog_state = Some s'
        ∧ deref s' 1%positive = None
        ∧ (listener <$> deref s' 2%positive) = Some None.
Proof.
  destruct (tcp_close_listen_clears_references 1 backlog_state backlog_lists 1%positive
              (set_accepts_pending 1 (set_backlog 4 (set_local_port 80
                 (set_state LISTEN pcb0)))))
    as (s' & Hrun & _ & H2 & H3 & _).
  - intros l; destruct l; vm_compute; done.
  - intros l1 l2 q Hne H1 H2.
    destruct l1, l2; simpl in H1, H2; try done; elem_cases H1; closed_not_elem H2.
  - intros l; destruct l; simpl; lia.
  - reflexivity.
  - reflexivity.
  - by left.
  - exists s'. split; [exact Hrun|]. split; [exact H2|].
    destruct (H3 2%positive (set_listener (Some 1%positive) (set_flags TF_BACKLOGPEND
                               (conn TCP_PRIO_NORMAL 0 None)))) as [H _].
    + left. by left.
    + reflexivity.
    + rewrite H. reflexivity.
Defined.

(** ** The victim of [tcp_kill_prio] *)

Lemma kill_prio_scan_spec (fuel : nat) (s : tcp_globals) (l : list ptr) :
  ∀ (pcb : option ptr) (inact : Z) (cand : option ptr) (mprio : Z),
    chain (heap s) pcb l →
    (∀ q pq, q ∈ l → heap s !! q = Some pq → tcp_state_is_active (state pq) = true) →
    (length l ≤ fuel)%nat →
    ∃ r, kill_prio_scan fuel s pcb inact cand mprio = Some r
      ∧ ((r = cand ∧ ∀ q pq, q ∈ l → heap s !! q = Some pq →
                      mprio < prio pq ∨ idle_ticks (tcp_ticks s) pq < inact)
         ∨ ∃ a pa l1 l2,
             r = Some a ∧ l = l1 ++ a :: l2 ∧ heap s !! a = Some pa
             ∧ prio pa ≤ mprio ∧ inact ≤ idle_ticks (tcp_ticks s) pa
             ∧ ∀ q pq, q ∈ l2 → heap s !! q = Some pq →
                 prio pa < prio pq
                 ∨ idle_ticks (tcp_ticks s) pq < idle_ticks (tcp_ticks s) pa).
Proof.
  revert fuel. induction l as [|t l IH]; intros fuel pcb inact cand mprio Hc Hst Hfuel.
  - apply chain_nil in Hc as ->. exists cand. split; [by destruct fuel|].
    left. split; [done|]. by intros q pq ?%elem_of_nil.
  - apply chain_cons in Hc as (-> & pt & Ht & Hc).
    destruct fuel as [|fuel]; [simpl in Hfuel; lia|].
    assert (Hst' : ∀ q pq, q ∈ l → heap s !! q = Some pq →
                     tcp_state_is_active (state pq) = true).
    { intros q pq Hq. apply Hst. by right. }
    assert (Hfuel' : (length l ≤ fuel)%nat) by (simpl in Hfuel; lia).
    cbn [kill_prio_scan]. rewrite (Ht : deref s t = Some pt). cbn [mbind option_bind].
    rewrite (Hst t pt) by (by left || done).
    cbn [LWIP_ASSERT mbind option_bind].
    fold (idle_ticks (tcp_ticks s) pt).
    destruct ((prio pt <=? mprio) && (idle_ticks (tcp_ticks s) pt >=? inact)) eqn:Hsel.
    + apply andb_true_iff in Hsel as [Hpr Hge].
      apply Z.leb_le in Hpr. apply Z.geb_le in Hge.
      destruct (IH fuel (next pt) (idle_ticks (tcp_ticks s) pt) (Some t) (prio pt)
                  Hc Hst' Hfuel')
        as (r & Hr & [[-> Hlt]|(a & pa & l1 & l2 & -> & -> & Ha & Hpa & Hia & Hl2)]).
      * exists (Some t). split; [done|]. right. exists t, pt, [], l.
        split; [done|]. split; [done|]. split; [done|]. split; [done|]. split; [done|].
        exact Hlt.
      * exists (Some a). split; [done|]. right. exists a, pa, (t :: l1), l2.
        split; [done|]. split; [done|]. split; [done|]. split; [lia|]. split; [lia|].
        exact Hl2.
    + assert (Hno : mprio < prio pt ∨ idle_ticks (tcp_ticks s) pt < inact).
      { apply andb_false_iff in Hsel as [Hpr|Hge].
        - left. by apply Z.leb_gt in Hpr.
        - right. rewrite Z.geb_leb in Hge. by apply Z.leb_gt in Hge. }
      destruct (IH fuel (next pt) inact cand mprio Hc Hst' Hfuel')
        as (r & Hr & [[-> Hlt]|(a & pa & l1 & l2 & -> & -> & Ha & Hpa & Hia & Hl2)]).
      * exists cand. split; [done|]. left. split; [done|].
        intros q pq [->|Hq]%elem_of_cons Hpq.
        -- rewrite Ht in Hpq. by injection Hpq as <-.
        -- by apply (Hlt q).
      * exists (Some a). split; [done|]. right. exists a, pa, (t :: l1), l2.
        split; [done|]. split; [done|]. split; [done|]. split; [done|]. split; [done|].
        exact Hl2.
Qed.

Section KillPrio.
Variable E : tcp_env.
Hypothesis seg_next : seg_layer_keeps next E.
Hypothesis seg_state : seg_layer_keeps state E.
Hypothesis seg_held : seg_layer_keeps backlog_held E.

Lemma tcp_kill_prio_run (fuel : nat) (pr : Z) (s : tcp_globals) (la lt : list ptr) :
  conn_lists_ok s la lt → current (tcp_conn_iter s) = None → (length la ≤ fuel)%nat →
  ((∀ q pq, q ∈ la → deref s q = Some pq → LWIP_MIN (TCP_PRIO_MAX E) pr < prio pq) →
   tcp_kill_prio E fuel pr s = Some s)
  ∧ (∀ x px, x ∈ la → deref s x = Some px → prio px ≤ LWIP_MIN (TCP_PRIO_MAX E) pr →
     ∃ a pa l1 l2 s',
       la = l1 ++ a :: l2 ∧ deref s a = Some pa
       ∧ prio pa ≤ LWIP_MIN (TCP_PRIO_MAX E) pr
       ∧ (∀ q pq, q ∈ l2 → deref s q = Some pq →
            prio pa < prio pq
            ∨ idle_ticks (tcp_ticks s) pq < idle_ticks (tcp_ticks s) pa)
       ∧ tcp_kill_prio E fuel pr s = Some s'
       ∧ conn_lists_ok s' (l1 ++ l2) lt
       ∧ deref s' a = None
       ∧ trace s' = free_active_events E a (reported pa) true
                    ++ report_events a pa ERR_ABRT ++ trace s
       ∧ (∀ q, q ∈ lt → deref s' q = deref s q)).
Proof.
  intros Hok Hcur Hfuel.
  pose proof Hok as (Ha & Ht & Hsa & Hstw & Hbl).
  destruct (kill_prio_scan_spec fuel s la (tcp_active_pcbs s) 0 None
              (LWIP_MIN (TCP_PRIO_MAX E) pr) Ha Hsa Hfuel) as (r & Hr & Hres).
  split.
  - intros Hnone. unfold tcp_kill_prio. rewrite Hr. cbn [mbind option_bind].
    destruct Hres as [[-> _]|(a & pa & l1 & l2 & -> & -> & Hpa & Hpr & _)]; [done|].
    exfalso. assert (LWIP_MIN (TCP_PRIO_MAX E) pr < prio pa); [|lia].
    apply (Hnone a pa); [|done]. apply elem_of_app. right. by left.
  - intros x px Hx Hpx Hsx.
    destruct Hres as [[-> Hlt]|(a & pa & l1 & l2 & -> & -> & Hpa & Hpr & _ & Hl2)].
    { pose proof (idle_ticks_nonneg (tcp_ticks s) px).
      destruct (Hlt x px Hx Hpx); lia. }
    assert (Hin : a ∈ l1 ++ a :: l2) by (apply elem_of_app; right; by left).
    destruct (reported_keeps pa) as (Hrn & Hrs & Hrb & _).
    set (x1 := set_trace (report_events a pa ERR_ABRT ++ trace s)
                 (set_heap (<[a := reported pa]> (heap s)) s)).
    assert (Hok1 : conn_lists_ok x1 (l1 ++ a :: l2) lt).
    { unfold conn_lists_ok. simpl. by apply (lists_ok_update _ _ _ _ _ a pa). }
    destruct (tcp_pcb_free_active_idle E seg_next seg_state seg_held fuel x1 a (reported pa)
                true l1 l2 lt Hok1) as (h' & hd' & Hrun & Hok' & Hna & _ & Hlt).
    { simpl. by rewrite lookup_insert_eq. }
    { done. }
    { rewrite length_app in Hfuel. lia. }
    exists a, pa, l1, l2. eexists. split; [done|]. split; [done|]. split; [done|].
    split; [exact Hl2|].
    split.
    { unfold tcp_kill_prio. rewrite Hr. cbn [mbind option_bind].
      rewrite (tcp_report_err_run a ERR_ABRT s pa) by done. cbn [mbind option_bind].
      exact Hrun. }
    split; [exact Hok'|]. split; [exact Hna|]. split.
    { simpl. by rewrite app_assoc. }
    intros q Hq. unfold deref. simpl. rewrite Hlt by done. simpl.
    rewrite lookup_insert_ne; [done|]. intros <-.
    by apply (lists_ok_disjoint _ _ _ _ _ _ Hok Hin).
Qed.

End KillPrio.

(** [tcp_kill_prio(prio)] on well-formed connection lists, outside a scan,
    with a segment layer that keeps links, states and backlog marks.  When
    every active connection has a priority above min(TCP_PRIO_MAX, prio)
    the call changes nothing.  Otherwise it ends the life of exactly one
    active connection, whose priority is at most min(TCP_PRIO_MAX, prio):
    the error callback is told ERR_ABRT, a RST is sent, the PCB is
    unlinked and freed, and the lists stay well-formed.  Every connection
    behind the victim in the list has a higher priority or has been idle
    for a shorter time. *)
Theorem tcp_kill_prio_victim (E : tcp_env) (fuel : nat) (pr : Z) (s : tcp_globals)
    (la lt : list ptr) :
  seg_layer_keeps next E → seg_layer_keeps state E → seg_layer_keeps backlog_held E →
  conn_lists_ok s la lt → current (tcp_conn_iter s) = None → (length la ≤ fuel)%nat →
  ((∀ q pq, q ∈ la → deref s q = Some pq → LWIP_MIN (TCP_PRIO_MAX E) pr < prio pq) →
   tcp_kill_prio E fuel pr s = Some s)
  ∧ (∀ x px, x ∈ la → deref s x = Some px → prio px ≤ LWIP_MIN (TCP_PRIO_MAX E) pr →
     ∃ a pa l1 l2 s',
       la = l1 ++ a :: l2 ∧ deref s a = Some pa
       ∧ prio pa ≤ LWIP_MIN (TCP_PRIO_MAX E) pr
       ∧ (∀ q pq, q ∈ l2 → deref s q = Some pq →
            prio pa < prio pq
            ∨ idle_ticks (tcp_ticks s) pq < idle_ticks (tcp_ticks s) pa)
       ∧ tcp_kill_prio E fuel pr s = Some s'
       ∧ conn_lists_ok s' (l1 ++ l2) lt
       ∧ deref s' a = None
       ∧ trace s' = free_active_events E a (reported pa) true
                    ++ report_events a pa ERR_ABRT ++ trace s
       ∧ (∀ q, q ∈ lt → deref s' q = deref s q)).
Proof. intros Hn Hs Hb. by apply tcp_kill_prio_run. Qed.

Lemma tcp_kill_prio_victim_witness :
  ∃ a pa s', deref kill_prio_state a = Some pa ∧ prio pa ≤ TCP_PRIO_NORMAL
    ∧ tcp_kill_prio E0 2 TCP_PRIO_NORMAL kill_prio_state = Some s'
    ∧ deref s' a = None.
Proof.
  destruct (tcp_kill_prio_victim E0 2 TCP_PRIO_NORMAL kill_prio_state
              [1%positive; 2%positive] []
              ltac:(E0_keeps) ltac:(E0_keeps) ltac:(E0_keeps)
              ltac:(concrete_lists_ok) eq_refl ltac:(simpl; lia)) as [_ H].
  destruct (H 2%positive (conn 3 90 None) ltac:(right; left) eq_refl ltac:(vm_compute; discriminate))
    as (a & pa & l1 & l2 & s' & _ & H1 & H2 & _ & H3 & _ & H4 & _).
  exists a, pa, s'. split; [exact H1|]. split; [exact H2|]. split; [exact H3|exact H4].
Defined.

(** ** [tcp_move_to_time_wait] and the list invariant *)

Lemma lists_ok_add_tw h ha ht la lt a q :
  lists_ok h ha ht la lt → h !! a = None →
  state q = TIME_WAIT → sndq q = None → next q = ht →
  lists_ok (<[a := q]> h) ha (Some a) la (a :: lt).
Proof.
  intros (Ha & Ht & Hsa & Hst & Hbl) Hnone Hs Hq Hn.
  assert (Hnla : a ∉ la).
  { intros Hin. destruct (lseg_lookup _ _ _ _ _ Ha Hin) as [x Hx]. by rewrite Hnone in Hx. }
  assert (Hnlt : a ∉ lt).
  { intros Hin. destruct (lseg_lookup _ _ _ _ _ Ht Hin) as [x Hx]. by rewrite Hnone in Hx. }
  split; [by apply lseg_insert_other|].
  split.
  { apply chain_cons. split; [done|]. exists q. rewrite lookup_insert_eq. split; [done|].
    rewrite Hn. by apply lseg_insert_other. }
  split.
  { intros b p Hb. rewrite lookup_insert_ne by (by intros ->). by apply Hsa. }
  split.
  { intros b p [->|Hb]%elem_of_cons.
    - rewrite lookup_insert_eq. by intros [= <-].
    - rewrite lookup_insert_ne by (by intros ->). by apply Hst. }
  intros b p l Hb. rewrite lookup_insert_ne by (by intros ->). intros Hp Hl.
  destruct (Hbl b p l Hb Hp Hl) as (lp & Hlp & Hls & Hcnt).
  exists lp. split.
  { rewrite lookup_insert_ne; [done|]. intros ->. by rewrite Hnone in Hlp. }
  split; [done|].
  rewrite (pending_count_ext h); [done|].
  intros x Hx. rewrite lookup_insert_ne; [done|]. by intros ->.
Qed.

Lemma tcp_move_to_time_wait_idle (fuel : nat) (s : tcp_globals) (a : ptr) (p : tcp_pcb)
    (l1 l2 lt : list ptr) :
  conn_lists_ok s (l1 ++ a :: l2) lt → heap s !! a = Some p →
  current (tcp_conn_iter s) = None → (length l1 ≤ fuel)%nat →
  ∃ h' hd',
    tcp_move_to_time_wait fuel a s
    = Some (set_trace (EvTimerNeeded :: EvSegsFree (sndq p) :: trace s)
              (set_heap (<[a := time_waiting (tcp_tw_pcbs s) p]> h')
                 (set_tcp_tw_pcbs (Some a) (set_tcp_active_pcbs hd' s))))
    ∧ lists_ok (<[a := time_waiting (tcp_tw_pcbs s) p]> h') hd' (Some a) (l1 ++ l2) (a :: lt)
    ∧ (∀ q, q ≠ a → set_next None <$> h' !! q = set_next None <$> released p (heap s) !! q)
    ∧ (∀ q, q ∈ lt → h' !! q = heap s !! q).
Proof.
  intros Hok Hp Hcur Hfuel. unfold conn_lists_ok in *.
  assert (Hin : a ∈ l1 ++ a :: l2) by (apply elem_of_app; right; by left).
  pose proof Hok as (Ha & Ht & Hsa & Hst & Hbl).
  pose proof (Hsa a p Hin Hp) as Hact.
  assert (Hhd : tcp_active_pcbs s ≠ None).
  { pose proof (chain_head _ _ _ Ha) as Hh. rewrite Hh. by destruct l1. }
  set (x1 := set_tcp_conn_iter (tcp_conn_iter s) s).
  assert (Hiwr : iter_will_remove fuel a ActiveList s = Some x1).
  { unfold iter_will_remove, tcp_iter_will_remove. simpl.
    rewrite (bool_decide_eq_true_2 (tcp_active_pcbs s ≠ None)) by done.
    cbn [LWIP_ASSERT mbind option_bind]. by rewrite Hcur. }
  destruct (tcp_rmv_chain fuel ActiveList a x1 l1 l2 Ha Hfuel)
    as (ap & h1 & hd1 & Hap & Hrmv & Hc1 & Ha1 & Hfr & Hun & _).
  change (heap x1) with (heap s) in Hap, Hfr, Hun.
  rewrite Hp in Hap. injection Hap as <-.
  assert (Hlis : ∀ l, backlog_held p = Some l →
            ∃ lp1 lp, h1 !! l = Some lp1 ∧ heap s !! l = Some lp ∧ l ≠ a
                  ∧ accepts_pending lp1 = accepts_pending lp
                  ∧ 0 < accepts_pending lp ≤ 255).
  { intros l Hl. destruct (Hbl a p l Hin Hp Hl) as (lp & Hlp & Hls & Hcnt).
    pose proof (pending_count_elem _ _ _ _ _ Hin Hp Hl).
    pose proof (Hun l) as Hu. rewrite Hlp in Hu.
    destruct (h1 !! l) as [lp1|] eqn:Hlp1; [|done]. simpl in Hu. apply (inj Some) in Hu.
    exists lp1, lp. split; [done|]. split; [done|].
    split. { intros ->. rewrite Hp in Hlp. injection Hlp as <-. by rewrite Hls in Hact. }
    split; [by apply (f_equal accepts_pending) in Hu|lia]. }
  set (x2 := set_heap h1 (set_list_head ActiveList hd1 x1)) in *.
  assert (Hpurge : tcp_pcb_purge a x2 =
            Some (set_heap (<[a := purged (set_next None p)]>
                              (released (set_next None p) h1))
                    (emit (EvSegsFree (sndq p)) x2))).
  { apply (tcp_pcb_purge_total a x2 (set_next None p)); [done|done|].
    intros l Hl. destruct (Hlis l Hl) as (lp1 & lp & Hlp1 & Hlp & Hne & Hap & Hr).
    exists lp1. split; [done|]. split; [done|]. by rewrite Hap. }
  assert (Hpp : set_next (tcp_tw_pcbs s) (set_state TIME_WAIT (purged (set_next None p)))
                = time_waiting (tcp_tw_pcbs s) p).
  { unfold time_waiting, purged. rewrite backlog_held_next.
    by destruct (backlog_held p). }
  assert (Hrel : released (set_next None p) h1 = released p h1).
  { unfold released. by rewrite backlog_held_next. }
  exists (released p h1), hd1.
  split.
  { unfold tcp_move_to_time_wait. rewrite (Hp : deref s a = Some p).
    cbn [mbind option_bind]. rewrite Hact. cbn [LWIP_ASSERT mbind option_bind].
    rewrite Hiwr. cbn [mbind option_bind]. rewrite Hrmv. cbn [mbind option_bind].
    rewrite Hpurge. cbn [mbind option_bind].
    unfold update, deref. simpl. rewrite lookup_insert_eq. simpl.
    unfold iter_will_prepend, tcp_iter_will_prepend. simpl. rewrite Hcur.
    replace (bool_decide (tcp_tw_pcbs s ≠ None) && bool_decide (tcp_tw_pcbs s = None))
      with false by (by destruct (tcp_tw_pcbs s)).
    simpl. unfold tcp_reg, update, deref. simpl. rewrite lookup_insert_eq. simpl.
    rewrite !insert_insert_eq, Hpp, Hrel. unfold emit. simpl. by destruct s. }
  assert (Hlt1 : ∀ q, q ∈ lt → h1 !! q = heap s !! q).
  { intros q Hq. apply Hfr.
    - intros ->. by apply (lists_ok_disjoint _ _ _ _ _ _ Hok Hin).
    - intros Hl. destruct (last l1) as [b|] eqn:Hb; [|done]. injection Hl as ->.
      apply last_Some in Hb as (l' & ->).
      apply (lists_ok_disjoint _ _ _ _ _ _ Hok) in Hq; [done|].
      apply elem_of_app. left. apply elem_of_app. right. by left. }
  split.
  { rewrite <- insert_delete_eq. apply (lists_ok_add_tw _ _ (tcp_tw_pcbs s)).
    - by apply (lists_ok_remove_active (heap s) (tcp_active_pcbs s)).
    - apply lookup_delete_eq.
    - done.
    - unfold time_waiting, purged. by destruct (backlog_held p).
    - done. }
  split.
  { intros q Hq. by apply released_unlinked. }
  intros q Hq.
  destruct (released_lookup p h1 q) as [->|(lp' & Hb' & _)]; [by apply Hlt1|].
  destruct (Hbl a p q Hin Hp Hb') as (lp & Hlp & Hls & _).
  destruct (Hst q lp Hq Hlp) as [Hs' _]. by rewrite Hs' in Hls.
Qed.

(** [tcp_move_to_time_wait] of a connection of the active list, outside a
    scan, on well-formed connection lists: the call returns and the lists
    are well-formed again, with the PCB gone from the active list and at
    the head of the tw list.  The PCB is purged (its segments handed to
    [tcp_segs_free], its backlog slot given back), in state TIME_WAIT and
    linked to the old head of the tw list; the PCBs of the tw list are
    unchanged; the iterator is untouched; one timer request is made. *)
Theorem tcp_move_to_time_wait_keeps_lists (fuel : nat) (s : tcp_globals) (a : ptr)
    (p : tcp_pcb) (l1 l2 lt : list ptr) :
  conn_lists_ok s (l1 ++ a :: l2) lt → deref s a = Some p →
  current (tcp_conn_iter s) = None → (length l1 ≤ fuel)%nat →
  ∃ s',
    tcp_move_to_time_wait fuel a s = Some s'
    ∧ conn_lists_ok s' (l1 ++ l2) (a :: lt)
    ∧ deref s' a = Some (time_waiting (tcp_tw_pcbs s) p)
    ∧ (∀ q, q ≠ a →
         set_next None <$> deref s' q = set_next None <$> released p (heap s) !! q)
    ∧ (∀ q, q ∈ lt → deref s' q = deref s q)
    ∧ tcp_conn_iter s' = tcp_conn_iter s
    ∧ trace s' = EvTimerNeeded :: EvSegsFree (sndq p) :: trace s.
Proof.
  intros Hok Hp Hcur Hfuel.
  destruct (tcp_move_to_time_wait_idle fuel s a p l1 l2 lt Hok Hp Hcur Hfuel)
    as (h' & hd' & Hrun & Hok' & Hun & Hlt).
  eexists. split; [exact Hrun|]. split; [exact Hok'|].
  assert (Hin : a ∈ l1 ++ a :: l2) by (apply elem_of_app; right; by left).
  unfold deref. simpl. split; [apply lookup_insert_eq|].
  split. { intros q Hq. rewrite lookup_insert_ne by done. by apply Hun. }
  split; [|done].
  intros q Hq. rewrite lookup_insert_ne; [by apply Hlt|].
  intros <-. by apply (lists_ok_disjoint _ _ _ _ _ _ Hok Hin).
Qed.

Lemma tcp_move_to_time_wait_keeps_lists_witness :
  ∃ s', tcp_move_to_time_wait 1 1%positive closing_state = Some s'
        ∧ conn_lists_ok s' [] [1%positive]
        ∧ (sndq <$> deref s' 1%positive) = Some None.
Proof.
  destruct (tcp_move_to_time_wait_keeps_lists 1 closing_state 1%positive
              (set_sndq (Some 7%positive) (set_rtime 3 (conn TCP_PRIO_NORMAL 0 None)))
              [] [] [] ltac:(concrete_lists_ok) eq_refl eq_refl ltac:(simpl; lia))
    as (s' & H1 & H2 & H3 & _).
  exists s'. split; [exact H1|]. split; [exact H2|]. rewrite H3. reflexivity.
Defined.

(** ** The close path *)

Lemma pending_count_update h l la a q :
  NoDup la → a ∈ la →
  pending_count (<[a := q]> h) l la
  = pending_count h l la - (if pending_on h l a then 1 else 0)
    + (if bool_decide (backlog_held q = Some l) then 1 else 0).
Proof.
  intros Hnd Hin. apply list_elem_of_split in Hin as (l1 & l2 & ->).
  apply NoDup_app in Hnd as (_ & Hd & Hnd). apply NoDup_cons in Hnd as (Hn2 & _).
  assert (Hn1 : a ∉ l1) by (intros H; apply (Hd a H); by left).
  rewrite !pending_count_app. simpl.
  rewrite (pending_count_ext h _ l l1), (pending_count_ext h _ l l2).
  - unfold pending_on at 1. rewrite lookup_insert_eq.
    destruct (pending_on h l a), (bool_decide (backlog_held q = Some l)); lia.
  - intros b Hb. rewrite lookup_insert_ne; [done|]. by intros ->.
  - intros b Hb. rewrite lookup_insert_ne; [done|]. by intros ->.
Qed.

Lemma pending_count_released h p l la :
  pending_count (released p h) l la = pending_count h l la.
Proof. apply pending_count_ext. intros a _. by apply released_field. Qed.

(** An assignment to a PCB of the active list that keeps its link and
    leaves it in an active state, and either keeps its backlog mark or
    takes the mark away and gives the slot back to the listener. *)
Lemma lists_ok_update_release h ha ht la lt a p q (rel : bool) :
  lists_ok h ha ht la lt → a ∈ la → h !! a = Some p →
  next q = next p → tcp_state_is_active (state q) = true →
  backlog_held q = (if rel then None else backlog_held p) →
  lists_ok (<[a := q]> (if rel then released p h else h)) ha ht la lt.
Proof.
  intros Hok Hin Hp Hn Hs Hb. pose proof (lists_ok_disjoint _ _ _ _ _ _ Hok Hin) as Hnt.
  destruct Hok as (Ha & Ht & Hsa & Hst & Hbl).
  pose proof (chain_NoDup _ _ _ Ha) as Hnd.
  set (h0 := if rel then released p h else h).
  assert (Hfld : ∀ {A} (f : tcp_pcb → A) b,
            (∀ v x, f (set_accepts_pending v x) = f x) → f <$> h0 !! b = f <$> h !! b).
  { intros A f b Hf. unfold h0. destruct rel; [by apply released_field|done]. }
  assert (Hp0 : ∃ p0, h0 !! a = Some p0 ∧ next p0 = next p).
  { pose proof (Hfld _ next a ltac:(done)) as H. rewrite Hp in H.
    destruct (h0 !! a) as [p0|]; [|done]. exists p0. split; [done|]. by injection H. }
  destruct Hp0 as (p0 & Hp0 & Hn0).
  split; [|split; [|split; [|split]]].
  - apply (lseg_insert_same_next _ _ _ _ _ p0); [done|congruence|].
    revert Ha. apply lseg_ext. intros b _. by apply Hfld.
  - apply lseg_insert_other; [done|]. revert Ht. apply lseg_ext. intros b _. by apply Hfld.
  - intros b pb Hb' Hpb. destruct (decide (a = b)) as [<-|Hne].
    + rewrite lookup_insert_eq in Hpb. by injection Hpb as <-.
    + rewrite lookup_insert_ne in Hpb by done.
      pose proof (Hfld _ state b ltac:(done)) as H. rewrite Hpb in H.
      destruct (h !! b) as [pb0|] eqn:Hb0; [|done]. injection H as ->. by apply (Hsa b).
  - intros b pb Hb' Hpb. rewrite lookup_insert_ne in Hpb by (by intros ->).
    pose proof (Hfld _ state b ltac:(done)) as H1.
    pose proof (Hfld _ sndq b ltac:(done)) as H2. rewrite Hpb in H1, H2.
    destruct (h !! b) as [pb0|] eqn:Hb0; [|done].
    injection H1 as ->. injection H2 as ->. by apply (Hst b).
  - intros b pb l Hb' Hpb Hl.
    (* the PCB [b] was counted on [l] before *)
    assert (Hold : ∃ pb0, h !! b = Some pb0 ∧ backlog_held pb0 = Some l).
    { destruct (decide (a = b)) as [<-|Hne].
      - rewrite lookup_insert_eq in Hpb. injection Hpb as <-. rewrite Hl in Hb.
        destruct rel; [done|]. by exists p.
      - rewrite lookup_insert_ne in Hpb by done.
        pose proof (Hfld _ backlog_held b ltac:(done)) as H. rewrite Hpb in H.
        destruct (h !! b) as [pb0|] eqn:Hb0; [|done]. simpl in H. apply (inj Some) in H.
        exists pb0. split; [done|]. by rewrite <- H. }
    destruct Hold as (pb0 & Hpb0 & Hl0).
    destruct (Hbl b pb0 l Hb' Hpb0 Hl0) as (lp & Hlp & Hls & Hcnt).
    assert (Hla : l ≠ a).
    { intros ->. rewrite Hp in Hlp. injection Hlp as <-.
      pose proof (Hsa a p Hin Hp) as Hact. by rewrite Hls in Hact. }
    rewrite lookup_insert_ne by done.
    assert (Hcount : pending_count (<[a := q]> h0) l la
                     = pending_count h l la
                       - (if bool_decide (backlog_held p = Some l) then 1 else 0)
                       + (if bool_decide (backlog_held q = Some l) then 1 else 0)).
    { assert (E1 : pending_count h0 l la = pending_count h l la).
      { unfold h0. destruct rel; [by rewrite pending_count_released|done]. }
      assert (E2 : pending_on h0 l a = bool_decide (backlog_held p = Some l)).
      { unfold pending_on. pose proof (Hfld _ backlog_held a ltac:(done)) as H.
        rewrite Hp0, Hp in H. rewrite Hp0. simpl in H. apply (inj Some) in H.
        by rewrite H. }
      by rewrite pending_count_update, E1, E2. }
    unfold h0 at 1. destruct rel.
    + rewrite Hb in Hcount. rewrite (bool_decide_eq_false_2 (None = Some l)) in Hcount by done.
      destruct (released_lookup p h l) as [Hr|(lp' & Hb'' & Hlp' & Hr)]; rewrite Hr.
      * exists lp. split; [done|]. split; [done|]. rewrite Hcount.
        destruct (bool_decide (backlog_held p = Some l)); lia.
      * rewrite Hlp in Hlp'. injection Hlp' as <-. eexists. split; [done|]. split; [done|].
        simpl. rewrite Hcount. rewrite bool_decide_eq_true_2 by done. lia.
    + exists lp. split; [done|]. split; [done|]. rewrite Hcount, Hb.
      destruct (bool_decide (backlog_held p = Some l)); lia.
Qed.

Lemma backlog_held_accepted (p : tcp_pcb) : backlog_held (accepted p) = None.
Proof.
  unfold accepted. destruct (backlog_held p) as [l|] eqn:Hb; [|done].
  unfold backlog_held. simpl. by rewrite has_flag_clear_same.
Qed.

Lemma backlog_accepted_released (s : tcp_globals) (a : ptr) (p : tcp_pcb) :
  deref s a = Some p →
  (∀ l, backlog_held p = Some l →
        ∃ lp, deref s l = Some lp ∧ l ≠ a ∧ 0 < accepts_pending lp ≤ 255) →
  tcp_backlog_accepted_internal a s
  = Some (set_heap (<[a := accepted p]> (released p (heap s))) s).
Proof.
  intros Hp Hl. unfold accepted, released.
  destruct (backlog_held p) as [l|] eqn:Hb.
  - destruct (Hl l eq_refl) as (lp & Hlp & Hne & Hap).
    unfold backlog_held in Hb. destruct (has_flag (flags p) TF_BACKLOGPEND) eqn:Hf; [|done].
    rewrite (backlog_accepted_pending s a l p lp) by (done || lia).
    unfold deref in Hlp. by rewrite Hlp.
  - rewrite (backlog_accepted_noop s a p Hp).
    2:{ unfold backlog_held in Hb. destruct (has_flag (flags p) TF_BACKLOGPEND); [by left|by right]. }
    rewrite insert_id by done. by destruct s.
Qed.

Section CloseProps.
Variable E : tcp_env.
Variable TCP_WND_MAX : tcp_pcb → Z.
Variable tcp_send_fin : tcp_pcb → err_t * tcp_pcb.
Hypothesis layer : close_layer_keeps E tcp_send_fin.

(** The three cases of the [switch] that send a FIN, for a PCB of the
    active list. *)
Lemma close_switch_fin (fuel : nat) (x : tcp_globals) (a : ptr) (p0 : tcp_pcb)
    (la lt : list ptr) :
  conn_lists_ok x la lt → a ∈ la → heap x !! a = Some p0 →
  state p0 = SYN_RCVD ∨ state p0 = ESTABLISHED ∨ state p0 = CLOSE_WAIT →
  ∃ x',
    close_shutdown_switch E tcp_send_fin fuel a x = Some ((tcp_send_fin p0).1, x')
    ∧ conn_lists_ok x' la lt
    ∧ heap x' !! a = Some (if (tcp_send_fin p0).1 =? ERR_OK
                           then fin_sent E (tcp_send_fin p0).2 else (tcp_send_fin p0).2)
    ∧ trace x' = (if (tcp_send_fin p0).1 =? ERR_OK then [EvOutput a] else []) ++ trace x
    ∧ tcp_conn_iter x' = tcp_conn_iter x.
Proof.
  intros Hok Hin Hp0 Hst.
  destruct layer as (Ln & Ls & Lh & Lu & Lf). destruct (Lf p0) as (Fn & Fs & Fh & Fu).
  destruct (tcp_send_fin p0) as [err p1] eqn:Hfin. simpl in Fn, Fs, Fh, Fu |- *.
  pose proof Hok as (Ha & Ht & Hsa & Hstw & Hbl).
  pose proof (Hsa a p0 Hin Hp0) as Hact.
  set (x1 := set_heap (<[a := p1]> (heap x)) x).
  assert (Hok1 : conn_lists_ok x1 la lt).
  { unfold conn_lists_ok, x1. simpl. by apply (lists_ok_update _ _ _ _ _ a p0). }
  assert (Hp1 : heap x1 !! a = Some p1) by (unfold x1; simpl; apply lookup_insert_eq).
  assert (Hact1 : tcp_state_is_active (fin_state (state p1)) = true).
  { rewrite Fs. by destruct Hst as [-> | [-> | ->]]. }
  (* the statements of the case on [ERR_OK], and the [tcp_output] *)
  set (h1 := if bool_decide (state p1 = SYN_RCVD) then released p1 (heap x1) else heap x1).
  set (x2 := set_trace (EvOutput a :: trace x) (set_heap (<[a := fin_sent E p1]> h1) x)).
  assert (Hok2 : conn_lists_ok x2 la lt).
  { unfold conn_lists_ok, x2, h1. simpl. destruct Ln as (Ln & _), Ls as (Ls & _), Lh as (Lh & _).
    destruct (bool_decide (state p1 = SYN_RCVD)) eqn:Hsyn.
    - apply (lists_ok_update_release _ _ _ _ _ a p1 _ true); try done.
      + unfold fin_sent. rewrite Ln, Hsyn. simpl. unfold accepted.
        by destruct (backlog_held p1).
      + unfold fin_sent. by rewrite Ls.
      + unfold fin_sent. rewrite Lh, Hsyn.
        change (backlog_held (accepted p1) = None). apply backlog_held_accepted.
    - apply (lists_ok_update_release _ _ _ _ _ a p1 _ false); try done.
      + unfold fin_sent. by rewrite Ln, Hsyn.
      + unfold fin_sent. by rewrite Ls.
      + unfold fin_sent. by rewrite Lh, Hsyn. }
  assert (Hlis : ∀ l, backlog_held p1 = Some l →
            ∃ lp, deref x1 l = Some lp ∧ l ≠ a ∧ 0 < accepts_pending lp ≤ 255).
  { intros l Hl. rewrite Fh in Hl.
    destruct (Hbl a p0 l Hin Hp0 Hl) as (lp & Hlp & Hls & Hcnt).
    pose proof (pending_count_elem _ _ _ _ _ Hin Hp0 Hl).
    assert (Hne : l ≠ a).
    { intros ->. rewrite Hp0 in Hlp. injection Hlp as <-. by rewrite Hls in Hact. }
    exists lp. split; [|split; [done|lia]].
    unfold deref, x1. simpl. by rewrite lookup_insert_ne. }
  exists (if err =? ERR_OK then x2 else x1).
  split.
  { unfold close_shutdown_switch, close_send_fin.
    rewrite (Hp0 : deref x a = Some p0). cbn [mbind option_bind].
    assert (Hup : update a (λ _, p1) x = Some x1) by exact (update_Some a (λ _, p1) x p0 Hp0).
    destruct (err =? ERR_OK) eqn:Herr.
    - destruct Hst as [Hs | [Hs | Hs]]; rewrite Hs, Hfin, Hup; cbn [mbind option_bind].
      + rewrite (backlog_accepted_released x1 a p1 Hp1 Hlis). cbn [mbind option_bind].
        unfold call_tcp_output, update, deref. simpl.
        repeat (rewrite ?lookup_insert_eq, ?insert_insert_eq, ?Herr; simpl).
        unfold x2, h1, fin_sent, x1, emit. rewrite Fs, Hs. simpl. by destruct x.
      + unfold call_tcp_output, update, deref. simpl.
        repeat (rewrite ?lookup_insert_eq, ?insert_insert_eq, ?Herr; simpl).
        unfold x2, h1, fin_sent, x1, emit. rewrite Fs, Hs. simpl.
        rewrite ?insert_insert_eq. by destruct x.
      + unfold call_tcp_output, update, deref. simpl.
        repeat (rewrite ?lookup_insert_eq, ?insert_insert_eq, ?Herr; simpl).
        unfold x2, h1, fin_sent, x1, emit. rewrite Fs, Hs. simpl.
        rewrite ?insert_insert_eq. by destruct x.
    - destruct Hst as [Hs | [Hs | Hs]]; rewrite Hs, Hfin, Hup; cbn [mbind option_bind];
        rewrite ?Herr; simpl; by rewrite ?Herr. }
  destruct (err =? ERR_OK); (split; [done|]).
  - split; [unfold x2; simpl; apply lookup_insert_eq|done].
  - split; [done|done].
Qed.


Lemma free_active_events_no_errf (a : ptr) (p : tcp_pcb) (rst : bool) (q : ptr)
    (cb : callback) (e : err_t) :
  EvErrf q cb e ∉ free_active_events E a p rst.
Proof.
  unfold free_active_events. intros H.
  destruct rst, (has_flag (flags p) TF_ACK_DELAY); simpl in H; closed_not_elem H.
Qed.

(** [tcp_pcb_free] of a PCB of the active list, outside a scan. *)
Lemma close_free (fuel : nat) (x : tcp_globals) (a : ptr) (q : tcp_pcb) (rst : bool)
    (l1 l2 lt : list ptr) :
  conn_lists_ok x (l1 ++ a :: l2) lt → heap x !! a = Some q →
  current (tcp_conn_iter x) = None → (length l1 ≤ fuel)%nat →
  ∃ s', tcp_pcb_free E fuel a rst None x = Some s'
    ∧ deref s' a = None
    ∧ conn_lists_ok s' (l1 ++ l2) lt
    ∧ trace s' = free_active_events E a q rst ++ trace x.
Proof.
  intros Hok Hq Hcur Hfuel. destruct layer as (Ln & Ls & Lh & _).
  destruct (tcp_pcb_free_active_idle E Ln Ls Lh fuel x a q rst l1 l2 lt Hok Hq Hcur Hfuel)
    as (h' & hd' & Hrun & Hok' & Hna & _).
  eexists. split; [exact Hrun|]. split; [exact Hna|]. split; [exact Hok'|done].
Qed.

Lemma user_flag_fin_sent (p1 : tcp_pcb) :
  has_flag (flags (fin_sent E p1)) TF_NOUSER = has_flag (flags p1) TF_NOUSER.
Proof.
  destruct layer as (_ & _ & _ & (Lu & _) & _). unfold fin_sent. rewrite Lu. simpl.
  destruct (bool_decide (state p1 = SYN_RCVD)); [|done].
  unfold accepted. destruct (backlog_held p1); [|done]. simpl.
  by apply has_flag_clear_other.
Qed.

Lemma state_fin_sent (p1 : tcp_pcb) : state (fin_sent E p1) = fin_state (state p1).
Proof. destruct layer as (_ & (Ls & _) & _). unfold fin_sent. by rewrite Ls. Qed.

(** The [switch] for a PCB of the active list in a state that sends a FIN,
    followed by the end of [tcp_close]. *)
Lemma close_after_switch (fuel : nat) (x : tcp_globals) (a : ptr) (p0 : tcp_pcb)
    (l1 l2 lt : list ptr) :
  conn_lists_ok x (l1 ++ a :: l2) lt → heap x !! a = Some p0 →
  state p0 = SYN_RCVD ∨ state p0 = ESTABLISHED ∨ state p0 = CLOSE_WAIT →
  current (tcp_conn_iter x) = None → (length l1 ≤ fuel)%nat →
  ∃ s',
    ('(err, x') ← close_shutdown_switch E tcp_send_fin fuel a x;
     if negb (err =? ERR_OK) then tcp_pcb_free E fuel a true None x' else Some x') = Some s'
    ∧ state <$> deref s' a
      = (if (tcp_send_fin p0).1 =? ERR_OK then Some (fin_state (state p0)) else None)
    ∧ (∀ p', deref s' a = Some p' →
         has_flag (flags p') TF_NOUSER = has_flag (flags p0) TF_NOUSER)
    ∧ conn_lists_ok s' (if (tcp_send_fin p0).1 =? ERR_OK then l1 ++ a :: l2 else l1 ++ l2) lt
    ∧ trace s' = (if (tcp_send_fin p0).1 =? ERR_OK then [EvOutput a]
                  else free_active_events E a (tcp_send_fin p0).2 true) ++ trace x.
Proof.
  intros Hok Hp0 Hst Hcur Hfuel.
  assert (Hin : a ∈ l1 ++ a :: l2) by (apply elem_of_app; right; by left).
  destruct (close_switch_fin fuel x a p0 _ lt Hok Hin Hp0 Hst)
    as (x' & Hrun & Hok' & Ha' & Htr & Hit).
  destruct layer as (_ & _ & _ & _ & Lf). destruct (Lf p0) as (_ & Fs & _ & Fu).
  rewrite Hrun. cbn [mbind option_bind].
  destruct ((tcp_send_fin p0).1 =? ERR_OK) eqn:Herr; cbn [negb].
  - exists x'. split; [done|]. unfold deref. rewrite Ha'. simpl.
    split; [by rewrite state_fin_sent, Fs|].
    split; [intros p' [= <-]; by rewrite user_flag_fin_sent|].
    split; [done|]. done.
  - destruct (close_free fuel x' a _ true l1 l2 lt Hok' Ha') as (s' & Hfree & Hna & Hok2 & Htr2).
    { by rewrite Hit. }
    { done. }
    exists s'.
    split; [done|]. rewrite Hna. split; [done|]. split; [done|]. split; [done|].
    by rewrite Htr2, Htr.
Qed.

Lemma tcp_shut_tx_run (fuel : nat) (s : tcp_globals) (a : ptr) (p : tcp_pcb)
    (la lt : list ptr) :
  conn_lists_ok s la lt → deref s a = Some p →
  tcp_pcb_is_listen p = false → has_flag (flags p) TF_NOUSER = false →
  (state p = SYN_RCVD ∨ state p = ESTABLISHED ∨ state p = CLOSE_WAIT → a ∈ la) →
  ∃ s' p',
    tcp_shut_tx E TCP_WND_MAX tcp_send_fin fuel a s = Some (shut_tx_err tcp_send_fin p, s')
    ∧ (¬ (state p = SYN_RCVD ∨ state p = ESTABLISHED ∨ state p = CLOSE_WAIT) →
       shut_tx_err tcp_send_fin p = ERR_CONN ∧ s' = s)
    ∧ deref s' a = Some p'
    ∧ state p' = shut_tx_state tcp_send_fin p
    ∧ has_flag (flags p') TF_NOUSER = false
    ∧ conn_lists_ok s' la lt
    ∧ trace s' = (if shut_tx_err tcp_send_fin p =? ERR_OK then [EvOutput a] else [])
                 ++ trace s
    ∧ tcp_conn_iter s' = tcp_conn_iter s.
Proof.
  intros Hok Hp Hnl Hu Hon.
  unfold tcp_shut_tx. rewrite Hp. cbn [mbind option_bind]. rewrite Hnl, Hu.
  cbn [negb LWIP_ASSERT mbind option_bind].
  assert (Hfin : state p = SYN_RCVD ∨ state p = ESTABLISHED ∨ state p = CLOSE_WAIT →
    ∃ s' p',
      tcp_close_shutdown E TCP_WND_MAX tcp_send_fin fuel a false s
      = Some ((tcp_send_fin p).1, s')
      ∧ deref s' a = Some p'
      ∧ state p' = (if (tcp_send_fin p).1 =? ERR_OK then fin_state (state p) else state p)
      ∧ has_flag (flags p') TF_NOUSER = false
      ∧ conn_lists_ok s' la lt
      ∧ trace s' = (if (tcp_send_fin p).1 =? ERR_OK then [EvOutput a] else []) ++ trace s
      ∧ tcp_conn_iter s' = tcp_conn_iter s).
  { intros Hst.
    destruct (close_switch_fin fuel s a p la lt Hok (Hon Hst) Hp Hst)
      as (x' & Hrun & Hok' & Ha' & Htr & Hit).
    destruct layer as (_ & _ & _ & _ & Lf). destruct (Lf p) as (_ & Fs & _ & Fu).
    exists x'. eexists. split.
    { unfold tcp_close_shutdown. rewrite Hp. cbn [mbind option_bind]. rewrite Hnl.
      cbn [negb LWIP_ASSERT mbind option_bind andb]. exact Hrun. }
    split; [exact Ha'|].
    destruct ((tcp_send_fin p).1 =? ERR_OK).
    - split; [by rewrite state_fin_sent, Fs|]. split; [by rewrite user_flag_fin_sent, Fu|done].
    - split; [done|]. split; [by rewrite Fu|done]. }
  unfold shut_tx_state, shut_tx_err.
  destruct (state p) eqn:Hs;
    try (destruct Hfin as (s' & p' & H1 & H2 & H3 & H4 & H5 & H6 & H7); [by auto|];
         exists s', p'; split; [exact H1|]; split; [intros Hno; exfalso; apply Hno; by auto|];
         split; [exact H2|]; split; [exact H3|]; split; [exact H4|]; split; [exact H5|];
         split; [exact H6|exact H7]);
    try (exists s, p; split; [done|]; split; [done|]; split; [done|]; split; [by rewrite Hs|];
         split; [done|]; split; [done|]; split; done).
Qed.


Lemma unreferenced_keeps (p : tcp_pcb) :
  next (unreferenced p) = next p ∧ state (unreferenced p) = state p
  ∧ backlog_held (unreferenced p) = backlog_held p
  ∧ has_flag (flags (unreferenced p)) TF_NOUSER = true.
Proof.
  unfold unreferenced. split; [done|]. split; [done|].
  split; [by apply backlog_held_set_flags, has_flag_set_other|].
  by apply has_flag_set_same.
Qed.

Lemma tcp_close_run (fuel : nat) (s : tcp_globals) (a : ptr) (p : tcp_pcb)
    (l1 l2 lt : list ptr) :
  conn_lists_ok s (l1 ++ a :: l2) lt → deref s a = Some p →
  has_flag (flags p) TF_NOUSER = false →
  current (tcp_conn_iter s) = None → (length l1 ≤ fuel)%nat →
  ∃ s',
    tcp_close E TCP_WND_MAX tcp_send_fin fuel a s = Some s'
    ∧ state <$> deref s' a = close_result TCP_WND_MAX tcp_send_fin p
    ∧ (∀ p', deref s' a = Some p' → has_flag (flags p') TF_NOUSER = true)
    ∧ conn_lists_ok s'
        (close_lists (close_result TCP_WND_MAX tcp_send_fin p) l1 a l2 lt).1
        (close_lists (close_result TCP_WND_MAX tcp_send_fin p) l1 a l2 lt).2
    ∧ trace s' = close_events E TCP_WND_MAX tcp_send_fin a p ++ trace s.
Proof.
  intros Hok Hp Hu Hcur Hfuel.
  assert (Hin : a ∈ l1 ++ a :: l2) by (apply elem_of_app; right; by left).
  pose proof (proj1 (proj2 (proj2 Hok)) a p Hin Hp) as Hact.
  destruct (active_state_facts _ Hact) as (Hnl & _).
  destruct (unreferenced_keeps p) as (Un & Us & Uh & Uu).
  set (pu := unreferenced p) in *.
  set (su := set_heap (<[a := pu]> (heap s)) s).
  assert (Hoku : conn_lists_ok su (l1 ++ a :: l2) lt).
  { unfold conn_lists_ok, su. simpl. by apply (lists_ok_update _ _ _ _ _ a p). }
  assert (Hpu : heap su !! a = Some pu) by (unfold su; simpl; apply lookup_insert_eq).
  (* the end of [tcp_close] *)
  assert (Hstart : ∀ r,
    ('(err, x) ← tcp_close_shutdown E TCP_WND_MAX tcp_send_fin fuel a true su;
     if negb (err =? ERR_OK) then tcp_pcb_free E fuel a true None x else Some x) = r →
    tcp_close E TCP_WND_MAX tcp_send_fin fuel a s = r).
  { intros r <-. unfold tcp_close. rewrite Hp. cbn [mbind option_bind].
    unfold tcp_pcb_is_listen. rewrite Hnl, Hu. cbn [negb LWIP_ASSERT mbind option_bind].
    by rewrite (update_Some _ _ _ _ Hp). }
  (* the cases that go through the [switch] *)
  assert (Hsw : ∀ r,
    (if bool_decide (state p = ESTABLISHED) || bool_decide (state p = CLOSE_WAIT)
     then rcv_wnd pu =? TCP_WND_MAX pu else true) = true →
    ('(err, x) ← close_shutdown_switch E tcp_send_fin fuel a su;
     if negb (err =? ERR_OK) then tcp_pcb_free E fuel a true None x else Some x) = r →
    tcp_close E TCP_WND_MAX tcp_send_fin fuel a s = r).
  { intros r Hc <-. apply Hstart. unfold tcp_close_shutdown.
    rewrite (Hpu : deref su a = Some pu). cbn [mbind option_bind].
    unfold tcp_pcb_is_listen. rewrite Us, Hnl. cbn [negb LWIP_ASSERT mbind option_bind andb].
    destruct (bool_decide (state p = ESTABLISHED) || bool_decide (state p = CLOSE_WAIT));
      [|done].
    by rewrite Hc. }
  assert (Hfin : state p = SYN_RCVD ∨ state p = ESTABLISHED ∨ state p = CLOSE_WAIT →
    (if bool_decide (state p = ESTABLISHED) || bool_decide (state p = CLOSE_WAIT)
     then rcv_wnd pu =? TCP_WND_MAX pu else true) = true →
    ∃ s',
      tcp_close E TCP_WND_MAX tcp_send_fin fuel a s = Some s'
      ∧ state <$> deref s' a
        = (if (tcp_send_fin pu).1 =? ERR_OK then Some (fin_state (state p)) else None)
      ∧ (∀ p', deref s' a = Some p' → has_flag (flags p') TF_NOUSER = true)
      ∧ conn_lists_ok s'
          (if (tcp_send_fin pu).1 =? ERR_OK then l1 ++ a :: l2 else l1 ++ l2) lt
      ∧ trace s' = (if (tcp_send_fin pu).1 =? ERR_OK then [EvOutput a]
                    else free_active_events E a (tcp_send_fin pu).2 true) ++ trace s).
  { intros Hst Hc.
    destruct (close_after_switch fuel su a pu l1 l2 lt Hoku Hpu) as
      (s' & Hrun & H1 & H2 & H3 & H4); [by rewrite Us|done|done|].
    exists s'. split; [by apply Hsw|]. rewrite Us in H1. split; [done|].
    split; [intros p' Hp'; by rewrite (H2 p' Hp')|]. done. }
  (* the states that the [switch] leaves alone *)
  assert (Hkeep : state p = FIN_WAIT_1 ∨ state p = FIN_WAIT_2 ∨ state p = CLOSING
                  ∨ state p = LAST_ACK →
    tcp_close E TCP_WND_MAX tcp_send_fin fuel a s = Some su).
  { intros Hst. apply Hsw.
    - by destruct Hst as [-> | [-> | [-> | ->]]].
    - unfold close_shutdown_switch. rewrite (Hpu : deref su a = Some pu).
      cbn [mbind option_bind]. rewrite ?Us.
      by destruct Hst as [-> | [-> | [-> | ->]]]. }
  assert (Hkept : state p = FIN_WAIT_1 ∨ state p = FIN_WAIT_2 ∨ state p = CLOSING
                  ∨ state p = LAST_ACK →
    ∃ s',
      tcp_close E TCP_WND_MAX tcp_send_fin fuel a s = Some s'
      ∧ state <$> deref s' a = Some (state p)
      ∧ (∀ p', deref s' a = Some p' → has_flag (flags p') TF_NOUSER = true)
      ∧ conn_lists_ok s' (l1 ++ a :: l2) lt
      ∧ trace s' = [] ++ trace s).
  { intros Hst. exists su. split; [by apply Hkeep|].
    unfold deref. rewrite Hpu. simpl. split; [by rewrite ?Us|].
    split; [by intros p' [= <-]|]. split; [done|]. done. }
  (* unread data: the RST *)
  set (rst := EvRst (snd_nxt pu) (rcv_nxt pu) (local_ip pu) (remote_ip pu)
                    (local_port pu) (remote_port pu)).
  assert (Hunread : state p = ESTABLISHED ∨ state p = CLOSE_WAIT →
    (rcv_wnd pu =? TCP_WND_MAX pu) = false →
    ∀ r,
      ((if bool_decide (state p = ESTABLISHED)
        then tcp_move_to_time_wait fuel a (emit rst su)
        else x ← update a (λ p, set_flags (clear_flag (flags p) TF_ACK_DELAY) p)
                   (emit rst su);
             tcp_pcb_free E fuel a false None x)) = Some r →
      tcp_close E TCP_WND_MAX tcp_send_fin fuel a s = Some r).
  { intros Hst Hc r Hr. apply Hstart. unfold tcp_close_shutdown.
    rewrite (Hpu : deref su a = Some pu). cbn [mbind option_bind].
    unfold tcp_pcb_is_listen. rewrite Us, Hnl. cbn [negb LWIP_ASSERT mbind option_bind andb].
    assert (Hb : bool_decide (state p = ESTABLISHED) || bool_decide (state p = CLOSE_WAIT)
                 = true) by (by destruct Hst as [-> | ->]).
    rewrite Hb, Hc, Uu. cbn [negb LWIP_ASSERT mbind option_bind].
    fold rst. rewrite Hr. done. }
  unfold close_result, close_events. fold pu. fold rst.
  destruct (state p) eqn:Hs; try discriminate Hact.
  - (* SYN_SENT *)
    destruct (close_free fuel su a pu false l1 l2 lt Hoku Hpu Hcur Hfuel)
      as (s' & Hfree & Hna & Hok' & Htr).
    exists s'. split.
    { apply Hsw; [done|]. unfold close_shutdown_switch.
      rewrite (Hpu : deref su a = Some pu). cbn [mbind option_bind]. rewrite ?Us.
      rewrite Hfree. done. }
    rewrite Hna. split; [done|]. split; [done|]. split; [done|]. done.
  - (* SYN_RCVD *)
    destruct Hfin as (s' & H1 & H2 & H3 & H4 & H5); [by auto|done|].
    exists s'. split; [done|]. split; [done|]. split; [done|].
    split; [|done]. by destruct ((tcp_send_fin pu).1 =? ERR_OK).
  - (* ESTABLISHED *)
    destruct (rcv_wnd pu =? TCP_WND_MAX pu) eqn:Hc; cbn [negb].
    + destruct Hfin as (s' & H1 & H2 & H3 & H4 & H5); [by auto|done|].
      exists s'. split; [done|]. split; [done|]. split; [done|].
      split; [|done]. by destruct ((tcp_send_fin pu).1 =? ERR_OK).
    + destruct (tcp_move_to_time_wait_idle fuel (emit rst su) a pu l1 l2 lt)
        as (h' & hd' & Hrun & Hok' & _); [done|done|done|done|].
      eexists.
      split; [apply Hunread; [by left|done|exact Hrun]|].
      unfold deref. simpl. rewrite lookup_insert_eq. simpl.
      split; [done|]. split.
      { intros p' [= <-]. unfold time_waiting, purged. simpl.
        destruct (backlog_held pu); simpl; [|done].
        rewrite has_flag_clear_other; done. }
      split; [exact Hok'|]. done.
  - destruct Hkept as (s' & H); [by left|]. by exists s'.
  - destruct Hkept as (s' & H); [by right; left|]. by exists s'.
  - (* CLOSE_WAIT *)
    destruct (rcv_wnd pu =? TCP_WND_MAX pu) eqn:Hc; cbn [negb].
    + destruct Hfin as (s' & H1 & H2 & H3 & H4 & H5); [by right; right|done|].
      exists s'. split; [done|]. split; [done|]. split; [done|].
      split; [|done]. by destruct ((tcp_send_fin pu).1 =? ERR_OK).
    + set (pc := set_flags (clear_flag (flags pu) TF_ACK_DELAY) pu).
      set (x := set_heap (<[a := pc]> (heap su)) (emit rst su)).
      assert (Hokx : conn_lists_ok x (l1 ++ a :: l2) lt).
      { unfold conn_lists_ok, x. simpl. apply (lists_ok_update _ _ _ _ _ a pu); try done.
        by apply backlog_held_set_flags, has_flag_clear_other. }
      destruct (close_free fuel x a pc false l1 l2 lt Hokx) as (s' & Hfree & Hna & Hok' & Htr).
      { unfold x. simpl. apply lookup_insert_eq. }
      { done. }
      { done. }
      exists s'.
      split.
      { apply Hunread; [by right|done|].
        rewrite (bool_decide_eq_false_2 (CLOSE_WAIT = ESTABLISHED)) by done.
        rewrite (update_Some _ _ _ pu) by done. exact Hfree. }
      rewrite Hna. split; [done|]. split; [done|]. split; [done|].
      by rewrite Htr, <- app_assoc.
  - destruct Hkept as (s' & H); [by right; right; left|]. by exists s'.
  - destruct Hkept as (s' & H); [by right; right; right|]. by exists s'.
Qed.

Lemma free_active_events_rst (a : ptr) (p : tcp_pcb) (rst : bool) :
  (∃ e, e ∈ free_active_events E a p rst ∧ is_rst e = true) ↔ rst = true.
Proof.
  unfold free_active_events. split.
  - intros (e & He & Hr). destruct rst; [done|].
    destruct (has_flag (flags p) TF_ACK_DELAY); simpl in He;
      repeat (apply elem_of_cons in He as [->|He]; [discriminate Hr|]);
      by apply elem_of_nil in He.
  - intros ->. eexists. split; [right; right; by left|done].
Qed.

Lemma close_events_no_errf (a : ptr) (p : tcp_pcb) (q : ptr) (cb : callback) (e : err_t) :
  EvErrf q cb e ∉ close_events E TCP_WND_MAX tcp_send_fin a p.
Proof.
  unfold close_events. intros H.
  assert (Hfin : EvErrf q cb e
                 ∉ (if (tcp_send_fin (unreferenced p)).1 =? ERR_OK then [EvOutput a]
                    else free_active_events E a (tcp_send_fin (unreferenced p)).2 true)).
  { destruct (_ =? _); [intros H'; closed_not_elem H'|apply free_active_events_no_errf]. }
  destruct (state p); try (by apply elem_of_nil in H); try done.
  - by apply free_active_events_no_errf in H.
  - destruct (negb _); [closed_not_elem H|done].
  - destruct (negb _); [|done].
    apply elem_of_app in H as [H|H]; [by apply free_active_events_no_errf in H|].
    closed_not_elem H.
Qed.

Lemma close_events_rst (a : ptr) (p : tcp_pcb) :
  (∃ e, e ∈ close_events E TCP_WND_MAX tcp_send_fin a p ∧ is_rst e = true)
  ↔ close_sends_rst TCP_WND_MAX tcp_send_fin p = true.
Proof.
  unfold close_events, close_sends_rst.
  set (pu := unreferenced p).
  assert (Hfin : (∃ e, e ∈ (if (tcp_send_fin pu).1 =? ERR_OK then [EvOutput a]
                            else free_active_events E a (tcp_send_fin pu).2 true)
                       ∧ is_rst e = true)
                 ↔ negb ((tcp_send_fin pu).1 =? ERR_OK) = true).
  { destruct (_ =? _); simpl.
    - split; [|done]. intros (e & He & Hr).
      apply elem_of_cons in He as [->|He]; [done|by apply elem_of_nil in He].
    - rewrite free_active_events_rst. done. }
  assert (Hnil : (∃ e : event, e ∈ [] ∧ is_rst e = true) ↔ false = true).
  { split; [|done]. by intros (e & He%elem_of_nil & _). }
  destruct (state p); try done.
  - rewrite free_active_events_rst. done.
  - destruct (negb (rcv_wnd pu =? TCP_WND_MAX pu)); cbn [orb]; [|done].
    split; [done|]. intros _. eexists. split; [right; right; by left|done].
  - destruct (negb (rcv_wnd pu =? TCP_WND_MAX pu)); cbn [orb]; [|done].
    split; [done|]. intros _. eexists. split; [apply elem_of_app; right; by left|done].
Qed.

End CloseProps.


(** [tcp_shut_tx] of a PCB that is no listener and that the user holds,
    on well-formed connection lists.  In a state other than SYN_RCVD,
    ESTABLISHED and CLOSE_WAIT the call returns ERR_CONN and changes
    nothing.  In these three states (the PCB is then on the active list)
    it returns what [tcp_send_fin] returns; on ERR_OK the PCB is in
    FIN_WAIT_1, or in LAST_ACK when it was in CLOSE_WAIT, and [tcp_output]
    is called once; on an error the state is kept.  The PCB is never
    freed, keeps its user reference, and the lists and the iterator are as
    before. *)
Theorem tcp_shut_tx_outcome (E : tcp_env) (TCP_WND_MAX : tcp_pcb → Z)
    (tcp_send_fin : tcp_pcb → err_t * tcp_pcb) (fuel : nat) (s : tcp_globals) (a : ptr)
    (p : tcp_pcb) (la lt : list ptr) :
  close_layer_keeps E tcp_send_fin →
  conn_lists_ok s la lt → deref s a = Some p →
  tcp_pcb_is_listen p = false → has_flag (flags p) TF_NOUSER = false →
  (state p = SYN_RCVD ∨ state p = ESTABLISHED ∨ state p = CLOSE_WAIT → a ∈ la) →
  ∃ s' p',
    tcp_shut_tx E TCP_WND_MAX tcp_send_fin fuel a s = Some (shut_tx_err tcp_send_fin p, s')
    ∧ (¬ (state p = SYN_RCVD ∨ state p = ESTABLISHED ∨ state p = CLOSE_WAIT) →
       shut_tx_err tcp_send_fin p = ERR_CONN ∧ s' = s)
    ∧ deref s' a = Some p'
    ∧ state p' = shut_tx_state tcp_send_fin p
    ∧ has_flag (flags p') TF_NOUSER = false
    ∧ conn_lists_ok s' la lt
    ∧ trace s' = (if shut_tx_err tcp_send_fin p =? ERR_OK then [EvOutput a] else [])
                 ++ trace s
    ∧ tcp_conn_iter s' = tcp_conn_iter s.
Proof. intros Hl. by apply tcp_shut_tx_run. Qed.

Lemma close_layer_keeps_0 : close_layer_keeps E0 tcp_send_fin0.
Proof.
  split; [E0_keeps|]. split; [E0_keeps|]. split; [E0_keeps|].
  split; [|intros p; repeat split; reflexivity].
  repeat split; intros; try reflexivity. simpl. unfold tcp_output0. simpl.
  apply has_flag_clear_other. reflexivity.
Qed.


Lemma tcp_shut_tx_outcome_witness :
  ∃ s' p', tcp_shut_tx E0 TCP_WND_MAX0 tcp_send_fin0 1 1%positive closing_state
           = Some (ERR_OK, s')
           ∧ deref s' 1%positive = Some p' ∧ state p' = FIN_WAIT_1.
Proof.
  destruct (tcp_shut_tx_outcome E0 TCP_WND_MAX0 tcp_send_fin0 1 closing_state 1%positive
              (set_sndq (Some 7%positive) (set_rtime 3 (conn TCP_PRIO_NORMAL 0 None)))
              [1%positive] [] close_layer_keeps_0 ltac:(concrete_lists_ok) eq_refl eq_refl
              eq_refl ltac:(intros _; by left))
    as (s' & p' & H1 & _ & H2 & H3 & _).
  exists s', p'. split; [exact H1|]. split; [exact H2|exact H3].
Defined.

(** ** [tcp_close_listen] and the list invariant *)

Lemma pending_count_pointwise h h' l la :
  (∀ x, x ∈ la → pending_on h' l x = pending_on h l x) →
  pending_count h' l la = pending_count h l la.
Proof.
  induction la as [|x la IH]; intros H; simpl; [done|].
  rewrite IH by (intros y Hy; apply H; by right).
  by rewrite (H x) by (by left).
Qed.

Lemma backlog_held_unref (a l : ptr) (p : tcp_pcb) :
  backlog_held (unref_listener a p) = Some l ↔ backlog_held p = Some l ∧ l ≠ a.
Proof.
  unfold unref_listener, backlog_held.
  destruct (bool_decide (listener p = Some a)) eqn:Hb; simpl.
  - apply bool_decide_eq_true_1 in Hb. rewrite Hb.
    destruct (has_flag (flags p) TF_BACKLOGPEND); split; try done.
    + by intros [[= ->] ?].
    + by intros [? _].
  - apply bool_decide_eq_false_1 in Hb.
    destruct (has_flag (flags p) TF_BACKLOGPEND); split; try done.
    + intros H. split; [done|]. intros ->. by rewrite H in Hb.
    + by intros [? _].
    + by intros [? _].
Qed.

(** [tcp_close_listen] of a listener in LISTEN on the listen list, on
    well-linked disjoint lists whose connection lists are well-formed: the
    call returns and the connection lists are well-formed again, with the
    same members.  No connection is counted in the backlog of the freed
    listener any more, and the counts of the other listeners still cover
    their pending connections. *)
Theorem tcp_close_listen_keeps_lists (fuel : nat) (s : tcp_globals)
    (ls : pcb_list → list ptr) (a : ptr) (lp : tcp_pcb) :
  lists_are s ls → lists_disjoint ls → (∀ l, length (ls l) ≤ fuel)%nat →
  conn_lists_ok s (ls ActiveList) (ls TwList) →
  deref s a = Some lp → state lp = LISTEN → a ∈ ls ListenList →
  ∃ s',
    tcp_close_listen fuel a s = Some s'
    ∧ conn_lists_ok s' (ls ActiveList) (ls TwList)
    ∧ (∀ q p', q ∈ ls ActiveList → deref s' q = Some p' → backlog_held p' ≠ Some a).
Proof.
  intros Hls Hdisj Hlen Hok Hp Hst Hin.
  destruct (tcp_close_listen_run fuel s ls a lp Hls Hdisj Hlen Hp Hst Hin)
    as (s' & Hrun & Hls' & Hna & Hconn & Hoth & _).
  destruct Hok as (Ha & Ht & Hsa & Hstw & Hbl).
  exists s'. split; [exact Hrun|].
  (* the connections keep all but [listener] *)
  assert (Hnew : ∀ q p', q ∈ ls ActiveList ∨ q ∈ ls TwList → heap s' !! q = Some p' →
            ∃ p, heap s !! q = Some p ∧ p' = unref_listener a p).
  { intros q p' Hq Hp'.
    assert (Hsome : is_Some (heap s !! q)).
    { destruct Hq as [Hq|Hq]; [by apply (lseg_lookup _ _ _ _ _ Ha Hq)
                              |by apply (lseg_lookup _ _ _ _ _ Ht Hq)]. }
    destruct Hsome as [p Hqp]. exists p. split; [done|].
    pose proof (Hconn q p Hq Hqp) as H. unfold deref in H. rewrite Hp' in H.
    by injection H. }
  assert (Hunref : ∀ p, state (unref_listener a p) = state p
                        ∧ sndq (unref_listener a p) = sndq p).
  { intros p. unfold unref_listener. by destruct (bool_decide _). }
  split; [|intros q p' Hq Hp' Hb].
  2:{ destruct (Hnew q p' (or_introl Hq) Hp') as (p & _ & ->).
      apply backlog_held_unref in Hb as [_ Hb]. done. }
  split; [apply (Hls' ActiveList)|]. split; [apply (Hls' TwList)|].
  split; [|split].
  - intros q p' Hq Hp'. destruct (Hnew q p' (or_introl Hq) Hp') as (p & Hqp & ->).
    rewrite (proj1 (Hunref p)). by apply (Hsa q).
  - intros q p' Hq Hp'. destruct (Hnew q p' (or_intror Hq) Hp') as (p & Hqp & ->).
    rewrite (proj1 (Hunref p)), (proj2 (Hunref p)). by apply (Hstw q).
  - intros q p' l Hq Hp' Hl. destruct (Hnew q p' (or_introl Hq) Hp') as (p & Hqp & ->).
    apply backlog_held_unref in Hl as [Hl Hla].
    destruct (Hbl q p l Hq Hqp Hl) as (lp0 & Hlp0 & Hls0 & Hcnt).
    assert (Hnla : l ∉ ls ActiveList).
    { intros Hl'. pose proof (Hsa l lp0 Hl' Hlp0) as H. by rewrite Hls0 in H. }
    assert (Hnlt : l ∉ ls TwList).
    { intros Hl'. destruct (Hstw l lp0 Hl' Hlp0) as [H _]. by rewrite Hls0 in H. }
    pose proof (Hoth l Hnla Hnlt Hla) as Hu. unfold deref in Hu. rewrite Hlp0 in Hu.
    destruct (heap s' !! l) as [lp1|] eqn:Hlp1; [|done]. simpl in Hu. apply (inj Some) in Hu.
    exists lp1. split; [done|].
    split; [apply (f_equal state) in Hu; simpl in Hu; congruence|].
    replace (accepts_pending lp1) with (accepts_pending lp0)
      by (by apply (f_equal accepts_pending) in Hu).
    rewrite (pending_count_pointwise (heap s)); [done|].
    intros x Hx. unfold pending_on.
    destruct (lseg_lookup _ _ _ _ _ Ha Hx) as [px Hpx].
    pose proof (Hconn x px (or_introl Hx) Hpx) as Hx'. unfold deref in Hx'.
    rewrite Hx', Hpx.
    destruct (bool_decide (backlog_held px = Some l)) eqn:Hb.
    + apply bool_decide_eq_true_1 in Hb. apply bool_decide_eq_true_2.
      by apply backlog_held_unref.
    + apply bool_decide_eq_false_1 in Hb. apply bool_decide_eq_false_2.
      intros [H _]%backlog_held_unref. done.
Qed.

Lemma tcp_close_listen_keeps_lists_witness :
  ∃ s', tcp_close_listen 1 1%positive backlog_state = Some s'
        ∧ conn_lists_ok s' [2%positive] [].
Proof.
  destruct (tcp_close_listen_keeps_lists 1 backlog_state backlog_lists 1%positive
              (set_accepts_pending 1 (set_backlog 4 (set_local_port 80
                 (set_state LISTEN pcb0)))))
    as (s' & Hrun & Hok & _).
  - intros l; destruct l; vm_compute; done.
  - intros l1 l2 q Hne H1 H2.
    destruct l1, l2; simpl in H1, H2; try done; elem_cases H1; closed_not_elem H2.
  - intros l; destruct l; simpl; lia.
  - split; [vm_compute; repeat split|]. split; [vm_compute; repeat split|].
    split; [intros ? ? Hin Hp; elem_cases Hin; vm_compute in Hp; injection Hp as <-;
            reflexivity|].
    split; [intros ? ? Hin Hp; by apply elem_of_nil in Hin|].
    intros q p l Hin Hp Hb. elem_cases Hin. vm_compute in Hp. injection Hp as <-.
    vm_compute in Hb. injection Hb as <-. eexists. split; [reflexivity|].
    split; [reflexivity|]. vm_compute. split; discriminate.
  - reflexivity.
  - reflexivity.
  - by left.
  - exists s'. split; [exact Hrun|exact Hok].
Defined.

(** ** Connections of an address that went away *)

Lemma filter_ext_elem {A} (P Q : A → Prop) `{∀ x, Decision (P x)} `{∀ x, Decision (Q x)}
    (l : list A) :
  (∀ x, x ∈ l → P x ↔ Q x) → filter P l = filter Q l.
Proof.
  induction l as [|x l IH]; intros Hext; [done|].
  rewrite !filter_cons. rewrite IH by (intros y Hy; apply Hext; by right).
  destruct (decide (P x)) as [HP|HP], (decide (Q x)) as [HQ|HQ]; try done.
  - exfalso. apply HQ. by apply (Hext x); [left|].
  - exfalso. apply HP. by apply (Hext x); [left|].
Qed.

Lemma bound_to_ip4_unlinked (old_addr : Z) (o1 o2 : option tcp_pcb) :
  set_next None <$> o1 = set_next None <$> o2 →
  bound_to_ip4 old_addr <$> o1 = bound_to_ip4 old_addr <$> o2.
Proof. by apply unlinked_field. Qed.

Section NetifProps.
Variable E : tcp_env.
Hypothesis seg_next : seg_layer_keeps next E.
Hypothesis seg_state : seg_layer_keeps state E.
Hypothesis seg_held : seg_layer_keeps backlog_held E.

Lemma netif_pcblist_active (fuel : nat) (old_addr : Z) (lt : list ptr) :
  ∀ (l2 l1 : list ptr) (n : nat) (s : tcp_globals),
    conn_lists_ok s (l1 ++ l2) lt → current (tcp_conn_iter s) = None →
    (length (l1 ++ l2) ≤ fuel)%nat → (length l2 ≤ n)%nat →
    ∃ s',
      tcp_netif_ipv4_addr_changed_pcblist E n fuel old_addr (head l2) s = Some s'
      ∧ conn_lists_ok s' (l1 ++ filter (λ q, aborted_at (heap s) old_addr q = false) l2) lt
      ∧ current (tcp_conn_iter s') = None
      ∧ (∀ q, q ∈ l2 → aborted_at (heap s) old_addr q = true → deref s' q = None)
      ∧ (∀ q, q ∈ l1 ++ l2 → (q ∈ l2 → aborted_at (heap s) old_addr q = false) →
           ∃ p p', deref s q = Some p ∧ deref s' q = Some p'
                   ∧ set_next None p' = set_next None p)
      ∧ (∀ q, q ∈ lt → deref s' q = deref s q)
      ∧ (∀ q p cb, q ∈ l2 → deref s q = Some p → bound_to_ip4 old_addr p = true →
           has_flag (flags p) TF_NOUSER = false → errf p = Some cb →
           EvErrf q cb ERR_ABRT ∈ trace s')
      ∧ (∀ e, e ∈ trace s → e ∈ trace s')
      ∧ (∀ q, deref s q = None → deref s' q = None)
      ∧ (∀ q, q ∉ l1 ++ l2 →
           set_accepts_pending 0 <$> deref s' q = set_accepts_pending 0 <$> deref s q)
      ∧ tcp_bound_pcbs s' = tcp_bound_pcbs s ∧ tcp_listen_pcbs s' = tcp_listen_pcbs s.
Proof.
  induction l2 as [|a l2 IH]; intros l1 n s Hok Hcur Hfuel Hn.
  - exists s. split; [by destruct n|]. rewrite filter_nil. split; [done|]. split; [done|].
    split; [by intros q ?%elem_of_nil|].
    split.
    { intros q Hq _. rewrite app_nil_r in Hq.
      destruct (lseg_lookup _ _ _ _ _ (proj1 Hok) ltac:(by rewrite app_nil_r)) as [p Hp].
      by exists p, p. }
    split; [done|]. split; [by intros q p cb ?%elem_of_nil|]. split; [done|].
    split; [done|]. split; [done|]. done.
  - destruct n as [|n]; [simpl in Hn; lia|].
    assert (Hin : a ∈ l1 ++ a :: l2) by (apply elem_of_app; right; by left).
    pose proof Hok as (Ha & Ht & Hsa & Hstw & Hbl).
    destruct (chain_split _ _ _ _ _ Ha) as (pa & Hpa & _ & _ & Hnext & Hn1 & Hn2 & Hd12).
    cbn [head tcp_netif_ipv4_addr_changed_pcblist].
    rewrite (Hpa : deref s a = Some pa). cbn [mbind option_bind].
    fold (bound_to_ip4 old_addr pa).
    assert (Hab : aborted_at (heap s) old_addr a = bound_to_ip4 old_addr pa).
    { unfold aborted_at. by rewrite Hpa. }
    destruct (bound_to_ip4 old_addr pa) eqn:Hv.
    + (* the connection is aborted *)
      destruct (reported_keeps pa) as (Hrn & Hrs & Hrb & _).
      set (x1 := set_trace (report_events a pa ERR_ABRT ++ trace s)
                   (set_heap (<[a := reported pa]> (heap s)) s)).
      assert (Hok1 : conn_lists_ok x1 (l1 ++ a :: l2) lt).
      { unfold conn_lists_ok. simpl. by apply (lists_ok_update _ _ _ _ _ a pa). }
      destruct (tcp_pcb_free_active_idle_frame E seg_next seg_state seg_held fuel x1 a
                  (reported pa) true l1 l2 lt Hok1)
        as (h' & hd' & Hrun & Hok' & Hna & Hun & Hlt & Hout).
      { simpl. by rewrite lookup_insert_eq. }
      { done. }
      { rewrite length_app in Hfuel. lia. }
      rewrite (tcp_report_err_run a ERR_ABRT s pa) by done. cbn [mbind option_bind].
      fold x1. rewrite Hrun. cbn [mbind option_bind].
      match goal with
      | |- context [tcp_netif_ipv4_addr_changed_pcblist E n fuel old_addr (next pa) ?y] =>
        set (s1 := y)
      end.
      assert (Htr1 : trace s1 = free_active_events E a (reported pa) true
                                ++ report_events a pa ERR_ABRT ++ trace s) by reflexivity.
      (* what the free leaves of the other PCBs *)
      assert (Hfr : ∀ q, q ≠ a → set_next None <$> heap s1 !! q = set_next None <$> heap s !! q
                                 ∨ ∃ lp, heap s !! q = Some lp ∧ state lp = LISTEN).
      { intros q Hq. unfold s1. simpl. rewrite (Hun q Hq). unfold x1. simpl.
        rewrite (released_insert_other pa) by done.
        destruct (released_lookup pa (heap s) q) as [->|(lp & Hb & Hlp & _)]; [by left|].
        right. destruct (Hbl a pa q Hin Hpa Hb) as (lp' & Hlp' & Hls & _).
        exists lp'. done. }
      assert (Hfr2 : ∀ q, q ∈ l1 ++ l2 →
                set_next None <$> heap s1 !! q = set_next None <$> heap s !! q).
      { intros q Hq. assert (Hqa : q ≠ a).
        { intros ->. apply elem_of_app in Hq as [?|?]; done. }
        destruct (Hfr q Hqa) as [H|(lp & Hlp & Hls)]; [done|].
        assert (Hq' : q ∈ l1 ++ a :: l2).
        { apply elem_of_app in Hq as [?|?]; apply elem_of_app; [by left|right; by right]. }
        pose proof (Hsa q lp Hq' Hlp) as H. by rewrite Hls in H. }
      destruct (IH l1 n s1)
        as (s' & Hrec & Hoks' & Hcur' & Hdead & Hlive & Hlt' & Hcb & Htr & Hnone
            & Hout' & Hbd' & Hli').
      { exact Hok'. }
      { done. }
      { rewrite length_app in Hfuel |- *. simpl in Hfuel. lia. }
      { simpl in Hn. lia. }
      assert (Hv2 : ∀ q, q ∈ l2 →
                aborted_at (heap s1) old_addr q = aborted_at (heap s) old_addr q).
      { intros q Hq. unfold aborted_at.
        pose proof (bound_to_ip4_unlinked old_addr _ _
                      (Hfr2 q ltac:(apply elem_of_app; by right))) as H.
        destruct (heap s1 !! q), (heap s !! q); simpl in H; try done. by injection H. }
      exists s'. split; [by rewrite Hnext|].
      split.
      { rewrite filter_cons_False by (by rewrite Hab).
        rewrite (filter_ext_elem _ (λ q, aborted_at (heap s1) old_addr q = false)); [done|].
        intros q Hq. by rewrite Hv2. }
      split; [done|].
      split.
      { intros q [->|Hq]%elem_of_cons Hvq.
        - apply Hnone. exact Hna.
        - apply Hdead; [done|]. by rewrite Hv2. }
      split.
      { intros q Hq Hsurv.
        assert (Hq' : q ∈ l1 ++ l2).
        { apply elem_of_app in Hq as [?|[->|?]%elem_of_cons].
          - apply elem_of_app. by left.
          - specialize (Hsurv ltac:(by left)). congruence.
          - apply elem_of_app. by right. }
        destruct (Hlive q Hq') as (p1 & p' & Hp1 & Hp' & Heq).
        { intros Hq2. rewrite Hv2 by done. apply Hsurv. by right. }
        pose proof (Hfr2 q Hq') as H. unfold deref in Hp1. rewrite Hp1 in H.
        destruct (heap s !! q) as [p|] eqn:Hp; [|done]. simpl in H. apply (inj Some) in H.
        exists p, p'. split; [done|]. split; [done|]. congruence. }
      split.
      { intros q Hq. rewrite Hlt' by done. unfold deref, s1. simpl.
        rewrite Hlt by done. unfold x1. simpl. rewrite lookup_insert_ne; [done|].
        intros <-. by apply (lists_ok_disjoint _ _ _ _ _ _ Hok Hin). }
      split.
      { intros q p cb [->|Hq]%elem_of_cons Hp Hb Hu Hcb'.
        - apply Htr. rewrite Htr1. apply elem_of_app. right. apply elem_of_app. left.
          unfold deref in Hp. rewrite Hpa in Hp. injection Hp as <-.
          unfold report_events. rewrite Hu, Hcb'. by left.
        - assert (Hq' : q ∈ l1 ++ l2) by (apply elem_of_app; by right).
          pose proof (Hfr2 q Hq') as H. unfold deref in Hp. rewrite Hp in H.
          destruct (heap s1 !! q) as [p1|] eqn:Hp1; [|done]. simpl in H. apply (inj Some) in H.
          apply (Hcb q p1 cb Hq Hp1).
          + pose proof (Hv2 q Hq) as Hv'. unfold aborted_at in Hv'.
            rewrite Hp1, Hp in Hv'. by rewrite Hv'.
          + apply (f_equal (λ x, has_flag (flags x) TF_NOUSER)) in H. simpl in H.
            by rewrite H.
          + apply (f_equal errf) in H. simpl in H. by rewrite H. }
      split.
      { intros e He. apply Htr. rewrite Htr1.
        apply elem_of_app. right. apply elem_of_app. by right. }
      split.
      { intros q Hq. apply Hnone. unfold deref in Hq |- *.
        destruct (decide (q = a)) as [->|Hqa]; [by rewrite Hpa in Hq|].
        destruct (Hfr q Hqa) as [H|(lp & Hlp & _)]; [|by rewrite Hq in Hlp].
        rewrite Hq in H. by destruct (heap s1 !! q). }
      split; [|split; [by rewrite Hbd'|by rewrite Hli']].
      intros q Hq.
      assert (Hq' : q ∉ l1 ++ l2).
      { intros H. apply Hq. apply elem_of_app in H as [?|?]; apply elem_of_app;
          [by left|right; by right]. }
      assert (Hqa : q ≠ a) by (intros ->; apply Hq, Hin).
      rewrite (Hout' q Hq'). unfold deref, s1. simpl. rewrite (Hout q Hq).
      unfold x1. simpl. rewrite (released_insert_other pa) by done.
      destruct (released_lookup pa (heap s) q) as [->|(lp & _ & Hlp & ->)]; [done|].
      rewrite Hlp. simpl. f_equal.
    + (* the connection stays *)
      destruct (IH (l1 ++ [a]) n s)
        as (s' & Hrec & Hoks' & Hcur' & Hdead & Hlive & Hlt' & Hcb & Htr & Hnone
            & Hout' & Hbd' & Hli').
      { by rewrite <- app_assoc. }
      { done. }
      { by rewrite <- app_assoc. }
      { simpl in Hn. lia. }
      exists s'. split; [by rewrite Hnext|].
      split.
      { rewrite filter_cons_True by (by rewrite Hab). rewrite <- app_assoc in Hoks'. done. }
      split; [done|].
      split.
      { intros q [->|Hq]%elem_of_cons Hvq; [congruence|]. by apply Hdead. }
      split.
      { intros q Hq Hsurv. apply Hlive.
        - by rewrite <- app_assoc.
        - intros Hq2. apply Hsurv. by right. }
      split; [done|].
      split; [|split; [done|split; [done|split; [|done]]]].
      * intros q p cb [->|Hq]%elem_of_cons Hp Hb Hu Hcb'.
        -- unfold deref in Hp. rewrite Hpa in Hp. injection Hp as <-. congruence.
        -- by apply (Hcb q p cb).
      * intros q Hq. apply Hout'. by rewrite <- app_assoc.
Qed.

End NetifProps.



(** ** Timed-out connections *)

Lemma timer_field_timeout_fields : timer_field timeout_fields.
Proof. by repeat split. Qed.

Lemma timeout_fields_eq (p q : tcp_pcb) :
  timeout_fields q = timeout_fields p →
  state q = state p ∧ tmr q = tmr p
  ∧ has_flag (flags q) TF_NOUSER = has_flag (flags p) TF_NOUSER ∧ errf q = errf p
  ∧ so_options q = so_options p ∧ keep_idle q = keep_idle p
  ∧ keep_cnt q = keep_cnt p ∧ keep_intvl q = keep_intvl p.
Proof. unfold timeout_fields. intros [= -> -> -> -> -> -> -> ->]. done. Qed.

Section TimedOut.
Variable E : tcp_env.
Hypothesis seg_fields : seg_layer_keeps timeout_fields E.

Lemma timed_out_removed (ticks : Z) (a : ptr) (p : tcp_pcb) :
  timed_out E ticks p = true → (slowtmr_active_pcb E ticks a p).1.1.2 ≠ 0.
Proof.
  intros Hto.
  pose proof (slowtmr_rexmit_keeps E timeout_fields seg_fields timer_field_timeout_fields
                a p) as R.
  assert (K : ∀ q, timeout_fields (tcp_keepalive E q).2 = timeout_fields q)
    by (by destruct seg_fields as (_ & _ & _ & _ & ?)).
  unfold slowtmr_active_pcb, timed_out, ip_get_option, TCP_KEEP_DUR in *.
  destruct (slowtmr_rexmit E a p) as [p1 ev1]. simpl in R.
  apply timeout_fields_eq in R as (R1 & R2 & R3 & R4 & R5 & R6 & R7 & R8).
  destruct (bool_decide (state p = SYN_SENT) && (nrtx p =? TCP_SYNMAXRTX E)) eqn:C1.
  { repeat match goal with
         | |- context [if ?c then _ else _] => destruct c eqn:?
         | |- context [tcp_keepalive E ?q] => destruct (tcp_keepalive E q)
         end; simpl; lia. }
  destruct (nrtx p =? TCP_MAXRTX E) eqn:C2.
  { repeat match goal with
         | |- context [if ?c then _ else _] => destruct c eqn:?
         | |- context [tcp_keepalive E ?q] => destruct (tcp_keepalive E q)
         end; simpl; lia. }
  simpl in Hto. rewrite R1, R2, R3, R5, R6, R7, R8.
  destruct (bool_decide (state p = FIN_WAIT_2) && has_flag (flags p) TF_NOUSER
            && (u32 (ticks - tmr p) >? TCP_FIN_WAIT_TIMEOUT E / TCP_SLOW_INTERVAL E)) eqn:C3.
  { repeat match goal with
         | |- context [if ?c then _ else _] => destruct c eqn:?
         | |- context [tcp_keepalive E ?q] => destruct (tcp_keepalive E q)
         end; simpl; lia. }
  simpl in Hto.
  destruct (has_flag (so_options p) SOF_KEEPALIVE
            && (bool_decide (state p = ESTABLISHED) || bool_decide (state p = CLOSE_WAIT)))
    eqn:C4.
  - simpl in Hto.
    destruct (u32 (ticks - tmr p)
              >? u32 (keep_idle p + u32 (keep_cnt p * keep_intvl p)) / TCP_SLOW_INTERVAL E)
      eqn:C5.
    { repeat match goal with
         | |- context [if ?c then _ else _] => destruct c eqn:?
         end; simpl; lia. }
    simpl in Hto.
    apply andb_true_iff in C4 as [_ C4]. apply orb_true_iff in C4.
    assert (Hs1 : bool_decide (state p = SYN_RCVD) = false).
    { apply bool_decide_eq_false_2. intros Hs. rewrite Hs in C4.
      destruct C4 as [C4|C4]; by apply bool_decide_eq_true_1 in C4. }
    assert (Hs2 : bool_decide (state p = LAST_ACK) = false).
    { apply bool_decide_eq_false_2. intros Hs. rewrite Hs in C4.
      destruct C4 as [C4|C4]; by apply bool_decide_eq_true_1 in C4. }
    by rewrite Hs1, Hs2 in Hto.
  - simpl in Hto. simpl. rewrite R1, R2.
    apply orb_true_iff in Hto as [Hto|Hto]; rewrite Hto.
    + match goal with |- context [if ?c then _ else _] => destruct c end; lia.
    + match goal with |- context [if ?c then _ else _] => destruct c end; lia.
Qed.

End TimedOut.



(** ** [tcp_abort] and [tcp_close] of a PCB that is not connected *)

Lemma tcp_pcb_free_closed (E : tcp_env) (fuel : nat) (s s0 : tcp_globals)
    (ls : pcb_list → list ptr) (a : ptr) (p : tcp_pcb) (rst : bool) :
  lists_are s ls → lists_disjoint ls → (∀ l, length (ls l) ≤ fuel)%nat →
  deref s a = Some p → state p = CLOSED → sndq p = None →
  (∀ l, a ∈ ls l → l = BoundList) → (a ∈ ls BoundList ↔ local_port p ≠ 0) →
  s = set_heap (<[a := p]> (heap s0)) s0 →
  ∃ s', tcp_pcb_free E fuel a rst None s = Some s' ∧ closed_pcb_freed s0 ls a s'.
Proof.
  intros Hls Hdisj Hlen Hp Hst Hq Hon Hport Hs.
  unfold tcp_pcb_free. rewrite Hp. cbn [mbind option_bind].
  unfold tcp_pcb_is_listen. rewrite Hst. cbn [LWIP_ASSERT negb mbind option_bind].
  rewrite bool_decide_eq_true_2 by done.
  set (s1 := if bool_decide (tcp_input_pcb s = Some a) then set_tcp_input_pcb None s else s).
  assert (Hh1 : heap s1 = heap s) by (unfold s1; by destruct (bool_decide _)).
  assert (Hl1 : ∀ l, list_head l s1 = list_head l s).
  { intros l. unfold s1. destruct (bool_decide _); by destruct l. }
  assert (Ht1 : trace s1 = trace s) by (unfold s1; by destruct (bool_decide _)).
  assert (Hi1 : tcp_input_pcb s1 ≠ Some a).
  { unfold s1. destruct (bool_decide (tcp_input_pcb s = Some a)) eqn:Hi; [done|].
    by apply bool_decide_eq_false_1 in Hi. }
  assert (Hls1 : lists_are s1 ls).
  { intros l. rewrite Hh1, Hl1. apply Hls. }
  assert (Hp1 : deref s1 a = Some p) by (unfold deref; by rewrite Hh1).
  destruct (listen_unbind fuel s1 ls a p Hls1 Hlen Hp1 Hport)
    as (h' & hd' & pa & Hrun & Hc' & Ha' & Hpa & Hfr & Hun).
  rewrite Hrun. cbn [mbind option_bind].
  unfold deref at 1. simpl. rewrite Ha'. cbn [mbind option_bind].
  assert (Hqa : sndq pa = None).
  { apply (f_equal sndq) in Hpa. simpl in Hpa. by rewrite Hpa. }
  rewrite Hqa. rewrite bool_decide_eq_true_2 by done. cbn [LWIP_ASSERT mbind option_bind].
  eexists. split; [reflexivity|].
  assert (Hh : heap s = <[a := p]> (heap s0)) by (by rewrite Hs).
  assert (Hnext : ∀ q, q ≠ a → set_next None <$> delete a h' !! q
                               = set_next None <$> heap s0 !! q).
  { intros q Hne. rewrite lookup_delete_ne by done. rewrite Hun, Hh1, Hh.
    by rewrite lookup_insert_ne. }
  split; [|split; [|split; [|split; [|split]]]].
  - intros l. unfold unbound_lists.
    assert (Hoth : l ≠ BoundList →
              chain (delete a h') (list_head l (memp_free a (set_heap h' (set_tcp_bound_pcbs hd' s1))))
                (ls l)).
    { intros Hl. apply lseg_delete_other; [intros Hin; by apply Hon in Hin|].
      replace (list_head l _) with (list_head l s) by (rewrite <- Hl1; by destruct l).
      apply (lseg_ext (heap s)); [|apply Hls].
      intros q Hin. rewrite Hfr, Hh1; [done|].
      by apply (Hdisj l BoundList). }
    destruct l; try (by apply Hoth).
    simpl. apply lseg_delete_other; [|done].
    intros Hin. apply list_elem_of_filter in Hin as [Hne _]. done.
  - unfold deref. simpl. by rewrite lookup_delete_eq.
  - simpl. unfold s1. destruct (bool_decide (tcp_input_pcb s = Some a)) eqn:Hi; simpl; [done|].
    by apply bool_decide_eq_false_1 in Hi.
  - simpl. rewrite Ht1, Hs. done.
  - intros q Hne. unfold deref. simpl. by apply Hnext.
  - intros q Hne Hnb. unfold deref. simpl. rewrite lookup_delete_ne by done.
    rewrite Hfr, Hh1, Hh by done. by rewrite lookup_insert_ne.
Qed.

(** [tcp_abort] and [tcp_close] of a PCB in CLOSED that the user holds, with
    an empty send queue, on well-linked disjoint lists, where the PCB is on
    the bound list exactly when it has a port and on no other list.  Both
    calls return and do the same: the PCB leaves the bound list and is
    freed, [tcp_input_pcb] does not refer to it, and the only call made is
    [memp_free]: no RST is sent, the error callback is not called.  The other
    lists keep their members, the other PCBs everything but their links, and
    the PCBs off the bound list everything. *)
Theorem tcp_abort_closed (E : tcp_env) (TCP_WND_MAX : tcp_pcb → Z)
    (tcp_send_fin : tcp_pcb → err_t * tcp_pcb) (fuel : nat) (s : tcp_globals)
    (ls : pcb_list → list ptr) (a : ptr) (p : tcp_pcb) :
  lists_are s ls → lists_disjoint ls → (∀ l, length (ls l) ≤ fuel)%nat →
  deref s a = Some p → state p = CLOSED → has_flag (flags p) TF_NOUSER = false →
  sndq p = None →
  (∀ l, a ∈ ls l → l = BoundList) → (a ∈ ls BoundList ↔ local_port p ≠ 0) →
  ∃ s1 s2,
    tcp_abort E fuel a s = Some s1
    ∧ tcp_close E TCP_WND_MAX tcp_send_fin fuel a s = Some s2
    ∧ closed_pcb_freed s ls a s1 ∧ closed_pcb_freed s ls a s2.
Proof.
  intros Hls Hdisj Hlen Hp Hst Hu Hq Hon Hport.
  destruct (tcp_pcb_free_closed E fuel s s ls a p true Hls Hdisj Hlen Hp Hst Hq Hon Hport)
    as (s1 & Hrun1 & Hfree1).
  { rewrite insert_id by done. by destruct s. }
  set (pu := set_flags (set_flag (flags p) TF_NOUSER) p).
  set (su := set_heap (<[a := pu]> (heap s)) s).
  destruct (tcp_pcb_free_closed E fuel su s ls a pu false) as (s2 & Hrun2 & Hfree2);
    try done.
  { intros l. unfold su. replace (list_head l (set_heap _ s)) with (list_head l s)
      by (by destruct l).
    simpl. apply (lseg_insert_same_next _ _ _ _ a p pu); [done|done|apply Hls]. }
  { unfold su, deref. simpl. by rewrite lookup_insert_eq. }
  exists s1, s2. split.
  { unfold tcp_abort. rewrite Hp. cbn [mbind option_bind].
    unfold tcp_pcb_is_listen. rewrite Hst, Hu. exact Hrun1. }
  split; [|done].
  unfold tcp_close. rewrite Hp. cbn [mbind option_bind].
  unfold tcp_pcb_is_listen. rewrite Hst, Hu. cbn [LWIP_ASSERT negb mbind option_bind].
  rewrite (update_Some a _ s p Hp). cbn [mbind option_bind]. fold pu. fold su.
  assert (Hpu : deref su a = Some pu) by (unfold su, deref; simpl; by rewrite lookup_insert_eq).
  unfold tcp_close_shutdown. rewrite Hpu. cbn [mbind option_bind].
  unfold tcp_pcb_is_listen. replace (state pu) with CLOSED by done.
  cbn [LWIP_ASSERT negb mbind option_bind].
  rewrite !bool_decide_eq_false_2 by done. simpl.
  unfold close_shutdown_switch. rewrite Hpu. cbn [mbind option_bind].
  replace (state pu) with CLOSED by done. rewrite Hrun2. done.
Qed.

Lemma tcp_abort_closed_witness :
  ∃ s1 s2,
    tcp_abort E0 2 2%positive bound_state = Some s1
    ∧ tcp_close E0 TCP_WND_MAX0 tcp_send_fin0 2 2%positive bound_state = Some s2
    ∧ closed_pcb_freed bound_state bound_lists 2%positive s1
    ∧ closed_pcb_freed bound_state bound_lists 2%positive s2.
Proof.
  apply (tcp_abort_closed E0 TCP_WND_MAX0 tcp_send_fin0 2 bound_state bound_lists
           2%positive (set_local_port 81 pcb0)).
  - intros l; destruct l; vm_compute; done.
  - intros l1 l2 q Hne H1 H2.
    destruct l1, l2; simpl in H1, H2; try done; by apply elem_of_nil in H1 || by apply elem_of_nil in H2.
  - intros l; destruct l; simpl; lia.
  - reflexivity.
  - reflexivity.
  - reflexivity.
  - reflexivity.
  - intros l Hin. destruct l; simpl in Hin; try done; by apply elem_of_nil in Hin.
  - split; [intros _; vm_compute; discriminate|]. intros _. right. by left.
Defined.

(** ** [tcp_netif_ipv4_addr_changed] *)

Lemma closed_fields_unlinked (o1 o2 : option tcp_pcb) :
  set_next None <$> o1 = set_next None <$> o2 →
  (λ p, (state p, sndq p, local_port p, (flags p, errf p, local_ip p))) <$> o1
  = (λ p, (state p, sndq p, local_port p, (flags p, errf p, local_ip p))) <$> o2.
Proof. by apply unlinked_field. Qed.

Lemma netif_pcblist_bound (E : tcp_env) (fuel : nat) (old_addr : Z) :
  ∀ (l2 l1 : list ptr) (n : nat) (s : tcp_globals) (ls : pcb_list → list ptr),
    lists_are s ls → lists_disjoint ls → ls BoundList = l1 ++ l2 →
    (∀ l, length (ls l) ≤ fuel)%nat → (length l2 ≤ n)%nat →
    bound_list_ok s l2 →
    ∃ s',
      tcp_netif_ipv4_addr_changed_pcblist E n fuel old_addr (head l2) s = Some s'
      ∧ lists_are s'
          (with_bound ls (l1 ++ filter (λ q, aborted_at (heap s) old_addr q = false) l2))
      ∧ (∀ q, q ∈ l2 → aborted_at (heap s) old_addr q = true → deref s' q = None)
      ∧ (∀ q, (q ∈ l2 → aborted_at (heap s) old_addr q = false) →
           set_next None <$> deref s' q = set_next None <$> deref s q)
      ∧ (∀ q, q ∉ l1 ++ l2 → deref s' q = deref s q)
      ∧ (∀ q p cb, q ∈ l2 → deref s q = Some p → bound_to_ip4 old_addr p = true →
           has_flag (flags p) TF_NOUSER = false → errf p = Some cb →
           EvErrf q cb ERR_ABRT ∈ trace s')
      ∧ (∀ e, e ∈ trace s → e ∈ trace s').
Proof.
  induction l2 as [|a l2 IH]; intros l1 n s ls Hls Hdisj Hlb Hfuel Hn Hbok.
  - exists s. split; [by destruct n|]. rewrite filter_nil, app_nil_r.
    split.
    { intros l. specialize (Hls l). rewrite app_nil_r in Hlb.
      destruct l; simpl; try done. by rewrite <- Hlb. }
    split; [by intros q ?%elem_of_nil|]. split; [done|]. split; [done|].
    split; [by intros q p cb ?%elem_of_nil|done].
  - destruct n as [|n]; [simpl in Hn; lia|].
    pose proof (Hls BoundList) as Hc. rewrite Hlb in Hc.
    destruct (chain_split _ _ _ _ _ Hc) as (pa & Hpa & _ & _ & Hnext & Hn1 & Hn2 & Hd12).
    assert (Hin : a ∈ ls BoundList) by (rewrite Hlb; apply elem_of_app; right; by left).
    cbn [head tcp_netif_ipv4_addr_changed_pcblist].
    rewrite (Hpa : deref s a = Some pa). cbn [mbind option_bind].
    fold (bound_to_ip4 old_addr pa).
    assert (Hab : aborted_at (heap s) old_addr a = bound_to_ip4 old_addr pa).
    { unfold aborted_at. by rewrite Hpa. }
    destruct (bound_to_ip4 old_addr pa) eqn:Hv.
    + (* the PCB is aborted *)
      destruct (Hbok a pa ltac:(by left) Hpa) as (Hport & Hcl).
      assert (Hnl : tcp_pcb_is_listen pa = false).
      { unfold bound_to_ip4 in Hv. by destruct (tcp_pcb_is_listen pa). }
      destruct (Hcl Hnl) as (Hst & Hsq).
      rewrite (tcp_report_err_run a ERR_ABRT s pa) by done. cbn [mbind option_bind].
      set (s0 := set_trace (report_events a pa ERR_ABRT ++ trace s) s).
      set (x1 := set_trace _ (set_heap _ s)).
      destruct (reported_keeps pa) as (Hrn & Hrs & _).
      destruct (tcp_pcb_free_closed E fuel x1 s0 ls a (reported pa) true)
        as (s1 & Hrun & Hls1 & Hna & _ & Htr1 & Hun & Hfr); try done.
      { intros l. unfold x1. replace (list_head l _) with (list_head l s) by (by destruct l).
        simpl. apply (lseg_insert_same_next _ _ _ _ a pa); [done|done|apply Hls]. }
      { unfold x1, deref. simpl. by rewrite lookup_insert_eq. }
      { by rewrite Hrs. }
      { unfold reported. by destruct (has_flag _ _). }
      { intros l Hl. destruct (decide (l = BoundList)) as [->|Hne]; [done|].
        by destruct (Hdisj l BoundList a Hne Hl). }
      { unfold reported. by destruct (has_flag _ _). }
      rewrite Hrun. cbn [mbind option_bind].
      change (deref s0) with (deref s) in Hun, Hfr.
      assert (Hlb1 : unbound_lists a ls BoundList = l1 ++ l2).
      { unfold unbound_lists. rewrite Hlb. by apply filter_ne_split. }
      assert (Hsame : ∀ l, l ≠ BoundList → unbound_lists a ls l = ls l) by (by intros []).
      destruct (IH l1 n s1 (unbound_lists a ls))
        as (s' & Hrec & Hls' & Hdead & Hlive & Hout & Hcb & Htr); try done.
      { intros k1 k2 q Hne H1 H2.
        assert (Hsub : ∀ k, q ∈ unbound_lists a ls k → q ∈ ls k).
        { intros k Hk. destruct k; simpl in Hk; try done.
          by apply list_elem_of_filter in Hk as [_ ?]. }
        by apply (Hdisj k1 k2 q Hne); apply Hsub. }
      { intros l. destruct (decide (l = BoundList)) as [->|Hne].
        - rewrite Hlb1. specialize (Hfuel BoundList). rewrite Hlb in Hfuel.
          rewrite length_app in *. simpl in Hfuel. lia.
        - rewrite Hsame by done. apply Hfuel. }
      { simpl in Hn. lia. }
      { intros q p Hq Hp. assert (Hqa : q ≠ a) by (by intros ->).
        pose proof (closed_fields_unlinked _ _ (Hun q Hqa)) as Hf. rewrite Hp in Hf.
        destruct (deref s q) as [p0|] eqn:Hp0; [|done]. simpl in Hf.
        injection Hf as Hf1 Hf2 Hf3 _ _ _.
        destruct (Hbok q p0 ltac:(by right) Hp0) as (H1 & H2).
        unfold tcp_pcb_is_listen in *. rewrite Hf1, Hf2, Hf3. done. }
      assert (Hv2 : ∀ q, q ∈ l2 →
                aborted_at (heap s1) old_addr q = aborted_at (heap s) old_addr q).
      { intros q Hq. unfold aborted_at. assert (Hqa : q ≠ a) by (by intros ->).
        pose proof (bound_to_ip4_unlinked old_addr _ _ (Hun q Hqa)) as H. unfold deref in H.
        destruct (heap s1 !! q), (heap s !! q); simpl in H; try done. by injection H. }
      exists s'. split; [by rewrite Hnext|].
      split.
      { rewrite filter_cons_False by (by rewrite Hab).
        rewrite (filter_ext_elem _ (λ q, aborted_at (heap s1) old_addr q = false));
          [|intros q Hq; by rewrite Hv2].
        intros l. specialize (Hls' l). by destruct l. }
      split.
      { intros q [->|Hq]%elem_of_cons Hvq.
        - rewrite Hout; [done|]. intros H. apply elem_of_app in H as [?|?]; done.
        - apply Hdead; [done|]. by rewrite Hv2. }
      split.
      { intros q Hsurv. assert (Hqa : q ≠ a).
        { intros ->. specialize (Hsurv ltac:(by left)). congruence. }
        rewrite Hlive; [by apply Hun|].
        intros Hq. rewrite Hv2 by done. apply Hsurv. by right. }
      split.
      { intros q Hq. assert (Hqa : q ≠ a).
        { intros ->. apply Hq. apply elem_of_app. right. by left. }
        rewrite Hout.
        - apply Hfr; [done|]. by rewrite Hlb.
        - intros H. apply Hq. apply elem_of_app in H as [?|?]; apply elem_of_app;
            [by left|right; by right]. }
      split.
      { intros q p cb [->|Hq]%elem_of_cons Hp Hb Hu Hcb'.
        - apply Htr. rewrite Htr1. right. unfold s0. simpl. apply elem_of_app. left.
          unfold deref in Hp. rewrite Hpa in Hp. injection Hp as <-.
          unfold report_events. rewrite Hu, Hcb'. by left.
        - assert (Hqa : q ≠ a) by (by intros ->).
          pose proof (closed_fields_unlinked _ _ (Hun q Hqa)) as Hf. rewrite Hp in Hf.
          destruct (deref s1 q) as [p1|] eqn:Hp1; [|done]. simpl in Hf.
          injection Hf as Hf1 Hf2 Hf3 Hf4 Hf5 Hf6.
          apply (Hcb q p1 cb Hq Hp1).
          + pose proof (Hv2 q Hq) as Hv'. unfold aborted_at in Hv'.
            unfold deref in Hp1, Hp. rewrite Hp1, Hp in Hv'. by rewrite Hv'.
          + by rewrite Hf4.
          + by rewrite Hf5. }
      intros e He. apply Htr. rewrite Htr1. right. unfold s0. simpl.
      apply elem_of_app. by right.
    + (* the PCB stays *)
      destruct (IH (l1 ++ [a]) n s ls)
        as (s' & Hrec & Hls' & Hdead & Hlive & Hout & Hcb & Htr); try done.
      { by rewrite <- app_assoc. }
      { simpl in Hn. lia. }
      { intros q p Hq. apply Hbok. by right. }
      exists s'. split; [by rewrite Hnext|].
      split.
      { rewrite filter_cons_True by (by rewrite Hab). by rewrite <- app_assoc in Hls'. }
      split.
      { intros q [->|Hq]%elem_of_cons Hvq; [congruence|]. by apply Hdead. }
      split.
      { intros q Hsurv. destruct (decide (q ∈ l2)) as [Hq|Hq].
        - apply Hlive. intros _. apply Hsurv. by right.
        - by apply Hlive. }
      split; [intros q Hq; apply Hout; by rewrite <- app_assoc|].
      split; [|done].
      intros q p cb [->|Hq]%elem_of_cons Hp Hb Hu Hcb'.
      * unfold deref in Hp. rewrite Hpa in Hp. injection Hp as <-. congruence.
      * by apply (Hcb q p cb).
Qed.

Lemma netif_listen_loop_run (old_addr new : Z) :
  ∀ (l : list ptr) (n : nat) (hd : option ptr) (s : tcp_globals),
    chain (heap s) hd l → (length l ≤ n)%nat →
    ∃ h',
      netif_listen_loop n old_addr new hd s = Some (set_heap h' s)
      ∧ (∀ q, q ∈ l →
           h' !! q = (λ lp, if negb (IP_IS_V6_VAL (local_ip lp))
                               && negb (ip4_addr_isany_val (ip_val (local_ip lp)))
                               && ip4_addr_cmp (ip_val (local_ip lp)) old_addr
                            then set_local_ip (IpAddr IPv4 new) lp else lp) <$> heap s !! q)
      ∧ (∀ q, q ∉ l → h' !! q = heap s !! q).
Proof.
  induction l as [|a l IH]; intros n hd s Hc Hn.
  - apply chain_nil in Hc as ->. exists (heap s).
    split; [destruct n; simpl; by destruct s|]. split; [by intros q ?%elem_of_nil|done].
  - pose proof (chain_NoDup _ _ _ Hc) as Hnd. apply NoDup_cons in Hnd as [Hni _].
    apply chain_cons in Hc as (-> & lp & Hlp & Hc).
    destruct n as [|n]; [simpl in Hn; lia|].
    cbn [netif_listen_loop]. rewrite (Hlp : deref s a = Some lp). cbn [mbind option_bind].
    set (c := negb (IP_IS_V6_VAL (local_ip lp))
              && negb (ip4_addr_isany_val (ip_val (local_ip lp)))
              && ip4_addr_cmp (ip_val (local_ip lp)) old_addr).
    set (lp' := if c then set_local_ip (IpAddr IPv4 new) lp else lp).
    set (s1 := set_heap (<[a := lp']> (heap s)) s).
    assert (Hstep : (if negb (IP_IS_V6_VAL (local_ip lp)) then
                       if negb (ip4_addr_isany_val (ip_val (local_ip lp)))
                          && ip4_addr_cmp (ip_val (local_ip lp)) old_addr
                       then update a (set_local_ip (IpAddr IPv4 new)) s
                       else Some s
                     else Some s) = Some s1).
    { unfold s1, lp', c. rewrite (update_Some a _ s lp Hlp).
      destruct (negb (IP_IS_V6_VAL (local_ip lp))); simpl;
        [destruct (_ && _)|]; try done; rewrite insert_id by done; by destruct s. }
    rewrite Hstep. cbn [mbind option_bind].
    destruct (IH n (next lp) s1) as (h' & Hrun & Hin & Hout).
    { unfold s1. simpl. by apply lseg_insert_other. }
    { simpl in Hn. lia. }
    exists h'. split; [rewrite Hrun; unfold s1; by destruct s|].
    split.
    + intros q [->|Hq]%elem_of_cons.
      * rewrite Hout by done. unfold s1. simpl. rewrite lookup_insert_eq, Hlp. done.
      * rewrite Hin by done. unfold s1. simpl. rewrite lookup_insert_ne; [done|].
        by intros ->.
    + intros q Hq. rewrite Hout by (intros H; apply Hq; by right).
      unfold s1. simpl. rewrite lookup_insert_ne; [done|]. intros ->. apply Hq. by left.
Qed.

Lemma lists_ok_transfer (h h' : gmap ptr tcp_pcb) (ha ht ha' ht' : option ptr)
    (la lt : list ptr) :
  lists_ok h ha ht la lt → chain h' ha' la → chain h' ht' lt →
  (∀ q, q ∈ la ∨ q ∈ lt → h' !! q = h !! q) →
  (∀ l lp, h !! l = Some lp → state lp = LISTEN →
     ∃ lp', h' !! l = Some lp' ∧ state lp' = LISTEN
            ∧ accepts_pending lp' = accepts_pending lp) →
  lists_ok h' ha' ht' la lt.
Proof.
  intros (Ha & Ht & Hsa & Hst & Hbl) Ha' Ht' Hsame Hlis.
  split; [done|]. split; [done|]. split; [|split].
  - intros a p Hin Hp. rewrite Hsame in Hp by (by left). by apply (Hsa a).
  - intros a p Hin Hp. rewrite Hsame in Hp by (by right). by apply (Hst a).
  - intros a p l Hin Hp Hb. rewrite Hsame in Hp by (by left).
    destruct (Hbl a p l Hin Hp Hb) as (lp & Hlp & Hls & Hcnt).
    destruct (Hlis l lp Hlp Hls) as (lp' & Hlp' & Hls' & Hap).
    exists lp'. split; [done|]. split; [done|]. rewrite Hap.
    rewrite (pending_count_ext h); [done|].
    intros b Hb'. by rewrite Hsame by (by left).
Qed.

Lemma pending_field {A} (f : tcp_pcb → A) (o1 o2 : option tcp_pcb) :
  (∀ p, f (set_accepts_pending 0 p) = f p) →
  set_accepts_pending 0 <$> o1 = set_accepts_pending 0 <$> o2 → f <$> o1 = f <$> o2.
Proof.
  intros Hf H. destruct o1 as [p1|], o2 as [p2|]; simpl in *; try done.
  apply (inj Some) in H. f_equal. rewrite <- (Hf p1), <- (Hf p2). by rewrite H.
Qed.

Lemma netif_rebound_pending (old_addr : Z) (new_addr : option Z) (p1 p : tcp_pcb) :
  set_accepts_pending 0 p1 = set_accepts_pending 0 p →
  set_accepts_pending 0 (netif_rebound old_addr new_addr p1)
  = set_accepts_pending 0 (netif_rebound old_addr new_addr p).
Proof.
  intros H. pose proof (f_equal local_ip H) as Hip. simpl in Hip.
  unfold netif_rebound. destruct new_addr as [new|]; [|done]. rewrite Hip.
  destruct (_ && _); [|done].
  change (set_local_ip (IpAddr IPv4 new) (set_accepts_pending 0 p1)
          = set_local_ip (IpAddr IPv4 new) (set_accepts_pending 0 p)).
  by rewrite H.
Qed.

Lemma netif_rebound_keeps (old_addr : Z) (new_addr : option Z) (p : tcp_pcb) :
  next (netif_rebound old_addr new_addr p) = next p
  ∧ state (netif_rebound old_addr new_addr p) = state p
  ∧ accepts_pending (netif_rebound old_addr new_addr p) = accepts_pending p.
Proof. unfold netif_rebound. destruct new_addr; [|done]. by destruct (_ && _). Qed.

Section NetifChanged.
Variable E : tcp_env.
Hypothesis seg_next : seg_layer_keeps next E.
Hypothesis seg_state : seg_layer_keeps state E.
Hypothesis seg_held : seg_layer_keeps backlog_held E.

Lemma tcp_netif_ipv4_addr_changed_run (fuel : nat) (old_addr : Z) (new_addr : option Z)
    (s : tcp_globals) (ls : pcb_list → list ptr) :
  lists_are s ls → lists_disjoint ls →
  conn_lists_ok s (ls ActiveList) (ls TwList) → current (tcp_conn_iter s) = None →
  (∀ l, length (ls l) ≤ fuel)%nat → bound_list_ok s (ls BoundList) →
  ∃ s',
    tcp_netif_ipv4_addr_changed E fuel old_addr new_addr s = Some s'
    ∧ lists_are s' (netif_lists (heap s) old_addr ls)
    ∧ conn_lists_ok s' (netif_lists (heap s) old_addr ls ActiveList) (ls TwList)
    ∧ (∀ q, q ∈ ls ActiveList ∨ q ∈ ls BoundList →
         aborted_at (heap s) old_addr q = true → deref s' q = None)
    ∧ (∀ q p cb, q ∈ ls ActiveList ∨ q ∈ ls BoundList → deref s q = Some p →
         bound_to_ip4 old_addr p = true → has_flag (flags p) TF_NOUSER = false →
         errf p = Some cb → EvErrf q cb ERR_ABRT ∈ trace s')
    ∧ (∀ q lp, q ∈ ls ListenList → deref s q = Some lp →
         ∃ lp', deref s' q = Some lp'
                ∧ set_accepts_pending 0 lp'
                  = set_accepts_pending 0 (netif_rebound old_addr new_addr lp))
    ∧ (∀ q, q ∈ ls TwList → deref s' q = deref s q).
Proof.
  intros Hls Hdisj Hok Hcur Hfuel Hbok.
  set (la := ls ActiveList) in *. set (lt := ls TwList) in *.
  set (lb := ls BoundList) in *. set (ll := ls ListenList) in *.
  (* the active list *)
  destruct (netif_pcblist_active E seg_next seg_state seg_held fuel old_addr lt la [] fuel s
              Hok Hcur (Hfuel ActiveList) (Hfuel ActiveList))
    as (s1 & Hrun1 & Hok1 & _ & Hdead1 & _ & Hlt1 & Hcb1 & Htr1 & Hnone1 & Hout1 & Hbd1 & Hli1).
  simpl in Hok1, Hout1.
  set (la' := filter (λ q, aborted_at (heap s) old_addr q = false) la) in *.
  set (ls1 := λ l, match l with ActiveList => la' | _ => ls l end).
  assert (Hsub : ∀ q, q ∈ la' → q ∈ la).
  { intros q Hq. by apply list_elem_of_filter in Hq as [_ ?]. }
  assert (Hsub1 : ∀ l q, q ∈ ls1 l → q ∈ ls l).
  { intros l q. destruct l; simpl; try done. apply Hsub. }
  assert (Hf1 : ∀ {A} (f : tcp_pcb → A) q, (∀ p, f (set_accepts_pending 0 p) = f p) →
            q ∉ la → f <$> deref s1 q = f <$> deref s q).
  { intros A f q Hf Hq. apply pending_field; [done|]. by apply Hout1. }
  assert (Hls1 : lists_are s1 ls1).
  { destruct Hok1 as (Ha1 & Ht1 & _).
    intros l. destruct l; simpl; try done.
    - rewrite Hli1. apply (lseg_ext (heap s)); [|apply (Hls ListenList)].
      intros q Hq. apply (Hf1 _ next); [done|]. by apply (Hdisj ListenList ActiveList).
    - rewrite Hbd1. apply (lseg_ext (heap s)); [|apply (Hls BoundList)].
      intros q Hq. apply (Hf1 _ next); [done|]. by apply (Hdisj BoundList ActiveList). }
  assert (Hdisj1 : lists_disjoint ls1).
  { intros k1 k2 q Hne H1 H2. by apply (Hdisj k1 k2 q Hne); apply Hsub1. }
  assert (Hfuel1 : ∀ l, (length (ls1 l) ≤ fuel)%nat).
  { intros l. specialize (Hfuel l). destruct l; simpl; try done.
    unfold la'. pose proof (length_filter (λ q, aborted_at (heap s) old_addr q = false) la).
    fold la in Hfuel. lia. }
  assert (Hnb : ∀ q, q ∈ lb → q ∉ la) by (intros q Hq; by apply (Hdisj BoundList ActiveList)).
  assert (Hbok1 : bound_list_ok s1 lb).
  { intros q p Hq Hp.
    pose proof (Hf1 _ (λ p, (state p, sndq p, local_port p)) q ltac:(done) (Hnb q Hq)) as Hf.
    rewrite Hp in Hf. destruct (deref s q) as [p0|] eqn:Hp0; [|done]. simpl in Hf.
    injection Hf as Hf1' Hf2 Hf3.
    destruct (Hbok q p0 Hq Hp0) as (H1 & H2).
    unfold tcp_pcb_is_listen in *. rewrite Hf1', Hf2, Hf3. done. }
  assert (Hv1 : ∀ q, q ∈ lb → aborted_at (heap s1) old_addr q = aborted_at (heap s) old_addr q).
  { intros q Hq. unfold aborted_at.
    pose proof (Hf1 _ (bound_to_ip4 old_addr) q ltac:(done) (Hnb q Hq)) as Hf.
    unfold deref in Hf. destruct (heap s1 !! q), (heap s !! q); simpl in Hf; try done.
    by injection Hf. }
  (* the bound list *)
  destruct (netif_pcblist_bound E fuel old_addr lb [] fuel s1 ls1 Hls1 Hdisj1 eq_refl Hfuel1
              (Hfuel BoundList) Hbok1)
    as (s2 & Hrun2 & Hls2 & Hdead2 & Hlive2 & Hout2 & Hcb2 & Htr2).
  simpl in Hls2, Hout2.
  rewrite (filter_ext_elem _ (λ q, aborted_at (heap s) old_addr q = false)) in Hls2
    by (intros q Hq; by rewrite Hv1).
  set (lb' := filter (λ q, aborted_at (heap s) old_addr q = false) lb) in *.
  assert (Hlisten : ∀ l lp, heap s1 !! l = Some lp → state lp = LISTEN →
            ∃ lp', heap s2 !! l = Some lp' ∧ state lp' = LISTEN
                   ∧ accepts_pending lp' = accepts_pending lp).
  { intros l lp Hlp Hst.
    assert (Hl : set_next None <$> deref s2 l = set_next None <$> deref s1 l).
    { apply Hlive2. intros _. unfold aborted_at, bound_to_ip4, tcp_pcb_is_listen.
      by rewrite Hlp, Hst. }
    unfold deref in Hl. rewrite Hlp in Hl.
    destruct (heap s2 !! l) as [lp'|]; [|done]. simpl in Hl. apply (inj Some) in Hl.
    exists lp'. split; [done|].
    split; [apply (f_equal state) in Hl|apply (f_equal accepts_pending) in Hl];
      simpl in Hl; congruence. }
  assert (Hok2 : conn_lists_ok s2 la' lt).
  { apply (lists_ok_transfer (heap s1) _ (tcp_active_pcbs s1) (tcp_tw_pcbs s1));
      [done|apply (Hls2 ActiveList)|apply (Hls2 TwList)| |done].
    intros q Hq. apply Hout2.
    destruct Hq as [Hq|Hq];
      [apply (Hdisj ActiveList BoundList); [done|by apply Hsub]
      |by apply (Hdisj TwList BoundList)]. }
  (* the listeners *)
  assert (H3 : ∃ h3,
    (if negb (ip4_addr_isany new_addr) then
       match new_addr with
       | Some new => netif_listen_loop fuel old_addr new (tcp_listen_pcbs s2) s2
       | None => Some s2
       end
     else Some s2) = Some (set_heap h3 s2)
    ∧ (∀ q, q ∈ ll → h3 !! q = netif_rebound old_addr new_addr <$> heap s2 !! q)
    ∧ (∀ q, q ∉ ll → h3 !! q = heap s2 !! q)).
  { destruct new_addr as [new|]; simpl.
    - destruct (negb (ip4_addr_isany_val new)) eqn:Hany; simpl.
      + destruct (netif_listen_loop_run old_addr new ll fuel (tcp_listen_pcbs s2) s2)
          as (h3 & Hrun3 & Hin3 & Hout3); [apply (Hls2 ListenList)|apply Hfuel|].
        exists h3. split; [done|]. split; [|done].
        intros q Hq. rewrite Hin3 by done. unfold netif_rebound. rewrite Hany. done.
      + exists (heap s2). split; [by destruct s2|]. split; [|done].
        intros q Hq. unfold netif_rebound. rewrite Hany. simpl. by destruct (heap s2 !! q).
    - exists (heap s2). split; [by destruct s2|]. split; [|done].
      intros q Hq. simpl. by destruct (heap s2 !! q). }
  destruct H3 as (h3 & Hrun3 & Hin3 & Hout3).
  assert (Hall3 : ∀ q, h3 !! q = heap s2 !! q
                       ∨ h3 !! q = netif_rebound old_addr new_addr <$> heap s2 !! q).
  { intros q. destruct (decide (q ∈ ll)); [right; by apply Hin3|left; by apply Hout3]. }
  assert (Hnext3 : ∀ q, next <$> h3 !! q = next <$> heap s2 !! q).
  { intros q. destruct (Hall3 q) as [->| ->]; [done|].
    destruct (heap s2 !! q) as [p|]; [|done]. simpl.
    by rewrite (proj1 (netif_rebound_keeps old_addr new_addr p)). }
  assert (Hnone3 : ∀ q, heap s2 !! q = None → h3 !! q = None).
  { intros q Hq. destruct (Hall3 q) as [->| ->]; by rewrite Hq. }
  exists (set_heap h3 s2). split.
  { unfold tcp_netif_ipv4_addr_changed.
    rewrite (chain_head _ _ _ (proj1 Hok)). fold la. rewrite Hrun1. cbn [mbind option_bind].
    pose proof (chain_head _ _ _ (Hls BoundList)) as Hhb. simpl in Hhb.
    rewrite Hbd1, Hhb. fold lb. rewrite Hrun2.
    cbn [mbind option_bind]. exact Hrun3. }
  split.
  { intros l. replace (list_head l (set_heap h3 s2)) with (list_head l s2) by (by destruct l).
    simpl. apply (lseg_ext (heap s2)); [intros q _; apply Hnext3|].
    specialize (Hls2 l). by destruct l. }
  split.
  { apply (lists_ok_transfer (heap s2) _ (tcp_active_pcbs s2) (tcp_tw_pcbs s2)); [done| | | |].
    - apply (lseg_ext (heap s2)); [intros q _; apply Hnext3|apply Hok2].
    - apply (lseg_ext (heap s2)); [intros q _; apply Hnext3|apply Hok2].
    - intros q Hq. apply Hout3.
      destruct Hq as [Hq|Hq];
        [apply (Hdisj ActiveList ListenList); [done|by apply Hsub]
        |by apply (Hdisj TwList ListenList)].
    - intros l lp Hlp Hst. destruct (Hall3 l) as [H|H]; rewrite Hlp in H.
      + by exists lp.
      + destruct (netif_rebound_keeps old_addr new_addr lp) as (_ & Hs & Ha).
        eexists. split; [exact H|]. by rewrite Hs, Ha. }
  split.
  { intros q [Hq|Hq] Hv; unfold deref; simpl; apply Hnone3.
    - destruct (decide (q ∈ lb)) as [Hqb|Hqb].
      + by destruct (Hdisj ActiveList BoundList q).
      + pose proof (Hout2 q Hqb) as H2. unfold deref in H2. rewrite H2. by apply Hdead1.
    - apply Hdead2; [done|]. by rewrite Hv1. }
  split.
  { intros q p cb [Hq|Hq] Hp Hb Hu Hcb'; simpl.
    - apply Htr2. by apply (Hcb1 q p cb).
    - pose proof (Hf1 _ (λ p, (bound_to_ip4 old_addr p, has_flag (flags p) TF_NOUSER, errf p))
                    q ltac:(done) (Hnb q Hq)) as Hf.
      rewrite Hp in Hf. destruct (deref s1 q) as [p1|] eqn:Hp1; [|done]. simpl in Hf.
      injection Hf as Hf1' Hf2 Hf3.
      apply (Hcb2 q p1 cb Hq Hp1); congruence. }
  split.
  { intros q lp Hq Hlp.
    assert (Hqa : q ∉ la) by (by apply (Hdisj ListenList ActiveList)).
    assert (Hqb : q ∉ lb) by (by apply (Hdisj ListenList BoundList)).
    pose proof (Hout1 q Hqa) as H1. rewrite Hlp in H1.
    rewrite <- (Hout2 q Hqb) in H1. unfold deref in H1 |- *. simpl.
    rewrite (Hin3 q Hq).
    destruct (heap s2 !! q) as [lp2|]; [|done]. simpl in H1. apply (inj Some) in H1.
    eexists. split; [done|]. by apply netif_rebound_pending. }
  intros q Hq. unfold deref. simpl.
  rewrite Hout3 by (by apply (Hdisj TwList ListenList)).
  pose proof (Hout2 q ltac:(by apply (Hdisj TwList BoundList))) as H2. unfold deref in H2.
  rewrite H2. by apply Hlt1.
Qed.
End NetifChanged.



(** ** Connections that have not timed out *)

Section NotTimedOut.
Variable E : tcp_env.
Hypothesis seg_fields : seg_layer_keeps timeout_fields E.

Lemma not_timed_out_kept (ticks : Z) (a : ptr) (p : tcp_pcb) :
  timed_out E ticks p = false → (slowtmr_active_pcb E ticks a p).1.1.2 = 0.
Proof.
  intros Hto.
  pose proof (slowtmr_rexmit_keeps E timeout_fields seg_fields timer_field_timeout_fields
                a p) as R.
  assert (K : ∀ q, timeout_fields (tcp_keepalive E q).2 = timeout_fields q)
    by (by destruct seg_fields as (_ & _ & _ & _ & ?)).
  unfold timed_out, ip_get_option, TCP_KEEP_DUR in Hto.
  apply orb_false_iff in Hto as [Hto C6]. apply orb_false_iff in Hto as [Hto C5].
  apply orb_false_iff in Hto as [Hto C4]. apply orb_false_iff in Hto as [Hto C3].
  apply orb_false_iff in Hto as [C1 C2].
  unfold slowtmr_active_pcb, ip_get_option, TCP_KEEP_DUR.
  rewrite C1, C2.
  destruct (slowtmr_rexmit E a p) as [p1 ev1]. simpl in R.
  apply timeout_fields_eq in R as (R1 & R2 & R3 & R4 & R5 & R6 & R7 & R8).
  rewrite R1, R2, R3, R5, R6, R7, R8. rewrite C3.
  destruct (has_flag (so_options p) SOF_KEEPALIVE
            && (bool_decide (state p = ESTABLISHED) || bool_decide (state p = CLOSE_WAIT)))
    eqn:C4'.
  - simpl in C4. rewrite C4.
    pose proof (K p1) as Kp. destruct (tcp_keepalive E p1) as [err p2]. simpl in Kp.
    apply timeout_fields_eq in Kp as (K1 & K2 & _).
    match goal with |- context [if ?c then _ else (p1, _, _, _)] => destruct c end.
    + destruct (err =? ERR_OK); simpl; by rewrite K1, K2, R1, R2, C5, C6.
    + simpl. by rewrite R1, R2, C5, C6.
  - simpl. by rewrite R1, R2, C5, C6.
Qed.

End NotTimedOut.


